(** * Real-time UPI fraud scoring pipeline: a shallow embedding

    This development embeds the scoring core of the fraud-detection
    backend (package [app]) and states its specification as theorems.

    Numbers.  Python [float] and [int] values that take part in score
    arithmetic are embedded as exact rationals ([Q]): every finite float
    is a rational, comparisons are exact, and [+ - * /] are taken without
    rounding error.  The one exception is the score of the mule
    classifier, a sum of decimal weights that is compared with 0.5: it is
    accumulated in binary64, with the primitive floats of the kernel,
    because the sums that are 0.5 on paper are not all 0.5 in binary64.
    Functions of the Python run time that the scoring code
    calls but does not define ([math.log], [math.log1p], [numpy.std],
    trigonometry, the offline ASN database) are fields of interface
    records, so every theorem holds for any implementation of them.

    Effects.  Reads from the graph store are results supplied by the
    store ([Ok rows] or [Raise e]); writes, stream commands, clock readings
    and random draws go through a state-and-exception monad over a [World]
    that records what was committed. *)

From Stdlib Require Import PrimFloat FloatOps SpecFloat FloatAxioms.
From Stdlib Require Import QArith Qround Qabs Lqa ZArith Ascii String List Bool Lia.
From stdpp Require Import gmap strings pretty.

Set Default Proof Using "Type".

(* ================================================================== *)
(** * Python run-time fragments *)
(* ================================================================== *)

Module Py.

(** ** Exceptions and results *)

(** An exception is identified with [str(exc)], the only thing the code
    ever inspects. *)
Definition Exn := string.

Inductive result (A : Type) : Type :=
| Ok (a : A)
| Raise (e : Exn).
Arguments Ok {A} a.
Arguments Raise {A} e.

Definition rbind {A B} (m : result A) (k : A -> result B) : result B :=
  match m with
  | Ok a => k a
  | Raise e => Raise e
  end.

Definition is_ok {A} (m : result A) : bool :=
  match m with Ok _ => true | Raise _ => false end.

(** [try: m  except Exception: h] for a pure computation. *)
Definition rcatch {A} (m : result A) (h : Exn -> result A) : result A :=
  match m with
  | Ok a => Ok a
  | Raise e => h e
  end.

(** ** Rational arithmetic as Python writes it *)

Definition Qltb (x y : Q) : bool := negb (Qle_bool y x).
Definition Qleb (x y : Q) : bool := Qle_bool x y.

(** [min(a, b)] and [max(a, b)] return the first argument on ties. *)
Definition py_min (a b : Q) : Q := if Qltb b a then b else a.
Definition py_max (a b : Q) : Q := if Qltb a b then b else a.

Definition pow10 (n : nat) : Z := (10 ^ Z.of_nat n)%Z.

(** Round to the nearest integer, ties to even. *)
Definition round_half_even (x : Q) : Z :=
  let f := Qfloor x in
  let d := (x - inject_Z f)%Q in
  if Qltb d (1 # 2) then f
  else if Qltb (1 # 2) d then (f + 1)%Z
  else if Z.even f then f else (f + 1)%Z.

(** [round(x, ndigits)]. *)
Definition py_round (x : Q) (ndigits : nat) : Q :=
  (inject_Z (round_half_even (x * inject_Z (pow10 ndigits)))
   / inject_Z (pow10 ndigits))%Q.

(** [int(x)]: truncation towards zero. *)
Definition py_int (x : Q) : Z := Z.quot (Qnum x) (Zpos (Qden x)).

(** ** Binary64 *)

(** The rational that a finite [float] is. *)
Definition float_value (x : float) : Q :=
  match Prim2SF x with
  | S754_finite s m e =>
      let v :=
        match e with
        | Z0 => inject_Z (Zpos m)
        | Zpos p => inject_Z (Zpos (Pos.shiftl m (Npos p)))
        | Zneg p => Zpos m # Pos.shiftl 1 (Npos p)
        end in
      if s then (- v)%Q else v
  | _ => 0%Q
  end.

(** [min(a, b)] on floats. *)
Definition py_min_float (a b : float) : float := if PrimFloat.ltb b a then b else a.

(** ** Strings *)

Definition lower_ascii (c : ascii) : ascii :=
  let n := nat_of_ascii c in
  if (65 <=? n)%nat && (n <=? 90)%nat then ascii_of_nat (n + 32) else c.

Fixpoint str_lower (s : string) : string :=
  match s with
  | EmptyString => EmptyString
  | String c s' => String (lower_ascii c) (str_lower s')
  end.

Definition upper_ascii (c : ascii) : ascii :=
  let n := nat_of_ascii c in
  if (97 <=? n)%nat && (n <=? 122)%nat then ascii_of_nat (n - 32) else c.

Fixpoint str_upper (s : string) : string :=
  match s with
  | EmptyString => EmptyString
  | String c s' => String (upper_ascii c) (str_upper s')
  end.

(** [needle in haystack]. *)
Definition str_contains (needle haystack : string) : bool :=
  match String.index 0 needle haystack with
  | Some _ => true
  | None => match needle with EmptyString => true | _ => false end
  end.

(** [sep.join(parts)]. *)
Fixpoint str_join (sep : string) (parts : list string) : string :=
  match parts with
  | [] => ""
  | [p] => p
  | p :: rest => p +:+ sep +:+ str_join sep rest
  end.

Fixpoint zeros (n : nat) : string :=
  match n with O => "" | S n' => String "0" (zeros n') end.

(** [s.zfill(width)] for a string without sign. *)
Definition zfill (width : nat) (s : string) : string :=
  zeros (width - String.length s) +:+ s.

(** [f"{x:.<ndigits>f}"]. *)
Definition format_fixed (ndigits : nat) (x : Q) : string :=
  let r := round_half_even (x * inject_Z (pow10 ndigits)) in
  let a := Z.abs r in
  let ip := (a / pow10 ndigits)%Z in
  let fp := (a mod pow10 ndigits)%Z in
  (if (r <? 0)%Z then "-" else "")
  +:+ pretty ip
  +:+ match ndigits with
      | O => ""
      | _ => "." +:+ zfill ndigits (pretty fp)
      end.

(** [f"{x:.0%}"]. *)
Definition format_percent0 (x : Q) : string :=
  format_fixed 0 (x * 100) +:+ "%".

(** The shortest fixed notation that reads back as [x], as [repr] gives
    for floats with a short decimal expansion. *)
Fixpoint format_repr_from (fuel ndigits : nat) (x : Q) : string :=
  match fuel with
  | O => format_fixed ndigits x
  | S fuel' =>
      if Qeq_bool (py_round x ndigits) x then format_fixed ndigits x
      else format_repr_from fuel' (S ndigits) x
  end.

Definition format_repr (x : Q) : string := format_repr_from 16 1 x.

(** ** Dynamically typed values and dictionaries *)

Inductive PyVal : Type :=
| PyNone
| PyBool (b : bool)
| PyInt (z : Z)
| PyFloat (q : Q)
| PyStr (s : string)
| PyList (l : list string).

Abbreviation Dict := (gmap string PyVal).

(** Truth value testing. *)
Definition truthy (v : PyVal) : bool :=
  match v with
  | PyNone => false
  | PyBool b => b
  | PyInt z => negb (z =? 0)%Z
  | PyFloat q => negb (Qeq_bool q 0)
  | PyStr s => negb (String.eqb s "")
  | PyList l => match l with [] => false | _ => true end
  end.

(** [a or b]. *)
Definition py_or (a b : PyVal) : PyVal := if truthy a then a else b.

(** [d.get(k)], [d.get(k, v)] and [d[k]]. *)
Definition get (d : Dict) (k : string) : PyVal := default PyNone (d !! k).
Definition get_or (d : Dict) (k : string) (v : PyVal) : PyVal := default v (d !! k).
Definition item (d : Dict) (k : string) : result PyVal :=
  match d !! k with
  | Some v => Ok v
  | None => Raise ("KeyError: " +:+ k)
  end.

(** The number a value stands for in arithmetic and ordering; [bool] is a
    subtype of [int], anything else raises [TypeError]. *)
Definition num (v : PyVal) : result Q :=
  match v with
  | PyBool b => Ok (if b then 1%Q else 0%Q)
  | PyInt z => Ok (inject_Z z)
  | PyFloat q => Ok q
  | _ => Raise "TypeError"
  end.

(** [str(v)]. *)
Definition py_str (v : PyVal) : string :=
  match v with
  | PyNone => "None"
  | PyBool b => if b then "True" else "False"
  | PyInt z => pretty z
  | PyFloat q => format_repr q
  | PyStr s => s
  | PyList l => "[" +:+ str_join ", " l +:+ "]"
  end.

(** The list behind a value used as [List[str]]. *)
Definition as_list (v : PyVal) : result (list string) :=
  match v with
  | PyList l => Ok l
  | _ => Raise "TypeError"
  end.

(** [list(dict.fromkeys(l))]: order-preserving removal of duplicates. *)
Fixpoint dedup_keep_first (seen l : list string) : list string :=
  match l with
  | [] => []
  | x :: l' =>
      if existsb (String.eqb x) seen then dedup_keep_first seen l'
      else x :: dedup_keep_first (x :: seen) l'
  end.

Definition fromkeys_list (l : list string) : list string := dedup_keep_first [] l.

(** [[f(x) for x in l if ...]]: the elements that [f] keeps. *)
Fixpoint filter_map {A B} (f : A -> option B) (l : list A) : list B :=
  match l with
  | [] => []
  | x :: l' =>
      match f x with
      | Some y => y :: filter_map f l'
      | None => filter_map f l'
      end
  end.

(** ** JSON documents *)

(** A decoded JSON document. *)
#[warnings="-register-all"]
Inductive Json : Type :=
| JNull
| JBool (b : bool)
| JNum (q : Q)
| JStr (s : string)
| JArr (items : list Json)
| JObj (fields : list (string * Json)).

Definition json_truthy (j : Json) : bool :=
  match j with
  | JNull => false
  | JBool b => b
  | JNum q => negb (Qeq_bool q 0)
  | JStr s => negb (String.eqb s "")
  | JArr items => match items with [] => false | _ => true end
  | JObj fields => match fields with [] => false | _ => true end
  end.

(** [row.get(column)] on a row that may be missing (an empty dictionary). *)
Definition column {R A} (row : option R) (f : R -> option A) : option A :=
  match row with
  | Some r => f r
  | None => None
  end.

End Py.

Export Py.

Notation "'let*' x := m 'in' k" := (rbind m (fun x => k))
  (at level 10, x binder, m at level 100, k at level 200).

(* ================================================================== *)
(** * Configuration ([app/config.py]) *)
(* ================================================================== *)

Module Config.

Record Settings : Type := {
  (* Redis *)
  REDIS_UPI_STREAM_KEY : string;
  REDIS_UPI_CONSUMER_GROUP : string;
  REDIS_UPI_ADAPTER_WORKERS : Z;
  REDIS_STREAM_KEY : string;
  REDIS_CONSUMER_GROUP : string;
  REDIS_ALERTS_CHANNEL : string;
  (* Worker pool *)
  WORKER_COUNT : Z;
  WORKER_BATCH_SIZE : Z;
  (* Risk fusion weights *)
  WEIGHT_GRAPH : Q;
  WEIGHT_BEHAVIORAL : Q;
  WEIGHT_DEVICE : Q;
  WEIGHT_DEAD_ACCOUNT : Q;
  WEIGHT_VELOCITY : Q;
  (* Risk thresholds *)
  HIGH_RISK_THRESHOLD : Q;
  MEDIUM_RISK_THRESHOLD : Q;
  (* Feature parameters *)
  DORMANT_DAYS_THRESHOLD : Z;
  DEVICE_ACCOUNT_THRESHOLD : Z;
  VELOCITY_WINDOW_SEC : Z;
  BEHAVIORAL_HISTORY_COUNT : Z;
  PASS_THROUGH_RATIO_THRESHOLD : Q;
  BURST_TX_THRESHOLD : Z;
  IMPOSSIBLE_TRAVEL_KMH : Q;
  NIGHT_START_HOUR : Z;
  NIGHT_END_HOUR : Z;
  CAPABILITY_MASK_CHANGE_WEIGHT : Q;
  NEW_DEVICE_HIGH_AMOUNT_THRESHOLD : Q;
  NEW_DEVICE_PENALTY : Q;
  DEVICE_MULTI_USER_THRESHOLD : Z;
  DEVICE_MULTI_USER_WINDOW_HOURS : Z;
  DEVICE_MULTI_USER_PENALTY : Q;
  IP_ROTATION_WINDOW_HOURS : Z;
  IP_ROTATION_MAX_UNIQUE : Z;
  IP_ROTATION_PENALTY : Q;
  FIXED_AMOUNT_TOLERANCE : Q;
  FIXED_AMOUNT_MIN_COUNT : Z;
  FIXED_AMOUNT_PENALTY : Q;
  CIRCADIAN_ANOMALY_PENALTY : Q;
  CIRCADIAN_NEW_DEVICE_PENALTY : Q;
  TX_IDENTICALITY_WINDOW_HOURS : Z;
  TX_IDENTICALITY_MIN_COUNT : Z;
  TX_IDENTICALITY_PENALTY : Q;
  SLEEP_FLASH_RATIO_THRESHOLD : Q;
  SLEEP_FLASH_DORMANT_DAYS : Z;
  GEO_IP_DISTANCE_THRESHOLD_KM : Q
}.

(** The values of [Settings()] when the environment overrides nothing. *)
Definition defaults : Settings := {|
  REDIS_UPI_STREAM_KEY := "upi_raw";
  REDIS_UPI_CONSUMER_GROUP := "upi_adapter";
  REDIS_UPI_ADAPTER_WORKERS := 2;
  REDIS_STREAM_KEY := "fraud_queue";
  REDIS_CONSUMER_GROUP := "fraud_workers";
  REDIS_ALERTS_CHANNEL := "fraud_alerts";
  WORKER_COUNT := 4;
  WORKER_BATCH_SIZE := 10;
  WEIGHT_GRAPH := 0.30;
  WEIGHT_BEHAVIORAL := 0.25;
  WEIGHT_DEVICE := 0.20;
  WEIGHT_DEAD_ACCOUNT := 0.15;
  WEIGHT_VELOCITY := 0.10;
  HIGH_RISK_THRESHOLD := 70.0;
  MEDIUM_RISK_THRESHOLD := 40.0;
  DORMANT_DAYS_THRESHOLD := 30;
  DEVICE_ACCOUNT_THRESHOLD := 5;
  VELOCITY_WINDOW_SEC := 60;
  BEHAVIORAL_HISTORY_COUNT := 25;
  PASS_THROUGH_RATIO_THRESHOLD := 0.80;
  BURST_TX_THRESHOLD := 10;
  IMPOSSIBLE_TRAVEL_KMH := 250.0;
  NIGHT_START_HOUR := 23;
  NIGHT_END_HOUR := 5;
  CAPABILITY_MASK_CHANGE_WEIGHT := 10.0;
  NEW_DEVICE_HIGH_AMOUNT_THRESHOLD := 10000.0;
  NEW_DEVICE_PENALTY := 12.0;
  DEVICE_MULTI_USER_THRESHOLD := 3;
  DEVICE_MULTI_USER_WINDOW_HOURS := 24;
  DEVICE_MULTI_USER_PENALTY := 25.0;
  IP_ROTATION_WINDOW_HOURS := 24;
  IP_ROTATION_MAX_UNIQUE := 5;
  IP_ROTATION_PENALTY := 15.0;
  FIXED_AMOUNT_TOLERANCE := 0.01;
  FIXED_AMOUNT_MIN_COUNT := 3;
  FIXED_AMOUNT_PENALTY := 10.0;
  CIRCADIAN_ANOMALY_PENALTY := 20.0;
  CIRCADIAN_NEW_DEVICE_PENALTY := 35.0;
  TX_IDENTICALITY_WINDOW_HOURS := 1;
  TX_IDENTICALITY_MIN_COUNT := 3;
  TX_IDENTICALITY_PENALTY := 30.0;
  SLEEP_FLASH_RATIO_THRESHOLD := 50.0;
  SLEEP_FLASH_DORMANT_DAYS := 30;
  GEO_IP_DISTANCE_THRESHOLD_KM := 500.0
|}.

End Config.

Export Config.

(* ================================================================== *)
(** * Transactions ([app/models/transaction.py]) *)
(* ================================================================== *)

Module Transaction.

Inductive TxnType := PAY | COLLECT | MANDATE | REFUND.
Inductive DeviceType := ANDROID | IOS | WEB | UNKNOWN_DEVICE_TYPE.
Inductive CredentialType := PIN | OTP | BIOMETRIC | PATTERN.
Inductive CredentialSubType := MPIN | SMS_OTP | FINGERPRINT | FACE | IRIS | DRAW_PATTERN.
Inductive ReceiverType := PERSON | MERCHANT | BILLER | SELF.
Inductive RiskLevel := LOW | MEDIUM | HIGH | CRITICAL.
Inductive TransactionStatus := PENDING | COMPLETED | FLAGGED | BLOCKED.

(** [.value] of the string enumerations. *)
Definition TxnType_value (t : TxnType) : string :=
  match t with PAY => "PAY" | COLLECT => "COLLECT" | MANDATE => "MANDATE" | REFUND => "REFUND" end.
Definition DeviceType_value (t : DeviceType) : string :=
  match t with ANDROID => "ANDROID" | IOS => "IOS" | WEB => "WEB" | UNKNOWN_DEVICE_TYPE => "UNKNOWN" end.
Definition CredentialType_value (t : CredentialType) : string :=
  match t with PIN => "PIN" | OTP => "OTP" | BIOMETRIC => "BIOMETRIC" | PATTERN => "PATTERN" end.
Definition CredentialSubType_value (t : CredentialSubType) : string :=
  match t with
  | MPIN => "MPIN" | SMS_OTP => "SMS_OTP" | FINGERPRINT => "FINGERPRINT"
  | FACE => "FACE" | IRIS => "IRIS" | DRAW_PATTERN => "DRAW_PATTERN"
  end.
Definition ReceiverType_value (t : ReceiverType) : string :=
  match t with PERSON => "PERSON" | MERCHANT => "MERCHANT" | BILLER => "BILLER" | SELF => "SELF" end.
Definition RiskLevel_value (l : RiskLevel) : string :=
  match l with LOW => "LOW" | MEDIUM => "MEDIUM" | HIGH => "HIGH" | CRITICAL => "CRITICAL" end.
Definition TransactionStatus_value (s : TransactionStatus) : string :=
  match s with
  | PENDING => "PENDING" | COMPLETED => "COMPLETED"
  | FLAGGED => "FLAGGED" | BLOCKED => "BLOCKED"
  end.

(** A [datetime]: the instant in seconds and the wall-clock hour field. *)
Record Datetime : Type := {
  epoch : Q;
  hour : Z;
  isoformat : string
}.

(** [(a - b).total_seconds()]. *)
Definition seconds_between (a b : Datetime) : Q := (epoch a - epoch b)%Q.

Record SenderDevice : Type := {
  sd_device_id : string;
  sd_device_os : option string;
  sd_device_type : DeviceType;
  sd_app_version : option string;
  sd_capability_mask : option string
}.

Record SenderNetwork : Type := { sn_ip_address : option string }.

Record SenderGeo : Type := { lat : option Q; lon : option Q }.

Record Sender : Type := {
  s_sender_id : string;
  s_upi_id : option string;
  device : option SenderDevice;
  network : option SenderNetwork;
  geo : option SenderGeo
}.

Record Credential : Type := {
  c_type : CredentialType;
  c_sub_type : option CredentialSubType
}.

Record Receiver : Type := {
  r_receiver_id : string;
  r_upi_id : option string;
  r_receiver_type : ReceiverType;
  r_mcc_code : option string
}.

Record TransactionInput : Type := {
  tx_id : string;
  timestamp : Datetime;
  amount : Q;
  currency : string;
  txn_type : TxnType;
  sender : Sender;
  credential : option Credential;
  receiver : Receiver
}.

(** The flattening accessors. *)
Definition sender_id (tx : TransactionInput) : string := s_sender_id (sender tx).
Definition receiver_id (tx : TransactionInput) : string := r_receiver_id (receiver tx).
Definition device_id (tx : TransactionInput) : string :=
  match device (sender tx) with
  | Some d => sd_device_id d
  | None => "UNKNOWN_DEVICE"
  end.
Definition device_os (tx : TransactionInput) : option string :=
  match device (sender tx) with Some d => sd_device_os d | None => None end.
Definition device_type (tx : TransactionInput) : DeviceType :=
  match device (sender tx) with Some d => sd_device_type d | None => UNKNOWN_DEVICE_TYPE end.
Definition app_version (tx : TransactionInput) : option string :=
  match device (sender tx) with Some d => sd_app_version d | None => None end.
Definition capability_mask (tx : TransactionInput) : option string :=
  match device (sender tx) with Some d => sd_capability_mask d | None => None end.
Definition ip_address (tx : TransactionInput) : option string :=
  match network (sender tx) with Some n => sn_ip_address n | None => None end.
Definition sender_lat (tx : TransactionInput) : option Q :=
  match geo (sender tx) with Some g => lat g | None => None end.
Definition sender_lon (tx : TransactionInput) : option Q :=
  match geo (sender tx) with Some g => lon g | None => None end.
Definition upi_id_sender (tx : TransactionInput) : option string := s_upi_id (sender tx).
Definition upi_id_receiver (tx : TransactionInput) : option string := r_upi_id (receiver tx).
Definition receiver_type (tx : TransactionInput) : ReceiverType := r_receiver_type (receiver tx).
Definition mcc_code (tx : TransactionInput) : option string := r_mcc_code (receiver tx).
Definition credential_type (tx : TransactionInput) : option CredentialType :=
  match credential tx with Some c => Some (c_type c) | None => None end.
Definition credential_sub_type (tx : TransactionInput) : option CredentialSubType :=
  match credential tx with Some c => c_sub_type c | None => None end.

End Transaction.

Export Transaction.

(* ================================================================== *)
(** * The graph store and the libraries, as the scoring code sees them *)
(* ================================================================== *)

Module GraphStore.

(** A temporal column: [isinstance(ts, datetime)] holds for [StampDatetime]
    only. *)
Inductive Stamp : Type :=
| StampDatetime (d : Datetime)
| StampOther.

(** One record per query, with the columns of its [RETURN] clause; a
    column that may be [null] is an [option]. *)
Record HistoryRow : Type := { h_amount : option Q; h_timestamp : option Stamp }.

Record ProfileRow : Type := {
  p_avg_tx_amount : option Q;
  p_std_tx_amount : option Q;
  p_is_dormant : option bool;
  p_last_lat : option Q;
  p_last_lon : option Q
}.

Record IpRotationRow : Type := { unique_ip_count : option Z }.
Record AmountRow : Type := { ra_amount : option Q }.
Record HourRow : Type := { hr_hour : option Z; hr_cnt : Z }.
Record IdenticalRow : Type := { identical_count : option Z }.
Record AsnDensityRow : Type := { account_count : option Z }.
Record AsnHistoryRow : Type := { ah_asn : option Z; ah_usage_count : option Z }.

(** [neo4j.read_async(QUERY, params)]: what the store answers, or the
    exception the call raises. *)
Record Neo4jReads : Type := {
  QUERY_USER_TX_HISTORY (user_id : string) (limit : Z) : result (list HistoryRow);
  QUERY_USER_PROFILE (user_id : string) : result (list ProfileRow);
  QUERY_IP_ROTATION (user_id : string) : result (list IpRotationRow);
  QUERY_RECENT_AMOUNTS (user_id : string) (window_hours : Z) : result (list AmountRow);
  QUERY_USER_HOUR_DISTRIBUTION (user_id : string) : result (list HourRow);
  QUERY_IDENTICAL_TX_RECEIVER (sender_id receiver_id : string) (amount : Q) (window_hours : Z)
    : result (list IdenticalRow);
  QUERY_ASN_DENSITY (asn_number : Z) : result (list AsnDensityRow);
  QUERY_USER_ASN_HISTORY (user_id : string) : result (list AsnHistoryRow)
}.

End GraphStore.

Export GraphStore.

Module Libraries.

(** [math] and [numpy] functions with no rational closed form. *)
Record MathLib : Type := {
  math_log : Q -> Q;
  math_log1p : Q -> Q;
  math_sqrt : Q -> Q;
  math_sin : Q -> Q;
  math_cos : Q -> Q;
  math_atan2 : Q -> Q -> Q;
  math_radians : Q -> Q;
  np_percentile : list Q -> Q -> Q
}.

(** What [ipaddress.ip_address] tells about a parsed address. *)
Record IPAddress : Type := {
  version : Z;
  is_private : bool;
  is_loopback : bool;
  is_reserved : bool;
  is_link_local : bool
}.

(** A record of the offline ASN database. *)
Record Organization : Type := { org_name : option string; org_country : option string }.
Record MmdbRecord : Type := { mmdb_asn : option Z; organization : option Organization }.

Record AsnDatabase : Type := {
  (** [ipaddress.ip_address(s)], [None] for [ValueError] *)
  ip_address_parse : string -> option IPAddress;
  (** [_get_reader()]: [None] when the file is missing or unreadable *)
  reader : option (string -> result (option MmdbRecord))
}.

Section Numeric.
Variable lib : MathLib.

(** [math.log1p(x)]; a [ValueError] outside the domain. *)
Definition log1p (x : Q) : result Q :=
  if Qleb x (-1) then Raise "math domain error" else Ok (math_log1p lib x).

(** [math.log(x)]. *)
Definition log (x : Q) : result Q :=
  if Qleb x 0 then Raise "math domain error" else Ok (math_log lib x).

(** [math.sqrt(x)]; a [ValueError] on a negative argument. *)
Definition sqrt (x : Q) : result Q :=
  if Qltb x 0 then Raise "math domain error" else Ok (math_sqrt lib x).

Definition Qsum (l : list Q) : Q := fold_right Qplus 0%Q l.

(** [float(np.mean(l))] and [float(np.std(l))] of a non-empty list. *)
Definition np_mean (l : list Q) : Q := (Qsum l / inject_Z (Z.of_nat (length l)))%Q.
Definition np_std (l : list Q) : Q :=
  let m := np_mean l in
  math_sqrt lib (np_mean (map (fun x => ((x - m) * (x - m))%Q) l)).

End Numeric.

End Libraries.

Export Libraries.

(* ================================================================== *)
(** * ASN intelligence ([app/features/asn_intelligence.py]) *)
(* ================================================================== *)

Module AsnIntelligence.

Definition _MOBILE_ISP_ASNS : list Z :=
  [55836; 64049; 58678; 132524; 45609; 24560; 9498; 55644; 38266;
   45271; 9829; 45820; 17813; 45514; 136763]%Z.

Definition _BROADBAND_ASNS : list Z :=
  [17762; 55577; 24309; 17488; 18101; 133982; 132335; 10029; 45528;
   134091; 133647; 45194; 24186; 133661; 45916]%Z.

Definition _ENTERPRISE_ASNS : list Z :=
  [4755; 6453; 17439; 9583; 10201; 18209; 45117; 55824; 132524]%Z.

Definition _INDIAN_CLOUD_ASNS : list Z :=
  [135929; 133275; 132116; 137687; 58695]%Z.

Definition _HOSTING_ASNS : list Z :=
  [133296; 45769; 135580; 138835; 59163; 46015; 137194]%Z.

Definition _ORG_KEYWORDS : list (string * string) :=
  [("jio", "MOBILE_ISP"); ("airtel", "MOBILE_ISP"); ("bharti", "MOBILE_ISP");
   ("vodafone", "MOBILE_ISP"); ("idea cellular", "MOBILE_ISP");
   ("bsnl", "MOBILE_ISP"); ("mtnl", "MOBILE_ISP");
   ("act fibernet", "BROADBAND"); ("atria convergence", "BROADBAND");
   ("hathway", "BROADBAND"); ("spectra", "BROADBAND"); ("tikona", "BROADBAND");
   ("you broadband", "BROADBAND"); ("alliance broadband", "BROADBAND");
   ("netplus", "BROADBAND"); ("gigatel", "BROADBAND");
   ("tata communications", "ENTERPRISE"); ("sify", "ENTERPRISE");
   ("powergrid", "ENTERPRISE");
   ("yotta", "INDIAN_CLOUD"); ("ctrls", "INDIAN_CLOUD"); ("netmagic", "INDIAN_CLOUD");
   ("web werks", "HOSTING"); ("cyfuture", "HOSTING"); ("lightstorm", "HOSTING");
   ("hostinger india", "HOSTING"); ("hosting", "HOSTING");
   ("datacenter", "HOSTING"); ("data center", "HOSTING"); ("data centre", "HOSTING")].

Definition _CLASS_BASE_SCORES : list (string * Q) :=
  [("MOBILE_ISP", 0.0); ("BROADBAND", 0.1); ("ENTERPRISE", 0.3);
   ("INDIAN_CLOUD", 0.6); ("HOSTING", 0.7); ("UNKNOWN", 0.5); ("FOREIGN", 0.8)]%Q.

Definition asn_in (asn : Z) (l : list Z) : bool := existsb (Z.eqb asn) l.

Fixpoint assoc_get {V} (k : string) (l : list (string * V)) : option V :=
  match l with
  | [] => None
  | (k', v) :: l' => if String.eqb k k' then Some v else assoc_get k l'
  end.

(** The result of [resolve]: both shapes of the dictionary carry the same
    eight keys. *)
Record AsnInfo : Type := {
  asn : Z;
  info_org_name : string;
  country : string;
  is_indian : bool;
  foreign_flag : Z;
  asn_class : string;
  asn_base : Q;
  valid : bool
}.

Definition _NULL_RESULT : AsnInfo := {|
  asn := 0; info_org_name := ""; country := ""; is_indian := false;
  foreign_flag := 0; asn_class := "UNKNOWN"; asn_base := 0.0; valid := false
|}.

Section WithDatabase.
Variable adb : AsnDatabase.

Definition _is_valid_public_ipv4 (ip_str : string) : bool :=
  match ip_address_parse adb ip_str with
  | None => false
  | Some addr =>
      if negb (version addr =? 4)%Z then false
      else if is_private addr || is_loopback addr || is_reserved addr || is_link_local addr
      then false
      else true
  end.

Fixpoint keyword_class (org_lower : string) (kws : list (string * string)) : option string :=
  match kws with
  | [] => None
  | (keyword, cls) :: kws' =>
      if str_contains keyword org_lower then Some cls else keyword_class org_lower kws'
  end.

Definition _classify_indian_asn (asn : Z) (org_name : string) : string :=
  if asn_in asn _MOBILE_ISP_ASNS then "MOBILE_ISP"
  else if asn_in asn _BROADBAND_ASNS then "BROADBAND"
  else if asn_in asn _ENTERPRISE_ASNS then "ENTERPRISE"
  else if asn_in asn _INDIAN_CLOUD_ASNS then "INDIAN_CLOUD"
  else if asn_in asn _HOSTING_ASNS then "HOSTING"
  else
    let org_lower := str_lower org_name in
    match keyword_class org_lower _ORG_KEYWORDS with
    | Some cls => cls
    | None => "UNKNOWN"
    end.

Definition resolve (ip_address : string) : AsnInfo :=
  if negb (_is_valid_public_ipv4 ip_address) then _NULL_RESULT
  else
    match reader adb with
    | None => _NULL_RESULT
    | Some rd =>
        match rd ip_address with
        | Raise _ => _NULL_RESULT
        | Ok None => _NULL_RESULT
        | Ok (Some data) =>
            let asn_number := default 0%Z (mmdb_asn data) in
            let org := default {| org_name := None; org_country := None |} (organization data) in
            let org_name := default "" (org_name org) in
            let country := str_upper (default "" (org_country org)) in
            let is_indian := String.eqb country "IN" in
            let foreign_flag := if is_indian then 0%Z else 1%Z in
            let asn_class :=
              if negb is_indian then "FOREIGN"
              else _classify_indian_asn asn_number org_name in
            let asn_base := default 0.5%Q (assoc_get asn_class _CLASS_BASE_SCORES) in
            {| asn := asn_number; info_org_name := org_name; country := country;
               is_indian := is_indian; foreign_flag := foreign_flag;
               asn_class := asn_class; asn_base := py_round asn_base 3;
               valid := true |}
        end
    end.

End WithDatabase.

(** ** Steps 5 to 8: the full ASN risk *)

Section WithStore.
Variable lib : MathLib.
Variable neo4j : Neo4jReads.

(** Step 5: [log(1 + Accounts_in_ASN)], zero when the read fails. *)
Definition asn_density_of (asn_number : Z) : Q :=
  if (0 <? asn_number)%Z then
    match QUERY_ASN_DENSITY neo4j asn_number with
    | Ok (row :: _) =>
        let n := default 0%Z (account_count row) in
        match log1p lib (inject_Z n) with
        | Ok d => d
        | Raise _ => 0%Q
        end
    | _ => 0%Q
    end
  else 0%Q.

(** [asn_counts[a] = c]: a dictionary in insertion order. *)
Fixpoint dict_set (a c : Z) (d : list (Z * Z)) : list (Z * Z) :=
  match d with
  | [] => [(a, c)]
  | (a', c') :: d' => if (a =? a')%Z then (a, c) :: d' else (a', c') :: dict_set a c d'
  end.

(** The loop over the history rows: the dictionary and the running total. *)
Definition count_asns (rows : list AsnHistoryRow) : list (Z * Z) * Z :=
  fold_left
    (fun (acc : list (Z * Z) * Z) row =>
       let a := default 0%Z (ah_asn row) in
       let c := match ah_usage_count row with
                | Some c => if (c =? 0)%Z then 1%Z else c
                | None => 1%Z
                end in
       if (0 <? a)%Z then (dict_set a c (fst acc), (snd acc + c)%Z) else acc)
    rows ([], 0%Z).

(** [max(asn_counts, key=asn_counts.get)]: the first key of greatest count. *)
Definition mode_of (d : list (Z * Z)) : option Z :=
  match d with
  | [] => None
  | kv :: d' =>
      Some (fst (fold_left (fun best kv' => if (snd best <? snd kv')%Z then kv' else best) d' kv))
  end.

(** Step 7: the loop [asn_entropy -= p * math.log(p)]. *)
Definition entropy_of (d : list (Z * Z)) (total : Z) : Q :=
  fold_left
    (fun (h : Q) kv =>
       let p := (inject_Z (snd kv) / inject_Z total)%Q in
       if Qltb 0 p then (h - p * math_log lib p)%Q else h)
    d 0%Q.

(** Steps 6 and 7: [(asn_drift, asn_entropy)], both zero when the read
    fails or the user has no history. *)
Definition asn_history_of (sender_id : string) (asn_number : Z) : Z * Q :=
  match QUERY_USER_ASN_HISTORY neo4j sender_id with
  | Ok ((_ :: _) as history_rows) =>
      let '(asn_counts, total) := count_asns history_rows in
      match mode_of asn_counts with
      | Some mode_asn =>
          let asn_drift := if (asn_number =? mode_asn)%Z then 0%Z else 1%Z in
          let asn_entropy := if (0 <? total)%Z then entropy_of asn_counts total else 0%Q in
          (asn_drift, asn_entropy)
      | None => (0%Z, 0%Q)
      end
  | _ => (0%Z, 0%Q)
  end.

(** Step 8, before rounding. *)
Record AsnRisk : Type := {
  density_norm : Q;
  entropy_norm : Q;
  raw_risk : Q;
  asn_risk : Q;
  asn_risk_scaled : Q
}.

Definition final_asn_risk (asn_base asn_density : Q) (asn_drift foreign_flag : Z)
    (asn_entropy : Q) : AsnRisk :=
  let density_norm := py_min (asn_density / math_log1p lib 1000) 1.0 in
  let entropy_norm := py_min (asn_entropy / 2.5) 1.0 in
  let raw_risk :=
    (0.4 * asn_base
     + 0.3 * density_norm
     + 0.2 * inject_Z asn_drift
     + 0.2 * inject_Z foreign_flag
     + 0.1 * entropy_norm)%Q in
  let asn_risk := py_min (py_max raw_risk 0.0) 1.0 in
  let asn_risk_scaled := (asn_risk * 20.0)%Q in
  {| density_norm := density_norm; entropy_norm := entropy_norm;
     raw_risk := raw_risk; asn_risk := asn_risk; asn_risk_scaled := asn_risk_scaled |}.

(** The dictionary that [compute_asn_risk] returns: both of its shapes
    carry the same thirteen keys. *)
Record AsnResult : Type := {
  res_asn : Z;
  res_org_name : string;
  res_country : string;
  res_asn_class : string;
  res_foreign_flag : Z;
  res_asn_base : Q;
  res_asn_density : Q;
  res_asn_density_norm : Q;
  res_asn_drift : Z;
  res_asn_entropy : Q;
  res_asn_entropy_norm : Q;
  res_asn_risk : Q;
  res_asn_risk_scaled : Q
}.

Definition compute_asn_risk (adb : AsnDatabase) (sender_id ip_address : string) : AsnResult :=
  let info := resolve adb ip_address in
  if negb (valid info) then
    {| res_asn := 0; res_org_name := ""; res_country := ""; res_asn_class := "UNKNOWN";
       res_foreign_flag := 0; res_asn_base := 0.0;
       res_asn_density := 0.0; res_asn_density_norm := 0.0;
       res_asn_drift := 0; res_asn_entropy := 0.0; res_asn_entropy_norm := 0.0;
       res_asn_risk := 0.0; res_asn_risk_scaled := 0.0 |}
  else
    let asn_number := asn info in
    let foreign_flag := foreign_flag info in
    let asn_base := asn_base info in
    let asn_density := asn_density_of asn_number in
    let '(asn_drift, asn_entropy) := asn_history_of sender_id asn_number in
    let r := final_asn_risk asn_base asn_density asn_drift foreign_flag asn_entropy in
    {| res_asn := asn_number;
       res_org_name := info_org_name info;
       res_country := country info;
       res_asn_class := asn_class info;
       res_foreign_flag := foreign_flag;
       res_asn_base := py_round asn_base 3;
       res_asn_density := py_round asn_density 4;
       res_asn_density_norm := py_round (density_norm r) 4;
       res_asn_drift := asn_drift;
       res_asn_entropy := py_round asn_entropy 4;
       res_asn_entropy_norm := py_round (entropy_norm r) 4;
       res_asn_risk := py_round (asn_risk r) 4;
       res_asn_risk_scaled := py_round (asn_risk_scaled r) 2 |}.

End WithStore.

End AsnIntelligence.

Export AsnIntelligence.

(* ================================================================== *)
(** * Anomaly helpers ([app/detection/anomaly_detection.py]) *)
(* ================================================================== *)

Module AnomalyDetection.

Section WithLib.
Variable lib : MathLib.

(** [iqr_outlier(value, values, k=1.5)]. *)
Definition iqr_outlier (value : Q) (values : list Q) : bool :=
  let k := 1.5%Q in
  if (length values <? 4)%nat then false
  else
    let q1 := np_percentile lib values 25 in
    let q3 := np_percentile lib values 75 in
    let iqr := (q3 - q1)%Q in
    Qltb value (q1 - k * iqr) || Qltb (q3 + k * iqr) value.

End WithLib.

End AnomalyDetection.

Export AnomalyDetection.

(* ================================================================== *)
(** * Behavioural extractor ([app/features/behavioral.py]) *)
(* ================================================================== *)

Module Behavioral.

(** Truth value of an [Optional[float]] and of an [Optional[str]]. *)
Definition truthyQ (o : option Q) : bool :=
  match o with Some q => negb (Qeq_bool q 0) | None => false end.
Definition truthyS (o : option string) : bool :=
  match o with Some s => negb (String.eqb s "") | None => false end.

(** The local variables of [compute] once every read has been made and
    the distance travelled has been computed. *)
Record Signals : Type := {
  amount_zscore : Q;
  rolling_mean : Q;
  rolling_std : Q;
  spike : bool;
  dormant_burst : PyVal;
  asn_result : option AsnResult;
  asn_risk_scaled : Q;
  time_since_last : Q;
  velocity_score : Q;
  sig_hour : Z;
  night_flag : bool;
  geo_distance : Q;
  impossible_travel : bool;
  iqr_outlier_flag : bool;
  ip_rotation_count : Z;
  ip_rotation_flag : bool;
  fixed_amount_flag : bool;
  circadian_anomaly : bool;
  circadian_score : Q;
  tx_identicality_flag : bool;
  tx_identicality_count : Z
}.

Section WithEnv.
Variable settings : Settings.
Variable lib : MathLib.
Variable adb : AsnDatabase.
Variable neo4j : Neo4jReads.

(** The [a] of the haversine formula. *)
Definition haversine_a (lat1 lon1 lat2 lon2 : Q) : Q :=
  let phi1 := math_radians lib lat1 in
  let phi2 := math_radians lib lat2 in
  let dphi := math_radians lib (lat2 - lat1) in
  let dlambda := math_radians lib (lon2 - lon1) in
  (math_sin lib (dphi / 2) ^ 2
   + math_cos lib phi1 * math_cos lib phi2 * math_sin lib (dlambda / 2) ^ 2)%Q.

(** [_haversine_km]: both square roots are taken, the one of [a] first,
    before [math.atan2] is called. *)
Definition _haversine_km (lat1 lon1 lat2 lon2 : Q) : result Q :=
  let R := 6371.0%Q in
  let a := haversine_a lat1 lon1 lat2 lon2 in
  let* root_a := sqrt lib a in
  let* root_1_a := sqrt lib (1 - a) in
  Ok (R * 2 * math_atan2 lib root_a root_1_a)%Q.

Definition _detect_fixed_amount_pattern (amounts : list Q) (current tolerance : Q)
    (min_count : Z) : bool :=
  if (Z.of_nat (length amounts) <? min_count)%Z then false
  else
    let count :=
      length (List.filter (fun a => Qleb (Qabs (a - current) / py_max current 1) tolerance) amounts) in
    (min_count <=? Z.of_nat count)%Z.

(** ** The reads that [compute] absorbs *)

(** IP rotation: [(ip_rotation_count, ip_rotation_flag)]. *)
Definition ip_rotation_of (sender_id : string) : Z * bool :=
  match QUERY_IP_ROTATION neo4j sender_id with
  | Ok (row :: _) =>
      let ip_rotation_count := default 0%Z (unique_ip_count row) in
      (ip_rotation_count, (IP_ROTATION_MAX_UNIQUE settings <=? ip_rotation_count)%Z)
  | Ok [] => (0%Z, false)
  | Raise _ => (0%Z, false)
  end.

(** Fixed-amount pattern. *)
Definition fixed_amount_of (sender_id : string) (amount : Q) : bool :=
  match QUERY_RECENT_AMOUNTS neo4j sender_id (IP_ROTATION_WINDOW_HOURS settings) with
  | Ok recent_amt_rows =>
      let recent_amts :=
        filter_map (fun r => match ra_amount r with
                       | Some a => if Qeq_bool a 0 then None else Some a
                       | None => None
                       end) recent_amt_rows in
      _detect_fixed_amount_pattern recent_amts amount
        (FIXED_AMOUNT_TOLERANCE settings) (FIXED_AMOUNT_MIN_COUNT settings)
  | Raise _ => false
  end.

(** Circadian anomaly: [(circadian_anomaly, circadian_score)]. *)
Definition circadian_of (sender_id : string) (hour : Z) (is_new_device : bool) : bool * Q :=
  match QUERY_USER_HOUR_DISTRIBUTION neo4j sender_id with
  | Ok hour_rows =>
      if (3 <=? length hour_rows)%nat then
        let hour_counts : gmap (option Z) Z :=
          fold_left (fun m r => <[hr_hour r := hr_cnt r]> m) hour_rows ∅ in
        let total_tx := map_fold (fun _ v acc => (v + acc)%Z) 0%Z hour_counts in
        let current_hour_count := default 0%Z (hour_counts !! Some hour) in
        if (10 <=? total_tx)%Z
           && Qltb (inject_Z current_hour_count / inject_Z total_tx) 0.02
        then (true,
              if is_new_device then CIRCADIAN_NEW_DEVICE_PENALTY settings
              else CIRCADIAN_ANOMALY_PENALTY settings)
        else (false, 0.0%Q)
      else (false, 0.0%Q)
  | Raise _ => (false, 0.0%Q)
  end.

(** Transaction identicality: [(tx_identicality_flag, tx_identicality_count)]. *)
Definition identicality_of (sender_id : string) (receiver_id : option string) (amount : Q)
    : bool * Z :=
  match receiver_id with
  | Some rid =>
      if String.eqb rid "" then (false, 0%Z)
      else
        match QUERY_IDENTICAL_TX_RECEIVER neo4j sender_id rid amount
                (TX_IDENTICALITY_WINDOW_HOURS settings) with
        | Ok (row :: _) =>
            let tx_identicality_count := default 0%Z (identical_count row) in
            ((TX_IDENTICALITY_MIN_COUNT settings <=? tx_identicality_count)%Z,
             tx_identicality_count)
        | Ok [] => (false, 0%Z)
        | Raise _ => (false, 0%Z)
        end
  | None => (false, 0%Z)
  end.

(** ** The signals *)

Definition signals (history : list HistoryRow) (profile_rows : list ProfileRow)
    (sender_id : string) (amount : Q) (timestamp : Datetime)
    (sender_lat sender_lon : option Q) (ip_address receiver_id : option string)
    (is_new_device : bool) : result Signals :=
  let profile := head profile_rows in
  let amounts :=
    filter_map (fun r => match h_amount r with
                   | Some a => if Qeq_bool a 0 then None else Some a
                   | None => None
                   end) history in
  let timestamps := filter_map h_timestamp history in
  (* amount features *)
  let profile_mean := default 0.0%Q (column profile p_avg_tx_amount) in
  let profile_std := default 0.0%Q (column profile p_std_tx_amount) in
  let '(amount_zscore, rolling_mean, rolling_std, spike) :=
    if (2 <=? length amounts)%nat then
      let mean_a := np_mean amounts in
      let std_a := let sd := np_std lib amounts in if Qeq_bool sd 0 then 1.0%Q else sd in
      (((amount - mean_a) / std_a)%Q, mean_a, std_a, Qltb (mean_a + 3 * std_a) amount)
    else if Qltb 0 profile_mean then
      let mean_a := profile_mean in
      let std_a := if Qltb 0 profile_std then profile_std else (profile_mean * 0.5)%Q in
      (((amount - mean_a) / std_a)%Q, mean_a, std_a, Qltb (mean_a + 3 * std_a) amount)
    else (0.0%Q, amount, 0.0%Q, false) in
  (* dormant-burst cross-signal *)
  let is_dormant :=
    match profile with
    | None => PyBool false
    | Some row => match p_is_dormant row with Some b => PyBool b | None => PyNone end
    end in
  let dormant_burst :=
    if negb (truthy is_dormant) then is_dormant
    else if negb (Qltb 0 profile_mean) then PyBool false
    else PyBool (Qltb profile_mean amount) in
  (* ASN intelligence *)
  let asn_result :=
    match ip_address with
    | Some ip => if String.eqb ip "" then None
                 else Some (compute_asn_risk lib neo4j adb sender_id ip)
    | None => None
    end in
  let asn_risk_scaled :=
    match asn_result with Some r => res_asn_risk_scaled r | None => 0.0%Q end in
  (* temporal features *)
  let time_since_last :=
    match timestamps with
    | StampDatetime last_ts :: _ => py_max (seconds_between timestamp last_ts) 0
    | _ => 0.0%Q
    end in
  let recent_count :=
    length (List.filter (fun ts => match ts with
                              | StampDatetime d =>
                                  Qleb (seconds_between timestamp d)
                                       (inject_Z (VELOCITY_WINDOW_SEC settings))
                              | StampOther => false
                              end) timestamps) in
  let velocity_score :=
    py_min (inject_Z (Z.of_nat recent_count)
            / inject_Z (Z.max (BURST_TX_THRESHOLD settings) 1)) 1.0 in
  let hour := hour timestamp in
  let night_flag :=
    (NIGHT_START_HOUR settings <=? hour)%Z || (hour <=? NIGHT_END_HOUR settings)%Z in
  (* geo features *)
  let last_lat := column profile p_last_lat in
  let last_lon := column profile p_last_lon in
  let* '(geo_distance, impossible_travel) :=
    if truthyQ sender_lat && truthyQ sender_lon && truthyQ last_lat && truthyQ last_lon then
      let* geo_distance :=
        _haversine_km (default 0%Q last_lat) (default 0%Q last_lon)
                      (default 0%Q sender_lat) (default 0%Q sender_lon) in
      if Qltb 0 time_since_last then
        let speed_kmh := (geo_distance / (time_since_last / 3600))%Q in
        Ok (geo_distance, Qltb (IMPOSSIBLE_TRAVEL_KMH settings) speed_kmh)
      else Ok (geo_distance, false)
    else Ok (0.0%Q, false) in
  (* IQR outlier *)
  let iqr_outlier_flag :=
    if (4 <=? length amounts)%nat then iqr_outlier lib amount amounts else false in
  (* the absorbed reads *)
  let '(ip_rotation_count, ip_rotation_flag) := ip_rotation_of sender_id in
  let fixed_amount_flag := fixed_amount_of sender_id amount in
  let '(circadian_anomaly, circadian_score) := circadian_of sender_id hour is_new_device in
  let '(tx_identicality_flag, tx_identicality_count) :=
    identicality_of sender_id receiver_id amount in
  Ok {| amount_zscore := amount_zscore; rolling_mean := rolling_mean;
        rolling_std := rolling_std; spike := spike; dormant_burst := dormant_burst;
        asn_result := asn_result; asn_risk_scaled := asn_risk_scaled;
        time_since_last := time_since_last; velocity_score := velocity_score;
        sig_hour := hour; night_flag := night_flag;
        geo_distance := geo_distance; impossible_travel := impossible_travel;
        iqr_outlier_flag := iqr_outlier_flag;
        ip_rotation_count := ip_rotation_count; ip_rotation_flag := ip_rotation_flag;
        fixed_amount_flag := fixed_amount_flag;
        circadian_anomaly := circadian_anomaly; circadian_score := circadian_score;
        tx_identicality_flag := tx_identicality_flag;
        tx_identicality_count := tx_identicality_count |}.

(** ** Fusion into the 0-100 behavioural risk *)

Definition indicator (b : bool) : Q := if b then 1.0%Q else 0.0%Q.

Definition zscore_term (s : Signals) : Q := py_min (Qabs (amount_zscore s) * 10) 30.
Definition velocity_term (s : Signals) : Q := (velocity_score s * 20)%Q.
Definition travel_term (s : Signals) : Q := (indicator (impossible_travel s) * 20)%Q.
Definition night_term (s : Signals) : Q := (indicator (night_flag s) * 5)%Q.
Definition iqr_term (s : Signals) : Q := (indicator (iqr_outlier_flag s) * 15)%Q.
Definition spike_term (s : Signals) : Q := (indicator (spike s) * 10)%Q.
Definition dormant_term (s : Signals) : Q := (indicator (truthy (dormant_burst s)) * 15)%Q.
Definition asn_term (s : Signals) : Q := asn_risk_scaled s.
Definition ip_rotation_term (s : Signals) : Q :=
  if ip_rotation_flag s then IP_ROTATION_PENALTY settings else 0.0%Q.
Definition fixed_amount_term (s : Signals) : Q :=
  if fixed_amount_flag s then FIXED_AMOUNT_PENALTY settings else 0.0%Q.
Definition circadian_term (s : Signals) : Q := circadian_score s.
Definition identicality_term (s : Signals) : Q :=
  if tx_identicality_flag s then TX_IDENTICALITY_PENALTY settings else 0.0%Q.

(** The sum before the clamp, in the order of the [risk += ...] lines. *)
Definition risk_sum (s : Signals) : Q :=
  (0.0 + zscore_term s + velocity_term s + travel_term s + night_term s
   + iqr_term s + spike_term s + dormant_term s + asn_term s
   + ip_rotation_term s + fixed_amount_term s + circadian_term s
   + identicality_term s)%Q.

Definition risk_of (s : Signals) : Q := py_min (risk_sum s) 100.0.

(** ** Flags and the feature dictionary *)

Definition flag_if (b : bool) (text : string) : list string := if b then [text] else [].

Definition flags_of (s : Signals) (amount : Q) : list string :=
  flag_if (spike s)
    ("Amount spike: " +:+ format_fixed 1 (amount_zscore s) +:+ "σ above baseline")
  ++ flag_if (truthy (dormant_burst s)) "Dormant Burst: tx amount exceeds historical avg"
  ++ flag_if (impossible_travel s)
       ("Impossible travel: " +:+ format_fixed 0 (geo_distance s) +:+ "km")
  ++ flag_if (night_flag s) "Night-time transaction"
  ++ match asn_result s with
     | Some r =>
         flag_if (Qleb 0.5 (res_asn_risk r))
           ("ASN Risk (" +:+ res_asn_class r +:+ "): score="
            +:+ format_fixed 2 (res_asn_risk r))
         ++ flag_if (negb (res_foreign_flag r =? 0)%Z)
              ("Foreign IP: " +:+ res_org_name r +:+ " (" +:+ res_country r +:+ ")")
         ++ flag_if (negb (res_asn_drift r =? 0)%Z)
              "ASN Drift: IP network differs from user's usual pattern"
     | None => []
     end
  ++ flag_if (ip_rotation_flag s)
       ("IP Rotation: " +:+ pretty (ip_rotation_count s) +:+ " unique IPs in 24h")
  ++ flag_if (fixed_amount_flag s)
       ("Fixed Amount Pattern: repeated ₹" +:+ format_fixed 2 amount +:+ " transfers")
  ++ flag_if (circadian_anomaly s)
       ("Circadian Anomaly: tx at hour " +:+ pretty (sig_hour s) +:+ " is unusual for user")
  ++ flag_if (tx_identicality_flag s)
       ("TX Identicality: " +:+ pretty (tx_identicality_count s)
        +:+ " identical amount transfers to same receiver in "
        +:+ pretty (TX_IDENTICALITY_WINDOW_HOURS settings) +:+ "h").

Definition features_of (s : Signals) (amount : Q) : Dict :=
  let asn := asn_result s in
  list_to_map
    [("amount_zscore", PyFloat (py_round (amount_zscore s) 4));
     ("rolling_mean", PyFloat (py_round (rolling_mean s) 2));
     ("rolling_std", PyFloat (py_round (rolling_std s) 2));
     ("time_since_last_tx", PyFloat (py_round (time_since_last s) 2));
     ("velocity_score", PyFloat (py_round (velocity_score s) 4));
     ("geo_distance_km", PyFloat (py_round (geo_distance s) 2));
     ("impossible_travel", PyBool (impossible_travel s));
     ("is_night", PyBool (night_flag s));
     ("spike_flag", PyBool (spike s));
     ("dormant_burst", dormant_burst s);
     ("iqr_outlier_flag", PyBool (iqr_outlier_flag s));
     ("ip_risk_score", PyFloat (py_round (asn_risk_scaled s) 2));
     ("asn_risk", PyFloat (match asn with Some r => res_asn_risk r | None => 0.0%Q end));
     ("asn_risk_scaled", PyFloat (py_round (asn_risk_scaled s) 2));
     ("asn_class", PyStr (match asn with Some r => res_asn_class r | None => "UNKNOWN" end));
     ("asn_country", PyStr (match asn with Some r => res_country r | None => "" end));
     ("foreign_flag", PyInt (match asn with Some r => res_foreign_flag r | None => 0%Z end));
     ("asn_drift", PyInt (match asn with Some r => res_asn_drift r | None => 0%Z end));
     ("asn_entropy", PyFloat (match asn with Some r => res_asn_entropy r | None => 0.0%Q end));
     ("asn_density", PyFloat (match asn with Some r => res_asn_density r | None => 0.0%Q end));
     ("asn_base", PyFloat (match asn with Some r => res_asn_base r | None => 0.0%Q end));
     ("ip_rotation_count", PyInt (ip_rotation_count s));
     ("ip_rotation_flag", PyBool (ip_rotation_flag s));
     ("fixed_amount_flag", PyBool (fixed_amount_flag s));
     ("circadian_anomaly", PyBool (circadian_anomaly s));
     ("circadian_score", PyFloat (py_round (circadian_score s) 2));
     ("tx_identicality_flag", PyBool (tx_identicality_flag s));
     ("tx_identicality_count", PyInt (tx_identicality_count s));
     ("risk", PyFloat (py_round (risk_of s) 2));
     ("flags", PyList (flags_of s amount))].

(** ** [BehavioralFeatureExtractor.compute] *)

Definition compute (sender_id : string) (amount : Q) (timestamp : Datetime)
    (sender_lat sender_lon : option Q) (ip_address receiver_id : option string)
    (is_new_device : bool) : result Dict :=
  let* history :=
    QUERY_USER_TX_HISTORY neo4j sender_id (BEHAVIORAL_HISTORY_COUNT settings) in
  let* profile_rows := QUERY_USER_PROFILE neo4j sender_id in
  let* s :=
    signals history profile_rows sender_id amount timestamp
            sender_lat sender_lon ip_address receiver_id is_new_device in
  Ok (features_of s amount).

End WithEnv.

End Behavioral.

(* ================================================================== *)
(** * Mule classifier ([app/detection/mule_detection.py]) *)
(* ================================================================== *)

Module MuleDetection.

Definition _MULE_RISK_THRESHOLD : Q := 65.
Definition _PASSTHROUGH_THRESHOLD : Q := 0.75.
Definition _DEVICE_SHARE_THRESHOLD : Q := 3.
Definition _DORMANT_DAYS_THRESHOLD : Q := 20.

(** The dictionary that [evaluate] returns; [confidence] is the decimal
    that [round(score, 3)] stands for. *)
Record Verdict : Type := {
  is_mule : bool;
  confidence : Q;
  reasons : list string
}.

(** The accumulator [score], a binary64 number, and the list [reasons]. *)
Definition Acc : Type := float * list string.

(** [score += w; reasons.append(text)]. *)
Definition hit (acc : Acc) (w : float) (text : string) : Acc :=
  ((fst acc + w)%float, snd acc ++ [text]).

(** The weights are written in decimal, as in the source: each stands for
    the binary64 number nearest to it. *)
#[local] Set Warnings "-inexact-float".

(** [f"{v:.<n>f}"] and [f"{int(v)}"] on a dictionary value. *)
Definition fmt_f (n : nat) (v : PyVal) : result string :=
  let* q := num v in Ok (format_fixed n q).
Definition fmt_int (v : PyVal) : result string :=
  let* q := num v in Ok (pretty (py_int q)).

(** [d.get(k, 0) > bound] and [d.get(k, 0) >= bound]. *)
Definition get_gt (d : Dict) (k : string) (bound : Q) : result bool :=
  let* x := num (get_or d k (PyInt 0)) in Ok (Qltb bound x).
Definition get_ge (d : Dict) (k : string) (bound : Q) : result bool :=
  let* x := num (get_or d k (PyInt 0)) in Ok (Qleb bound x).

(** The body of [evaluate] up to, and without, the clamp. *)
Definition accumulate (behavioral dead_account device graph velocity : Dict) : result Acc :=
  let acc : Acc := (0.0%float, []) in
  (* first-strike dormant activation *)
  let* acc :=
    if truthy (get dead_account "is_first_strike") then
      let days := py_or (get dead_account "days_slept")
                        (get_or dead_account "days_inactive" (PyInt 0)) in
      let* d := fmt_int days in
      Ok (hit acc 0.30 ("First-strike: dormant " +:+ d +:+ "d → suddenly active"))
    else if truthy (get dead_account "is_dormant") then
      let* risky := get_gt dead_account "risk" 40 in
      if risky then Ok (hit acc 0.25 "Dormant account activated with suspicious inflow")
      else Ok acc
    else Ok acc in
  (* sleep-and-flash mule *)
  let* acc :=
    if truthy (get dead_account "sleep_flash_flag") then
      let ratio := get_or dead_account "sleep_flash_ratio" (PyInt 0) in
      let* r := fmt_f 0 ratio in
      Ok (hit acc 0.25
            ("Sleep-and-flash mule: amount " +:+ r +:+ "x historical avg, dormant >30d"))
    else Ok acc in
  (* high pass-through *)
  let pt_ratio := get_or velocity "outflow_inflow_ratio" (PyInt 0) in
  let* pt := num pt_ratio in
  let* acc :=
    if Qltb _PASSTHROUGH_THRESHOLD pt then
      let* r := fmt_f 2 pt_ratio in
      Ok (hit acc 0.20 ("High pass-through ratio (" +:+ r +:+ ")"))
    else Ok acc in
  (* shared device *)
  let* shared := get_ge device "account_count" _DEVICE_SHARE_THRESHOLD in
  let* acc :=
    if shared then
      let* n := item device "account_count" in
      Ok (hit acc 0.15 ("Device shared across " +:+ py_str n +:+ " accounts"))
    else Ok acc in
  (* SIM-swap multi-user device *)
  let acc :=
    if truthy (get device "device_multi_user_flag") then
      hit acc 0.20
        ("SIM-swap: " +:+ py_str (get_or device "device_multi_user_count" (PyInt 0))
         +:+ " users on same device in 24h")
    else acc in
  (* graph cluster membership *)
  let* clustered := get_gt graph "community_risk" 50 in
  let* acc :=
    if clustered then
      let* v := item graph "community_risk" in
      let* r := fmt_f 0 v in
      Ok (hit acc 0.15 ("Member of high-risk cluster (risk=" +:+ r +:+ ")"))
    else Ok acc in
  (* relay mule flag from velocity *)
  let* fast := get_gt velocity "tx_per_min" 5 in
  let* acc :=
    if fast && Qltb 0.6 pt then
      let* v := item velocity "tx_per_min" in
      let* t := fmt_f 1 v in
      let* r := fmt_f 2 pt_ratio in
      Ok (hit acc 0.10 ("Relay pattern: " +:+ t +:+ " tx/min, ratio=" +:+ r))
    else Ok acc in
  (* behavioural anomaly *)
  let acc :=
    if truthy (get behavioral "impossible_travel")
    then hit acc 0.10 "Impossible travel detected" else acc in
  let acc :=
    if truthy (get behavioral "spike_flag")
    then hit acc 0.05 "Amount spike vs historical baseline" else acc in
  (* new device + high amount + MPIN compound *)
  let acc :=
    if truthy (get device "new_device_high_mpin")
    then hit acc 0.15 "New device + high amount + MPIN authentication" else acc in
  (* capability mask anomaly *)
  let* masked := get_ge device "cap_mask_anomaly" 2 in
  let* acc :=
    if masked then
      let* v := item device "cap_mask_anomaly" in
      Ok (hit acc 0.08 ("Device capability mask changed (Hamming=" +:+ py_str v +:+ ")"))
    else Ok acc in
  (* new or unknown device *)
  let acc :=
    if truthy (get device "new_device_flag")
       && negb (truthy (get device "new_device_high_mpin"))
    then hit acc 0.05 "Transaction from new/unseen device" else acc in
  (* IP rotation pattern *)
  let acc :=
    if truthy (get behavioral "ip_rotation_flag") then
      let ip_count := get_or behavioral "ip_rotation_count" (PyInt 0) in
      hit acc 0.08 ("IP rotation: " +:+ py_str ip_count +:+ " unique IPs in 24h")
    else acc in
  (* fixed-amount pattern *)
  let acc :=
    if truthy (get behavioral "fixed_amount_flag")
    then hit acc 0.08 "Fixed-amount pattern (possible structuring)" else acc in
  (* circadian anomaly *)
  let acc :=
    if truthy (get behavioral "circadian_anomaly")
    then hit acc 0.10 "Transaction at unusual hour for user's pattern" else acc in
  (* TX identicality index *)
  let acc :=
    if truthy (get behavioral "tx_identicality_flag") then
      let count := get_or behavioral "tx_identicality_count" (PyInt 0) in
      hit acc 0.15
        ("TX identicality: " +:+ py_str count
         +:+ " identical-amount transfers to same receiver in 1h")
    else acc in
  Ok acc.

(** [MuleDetector.evaluate]. *)
Definition evaluate (behavioral dead_account device graph velocity : Dict) (fused_risk : Q)
    : result Verdict :=
  let* acc := accumulate behavioral dead_account device graph velocity in
  let score := py_min_float (fst acc) 1.0 in
  let is_mule := PrimFloat.leb 0.5 score || Qleb _MULE_RISK_THRESHOLD fused_risk in
  Ok {| is_mule := is_mule;
        confidence := py_round (float_value score) 3;
        reasons := snd acc |}.

End MuleDetection.

(* ================================================================== *)
(** * The world outside the process: store writes, streams, alerts *)
(* ================================================================== *)

Module Runtime.

(** The statements of [app/utils/cypher_queries.py] that the hot path writes. *)
Inductive Cypher : Type :=
| INGEST_TRANSACTION
| INGEST_TRANSACTION_SAFE
| INGEST_IP
| UPDATE_TX_RISK
| UPDATE_USER_RISK.

Definition Cypher_eqb (a b : Cypher) : bool :=
  match a, b with
  | INGEST_TRANSACTION, INGEST_TRANSACTION
  | INGEST_TRANSACTION_SAFE, INGEST_TRANSACTION_SAFE
  | INGEST_IP, INGEST_IP
  | UPDATE_TX_RISK, UPDATE_TX_RISK
  | UPDATE_USER_RISK, UPDATE_USER_RISK => true
  | _, _ => false
  end.

Inductive Level : Type := DEBUG | INFO | WARNING | ERROR.

(** A stream entry: the fields of a Redis hash. *)
Definition StreamEntry : Type := list (string * string).

(** The dictionary handed to the alert callback. *)
Record GeoPoint : Type := { gp_city : string; gp_lat : Q; gp_lng : Q }.

Record GeoEvidence : Type := {
  deviceGeo : GeoPoint;
  ipGeo : GeoPoint;
  distanceKm : Q;
  timeDeltaMin : Q;
  speedKmh : Q;
  isImpossible : bool
}.

Record TriggeredRule : Type := {
  severity : string;
  rule : string;
  detail : string;
  scoreImpact : Z
}.

Record Alert : Type := {
  alert_id : string;
  alert_timestamp : string;
  senderName : Json;
  senderUPI : string;
  receiverName : Json;
  receiverUPI : string;
  alert_amount : Q;
  alert_status : string;
  riskScore : Q;
  latencyMs : Q;
  senderIP : string;
  deviceId : string;
  alert_city : string;
  features : list (string * Q);
  triggeredRules : list TriggeredRule;
  geoEvidence : GeoEvidence;
  behavioralSignature : list (string * Q);
  semanticAlert : string
}.

(** The mutable attributes of the two long-lived services. *)
Record PoolMetrics : Type := {
  processed_count : Z;
  pool_total_latency_ms : Q;
  deadlock_retries : Z;
  ingest_errors : Z
}.

Record AdapterMetrics : Type := {
  forwarded : Z;
  validation_errors : Z;
  adapter_total_latency_ms : Q
}.

(** A fault tape tells what each coming call of one kind does: [Some e]
    raises [e], [None] (or an exhausted tape) lets the call through. *)
Definition Faults : Type := list (option Exn).

Record World : Type := {
  (* graph store, write side *)
  neo_faults : Faults;
  neo_commits : list (Cypher * Dict);
  (* stream server *)
  redis_faults : Faults;
  redis_streams : gmap string (list StreamEntry);
  redis_pending : gmap (string * string) (gset string);
  (* alert callback *)
  alert_faults : Faults;
  alerts : list Alert;
  (* [time.perf_counter()] readings and [random.random()] draws to come *)
  clock : list Q;
  rng : list Q;
  (* log records, oldest first *)
  logged : list (Level * string);
  (* service objects *)
  pool : PoolMetrics;
  adapter : AdapterMetrics
}.

Definition with_neo (w : World) (f : Faults) (c : list (Cypher * Dict)) : World :=
  {| neo_faults := f; neo_commits := c;
     redis_faults := redis_faults w; redis_streams := redis_streams w;
     redis_pending := redis_pending w;
     alert_faults := alert_faults w; alerts := alerts w;
     clock := clock w; rng := rng w; logged := logged w;
     pool := pool w; adapter := adapter w |}.

Definition with_redis (w : World) (f : Faults) (s : gmap string (list StreamEntry))
    (p : gmap (string * string) (gset string)) : World :=
  {| neo_faults := neo_faults w; neo_commits := neo_commits w;
     redis_faults := f; redis_streams := s; redis_pending := p;
     alert_faults := alert_faults w; alerts := alerts w;
     clock := clock w; rng := rng w; logged := logged w;
     pool := pool w; adapter := adapter w |}.

Definition with_alerts (w : World) (f : Faults) (a : list Alert) : World :=
  {| neo_faults := neo_faults w; neo_commits := neo_commits w;
     redis_faults := redis_faults w; redis_streams := redis_streams w;
     redis_pending := redis_pending w;
     alert_faults := f; alerts := a;
     clock := clock w; rng := rng w; logged := logged w;
     pool := pool w; adapter := adapter w |}.

Definition with_clock (w : World) (c : list Q) : World :=
  {| neo_faults := neo_faults w; neo_commits := neo_commits w;
     redis_faults := redis_faults w; redis_streams := redis_streams w;
     redis_pending := redis_pending w;
     alert_faults := alert_faults w; alerts := alerts w;
     clock := c; rng := rng w; logged := logged w;
     pool := pool w; adapter := adapter w |}.

Definition with_rng (w : World) (r : list Q) : World :=
  {| neo_faults := neo_faults w; neo_commits := neo_commits w;
     redis_faults := redis_faults w; redis_streams := redis_streams w;
     redis_pending := redis_pending w;
     alert_faults := alert_faults w; alerts := alerts w;
     clock := clock w; rng := r; logged := logged w;
     pool := pool w; adapter := adapter w |}.

Definition with_logged (w : World) (l : list (Level * string)) : World :=
  {| neo_faults := neo_faults w; neo_commits := neo_commits w;
     redis_faults := redis_faults w; redis_streams := redis_streams w;
     redis_pending := redis_pending w;
     alert_faults := alert_faults w; alerts := alerts w;
     clock := clock w; rng := rng w; logged := l;
     pool := pool w; adapter := adapter w |}.

Definition with_pool (w : World) (p : PoolMetrics) : World :=
  {| neo_faults := neo_faults w; neo_commits := neo_commits w;
     redis_faults := redis_faults w; redis_streams := redis_streams w;
     redis_pending := redis_pending w;
     alert_faults := alert_faults w; alerts := alerts w;
     clock := clock w; rng := rng w; logged := logged w;
     pool := p; adapter := adapter w |}.

Definition with_adapter (w : World) (a : AdapterMetrics) : World :=
  {| neo_faults := neo_faults w; neo_commits := neo_commits w;
     redis_faults := redis_faults w; redis_streams := redis_streams w;
     redis_pending := redis_pending w;
     alert_faults := alert_faults w; alerts := alerts w;
     clock := clock w; rng := rng w; logged := logged w;
     pool := pool w; adapter := a |}.

(** ** The monad of effectful code: state that survives exceptions *)

Definition M (A : Type) : Type := World -> result A * World.

Definition ret {A} (a : A) : M A := fun w => (Ok a, w).
Definition raise {A} (e : Exn) : M A := fun w => (Raise e, w).

Definition bind {A B} (m : M A) (k : A -> M B) : M B :=
  fun w =>
    match m w with
    | (Ok a, w') => k a w'
    | (Raise e, w') => (Raise e, w')
    end.

(** [try: m  except Exception as e: h e]. *)
Definition try_except {A} (m : M A) (h : Exn -> M A) : M A :=
  fun w =>
    match m w with
    | (Ok a, w') => (Ok a, w')
    | (Raise e, w') => h e w'
    end.

(** A pure computation that may raise. *)
Definition lift {A} (r : result A) : M A := fun w => (r, w).

Definition next_fault (f : Faults) : option Exn * Faults :=
  match f with
  | [] => (None, [])
  | o :: f' => (o, f')
  end.

(** [await neo4j.write_async(query, params)]. *)
Definition write_async (query : Cypher) (params : Dict) : M unit :=
  fun w =>
    match next_fault (neo_faults w) with
    | (Some e, f) => (Raise e, with_neo w f (neo_commits w))
    | (None, f) => (Ok tt, with_neo w f (neo_commits w ++ [(query, params)]))
    end.

(** [await redis.xadd(stream, fields)]. *)
Definition xadd (stream : string) (fields : StreamEntry) : M unit :=
  fun w =>
    match next_fault (redis_faults w) with
    | (Some e, f) => (Raise e, with_redis w f (redis_streams w) (redis_pending w))
    | (None, f) =>
        let entries := default [] (redis_streams w !! stream) in
        (Ok tt, with_redis w f (<[stream := entries ++ [fields]]> (redis_streams w))
                           (redis_pending w))
    end.

(** [await redis.xack(stream, group, msg_id)]. *)
Definition xack (stream group msg_id : string) : M unit :=
  fun w =>
    match next_fault (redis_faults w) with
    | (Some e, f) => (Raise e, with_redis w f (redis_streams w) (redis_pending w))
    | (None, f) =>
        let pel := default ∅ (redis_pending w !! (stream, group)) in
        (Ok tt, with_redis w f (redis_streams w)
                           (<[(stream, group) := pel ∖ {[msg_id]}]> (redis_pending w)))
    end.

(** [await alert_callback(enriched)]. *)
Definition send_alert (a : Alert) : M unit :=
  fun w =>
    match next_fault (alert_faults w) with
    | (Some e, f) => (Raise e, with_alerts w f (alerts w))
    | (None, f) => (Ok tt, with_alerts w f (alerts w ++ [a]))
    end.

(** [time.perf_counter()]. *)
Definition perf_counter : M Q :=
  fun w =>
    match clock w with
    | [] => (Ok 0%Q, w)
    | t :: c => (Ok t, with_clock w c)
    end.

(** [random.random()]: a draw from [0, 1). *)
Definition random : M Q :=
  fun w =>
    match rng w with
    | [] => (Ok 0%Q, w)
    | u :: r => (Ok u, with_rng w r)
    end.

(** [logger.<level>(message)]. *)
Definition log_record (lvl : Level) (message : string) : M unit :=
  fun w => (Ok tt, with_logged w (logged w ++ [(lvl, message)])).

(** Whether [msg_id] is in the pending-entries list of [(stream, group)]. *)
Definition is_pending (w : World) (stream group msg_id : string) : bool :=
  bool_decide (msg_id ∈ default ∅ (redis_pending w !! (stream, group))).

End Runtime.

Export Runtime.

Notation "'let!' x := m 'in' k" := (bind m (fun x => k))
  (at level 10, x binder, m at level 100, k at level 200).

(* ================================================================== *)
(** * Risk responses ([app/models/risk_score.py]) *)
(* ================================================================== *)

Module RiskScore.

Record RiskBreakdown : Type := {
  rb_graph : Q;
  rb_behavioral : Q;
  rb_device : Q;
  rb_dead_account : Q;
  rb_velocity : Q
}.

Record RiskResponse : Type := {
  resp_tx_id : string;
  risk_score : Q;
  risk_level : RiskLevel;
  breakdown : RiskBreakdown;
  cluster_id : option string;
  resp_flags : list string;
  reason : string;
  processing_time_ms : Q;
  resp_timestamp : Datetime
}.

(** [Field(ge=0, le=100)]. *)
Definition in_0_100 (x : Q) : bool := Qleb 0 x && Qleb x 100.

(** The model constructors validate their fields. *)
Definition make_RiskBreakdown (graph behavioral device dead_account velocity : Q)
    : result RiskBreakdown :=
  if in_0_100 graph && in_0_100 behavioral && in_0_100 device
     && in_0_100 dead_account && in_0_100 velocity
  then Ok {| rb_graph := graph; rb_behavioral := behavioral; rb_device := device;
             rb_dead_account := dead_account; rb_velocity := velocity |}
  else Raise "ValidationError: RiskBreakdown".

Definition make_RiskResponse (tx_id : string) (risk_score : Q) (risk_level : RiskLevel)
    (breakdown : RiskBreakdown) (cluster_id : PyVal) (flags : list string)
    (reason : string) (processing_time_ms : Q) (timestamp : Datetime)
    : result RiskResponse :=
  let* cid :=
    match cluster_id with
    | PyNone => Ok None
    | PyStr s => Ok (Some s)
    | _ => Raise "ValidationError: RiskResponse.cluster_id"
    end in
  if in_0_100 risk_score
  then Ok {| resp_tx_id := tx_id; risk_score := risk_score; risk_level := risk_level;
             breakdown := breakdown; cluster_id := cid; resp_flags := flags;
             reason := reason; processing_time_ms := processing_time_ms;
             resp_timestamp := timestamp |}
  else Raise "ValidationError: RiskResponse.risk_score".

End RiskScore.

Export RiskScore.

(* ================================================================== *)
(** * Risk fusion engine ([app/core/risk_engine.py]) *)
(* ================================================================== *)

Module RiskEngine.

Import MuleDetection.

(** The cache of collusive findings is read through two lookups. *)
Record CollusiveFraudDetector : Type := {
  get_user_flags : string -> list string;
  get_user_cluster_id : string -> option string
}.

(** One engine holds the five extractors and the optional cache. *)
Record Engine : Type := {
  behavioral :
    string -> Q -> Datetime -> option Q -> option Q -> option string -> option string ->
    bool -> result Dict;
  dead_account : string -> Q -> result Dict;
  device_risk :
    string -> string -> Q -> option string -> option string -> option string ->
    option string -> option string -> result Dict;
  graph_intel : string -> result Dict;
  velocity : string -> Q -> result Dict;
  collusive_detector : option CollusiveFraudDetector
}.

Section WithSettings.
Variable settings : Settings.

(** ** Explainability *)

(** [parts.append(text)]. *)
Definition add (parts : list string) (text : string) : list string := parts ++ [text].

(** The list [parts] when the signal checks of [_build_reason] are over. *)
Definition reason_parts (behav dead device graph vel : Dict) : result (list string) :=
  let parts : list string := [] in
  (* dead account / dormant *)
  let* parts :=
    if truthy (get dead "is_dormant") || truthy (get dead "is_first_strike") then
      let days := py_or (get dead "days_inactive") (get_or dead "days_slept" (PyInt 0)) in
      let* d := fmt_int days in
      Ok (add parts ("Account activated after " +:+ d +:+ " days of inactivity"))
    else Ok parts in
  let* pass := get_gt dead "pass_through_ratio" (PASS_THROUGH_RATIO_THRESHOLD settings) in
  let* parts :=
    if pass then
      let* v := item dead "pass_through_ratio" in
      let* q := num v in
      Ok (add parts ("Pass-through ratio " +:+ format_percent0 q +:+ " exceeds threshold"))
    else Ok parts in
  let* parts :=
    if truthy (get dead "sleep_flash_flag") then
      let ratio := get_or dead "sleep_flash_ratio" (PyInt 0) in
      let* r := fmt_f 0 ratio in
      Ok (add parts ("Sleep-and-flash mule: amount " +:+ r
                     +:+ "x above historical avg, dormant >30d"))
    else Ok parts in
  (* graph intelligence *)
  let* clustered := get_gt graph "community_risk" 50 in
  let* parts :=
    if clustered then
      let cid := get_or graph "community_id" (PyStr "?") in
      let* v := item graph "community_risk" in
      let* r := fmt_f 0 v in
      Ok (add parts ("Community #" +:+ py_str cid +:+ " has " +:+ r +:+ "% fraud density"))
    else Ok parts in
  let* router := get_gt graph "betweenness" 0.01 in
  let parts :=
    if router then add parts "High betweenness centrality (money router)" else parts in
  (* device risk *)
  let acc_cnt := get_or device "account_count" (PyInt 0) in
  let* n := num acc_cnt in
  let parts :=
    if Qleb (inject_Z (DEVICE_ACCOUNT_THRESHOLD settings)) n
    then add parts ("Shared device with " +:+ py_str acc_cnt +:+ " other accounts")
    else parts in
  let parts :=
    if truthy (get device "new_device_flag")
    then add parts "Transaction from a new/unseen device" else parts in
  let* masked := get_gt device "cap_mask_anomaly" 0 in
  let parts :=
    if masked then add parts "Device capability mask changed unexpectedly" else parts in
  let parts :=
    if truthy (get device "new_device_high_mpin")
    then add parts "New device + high amount + MPIN authentication" else parts in
  let parts :=
    if truthy (get device "device_multi_user_flag")
    then add parts ("SIM-swap: " +:+ py_str (get_or device "device_multi_user_count" (PyInt 0))
                    +:+ " users on same device in 24h")
    else parts in
  (* behavioural *)
  let parts :=
    if truthy (get behav "impossible_travel")
    then add parts "Impossible travel detected between consecutive transactions"
    else parts in
  let* outlier := get_gt behav "amount_zscore" 3 in
  let* parts :=
    if outlier then
      let* v := item behav "amount_zscore" in
      let* z := fmt_f 1 v in
      Ok (add parts ("Amount z-score " +:+ z +:+ "x above user baseline"))
    else Ok parts in
  let parts :=
    if truthy (get behav "is_night")
    then add parts "Unusual night-time transaction" else parts in
  let* risky_asn := get_ge behav "asn_risk" 0.5 in
  let parts :=
    if risky_asn then
      let asn_class := get_or behav "asn_class" (PyStr "UNKNOWN") in
      let asn_country := get_or behav "asn_country" (PyStr "") in
      add parts ("High ASN risk: " +:+ py_str asn_class +:+ " network (country: "
                 +:+ py_str asn_country +:+ ")")
    else parts in
  let parts :=
    if truthy (get behav "foreign_flag")
    then add parts ("Foreign IP origin: " +:+ py_str (get_or behav "asn_country" (PyStr "?")))
    else parts in
  let parts :=
    if truthy (get behav "asn_drift")
    then add parts "ASN drift: unusual network for this user" else parts in
  let parts :=
    if truthy (get behav "ip_rotation_flag")
    then add parts ("IP rotation: " +:+ py_str (get_or behav "ip_rotation_count" (PyInt 0))
                    +:+ " unique IPs in 24h")
    else parts in
  let parts :=
    if truthy (get behav "fixed_amount_flag")
    then add parts "Fixed-amount pattern: repeated identical transfers" else parts in
  let parts :=
    if truthy (get behav "circadian_anomaly")
    then add parts "Circadian anomaly: transaction at unusual hour for this user"
    else parts in
  let parts :=
    if truthy (get behav "tx_identicality_flag")
    then add parts ("TX identicality: "
                    +:+ py_str (get_or behav "tx_identicality_count" (PyInt 0))
                    +:+ " identical-amount transfers to same receiver")
    else parts in
  (* velocity *)
  let* fast := get_gt vel "tx_per_min" 5 in
  let* parts :=
    if fast then
      let* v := item vel "tx_per_min" in
      let* t := fmt_f 1 v in
      Ok (add parts ("Velocity: " +:+ t +:+ " tx/min in last window"))
    else Ok parts in
  let* relay := get_gt vel "outflow_inflow_ratio" (PASS_THROUGH_RATIO_THRESHOLD settings) in
  let parts := if relay then add parts "Rapid fund relay pattern" else parts in
  Ok parts.

(** The end of [_build_reason], from [if not parts:]. *)
Definition finish_reason (parts : list string) (fused : Q) : string :=
  match parts with
  | [] =>
      if Qleb (HIGH_RISK_THRESHOLD settings) fused
      then str_join ". " (add parts "Multiple minor indicators combined above threshold") +:+ "."
      else "No significant risk indicators"
  | _ => str_join ". " parts +:+ "."
  end.

Definition _build_reason (behav dead device graph vel : Dict) (fused : Q)
    (flags : list string) : result string :=
  let* parts := reason_parts behav dead device graph vel in
  Ok (finish_reason parts fused).

(** ** Scoring *)

(** Step 2: the five sub-scores, in the order graph, behavioural, device,
    dead account, velocity. *)
Definition sub_scores (behav dead device graph vel : Dict) : result (Q * Q * Q * Q * Q) :=
  let* s_behavioral := num (get_or behav "risk" (PyInt 0)) in
  let* s_dead := num (get_or dead "risk" (PyInt 0)) in
  let* s_device := num (get_or device "risk" (PyInt 0)) in
  let* s_graph := num (get_or graph "risk" (PyInt 0)) in
  let* s_velocity := num (get_or vel "risk" (PyInt 0)) in
  Ok (s_graph, s_behavioral, s_device, s_dead, s_velocity).

(** Step 2b: the circadian and new-device compound boost. *)
Definition compound_boost (behav device : Dict) (s_behavioral : Q) : Q :=
  if truthy (get behav "circadian_anomaly") && truthy (get device "new_device_flag") then
    let circadian_boost :=
      (CIRCADIAN_NEW_DEVICE_PENALTY settings - CIRCADIAN_ANOMALY_PENALTY settings)%Q in
    py_min (s_behavioral + circadian_boost) 100.0
  else s_behavioral.

(** Step 3: weighted fusion. *)
Definition fuse (s_graph s_behavioral s_device s_dead s_velocity : Q) : Q :=
  let fused :=
    (WEIGHT_GRAPH settings * s_graph
     + WEIGHT_BEHAVIORAL settings * s_behavioral
     + WEIGHT_DEVICE settings * s_device
     + WEIGHT_DEAD_ACCOUNT settings * s_dead
     + WEIGHT_VELOCITY settings * s_velocity)%Q in
  py_min fused 100.0.

(** Step 4: risk level. *)
Definition level_of (fused : Q) : RiskLevel :=
  if Qleb (HIGH_RISK_THRESHOLD settings) fused then HIGH
  else if Qleb (MEDIUM_RISK_THRESHOLD settings) fused then MEDIUM
  else LOW.

(** Step 8: the status that the engine itself writes. *)
Definition persisted_status (risk_level : RiskLevel) : TransactionStatus :=
  match risk_level with
  | HIGH | CRITICAL => FLAGGED
  | _ => COMPLETED
  end.

Definition opt_float (o : option Q) : PyVal :=
  match o with Some q => PyFloat q | None => PyNone end.
Definition opt_str (o : option string) : PyVal :=
  match o with Some s => PyStr s | None => PyNone end.

(** Step 5: flags of the extractors, of the cache and of the mule classifier,
    without duplicates. *)
Definition collect_flags (self : Engine) (tx : TransactionInput)
    (behav dead device graph vel : Dict) (fused : Q) : result (list string) :=
  let* f1 := as_list (get_or behav "flags" (PyList [])) in
  let* f2 := as_list (get_or dead "flags" (PyList [])) in
  let* f3 := as_list (get_or device "flags" (PyList [])) in
  let* f4 := as_list (get_or graph "flags" (PyList [])) in
  let* f5 := as_list (get_or vel "flags" (PyList [])) in
  let flags := f1 ++ f2 ++ f3 ++ f4 ++ f5 in
  let flags :=
    match collusive_detector self with
    | Some detector => flags ++ get_user_flags detector (sender_id tx)
    | None => flags
    end in
  let* mule := evaluate behav dead device graph vel fused in
  let flags :=
    if is_mule mule then
      (flags ++ ["MULE SUSPECTED (confidence=" +:+ format_percent0 (confidence mule) +:+ ")"])
      ++ reasons mule
    else flags in
  Ok (fromkeys_list flags).

Definition cluster_of (self : Engine) (tx : TransactionInput) (graph : Dict) : PyVal :=
  let cluster_id := get graph "community_id" in
  match collusive_detector self with
  | Some detector =>
      if negb (truthy cluster_id)
      then opt_str (get_user_cluster_id detector (sender_id tx))
      else cluster_id
  | None => cluster_id
  end.

(** [RiskEngine.score_transaction]. *)
Definition score_transaction (self : Engine) (tx : TransactionInput) : M RiskResponse :=
  let! t0 := perf_counter in
  (* 1. the five extractors *)
  let! behav :=
    lift (behavioral self (sender_id tx) (amount tx) (timestamp tx)
            (sender_lat tx) (sender_lon tx) (ip_address tx) (Some (receiver_id tx)) false) in
  let! dead := lift (dead_account self (sender_id tx) (amount tx)) in
  let! device :=
    lift (device_risk self (device_id tx) (sender_id tx) (amount tx) (app_version tx)
            (capability_mask tx) (device_os tx)
            (option_map CredentialType_value (credential_type tx))
            (option_map CredentialSubType_value (credential_sub_type tx))) in
  let! graph := lift (graph_intel self (sender_id tx)) in
  let! vel := lift (velocity self (sender_id tx) (amount tx)) in
  (* 2. sub-scores, 2b. compound boost *)
  let! '(s_graph, s_behavioral, s_device, s_dead, s_velocity) :=
    lift (sub_scores behav dead device graph vel) in
  let s_behavioral := compound_boost behav device s_behavioral in
  (* 3. weighted fusion, 4. risk level *)
  let fused := fuse s_graph s_behavioral s_device s_dead s_velocity in
  let risk_level := level_of fused in
  (* 5. flags, cluster id *)
  let! flags := lift (collect_flags self tx behav dead device graph vel fused) in
  let cluster_id := cluster_of self tx graph in
  (* 6. explainability reason *)
  let! reason := lift (_build_reason behav dead device graph vel fused flags) in
  (* 7. breakdown *)
  let! breakdown :=
    lift (make_RiskBreakdown (py_round s_graph 2) (py_round s_behavioral 2)
            (py_round s_device 2) (py_round s_dead 2) (py_round s_velocity 2)) in
  let! t1 := perf_counter in
  let elapsed_ms := ((t1 - t0) * 1000)%Q in
  (* 8. write the risk back *)
  let status := persisted_status risk_level in
  let! _ :=
    try_except
      (let! _ :=
         write_async UPDATE_TX_RISK
           (list_to_map
              [("tx_id", PyStr (tx_id tx));
               ("risk_score", PyFloat (py_round fused 2));
               ("status", PyStr (TransactionStatus_value status));
               ("reason", PyStr reason);
               ("sender_lat", opt_float (sender_lat tx));
               ("sender_lon", opt_float (sender_lon tx))]) in
       write_async UPDATE_USER_RISK
         (list_to_map
            [("user_id", PyStr (sender_id tx));
             ("risk_score", PyFloat (py_round fused 2))]))
      (fun exc => log_record WARNING ("Failed to persist risk score: " +:+ exc)) in
  lift (make_RiskResponse (tx_id tx) (py_round fused 2) risk_level breakdown cluster_id
          flags reason (py_round elapsed_ms 2) (timestamp tx)).

(** [RiskEngine.__init__]: the behavioural extractor over the graph store,
    the four other extractors as they are handed in, no cache yet. *)
Definition init (lib : MathLib) (adb : AsnDatabase) (neo4j : Neo4jReads)
    (dead_account : string -> Q -> result Dict)
    (device_risk :
       string -> string -> Q -> option string -> option string -> option string ->
       option string -> option string -> result Dict)
    (graph_intel : string -> result Dict)
    (velocity : string -> Q -> result Dict) : Engine :=
  {| behavioral := Behavioral.compute settings lib adb neo4j;
     dead_account := dead_account;
     device_risk := device_risk;
     graph_intel := graph_intel;
     velocity := velocity;
     collusive_detector := None |}.

Definition set_collusive_detector (self : Engine) (detector : CollusiveFraudDetector)
    : Engine :=
  {| behavioral := behavioral self;
     dead_account := dead_account self;
     device_risk := device_risk self;
     graph_intel := graph_intel self;
     velocity := velocity self;
     collusive_detector := Some detector |}.

End WithSettings.

End RiskEngine.

(* ================================================================== *)
(** * Message payloads *)
(* ================================================================== *)

Module Payload.

(** Decoding and validation are done by [bytes.decode], [json] and the
    pydantic model [TransactionInput]; each returns or raises. *)
Record Codec : Type := {
  bytes_decode : string -> result string;
  json_loads : string -> result Json;
  json_dumps : Json -> result string;
  (** the model constructor applied to the fields of [tx_data] *)
  parse_TransactionInput : Json -> result TransactionInput
}.

Fixpoint fields_get {V} (k : string) (l : list (string * V)) : option V :=
  match l with
  | [] => None
  | (k', v) :: l' => if String.eqb k k' then Some v else fields_get k l'
  end.

Fixpoint fields_remove {V} (k : string) (l : list (string * V)) : list (string * V) :=
  match l with
  | [] => []
  | (k', v) :: l' => if String.eqb k k' then fields_remove k l' else (k', v) :: fields_remove k l'
  end.

(** [d[k] = v]. *)
Definition fields_set {V} (k : string) (v : V) (l : list (string * V)) : list (string * V) :=
  match fields_get k l with
  | Some _ => map (fun kv => if String.eqb k (fst kv) then (k, v) else kv) l
  | None => l ++ [(k, v)]
  end.

Section WithCodec.
Variable codec : Codec.

(** The dictionary comprehension that decodes the hash fields. *)
Fixpoint decode_fields (data : StreamEntry) : result (list (string * string)) :=
  match data with
  | [] => Ok []
  | (k, v) :: data' =>
      let* k' := bytes_decode codec k in
      let* v' := bytes_decode codec v in
      let* rest := decode_fields data' in
      Ok (fields_set k' v' rest)
  end.

(** [json.loads(decoded["payload"])] when there is a payload field, the
    decoded hash itself otherwise. *)
Definition tx_data_of (decoded : list (string * string)) : result Json :=
  match fields_get "payload" decoded with
  | Some payload => json_loads codec payload
  | None => Ok (JObj (map (fun kv => (fst kv, JStr (snd kv))) decoded))
  end.

(** [tx_data.pop("_meta", {}) if isinstance(tx_data, dict) else {}]: the
    metadata and what is left of [tx_data]. *)
Definition pop_meta (tx_data : Json) : Json * Json :=
  match tx_data with
  | JObj fields =>
      (default (JObj []) (fields_get "_meta" fields), JObj (fields_remove "_meta" fields))
  | _ => (JObj [], tx_data)
  end.

End WithCodec.

End Payload.

Export Payload.

(* ================================================================== *)
(** * Worker pool ([app/core/worker_pool.py]) *)
(* ================================================================== *)

Module WorkerPool.

Import RiskEngine.

Definition _MAX_RETRIES : nat := 3.
Definition _BASE_BACKOFF_SEC : Q := 0.02.

(** What a worker holds besides its counters. *)
Record Pool : Type := {
  risk_engine : Engine;
  alert_callback : bool
}.

(** [random.uniform(a, b)] and [random.choice(seq)]. *)
Definition random_uniform (a b : Q) : M Q :=
  let! u := random in ret (a + (b - a) * u)%Q.

Definition random_choice {A} (first : A) (others : list A) : M A :=
  let! u := random in
  let i := Z.to_nat (Qfloor (u * inject_Z (Z.of_nat (S (length others))))) in
  ret (nth i (first :: others) first).

(** [await asyncio.sleep(backoff)]: time passes, nothing else changes. *)
Definition sleep (backoff : Q) : M unit := ret tt.

Definition set_deadlock_retries (n : Z) : M unit :=
  fun w =>
    (Ok tt, with_pool w {| processed_count := processed_count (pool w);
                           pool_total_latency_ms := pool_total_latency_ms (pool w);
                           deadlock_retries := n;
                           ingest_errors := ingest_errors (pool w) |}).

Definition set_ingest_errors (n : Z) : M unit :=
  fun w =>
    (Ok tt, with_pool w {| processed_count := processed_count (pool w);
                           pool_total_latency_ms := pool_total_latency_ms (pool w);
                           deadlock_retries := deadlock_retries (pool w);
                           ingest_errors := n |}).

Definition set_processed (n : Z) (latency : Q) : M unit :=
  fun w =>
    (Ok tt, with_pool w {| processed_count := n;
                           pool_total_latency_ms := latency;
                           deadlock_retries := deadlock_retries (pool w);
                           ingest_errors := ingest_errors (pool w) |}).

Definition get_pool : M PoolMetrics := fun w => (Ok (pool w), w).

Section WithEnv.
Variable settings : Settings.
Variable lib : MathLib.
Variable adb : AsnDatabase.
Variable codec : Codec.

(** The [a] of the haversine formula. *)
Definition haversine_a (lat1 lon1 lat2 lon2 : Q) : Q :=
  let rlat1 := math_radians lib lat1 in
  let rlat2 := math_radians lib lat2 in
  let dlat := math_radians lib (lat2 - lat1) in
  let dlon := math_radians lib (lon2 - lon1) in
  (math_sin lib (dlat / 2) ^ 2
   + math_cos lib rlat1 * math_cos lib rlat2 * math_sin lib (dlon / 2) ^ 2)%Q.

(** [_haversine]: a [ValueError] of either square root leaves it. *)
Definition _haversine (lat1 lon1 lat2 lon2 : Q) : result Q :=
  let R := 6371.0%Q in
  let a := haversine_a lat1 lon1 lat2 lon2 in
  let* root_a := sqrt lib a in
  let* root_1_a := sqrt lib (1 - a) in
  Ok (R * 2 * math_atan2 lib root_a root_1_a)%Q.

Definition nonzero (x : Q) : bool := negb (Qeq_bool x 0).

Definition _build_geo_evidence (dev_lat dev_lon ip_lat ip_lon : Q) (ip_city : string)
    : M GeoEvidence :=
  let! dist :=
    if nonzero dev_lat && nonzero dev_lon && nonzero ip_lat && nonzero ip_lon
    then let! d := lift (_haversine dev_lat dev_lon ip_lat ip_lon) in ret (py_round d 1)
    else ret 0.0%Q in
  let! time_min :=
    if Qltb 500 dist then random_uniform 3 10
    else if Qltb 100 dist then random_uniform 10 30
    else ret 30.0%Q in
  let time_min := py_round time_min 1 in
  let speed :=
    if Qltb 0 time_min then py_round (dist / (time_min / 60)) 1 else 0.0%Q in
  ret {| deviceGeo := {| gp_city := ""; gp_lat := dev_lat; gp_lng := dev_lon |};
         ipGeo := {| gp_city := ip_city; gp_lat := ip_lat; gp_lng := ip_lon |};
         distanceKm := dist;
         timeDeltaMin := if nonzero dist then time_min else 0;
         speedKmh := speed;
         isImpossible := Qltb 250 speed |}.

(** ** Deadlock-safe write *)

(** The [for attempt in range(_MAX_RETRIES)] loop; [fallback] is the call
    made when the lock-free statement finds no node. *)
Fixpoint ingest_attempts (fallback : option (M unit)) (query : Cypher) (params : Dict)
    (attempt remaining : nat) : M unit :=
  match remaining with
  | O => ret tt
  | S remaining' =>
      try_except (write_async query params)
        (fun exc =>
           let err_str := str_lower exc in
           let is_transient :=
             str_contains "deadlock" err_str || str_contains "transient" err_str in
           let is_not_found :=
             str_contains "not found" err_str || str_contains "no node" err_str in
           let is_constraint := str_contains "constraint" err_str in
           match fallback, is_not_found with
           | Some safe_ingest, true =>
               let! _ := log_record DEBUG "User not pre-seeded, falling back to SAFE ingest" in
               safe_ingest
           | _, _ =>
               if is_constraint && (S attempt <? _MAX_RETRIES)%nat then
                 let! jitter := random_uniform 0 0.01 in
                 let backoff := (_BASE_BACKOFF_SEC * inject_Z (2 ^ Z.of_nat attempt) + jitter)%Q in
                 let! _ := log_record DEBUG "Constraint race, retrying" in
                 let! _ := sleep backoff in
                 ingest_attempts fallback query params (S attempt) remaining'
               else if is_constraint then
                 log_record DEBUG "Constraint after retries, skipping"
               else if is_transient && (S attempt <? _MAX_RETRIES)%nat then
                 let! jitter := random_uniform 0 0.01 in
                 let backoff := (_BASE_BACKOFF_SEC * inject_Z (2 ^ Z.of_nat attempt) + jitter)%Q in
                 let! p := get_pool in
                 let! _ := set_deadlock_retries (deadlock_retries p + 1) in
                 let! _ := log_record DEBUG "Deadlock retry" in
                 let! _ := sleep backoff in
                 ingest_attempts fallback query params (S attempt) remaining'
               else raise exc
           end)
  end.

(** [WorkerPool._ingest_with_retry]: only the lock-free statement falls
    back to the safe one. *)
Definition _ingest_with_retry (query : Cypher) (params : Dict) : M unit :=
  let fallback :=
    if Cypher_eqb query INGEST_TRANSACTION
    then Some (ingest_attempts None INGEST_TRANSACTION_SAFE params 0 _MAX_RETRIES)
    else None in
  ingest_attempts fallback query params 0 _MAX_RETRIES.

(** ** The per-message pipeline *)

Definition ingest_params_of (tx : TransactionInput) : Dict :=
  list_to_map
    [("sender_id", PyStr (sender_id tx));
     ("receiver_id", PyStr (receiver_id tx));
     ("sender_upi_id", opt_str (upi_id_sender tx));
     ("receiver_upi_id", opt_str (upi_id_receiver tx));
     ("device_id", PyStr (device_id tx));
     ("device_os", opt_str (device_os tx));
     ("device_type", PyStr (DeviceType_value (device_type tx)));
     ("app_version", opt_str (app_version tx));
     ("capability_mask", opt_str (capability_mask tx));
     ("tx_id", PyStr (tx_id tx));
     ("amount", PyFloat (amount tx));
     ("timestamp", PyStr (isoformat (timestamp tx)));
     ("currency", PyStr (currency tx));
     ("txn_type", PyStr (TxnType_value (txn_type tx)));
     ("credential_type", opt_str (option_map CredentialType_value (credential_type tx)));
     ("credential_sub_type",
      opt_str (option_map CredentialSubType_value (credential_sub_type tx)));
     ("receiver_type", PyStr (ReceiverType_value (receiver_type tx)));
     ("mcc_code", opt_str (mcc_code tx))].

(** [s or None]. *)
Definition str_or_none (s : string) : PyVal := if String.eqb s "" then PyNone else PyStr s.

Definition _gateways : list (Q * Q * string) :=
  [(51.5074, -0.1278, "London"); (55.7558, 37.6173, "Moscow"); (25.2048, 55.2708, "Dubai");
   (1.3521, 103.8198, "Singapore"); (40.7128, -74.0060, "New York")]%Q.

Definition _regions : list (Q * Q * string) :=
  [(19.0760, 72.8777, "Mumbai"); (28.7041, 77.1025, "Delhi"); (13.0827, 80.2707, "Chennai");
   (22.5726, 88.3639, "Kolkata"); (17.3850, 78.4867, "Hyderabad")]%Q.

Definition member (s : string) (l : list string) : bool := existsb (String.eqb s) l.

(** Step 1b: IP intelligence write; the result is
    [(ip_geo_lat, ip_geo_lon, ip_city)]. *)
Definition enrich_ip (tx : TransactionInput) : M (Q * Q * string) :=
  match ip_address tx with
  | None => ret (0.0%Q, 0.0%Q, "")
  | Some ip =>
      if String.eqb ip "" then ret (0.0%Q, 0.0%Q, "")
      else
        let asn_info := resolve adb ip in
        let _dev_lat := match sender_lat tx with
                        | Some x => if nonzero x then x else 0.0%Q
                        | None => 0.0%Q
                        end in
        let _dev_lon := match sender_lon tx with
                        | Some x => if nonzero x then x else 0.0%Q
                        | None => 0.0%Q
                        end in
        let _asn_class := str_upper (asn_class asn_info) in
        let _is_foreign := member _asn_class ["FOREIGN"; "HOSTING"; "SATELLITE"] in
        let _is_cloud := member _asn_class ["INDIAN_CLOUD"; "CLOUD"] in
        let located := nonzero _dev_lat || nonzero _dev_lon in
        let! '(ip_geo_lat, ip_geo_lon, ip_city) :=
          if _is_foreign && located then
            let! '(gw_lat, gw_lon, gw_city) :=
              random_choice (51.5074%Q, (-0.1278)%Q, "London") (tail _gateways) in
            let! dlat := random_uniform (-0.1) 0.1 in
            let! dlon := random_uniform (-0.1) 0.1 in
            ret ((gw_lat + dlat)%Q, (gw_lon + dlon)%Q, gw_city)
          else if _is_cloud && located then
            let! '(gw_lat, gw_lon, gw_city) :=
              random_choice (19.0760%Q, 72.8777%Q, "Mumbai") (tail _regions) in
            let! dlat := random_uniform (-0.5) 0.5 in
            let! dlon := random_uniform (-0.5) 0.5 in
            ret ((gw_lat + dlat)%Q, (gw_lon + dlon)%Q, gw_city)
          else if located then
            let! dlat := random_uniform (-0.3) 0.3 in
            let! dlon := random_uniform (-0.3) 0.3 in
            ret ((_dev_lat + dlat)%Q, (_dev_lon + dlon)%Q, "")
          else ret (0.0%Q, 0.0%Q, "") in
        let ip_city :=
          if String.eqb ip_city "" then
            if valid asn_info then String.substring 0 30 (info_org_name asn_info) else ""
          else ip_city in
        let! _ :=
          write_async INGEST_IP
            (list_to_map
               [("ip_address", PyStr ip);
                ("geo_lat", PyFloat ip_geo_lat);
                ("geo_lon", PyFloat ip_geo_lon);
                ("is_vpn", PyBool false);
                ("city", str_or_none ip_city);
                ("country", str_or_none (country asn_info));
                ("asn", if (asn asn_info =? 0)%Z then PyNone else PyInt (asn asn_info));
                ("asn_type", str_or_none (asn_class asn_info));
                ("asn_org", str_or_none (info_org_name asn_info));
                ("asn_country", str_or_none (country asn_info));
                ("user_id", PyStr (sender_id tx))]) in
        ret (ip_geo_lat, ip_geo_lon, ip_city)
  end.

(** Step 2b: the status of the write-back and of the alert. *)
Definition tx_status_of (risk_score : Q) : string :=
  if Qleb (HIGH_RISK_THRESHOLD settings) risk_score then "BLOCKED"
  else if Qleb (MEDIUM_RISK_THRESHOLD settings) risk_score then "FLAGGED"
  else "COMPLETED".

(** [_meta.get(key) or fallback]. *)
Definition meta_name (_meta : Json) (key fallback : string) : result Json :=
  match _meta with
  | JObj fields =>
      match fields_get key fields with
      | Some j => Ok (if json_truthy j then j else JStr fallback)
      | None => Ok (JStr fallback)
      end
  | _ => Raise "AttributeError"
  end.

Definition or_default (o : option string) (fallback : string) : string :=
  match o with
  | Some s => if String.eqb s "" then fallback else s
  | None => fallback
  end.

Definition or_zero (o : option Q) : Q :=
  match o with Some q => q | None => 0%Q end.

(** Step 3: the dictionary for the dashboard. *)
Definition enriched_of (tx : TransactionInput) (_meta : Json) (tx_status : string)
    (risk_response : RiskResponse) (ip_geo_lat ip_geo_lon : Q) (ip_city : string)
    : M Alert :=
  let! sender_name := lift (meta_name _meta "sender_name" (sender_id tx)) in
  let! receiver_name := lift (meta_name _meta "receiver_name" (receiver_id tx)) in
  let! geo :=
    _build_geo_evidence (or_zero (sender_lat tx)) (or_zero (sender_lon tx))
      ip_geo_lat ip_geo_lon ip_city in
  let b := breakdown risk_response in
  ret {| alert_id := tx_id tx;
         alert_timestamp := isoformat (timestamp tx);
         senderName := sender_name;
         senderUPI := or_default (upi_id_sender tx) (sender_id tx +:+ "@upi");
         receiverName := receiver_name;
         receiverUPI := or_default (upi_id_receiver tx) (receiver_id tx +:+ "@upi");
         alert_amount := amount tx;
         alert_status := tx_status;
         riskScore := risk_score risk_response;
         latencyMs := processing_time_ms risk_response;
         senderIP := or_default (ip_address tx) "";
         deviceId := device_id tx;
         alert_city := "";
         features :=
           [("graph", rb_graph b); ("behavioral", rb_behavioral b);
            ("device", rb_device b); ("deadAccount", rb_dead_account b);
            ("velocity", rb_velocity b)];
         triggeredRules :=
           map (fun f => {| severity := "WARNING"; rule := f; detail := ""; scoreImpact := 0 |})
               (firstn 5 (resp_flags risk_response));
         geoEvidence := geo;
         behavioralSignature :=
           [("amountEntropy", 50); ("fanInRatio", 25); ("temporalAlignment", 80);
            ("deviceAging", 85); ("networkDiversity", 20);
            ("velocityBurst", py_min (rb_velocity b) 100);
            ("circadianBitmask", 80); ("ispConsistency", 85)]%Q;
         semanticAlert := reason risk_response |}.

(** The body of the [try] statement of [_process_message]. *)
Definition process_body (self : Pool) (worker_name msg_id : string) (data : StreamEntry)
    (t0 : Q) : M unit :=
  (* decode and parse *)
  let! decoded := lift (decode_fields codec data) in
  let! tx_data := lift (tx_data_of codec decoded) in
  let '(_meta, tx_data) := pop_meta tx_data in
  let! tx := lift (parse_TransactionInput codec tx_data) in
  (* step 1: ingest *)
  let! _ := _ingest_with_retry INGEST_TRANSACTION (ingest_params_of tx) in
  (* step 1b: IP intelligence *)
  let! '(ip_geo_lat, ip_geo_lon, ip_city) := enrich_ip tx in
  (* step 2: score *)
  let! risk_response := score_transaction settings (risk_engine self) tx in
  (* step 2b: write-back *)
  let tx_status := tx_status_of (risk_score risk_response) in
  let! _ :=
    try_except
      (write_async UPDATE_TX_RISK
         (list_to_map
            [("tx_id", PyStr (tx_id tx));
             ("risk_score", PyFloat (risk_score risk_response));
             ("status", PyStr tx_status);
             ("reason", PyStr (reason risk_response));
             ("sender_lat", PyFloat (or_zero (sender_lat tx)));
             ("sender_lon", PyFloat (or_zero (sender_lon tx)))]))
      (fun exc =>
         log_record WARNING
           ("Failed to write-back risk for " +:+ tx_id tx +:+ ": " +:+ exc)) in
  (* step 3: alert *)
  let! _ :=
    if alert_callback self then
      let! enriched :=
        enriched_of tx _meta tx_status risk_response ip_geo_lat ip_geo_lon ip_city in
      send_alert enriched
    else ret tt in
  (* step 4: acknowledge *)
  let! _ := xack (REDIS_STREAM_KEY settings) (REDIS_CONSUMER_GROUP settings) msg_id in
  let! t1 := perf_counter in
  let elapsed_ms := ((t1 - t0) * 1000)%Q in
  let! p := get_pool in
  let! _ := set_processed (processed_count p + 1) (pool_total_latency_ms p + elapsed_ms) in
  let! _ :=
    if (processed_count p + 1 =? 1)%Z
    then log_record INFO ("First transaction processed: tx_id=" +:+ tx_id tx)
    else ret tt in
  if ((processed_count p + 1) mod 50 =? 0)%Z
  then log_record INFO (worker_name +:+ " | processed=" +:+ pretty (processed_count p + 1)%Z)
  else ret tt.

(** [WorkerPool._process_message]. *)
Definition _process_message (self : Pool) (worker_name msg_id : string) (data : StreamEntry)
    : M unit :=
  let! t0 := perf_counter in
  try_except (process_body self worker_name msg_id data t0)
    (fun exc =>
       let! p := get_pool in
       let! _ := set_ingest_errors (ingest_errors p + 1) in
       log_record ERROR ("Failed to process msg " +:+ msg_id +:+ ": " +:+ exc)).

End WithEnv.

End WorkerPool.

(* ================================================================== *)
(** * Stream adapter ([app/streaming/redis_stream.py], [stream_adapter.py]) *)
(* ================================================================== *)

Module StreamAdapter.

Definition get_adapter : M AdapterMetrics := fun w => (Ok (adapter w), w).

Definition set_validation_errors (n : Z) : M unit :=
  fun w =>
    (Ok tt, with_adapter w {| forwarded := forwarded (adapter w);
                              validation_errors := n;
                              adapter_total_latency_ms :=
                                adapter_total_latency_ms (adapter w) |}).

Definition set_forwarded (n : Z) (latency : Q) : M unit :=
  fun w =>
    (Ok tt, with_adapter w {| forwarded := n;
                              validation_errors := validation_errors (adapter w);
                              adapter_total_latency_ms := latency |}).

Section WithEnv.
Variable settings : Settings.
Variable codec : Codec.

(** [publish_to_fraud_queue(redis, tx_data)]. *)
Definition publish_to_fraud_queue (tx_data : Json) : M unit :=
  let! payload := lift (json_dumps codec tx_data) in
  xadd (REDIS_STREAM_KEY settings) [("payload", payload)].

(** [clean_data["_meta"] = meta]. *)
Definition carry_meta (tx_data meta : Json) : Json :=
  if json_truthy meta then
    match tx_data with
    | JObj fields => JObj (fields_set "_meta" meta fields)
    | _ => tx_data
    end
  else tx_data.

(** The body of the outer [try] statement of [_handle_message]. *)
Definition handle_body (worker msg_id : string) (data : StreamEntry) (t0 : Q) : M unit :=
  let stream := REDIS_UPI_STREAM_KEY settings in
  let group := REDIS_UPI_CONSUMER_GROUP settings in
  (* 1. decode the raw hash *)
  let! decoded := lift (decode_fields codec data) in
  let! tx_data := lift (tx_data_of codec decoded) in
  (* 2. adapter-level metadata *)
  let '(meta, tx_data) := pop_meta tx_data in
  (* 3. validate against the schema; [None] stands for the early return *)
  let! validated :=
    try_except
      (let! tx := lift (parse_TransactionInput codec tx_data) in ret (Some tx))
      (fun val_err =>
         let! a := get_adapter in
         let! _ := set_validation_errors (validation_errors a + 1) in
         let! _ :=
           log_record WARNING
             ("Validation failed for msg " +:+ msg_id +:+ ": " +:+ val_err) in
         let! _ := xack stream group msg_id in
         ret None) in
  match validated with
  | None => ret tt
  | Some tx =>
      (* 4. the payload that is carried forward *)
      let clean_data := carry_meta tx_data meta in
      (* 5. publish *)
      let! _ := publish_to_fraud_queue clean_data in
      (* 6. acknowledge on the raw log *)
      let! _ := xack stream group msg_id in
      let! t1 := perf_counter in
      let elapsed_ms := ((t1 - t0) * 1000)%Q in
      let! a := get_adapter in
      let! _ := set_forwarded (forwarded a + 1) (adapter_total_latency_ms a + elapsed_ms) in
      let! _ :=
        if (forwarded a + 1 =? 1)%Z
        then log_record INFO ("First message forwarded: tx_id=" +:+ tx_id tx)
        else ret tt in
      if ((forwarded a + 1) mod 100 =? 0)%Z
      then log_record INFO (worker +:+ " | forwarded=" +:+ pretty (forwarded a + 1)%Z)
      else ret tt
  end.

(** [StreamAdapter._handle_message]. *)
Definition _handle_message (worker msg_id : string) (data : StreamEntry) : M unit :=
  let! t0 := perf_counter in
  try_except (handle_body worker msg_id data t0)
    (fun exc =>
       let! a := get_adapter in
       let! _ := set_validation_errors (validation_errors a + 1) in
       let! _ :=
         log_record ERROR (worker +:+ " failed to process msg " +:+ msg_id +:+ ": " +:+ exc) in
       try_except
         (xack (REDIS_UPI_STREAM_KEY settings) (REDIS_UPI_CONSUMER_GROUP settings) msg_id)
         (fun _ => ret tt)).

End WithEnv.

End StreamAdapter.

(* ================================================================== *)
(** * Reads of the four other extractors ([app/utils/cypher_queries.py]) *)
(* ================================================================== *)

Module FeatureStore.

(** One record per query, with the columns that the extractors read; a
    column that may be [null] is an [option]. *)
Record VelocityRow : Type := {
  vr_send_count : option Z;
  vr_receive_count : option Z;
  vr_total_sent_window : option Q;
  vr_total_received_window : option Q;
  vr_outflow_inflow_ratio : option Q;
  vr_total_activity : option Z
}.

Record GraphFeaturesRow : Type := {
  gf_in_degree : option Z;
  gf_out_degree : option Z;
  gf_betweenness : option Q;
  gf_pagerank : option Q;
  gf_clustering_coeff : option Q;
  gf_community_id : option Z;
  gf_avg_neighbor_risk : option Q;
  gf_device_account_count : option Z
}.

Record CommunityStatsRow : Type := {
  cs_member_count : option Z;
  cs_avg_risk : option Q;
  cs_high_risk_count : option Z
}.

Record WakeupRow : Type := {
  wk_is_dormant : option bool;
  wk_is_first_strike : option bool;
  wk_is_volume_spike : option bool;
  (** the whole days of the duration, or the integer itself *)
  wk_days_slept : option Z;
  wk_tx_count : option Z;
  wk_avg_tx_amount : option Q;
  wk_recent_volume : option Q
}.

Record DormantStatusRow : Type := {
  ds_is_dormant : option bool;
  ds_last_active : option Stamp;
  ds_tx_count : option Z;
  ds_avg_tx_amount : option Q
}.

Record FlowRow : Type := { fl_recent_inflow : option Q; fl_recent_outflow : option Q }.

Record DeviceInfoRow : Type := {
  di_account_count : option Z;
  di_os : option string;
  di_capability_mask : option string
}.

Record DeviceHistoryRow : Type := { dh_device_id : option string }.

Record PropagationRow : Type := {
  pr_device_risk_score : option Q;
  pr_avg_user_risk : option Q;
  pr_max_user_risk : option Q
}.

Record DeviceUsersRow : Type := { du_unique_users_24h : option Z }.

(** [neo4j.read_async(QUERY, params)] for the queries of the velocity,
    graph, dead-account and device extractors. *)
Record FeatureReads : Type := {
  QUERY_VELOCITY_FEATURES (user_id : string) (window : Z) : result (list VelocityRow);
  QUERY_USER_GRAPH_FEATURES (user_id : string) : result (list GraphFeaturesRow);
  QUERY_COMMUNITY_STATS (community_id : Z) : result (list CommunityStatsRow);
  QUERY_DORMANT_WAKEUP (user_id : string) (dormant_days : Z) : result (list WakeupRow);
  QUERY_DORMANT_STATUS (user_id : string) : result (list DormantStatusRow);
  QUERY_RECENT_INFLOW_OUTFLOW (user_id : string) (window : Z) : result (list FlowRow);
  QUERY_DEVICE_INFO (device_id : string) : result (list DeviceInfoRow);
  QUERY_USER_DEVICE_HISTORY (user_id : string) : result (list DeviceHistoryRow);
  QUERY_DEVICE_RISK_PROPAGATION (device_id : string) : result (list PropagationRow);
  QUERY_DEVICE_USERS_24H (device_id : string) : result (list DeviceUsersRow)
}.

(** [round(x or 0, n)] on a float column: the integer [0] that replaces a
    missing or zero value stays an integer. *)
Definition round_or_0 (o : option Q) (n : nat) : PyVal :=
  match o with
  | Some q => if Qeq_bool q 0 then PyInt 0 else PyFloat (py_round q n)
  | None => PyInt 0
  end.

(** A boolean column as the dictionary value it becomes. *)
Definition opt_bool (o : option bool) : PyVal :=
  match o with Some b => PyBool b | None => PyNone end.

(** [a / b] with a divisor that the settings supply. *)
Definition py_div (a b : Q) : result Q :=
  if Qeq_bool b 0 then Raise "ZeroDivisionError: float division by zero"
  else Ok (a / b)%Q.

(** [if cond: flags.append(text)]. *)
Definition flag_if (b : bool) (text : string) : list string := if b then [text] else [].

(** Truth value of an [Optional[str]]. *)
Definition nonempty (o : option string) : bool :=
  match o with Some s => negb (String.eqb s "") | None => false end.

(** An [Optional[str]] as a dictionary value, and inside an f-string. *)
Definition str_or_None (o : option string) : PyVal :=
  match o with Some s => PyStr s | None => PyNone end.

End FeatureStore.

(* ================================================================== *)
(** * Velocity extractor ([app/features/velocity.py]) *)
(* ================================================================== *)

Module Velocity.

Import FeatureStore.
Local Open Scope Q_scope.

(** The local variables of [compute] when the window has a row;
    [risk_sum] is [risk] before the clamp. *)
Record Scores : Type := {
  send_count : Z;
  receive_count : Z;
  total_sent : Q;
  total_received : Q;
  total_activity : Z;
  burst_score : Q;
  pass_through_score : Q;
  tx_per_min : Q;
  velocity_component : Q;
  single_tx_ratio_score : Q;
  risk_sum : Q;
  risk : Q;
  flags : list string
}.

Section WithEnv.
Variable settings : Settings.
Variable neo4j : FeatureReads.

Definition scores (f : VelocityRow) (tx_amount : Q) : Scores :=
  let send_count := default 0%Z (vr_send_count f) in
  let receive_count := default 0%Z (vr_receive_count f) in
  let total_sent := default 0 (vr_total_sent_window f) in
  let total_received := default 0 (vr_total_received_window f) in
  let total_activity := default 0%Z (vr_total_activity f) in
  (* burst detection *)
  let burst_score :=
    if (BURST_TX_THRESHOLD settings <=? total_activity)%Z then 30.0
    else if (BURST_TX_THRESHOLD settings / 2 <=? total_activity)%Z then 15.0
    else 0.0 in
  (* pass-through *)
  let pass_through_score :=
    if Qltb 0 total_received then
      let ratio := total_sent / total_received in
      if Qltb (PASS_THROUGH_RATIO_THRESHOLD settings) ratio
      then py_min (ratio / 1.5) 1.0 * 35
      else if Qltb 0.5 ratio then 10.0
      else 0.0
    else 0.0 in
  (* transactions per minute *)
  let tx_per_min :=
    inject_Z total_activity / py_max (inject_Z (VELOCITY_WINDOW_SEC settings) / 60) 1 in
  let velocity_component := py_min (tx_per_min / 10) 1.0 * 20 in
  (* single transaction against the window *)
  let single_tx_ratio_score :=
    if Qltb 0 total_sent then
      let ratio := tx_amount / total_sent in
      if Qltb 0.8 ratio then 15.0 else 0.0
    else 0.0 in
  (* fuse *)
  let risk := burst_score + pass_through_score + velocity_component + single_tx_ratio_score in
  let flags :=
    flag_if (Qleb 30 burst_score) "Transaction Burst Detected"
    ++ flag_if (Qltb 25 pass_through_score) "Rapid Pass-Through Pattern"
    ++ flag_if (Qltb 5 tx_per_min)
         ("High Velocity: " +:+ format_fixed 1 tx_per_min +:+ " tx/min") in
  {| send_count := send_count; receive_count := receive_count;
     total_sent := total_sent; total_received := total_received;
     total_activity := total_activity;
     burst_score := burst_score; pass_through_score := pass_through_score;
     tx_per_min := tx_per_min; velocity_component := velocity_component;
     single_tx_ratio_score := single_tx_ratio_score;
     risk_sum := risk; risk := py_min risk 100.0; flags := flags |}.

Definition features_of (user_id : string) (f : VelocityRow) (s : Scores) : Dict :=
  list_to_map
    [("user_id", PyStr user_id);
     ("send_count", PyInt (send_count s));
     ("receive_count", PyInt (receive_count s));
     ("total_sent_window", round_or_0 (vr_total_sent_window f) 2);
     ("total_received_window", round_or_0 (vr_total_received_window f) 2);
     ("outflow_inflow_ratio", round_or_0 (vr_outflow_inflow_ratio f) 4);
     ("burst_score", PyFloat (py_round (burst_score s) 2));
     ("pass_through_score", PyFloat (py_round (pass_through_score s) 2));
     ("velocity_component", PyFloat (py_round (velocity_component s) 2));
     ("tx_per_min", PyFloat (py_round (tx_per_min s) 2));
     ("risk", PyFloat (py_round (risk s) 2));
     ("flags", PyList (flags s))].

(** What [compute] returns for a user with no row in the window. *)
Definition no_activity (user_id : string) : Dict :=
  list_to_map [("user_id", PyStr user_id); ("risk", PyFloat 0.0); ("flags", PyList [])].

(** [VelocityExtractor.compute]. *)
Definition compute (user_id : string) (tx_amount : Q) : result Dict :=
  let* rows := QUERY_VELOCITY_FEATURES neo4j user_id (VELOCITY_WINDOW_SEC settings) in
  match rows with
  | [] => Ok (no_activity user_id)
  | f :: _ => Ok (features_of user_id f (scores f tx_amount))
  end.

End WithEnv.

End Velocity.

(* ================================================================== *)
(** * Graph-intelligence extractor ([app/features/graph_intelligence.py]) *)
(* ================================================================== *)

Module GraphIntelligence.

Import FeatureStore.
Local Open Scope Q_scope.

(** The local variables of [compute] for a user that the graph knows;
    [risk_sum] is [risk] before the clamp. *)
Record Scores : Type := {
  in_degree : Z;
  out_degree : Z;
  betweenness : Q;
  pagerank : Q;
  clustering_coeff : Q;
  cluster_id_str : option string;
  avg_neighbor_risk : Q;
  community_risk : Q;
  centrality_score : Q;
  pagerank_score : Q;
  structural_score : Q;
  neighbor_contagion : Q;
  risk_sum : Q;
  risk : Q;
  flags : list string
}.

Section WithStore.
Variable neo4j : FeatureReads.

(** The community block: the read is guarded, and anything it raises leaves
    the community risk at zero. *)
Definition community_risk_of (community_id : option Z) : Q :=
  match community_id with
  | None => 0.0
  | Some cid =>
      match QUERY_COMMUNITY_STATS neo4j cid with
      | Ok (s :: _) =>
          let member_count := default 0%Z (cs_member_count s) in
          let avg_risk := default 0 (cs_avg_risk s) in
          let high_risk_count := default 0%Z (cs_high_risk_count s) in
          if (3 <=? member_count)%Z && Qltb 50 avg_risk then py_min avg_risk 100
          else if (2 <=? high_risk_count)%Z then 40.0
          else 0.0
      | Ok [] => 0.0
      | Raise _ => 0.0
      end
  end.

Definition scores (f : GraphFeaturesRow) : Scores :=
  let in_degree := default 0%Z (gf_in_degree f) in
  let out_degree := default 0%Z (gf_out_degree f) in
  let betweenness := default 0.0 (gf_betweenness f) in
  let pagerank := default 0.0 (gf_pagerank f) in
  let clustering_coeff := default 0.0 (gf_clustering_coeff f) in
  let community_id := gf_community_id f in
  let avg_neighbor_risk := default 0.0 (gf_avg_neighbor_risk f) in
  (* community risk *)
  let cluster_id_str := option_map (fun cid : Z => pretty cid) community_id in
  let community_risk := community_risk_of community_id in
  (* centrality and pagerank *)
  let centrality_score := py_min (betweenness * 200) 30 in
  let pagerank_score := py_min (pagerank * 500) 15 in
  (* structural anomaly *)
  let fan_out := (5 <=? out_degree)%Z && (in_degree <=? 2)%Z in
  let fan_in := (5 <=? in_degree)%Z && (out_degree <=? 2)%Z in
  let structural_score := 0.0 in
  let structural_score := if fan_out then structural_score + 15 else structural_score in
  let structural_score := if fan_in then structural_score + 15 else structural_score in
  let structural_score :=
    if Qltb 0.5 clustering_coeff && (4 <? in_degree + out_degree)%Z
    then structural_score + 10 else structural_score in
  (* neighbour contagion *)
  let neighbor_contagion := py_min (avg_neighbor_risk * 0.3) 15 in
  (* fuse *)
  let risk :=
    community_risk * 0.30 + centrality_score + pagerank_score
    + structural_score + neighbor_contagion in
  let flags :=
    flag_if (Qltb 0.05 betweenness) "High Betweenness Node (Money Router)"
    ++ flag_if (Qltb 50 community_risk)
         ("Member of High-Risk Cluster " +:+ py_str (str_or_None cluster_id_str))
    ++ flag_if fan_out "Fan-Out Hub (Distributor)"
    ++ flag_if fan_in "Fan-In Hub (Collector)" in
  {| in_degree := in_degree; out_degree := out_degree;
     betweenness := betweenness; pagerank := pagerank;
     clustering_coeff := clustering_coeff; cluster_id_str := cluster_id_str;
     avg_neighbor_risk := avg_neighbor_risk; community_risk := community_risk;
     centrality_score := centrality_score; pagerank_score := pagerank_score;
     structural_score := structural_score; neighbor_contagion := neighbor_contagion;
     risk_sum := risk; risk := py_min risk 100.0; flags := flags |}.

Definition features_of (user_id : string) (s : Scores) : Dict :=
  list_to_map
    [("user_id", PyStr user_id);
     ("in_degree", PyInt (in_degree s));
     ("out_degree", PyInt (out_degree s));
     ("betweenness", PyFloat (py_round (betweenness s) 6));
     ("pagerank", PyFloat (py_round (pagerank s) 6));
     ("clustering_coeff", PyFloat (py_round (clustering_coeff s) 4));
     ("community_id", str_or_None (cluster_id_str s));
     ("community_risk", PyFloat (py_round (community_risk s) 2));
     ("centrality_score", PyFloat (py_round (centrality_score s) 2));
     ("structural_score", PyFloat (py_round (structural_score s) 2));
     ("avg_neighbor_risk", PyFloat (py_round (avg_neighbor_risk s) 2));
     ("risk", PyFloat (py_round (risk s) 2));
     ("flags", PyList (flags s))].

(** What [compute] returns for a user that the graph does not know. *)
Definition unknown_user (user_id : string) : Dict :=
  list_to_map [("user_id", PyStr user_id); ("risk", PyFloat 0.0); ("flags", PyList [])].

(** [GraphIntelligenceExtractor.compute]. *)
Definition compute (user_id : string) : result Dict :=
  let* rows := QUERY_USER_GRAPH_FEATURES neo4j user_id in
  match rows with
  | [] => Ok (unknown_user user_id)
  | f :: _ => Ok (features_of user_id (scores f))
  end.

End WithStore.

End GraphIntelligence.

(* ================================================================== *)
(** * Dead-account detector ([app/features/dead_account.py]) *)
(* ================================================================== *)

Module DeadAccount.

Import FeatureStore.
Local Open Scope Q_scope.

(** The local variables of [_score_from_wakeup]; [wk_risk_sum] is [risk]
    before the clamp. *)
Record Wakeup : Type := {
  wk_dormant : PyVal;
  wk_first_strike : PyVal;
  wk_volume_spike : PyVal;
  days_slept : Q;
  wk_count : Z;
  wk_avg_amount : Q;
  wk_inactivity_score : Q;
  wk_spike_score : Q;
  first_strike_bonus : Q;
  wk_low_activity_bonus : Q;
  sleep_flash_flag : bool;
  sleep_flash_ratio : Q;
  wk_risk_sum : Q;
  wk_risk : Q;
  wk_flags : list string
}.

(** The local variables of [_score_legacy]. *)
Record Legacy : Type := {
  lg_dormant : PyVal;
  days_inactive : Q;
  lg_count : Z;
  lg_inactivity_score : Q;
  lg_spike_score : Q;
  pass_through_ratio : Q;
  pass_through_score : Q;
  lg_low_activity_bonus : Q;
  lg_risk_sum : Q;
  lg_risk : Q;
  lg_flags : list string
}.

Section WithEnv.
Variable settings : Settings.
Variable neo4j : FeatureReads.
(** [datetime.utcnow()] *)
Variable utcnow : Datetime.

(** The spike score, which both paths compute alike. *)
Definition spike_score_of (avg_amount tx_amount : Q) : Q :=
  if Qltb 0 avg_amount then
    let ratio := tx_amount / avg_amount in
    py_min (ratio / 10.0) 1.0 * 30
  else if Qltb 5000 tx_amount then 25.0
  else 0.0.

Definition wakeup_scores (w : WakeupRow) (tx_amount : Q) : result Wakeup :=
  let is_dormant := opt_bool (wk_is_dormant w) in
  let is_first_strike := opt_bool (wk_is_first_strike w) in
  let is_volume_spike := opt_bool (wk_is_volume_spike w) in
  let days_slept := inject_Z (default 0%Z (wk_days_slept w)) in
  let tx_count := default 0%Z (wk_tx_count w) in
  let avg_amount := default 0 (wk_avg_tx_amount w) in
  (* inactivity score *)
  let* slept := py_div days_slept (inject_Z (DORMANT_DAYS_THRESHOLD settings)) in
  let inactivity_score := py_min slept 1.0 * 30 in
  (* spike score *)
  let spike_score := spike_score_of avg_amount tx_amount in
  (* first-strike bonus *)
  let first_strike_bonus := if truthy is_first_strike then 20.0 else 0.0 in
  let first_strike_bonus :=
    if truthy is_volume_spike then py_min (first_strike_bonus + 10.0) 25.0
    else first_strike_bonus in
  (* low historical activity bonus *)
  let low_activity_bonus := if (tx_count <=? 3)%Z then 10.0 else 0.0 in
  (* sleep-and-flash *)
  let sleep_flash_ratio := if Qltb 0 avg_amount then tx_amount / avg_amount else 0.0 in
  let sleep_flash_flag :=
    Qleb (SLEEP_FLASH_RATIO_THRESHOLD settings) sleep_flash_ratio
    && Qleb (inject_Z (SLEEP_FLASH_DORMANT_DAYS settings)) days_slept in
  (* fused risk *)
  let risk :=
    if truthy is_dormant || truthy is_first_strike
       || Qltb (inject_Z (DORMANT_DAYS_THRESHOLD settings)) days_slept
    then
      let risk := inactivity_score + spike_score + first_strike_bonus + low_activity_bonus in
      if sleep_flash_flag then risk + 20.0 else risk
    else spike_score * 0.3 in
  let clamped := py_min risk 100.0 in
  let flags :=
    (if truthy is_first_strike then
       ["First-Strike: Dormant " +:+ pretty (py_int days_slept) +:+ "d → active"]
     else flag_if (truthy is_dormant && Qltb 40 clamped) "Dormant Account Activated")
    ++ flag_if (truthy is_volume_spike) "Volume Spike After Dormancy"
    ++ flag_if (Qltb 20 spike_score) "Sudden Volume Spike on Dormant Account"
    ++ flag_if sleep_flash_flag
         ("Sleep-and-Flash Mule: ratio=" +:+ format_fixed 0 sleep_flash_ratio
          +:+ "x, dormant=" +:+ pretty (py_int days_slept) +:+ "d") in
  Ok {| wk_dormant := is_dormant; wk_first_strike := is_first_strike;
        wk_volume_spike := is_volume_spike; days_slept := days_slept;
        wk_count := tx_count; wk_avg_amount := avg_amount;
        wk_inactivity_score := inactivity_score; wk_spike_score := spike_score;
        first_strike_bonus := first_strike_bonus;
        wk_low_activity_bonus := low_activity_bonus;
        sleep_flash_flag := sleep_flash_flag; sleep_flash_ratio := sleep_flash_ratio;
        wk_risk_sum := risk; wk_risk := clamped; wk_flags := flags |}.

Definition wakeup_features (s : Wakeup) : Dict :=
  list_to_map
    [("is_dormant", wk_dormant s);
     ("is_first_strike", wk_first_strike s);
     ("days_inactive", PyFloat (py_round (days_slept s) 1));
     ("days_slept", PyFloat (py_round (days_slept s) 1));
     ("inactivity_score", PyFloat (py_round (wk_inactivity_score s) 2));
     ("spike_score", PyFloat (py_round (wk_spike_score s) 2));
     ("first_strike_bonus", PyFloat (py_round (first_strike_bonus s) 2));
     ("pass_through_ratio", PyFloat 0.0);
     ("pass_through_score", PyFloat 0.0);
     ("tx_count", PyInt (wk_count s));
     ("sleep_flash_flag", PyBool (sleep_flash_flag s));
     ("sleep_flash_ratio", PyFloat (py_round (sleep_flash_ratio s) 2));
     ("risk", PyFloat (py_round (wk_risk s) 2));
     ("flags", PyList (wk_flags s))].

(** [DeadAccountDetector._score_from_wakeup]. *)
Definition _score_from_wakeup (w : WakeupRow) (tx_amount : Q) : result Dict :=
  let* s := wakeup_scores w tx_amount in
  Ok (wakeup_features s).

(** The pass-through block of the legacy path:
    [(pass_through_ratio, pass_through_score)]. *)
Definition pass_through_of (flow_rows : list FlowRow) : result (Q * Q) :=
  match flow_rows with
  | [] => Ok (0.0, 0.0)
  | f :: _ =>
      let inflow := default 0 (fl_recent_inflow f) in
      let outflow := default 0 (fl_recent_outflow f) in
      let pass_through_ratio := if Qltb 0 inflow then outflow / inflow else 0.0 in
      let* r := py_div pass_through_ratio (PASS_THROUGH_RATIO_THRESHOLD settings) in
      Ok (pass_through_ratio, py_min r 1.0 * 30)
  end.

Definition legacy_scores (user_id : string) (profile : DormantStatusRow) (tx_amount : Q)
    : result Legacy :=
  let is_dormant := opt_bool (ds_is_dormant profile) in
  let tx_count := default 0%Z (ds_tx_count profile) in
  let avg_amount := default 0 (ds_avg_tx_amount profile) in
  (* inactivity score; [last_active] is read as a naive UTC time *)
  let days_inactive :=
    match ds_last_active profile with
    | Some (StampDatetime last_active) => seconds_between utcnow last_active / 86400
    | _ => 0.0
    end in
  let* inactive := py_div days_inactive (inject_Z (DORMANT_DAYS_THRESHOLD settings)) in
  let inactivity_score := py_min inactive 1.0 * 30 in
  (* sudden volume spike *)
  let spike_score := spike_score_of avg_amount tx_amount in
  (* pass-through ratio *)
  let* flow_rows :=
    QUERY_RECENT_INFLOW_OUTFLOW neo4j user_id (VELOCITY_WINDOW_SEC settings * 10) in
  let* '(pass_through_ratio, pass_through_score) := pass_through_of flow_rows in
  (* low historical activity bonus *)
  let low_activity_bonus := if (tx_count <=? 3)%Z then 10.0 else 0.0 in
  (* fused risk *)
  let risk :=
    if truthy is_dormant || Qltb (inject_Z (DORMANT_DAYS_THRESHOLD settings)) days_inactive
    then inactivity_score + spike_score + pass_through_score + low_activity_bonus
    else spike_score * 0.3 + pass_through_score * 0.3 in
  let clamped := py_min risk 100.0 in
  let flags :=
    flag_if (truthy is_dormant && Qltb 40 clamped) "Dormant Account Activated"
    ++ flag_if (Qltb (PASS_THROUGH_RATIO_THRESHOLD settings) pass_through_ratio)
         "High Pass-Through Ratio"
    ++ flag_if (Qltb 20 spike_score) "Sudden Volume Spike on Dormant Account" in
  Ok {| lg_dormant := is_dormant; days_inactive := days_inactive; lg_count := tx_count;
        lg_inactivity_score := inactivity_score; lg_spike_score := spike_score;
        pass_through_ratio := pass_through_ratio; pass_through_score := pass_through_score;
        lg_low_activity_bonus := low_activity_bonus;
        lg_risk_sum := risk; lg_risk := clamped; lg_flags := flags |}.

Definition legacy_features (s : Legacy) : Dict :=
  list_to_map
    [("is_dormant", lg_dormant s);
     ("is_first_strike", PyBool false);
     ("days_inactive", PyFloat (py_round (days_inactive s) 1));
     ("inactivity_score", PyFloat (py_round (lg_inactivity_score s) 2));
     ("spike_score", PyFloat (py_round (lg_spike_score s) 2));
     ("pass_through_ratio", PyFloat (py_round (pass_through_ratio s) 4));
     ("pass_through_score", PyFloat (py_round (pass_through_score s) 2));
     ("tx_count", PyInt (lg_count s));
     ("risk", PyFloat (py_round (lg_risk s) 2));
     ("flags", PyList (lg_flags s))].

(** What the legacy path returns for a user that the graph does not know. *)
Definition unknown_user : Dict :=
  list_to_map [("is_dormant", PyBool false); ("risk", PyFloat 0.0); ("flags", PyList [])].

(** [DeadAccountDetector._score_legacy]. *)
Definition _score_legacy (user_id : string) (tx_amount : Q) : result Dict :=
  let* rows := QUERY_DORMANT_STATUS neo4j user_id in
  match rows with
  | [] => Ok unknown_user
  | profile :: _ =>
      let* s := legacy_scores user_id profile tx_amount in
      Ok (legacy_features s)
  end.

(** [DeadAccountDetector.compute]. *)
Definition compute (user_id : string) (tx_amount : Q) : result Dict :=
  let* wakeup_rows :=
    QUERY_DORMANT_WAKEUP neo4j user_id (DORMANT_DAYS_THRESHOLD settings) in
  match wakeup_rows with
  | w :: _ => _score_from_wakeup w tx_amount
  | [] => _score_legacy user_id tx_amount
  end.

End WithEnv.

End DeadAccount.

(* ================================================================== *)
(** * Device-risk extractor ([app/features/device_risk.py]) *)
(* ================================================================== *)

Module DeviceRisk.

Import FeatureStore.
Local Open Scope Q_scope.

(** ** String methods, on ASCII text *)

(** [c.isspace()]. *)
Definition is_space (c : ascii) : bool :=
  let n := nat_of_ascii c in
  ((9 <=? n)%nat && (n <=? 13)%nat) || ((28 <=? n)%nat && (n <=? 32)%nat).

Fixpoint lstrip (s : string) : string :=
  match s with
  | EmptyString => EmptyString
  | String c s' => if is_space c then lstrip s' else s
  end.

Fixpoint rstrip (s : string) : string :=
  match s with
  | EmptyString => EmptyString
  | String c s' =>
      match rstrip s' with
      | EmptyString => if is_space c then EmptyString else String c EmptyString
      | r => String c r
      end
  end.

(** [s.strip()]. *)
Definition str_strip (s : string) : string := rstrip (lstrip s).

(** The characters up to the first white space. *)
Fixpoint take_word (s : string) : string :=
  match s with
  | EmptyString => EmptyString
  | String c s' => if is_space c then EmptyString else String c (take_word s')
  end.

(** [s.split()[0]]: an [IndexError] when [s] is blank. *)
Definition first_word (s : string) : result string :=
  match lstrip s with
  | EmptyString => Raise "IndexError: list index out of range"
  | t => Ok (take_word t)
  end.

(** [s.startswith(prefix)]. *)
Definition startswith (s prefix : string) : bool := String.prefix prefix s.

(** [s.zfill(width)]: the zeros go after a leading sign. *)
Definition py_zfill (width : nat) (s : string) : string :=
  let pad := zeros (width - String.length s) in
  match s with
  | String c s' =>
      if (Ascii.eqb c "+" || Ascii.eqb c "-")%char then String c (pad +:+ s')
      else pad +:+ s
  | EmptyString => pad
  end.

(** [sum(c1 != c2 for c1, c2 in zip(a, b))]. *)
Fixpoint count_diff (a b : string) : nat :=
  match a, b with
  | String c1 a', String c2 b' =>
      ((if Ascii.eqb c1 c2 then 0 else 1) + count_diff a' b')%nat
  | _, _ => O
  end.

(** [_hamming_distance(a, b)]. *)
Definition _hamming_distance (a b : option string) : Z :=
  if negb (nonempty a) || negb (nonempty b) then 0%Z
  else
    let a := default "" a in
    let b := default "" b in
    let max_len := Nat.max (String.length a) (String.length b) in
    let a := py_zfill max_len a in
    let b := py_zfill max_len b in
    Z.of_nat (count_diff a b).

(** The local variables of [compute] for a device that the graph knows;
    [risk_sum] is [risk] before the clamp, [drift_sum] is
    [device_drift_score] before its clamp. *)
Record Scores : Type := {
  account_count : Z;
  stored_os : string;
  effective_os : string;
  is_new_device : bool;
  avg_user_risk : Q;
  max_user_risk : Q;
  device_multi_user_count : Z;
  device_multi_user_flag : bool;
  multi_account_score : Q;
  propagation_score : Q;
  high_risk_bonus : Q;
  os_anomaly_score : Q;
  drift_sum : Q;
  device_drift_score : Q;
  drift_flags : list string;
  cap_mask_anomaly : Z;
  new_device_score : Q;
  sim_swap_score : Q;
  new_device_high_mpin_score : Q;
  risk_sum : Q;
  risk : Q;
  flags : list string
}.

Section WithEnv.
Variable settings : Settings.
Variable neo4j : FeatureReads.

(** [credential_sub_type and credential_sub_type.upper() == "MPIN"]. *)
Definition is_mpin (credential_sub_type : option string) : bool :=
  match credential_sub_type with
  | Some s => negb (String.eqb s "") && String.eqb (str_upper s) "MPIN"
  | None => false
  end.

(** Block 5a: the penalty and the flag of a change of OS family. *)
Definition os_drift (stored_os : string) (device_os : option string)
    : result (Q * list string) :=
  if negb (String.eqb stored_os "") && nonempty device_os then
    let device_os := default "" device_os in
    let* stored_family := first_word (str_lower stored_os) in
    let* current_family := first_word (str_lower device_os) in
    if negb (String.eqb stored_family "") && negb (String.eqb current_family "")
       && negb (String.eqb stored_family current_family)
    then Ok (5.0, ["OS family changed: " +:+ stored_os +:+ " → " +:+ device_os])
    else Ok (0.0, [])
  else Ok (0.0, []).

(** Block 5b: the Hamming distance, the penalty and the flag of a change
    of capability mask. *)
Definition mask_drift (capability_mask stored_mask : option string)
    : Z * Q * list string :=
  if nonempty capability_mask && nonempty stored_mask
     && negb (String.eqb (default "" capability_mask) (default "" stored_mask))
  then
    let cap_mask_anomaly := _hamming_distance capability_mask stored_mask in
    let cap_mask_penalty :=
      py_min (inject_Z cap_mask_anomaly * CAPABILITY_MASK_CHANGE_WEIGHT settings * 0.3) 5.0 in
    (cap_mask_anomaly, cap_mask_penalty,
     ["Capability mask changed: " +:+ default "" stored_mask +:+ " → "
      +:+ default "" capability_mask
      +:+ " (Hamming=" +:+ pretty cap_mask_anomaly +:+ ")"])
  else (0%Z, 0.0, []).

Definition scores (info : DeviceInfoRow) (history_rows : list DeviceHistoryRow)
    (prop_rows : list PropagationRow) (multi_user_rows : list DeviceUsersRow)
    (device_id : string) (amount : Q) (capability_mask device_os : option string)
    (credential_sub_type : option string) : result Scores :=
  let account_count :=
    match di_account_count info with
    | Some n => if (n =? 0)%Z then 1%Z else n
    | None => 1%Z
    end in
  let stored_os := str_strip (default "" (di_os info)) in
  let stored_mask := di_capability_mask info in
  (* device history of the user *)
  let known_device_ids := map dh_device_id history_rows in
  let is_new_device :=
    negb (existsb (fun d => match d with
                            | Some d => String.eqb device_id d
                            | None => false
                            end) known_device_ids) in
  (* risk propagation *)
  let prop := head prop_rows in
  let device_risk_score :=
    match prop with
    | Some row => pr_device_risk_score row
    | None => Some 0
    end in
  let avg_user_risk := default 0 (column prop pr_avg_user_risk) in
  let max_user_risk := default 0 (column prop pr_max_user_risk) in
  (* several users on the device in 24 hours *)
  let device_multi_user_count :=
    match multi_user_rows with
    | row :: _ => default 0%Z (du_unique_users_24h row)
    | [] => 0%Z
    end in
  let device_multi_user_flag :=
    match multi_user_rows with
    | _ :: _ => (DEVICE_MULTI_USER_THRESHOLD settings <? device_multi_user_count)%Z
    | [] => false
    end in
  (* 1. several accounts *)
  let multi_account_score :=
    if (DEVICE_ACCOUNT_THRESHOLD settings <=? account_count)%Z then 40.0
    else if (3 <=? account_count)%Z then 25.0
    else if (2 <=? account_count)%Z then 10.0
    else 0.0 in
  (* 2. risk propagation *)
  let* device_risk_score :=
    match device_risk_score with
    | Some q => Ok q
    | None => Raise "TypeError: unsupported operand type(s) for /"
    end in
  let propagation_score := py_min (device_risk_score / 100.0) 1.0 * 25 in
  (* 3. high-risk neighbour *)
  let high_risk_bonus := if Qltb 80 max_user_risk then 10.0 else 0.0 in
  (* 4. OS anomaly *)
  let effective_os := if nonempty device_os then default "" device_os else stored_os in
  let os_anomaly_score :=
    if negb (String.eqb effective_os "") then
      let os_lc := str_lower effective_os in
      if negb (startswith os_lc "android" || startswith os_lc "ios") then 10.0 else 0.0
    else 0.0 in
  (* 5. device drift *)
  let* '(os_penalty, os_flags) := os_drift stored_os device_os in
  let '(cap_mask_anomaly, cap_mask_penalty, mask_flags) :=
    mask_drift capability_mask stored_mask in
  let drift_sum := 0.0 + os_penalty + cap_mask_penalty in
  let drift_flags := os_flags ++ mask_flags in
  let device_drift_score := py_min drift_sum 15.0 in
  (* 6. new device *)
  let new_device_score := if is_new_device then NEW_DEVICE_PENALTY settings else 0.0 in
  (* 7. SIM swap *)
  let sim_swap_score :=
    if device_multi_user_flag then DEVICE_MULTI_USER_PENALTY settings else 0.0 in
  (* 8. new device, high amount and MPIN *)
  let new_device_high_mpin_score :=
    if is_new_device && Qleb (NEW_DEVICE_HIGH_AMOUNT_THRESHOLD settings) amount
       && is_mpin credential_sub_type
    then 15.0 else 0.0 in
  (* fuse *)
  let risk :=
    multi_account_score + propagation_score + high_risk_bonus + os_anomaly_score
    + device_drift_score + new_device_score + sim_swap_score
    + new_device_high_mpin_score in
  let flags :=
    flag_if (DEVICE_ACCOUNT_THRESHOLD settings <=? account_count)%Z
      ("Shared Device: " +:+ pretty account_count +:+ " accounts")
    ++ flag_if (Qltb 80 max_user_risk) "Device Linked to High-Risk User"
    ++ flag_if (Qltb 0 os_anomaly_score) ("Unsupported Device OS: " +:+ effective_os)
    ++ flag_if is_new_device "New Device for User"
    ++ flag_if (0 <? cap_mask_anomaly)%Z
         ("Capability Mask Changed (Hamming=" +:+ pretty cap_mask_anomaly +:+ ")")
    ++ flag_if (Qltb 0 new_device_high_mpin_score) "New Device + High Amount + MPIN"
    ++ flag_if device_multi_user_flag
         ("SIM-Swap: " +:+ pretty device_multi_user_count +:+ " users on device in 24h")
    ++ drift_flags in
  Ok {| account_count := account_count; stored_os := stored_os;
        effective_os := effective_os; is_new_device := is_new_device;
        avg_user_risk := avg_user_risk; max_user_risk := max_user_risk;
        device_multi_user_count := device_multi_user_count;
        device_multi_user_flag := device_multi_user_flag;
        multi_account_score := multi_account_score;
        propagation_score := propagation_score; high_risk_bonus := high_risk_bonus;
        os_anomaly_score := os_anomaly_score;
        drift_sum := drift_sum; device_drift_score := device_drift_score;
        drift_flags := drift_flags; cap_mask_anomaly := cap_mask_anomaly;
        new_device_score := new_device_score; sim_swap_score := sim_swap_score;
        new_device_high_mpin_score := new_device_high_mpin_score;
        risk_sum := risk; risk := py_min risk 100.0; flags := flags |}.

Definition features_of (device_id : string) (app_version capability_mask : option string)
    (prop : option PropagationRow) (s : Scores) : Dict :=
  list_to_map
    [("device_id", PyStr device_id);
     ("account_count", PyInt (account_count s));
     ("device_os", PyStr (effective_os s));
     ("app_version", str_or_None app_version);
     ("capability_mask", str_or_None capability_mask);
     ("avg_user_risk", round_or_0 (column prop pr_avg_user_risk) 2);
     ("max_user_risk", round_or_0 (column prop pr_max_user_risk) 2);
     ("multi_account_score", PyFloat (py_round (multi_account_score s) 2));
     ("propagation_score", PyFloat (py_round (propagation_score s) 2));
     ("os_anomaly_score", PyFloat (py_round (os_anomaly_score s) 2));
     ("device_drift_score", PyFloat (py_round (device_drift_score s) 2));
     ("new_device_flag", PyBool (is_new_device s));
     ("new_device_score", PyFloat (py_round (new_device_score s) 2));
     ("cap_mask_anomaly", PyInt (cap_mask_anomaly s));
     ("new_device_high_mpin", PyBool (Qltb 0 (new_device_high_mpin_score s)));
     ("device_multi_user_flag", PyBool (device_multi_user_flag s));
     ("device_multi_user_count", PyInt (device_multi_user_count s));
     ("sim_swap_score", PyFloat (py_round (sim_swap_score s) 2));
     ("risk", PyFloat (py_round (risk s) 2));
     ("flags", PyList (flags s))].

(** [DeviceRiskExtractor._score_new_device]: the risk before rounding and
    the flags. *)
Definition new_device_risk (amount : Q) (credential_sub_type : option string)
    : Q * Q * list string :=
  let risk := NEW_DEVICE_PENALTY settings in
  let flags := ["New Device (First Appearance)"] in
  let compound_hit :=
    Qleb (NEW_DEVICE_HIGH_AMOUNT_THRESHOLD settings) amount && is_mpin credential_sub_type in
  let compound := if compound_hit then 15.0 else 0.0 in
  let flags := if compound_hit then flags ++ ["New Device + High Amount + MPIN"] else flags in
  let risk := risk + compound in
  (py_min risk 100.0, compound, flags).

Definition _score_new_device (device_id sender_id : string) (amount : Q)
    (app_version capability_mask device_os credential_type credential_sub_type : option string)
    : Dict :=
  let '(risk, compound, flags) := new_device_risk amount credential_sub_type in
  list_to_map
    [("device_id", PyStr device_id);
     ("account_count", PyInt 0);
     ("device_os", str_or_None device_os);
     ("app_version", str_or_None app_version);
     ("capability_mask", str_or_None capability_mask);
     ("avg_user_risk", PyFloat 0.0);
     ("max_user_risk", PyFloat 0.0);
     ("multi_account_score", PyFloat 0.0);
     ("propagation_score", PyFloat 0.0);
     ("os_anomaly_score", PyFloat 0.0);
     ("device_drift_score", PyFloat 0.0);
     ("new_device_flag", PyBool true);
     ("new_device_score", PyFloat (NEW_DEVICE_PENALTY settings));
     ("cap_mask_anomaly", PyInt 0);
     ("new_device_high_mpin", PyBool (Qltb 0 compound));
     ("device_multi_user_flag", PyBool false);
     ("device_multi_user_count", PyInt 0);
     ("sim_swap_score", PyFloat 0.0);
     ("risk", PyFloat (py_round risk 2));
     ("flags", PyList flags)].

(** [DeviceRiskExtractor.compute]. *)
Definition compute (device_id sender_id : string) (amount : Q)
    (app_version capability_mask device_os credential_type credential_sub_type : option string)
    : result Dict :=
  let* info_rows := QUERY_DEVICE_INFO neo4j device_id in
  match info_rows with
  | [] =>
      Ok (_score_new_device device_id sender_id amount app_version capability_mask
            device_os credential_type credential_sub_type)
  | info :: _ =>
      let* history_rows := QUERY_USER_DEVICE_HISTORY neo4j sender_id in
      let* prop_rows := QUERY_DEVICE_RISK_PROPAGATION neo4j device_id in
      let* multi_user_rows := QUERY_DEVICE_USERS_24H neo4j device_id in
      let* s :=
        scores info history_rows prop_rows multi_user_rows device_id amount
          capability_mask device_os credential_sub_type in
      Ok (features_of device_id app_version capability_mask (head prop_rows) s)
  end.

End WithEnv.

End DeviceRisk.

(* ================================================================== *)
(** * Cache of collusive findings ([app/detection/collusive_fraud.py]) *)
(* ================================================================== *)

Module CollusiveFraud.

Import FeatureStore.

Record IslandRow : Type := { fi_cluster_id : option Z; fi_member_ids : list string }.
Record RouterRow : Type := { mr_user_id : option string }.
Record RingRow : Type := {
  node_a : option string;
  node_b : option string;
  node_c : option string
}.
Record ChainRow : Type := { chain_head : option string }.
Record HubRow : Type := { sh_user_id : option string; sh_hub_type : option string }.
Record RelayRow : Type := { rm_user_id : option string }.

(** [neo4j.read_async(CQ.DETECT_..., params)]. *)
Record DetectReads : Type := {
  DETECT_FRAUD_ISLANDS (min_avg_risk : Q) : result (list IslandRow);
  DETECT_MONEY_ROUTERS (min_betweenness : Q) : result (list RouterRow);
  DETECT_CIRCULAR_FLOWS : result (list RingRow);
  DETECT_RAPID_CHAINS : result (list ChainRow);
  DETECT_STAR_HUBS (min_in_degree min_out_degree : Z) : result (list HubRow);
  DETECT_RELAY_MULE (min_flow_ratio : Q) : result (list RelayRow)
}.

(** The attributes of a [CollusiveFraudDetector]. *)
Record Detector : Type := {
  fraud_islands : list IslandRow;
  money_routers : list RouterRow;
  circular_flows : list RingRow;
  rapid_chains : list ChainRow;
  star_hubs : list HubRow;
  relay_mules : list RelayRow;
  _user_clusters : gmap string (gset string);
  _relay_mule_ids : gset string
}.

(** [CollusiveFraudDetector.__init__]. *)
Definition init : Detector := {|
  fraud_islands := []; money_routers := []; circular_flows := [];
  rapid_chains := []; star_hubs := []; relay_mules := [];
  _user_clusters := ∅; _relay_mule_ids := ∅
|}.

(** [x == user_id] for a column [x]. *)
Definition is_user (x : option string) (user_id : string) : bool :=
  match x with Some u => String.eqb u user_id | None => false end.

(** [str(island.get("cluster_id", ""))]. *)
Definition cluster_name (island : IslandRow) : string :=
  py_str (match fi_cluster_id island with Some z => PyInt z | None => PyNone end).

(** [self._user_clusters.setdefault(uid, set()).add(cid)]. *)
Definition add_cluster (cid : string) (m : gmap string (gset string)) (uid : string)
    : gmap string (gset string) :=
  <[uid := default ∅ (m !! uid) ∪ {[cid]}]> m.

(** The rebuild of the user-to-clusters lookup from the cached islands. *)
Definition user_clusters_of (islands : list IslandRow) : gmap string (gset string) :=
  fold_left
    (fun m island => fold_left (add_cluster (cluster_name island)) (fi_member_ids island) m)
    islands ∅.

(** [{r.get("user_id") for r in self.relay_mules if r.get("user_id")}]. *)
Definition relay_ids_of (rows : list RelayRow) : gset string :=
  list_to_set (filter_map (fun r => match rm_user_id r with
                                    | Some u => if String.eqb u "" then None else Some u
                                    | None => None
                                    end) rows).

Definition count_of {A} (rows : list A) : Z := Z.of_nat (length rows).

Section WithStore.
Variable neo4j : DetectReads.

(** One guarded query of [refresh]: the rows to cache and the count to
    report; a failure keeps the rows of the last cycle and reports zero. *)
Definition guarded {A} (label : string) (read : result (list A)) (cached : list A)
    : M (list A * Z) :=
  match read with
  | Ok rows => ret (rows, count_of rows)
  | Raise exc =>
      let! _ := log_record WARNING (label +:+ " query failed: " +:+ exc) in
      ret (cached, 0%Z)
  end.

(** [CollusiveFraudDetector.refresh]: the detector after the cycle and the
    counts it reports. *)
Definition refresh (self : Detector) : M (Detector * gmap string Z) :=
  let! '(islands, n_islands) :=
    guarded "fraud_islands" (DETECT_FRAUD_ISLANDS neo4j 40) (fraud_islands self) in
  let! '(routers, n_routers) :=
    guarded "money_routers" (DETECT_MONEY_ROUTERS neo4j 0.01) (money_routers self) in
  let! '(rings, n_rings) :=
    guarded "circular_flows" (DETECT_CIRCULAR_FLOWS neo4j) (circular_flows self) in
  let! '(chains, n_chains) :=
    guarded "rapid_chains" (DETECT_RAPID_CHAINS neo4j) (rapid_chains self) in
  let! '(hubs, n_hubs) :=
    guarded "star_hubs" (DETECT_STAR_HUBS neo4j 5 5) (star_hubs self) in
  let relay_read := DETECT_RELAY_MULE neo4j 0.75 in
  let! '(relays, n_relays) := guarded "relay_mules" relay_read (relay_mules self) in
  let relay_ids :=
    match relay_read with
    | Ok rows => relay_ids_of rows
    | Raise _ => _relay_mule_ids self
    end in
  let counts : gmap string Z :=
    list_to_map
      [("fraud_islands", n_islands); ("money_routers", n_routers);
       ("circular_flows", n_rings); ("rapid_chains", n_chains);
       ("star_hubs", n_hubs); ("relay_mules", n_relays)] in
  let! _ :=
    log_record INFO
      ("Collusive detection refreshed – islands=" +:+ pretty n_islands
       +:+ " routers=" +:+ pretty n_routers +:+ " rings=" +:+ pretty n_rings
       +:+ " chains=" +:+ pretty n_chains +:+ " hubs=" +:+ pretty n_hubs
       +:+ " relays=" +:+ pretty n_relays) in
  ret ({| fraud_islands := islands; money_routers := routers; circular_flows := rings;
          rapid_chains := chains; star_hubs := hubs; relay_mules := relays;
          _user_clusters := user_clusters_of islands;
          _relay_mule_ids := relay_ids |},
       counts).

End WithStore.

Section Lookups.
(** The order in which Python iterates over a set. *)
Variable set_order : gset string -> list string.

(** [CollusiveFraudDetector.get_user_flags]. *)
Definition get_user_flags (self : Detector) (user_id : string) : list string :=
  let clusters := default ∅ (_user_clusters self !! user_id) in
  let flags := map (fun cid => "Part of Fraud Cluster " +:+ cid) (set_order clusters) in
  let flags :=
    if existsb (fun router => is_user (mr_user_id router) user_id) (money_routers self)
    then flags ++ ["Money Router (High Betweenness)"] else flags in
  let flags :=
    if existsb (fun ring => is_user (node_a ring) user_id || is_user (node_b ring) user_id
                            || is_user (node_c ring) user_id) (circular_flows self)
    then flags ++ ["Circular Money Flow Detected"] else flags in
  let flags :=
    match find (fun hub => is_user (sh_user_id hub) user_id) (star_hubs self) with
    | Some hub => flags ++ ["Star Hub (" +:+ py_str (str_or_None (sh_hub_type hub)) +:+ ")"]
    | None => flags
    end in
  let flags :=
    if bool_decide (user_id ∈ _relay_mule_ids self)
    then flags ++ ["HIGH_VELOCITY_RELAY: rapid fund relay pattern"] else flags in
  flags.

(** [CollusiveFraudDetector.get_user_cluster_id]. *)
Definition get_user_cluster_id (self : Detector) (user_id : string) : option string :=
  match _user_clusters self !! user_id with
  | Some clusters => head (set_order clusters)
  | None => None
  end.

(** The two lookups, as the risk engine holds them. *)
Definition lookups (self : Detector) : RiskEngine.CollusiveFraudDetector :=
  {| RiskEngine.get_user_flags := get_user_flags self;
     RiskEngine.get_user_cluster_id := get_user_cluster_id self |}.

End Lookups.

End CollusiveFraud.

(* ================================================================== *)
(** * The engine over its own extractors, and the REST route
      ([app/core/risk_engine.py], [app/api/routes.py]) *)
(* ================================================================== *)

Module Routes.

Import RiskEngine.

(** The module globals that [init_routes] sets. *)
Record Services : Type := {
  _neo4j : bool;
  _risk_engine : option Engine
}.

Section WithEnv.
Variable settings : Settings.
Variable lib : MathLib.
Variable adb : AsnDatabase.

(** [RiskEngine.__init__] with the five extractors it builds over one
    graph store. *)
Definition engine_over (neo4j : Neo4jReads) (store : FeatureStore.FeatureReads)
    (utcnow : Datetime) : Engine :=
  init settings lib adb neo4j
    (DeadAccount.compute settings store utcnow)
    (DeviceRisk.compute settings store)
    (GraphIntelligence.compute store)
    (Velocity.compute settings store).

(** The parameters of the route's [INGEST_IP] write. *)
Definition ingest_ip_params (tx : TransactionInput) (ip : string) : Dict :=
  let asn_info := resolve adb ip in
  list_to_map
    [("ip_address", PyStr ip);
     ("geo_lat", opt_float (sender_lat tx));
     ("geo_lon", opt_float (sender_lon tx));
     ("is_vpn", PyBool false);
     ("city", PyNone);
     ("country", WorkerPool.str_or_none (country asn_info));
     ("asn", if (asn asn_info =? 0)%Z then PyNone else PyInt (asn asn_info));
     ("asn_type", WorkerPool.str_or_none (asn_class asn_info));
     ("asn_org", WorkerPool.str_or_none (info_org_name asn_info));
     ("asn_country", WorkerPool.str_or_none (country asn_info));
     ("user_id", PyStr (sender_id tx))].

(** [POST /transaction]; an [HTTPException] is identified with
    [str(exc)], that is [status: detail]. *)
Definition score_transaction (app : Services) (tx : TransactionInput) : M RiskResponse :=
  match _neo4j app, _risk_engine app with
  | true, Some engine =>
      let ingest_params := WorkerPool.ingest_params_of tx in
      (* ingest: the lock-free statement first, the safe one on any failure *)
      let! _ :=
        try_except (write_async INGEST_TRANSACTION ingest_params)
          (fun _ =>
             try_except (write_async INGEST_TRANSACTION_SAFE ingest_params)
               (fun exc =>
                  let! _ := log_record ERROR ("Ingestion failed: " +:+ exc) in
                  raise ("500: Ingestion error: " +:+ exc))) in
      let! _ :=
        match ip_address tx with
        | Some ip =>
            if String.eqb ip "" then ret tt
            else write_async INGEST_IP (ingest_ip_params tx ip)
        | None => ret tt
        end in
      (* score *)
      RiskEngine.score_transaction settings engine tx
  | _, _ => raise "503: Engine not ready"
  end.

End WithEnv.

End Routes.

(* ================================================================== *)
(** * The batch loops of the two consumers
      ([app/core/worker_pool.py], [app/streaming/stream_adapter.py]) *)
(* ================================================================== *)

Module Batches.

Section WithEnv.
Variable settings : Settings.
Variable lib : MathLib.
Variable adb : AsnDatabase.
Variable codec : Codec.

(** [for msg_id, data in entries: await self._process_message(name, msg_id, data)]
    in [WorkerPool._worker]. *)
Fixpoint process_entries (self : WorkerPool.Pool) (name : string)
    (entries : list (string * StreamEntry)) : M unit :=
  match entries with
  | [] => ret tt
  | (msg_id, data) :: rest =>
      let! _ := WorkerPool._process_message settings lib adb codec self name msg_id data in
      process_entries self name rest
  end.

(** [for msg_id, raw_data in entries: await self._handle_message(name, msg_id, raw_data)]
    in [StreamAdapter._adapter_loop]. *)
Fixpoint handle_entries (name : string) (entries : list (string * StreamEntry)) : M unit :=
  match entries with
  | [] => ret tt
  | (msg_id, raw_data) :: rest =>
      let! _ := StreamAdapter._handle_message settings codec name msg_id raw_data in
      handle_entries name rest
  end.

(** [WorkerPool.avg_latency_ms] and [StreamAdapter.avg_latency_ms]. *)
Definition pool_avg_latency_ms (p : PoolMetrics) : Q :=
  if (processed_count p =? 0)%Z then 0%Q
  else (pool_total_latency_ms p / inject_Z (processed_count p))%Q.

Definition adapter_avg_latency_ms (a : AdapterMetrics) : Q :=
  (adapter_total_latency_ms a / inject_Z (Z.max (forwarded a) 1))%Q.

End WithEnv.

End Batches.

(* ================================================================== *)
(** * Concrete stores, libraries and transactions used in examples *)
(* ================================================================== *)

Module Fixtures.

(** A library whose special functions all return zero. *)
Definition flat_lib : MathLib := {|
  math_log := fun _ => 0%Q;
  math_log1p := fun _ => 0%Q;
  math_sqrt := fun _ => 0%Q;
  math_sin := fun _ => 0%Q;
  math_cos := fun _ => 0%Q;
  math_atan2 := fun _ _ => 0%Q;
  math_radians := fun x => x;
  np_percentile := fun _ _ => 0%Q
|}.

(** No ASN database file. *)
Definition no_asn_database : AsnDatabase := {|
  ip_address_parse := fun _ => None;
  reader := None
|}.

(** A graph store that knows nothing. *)
Definition empty_store : Neo4jReads := {|
  QUERY_USER_TX_HISTORY := fun _ _ => Ok [];
  QUERY_USER_PROFILE := fun _ => Ok [];
  QUERY_IP_ROTATION := fun _ => Ok [];
  QUERY_RECENT_AMOUNTS := fun _ _ => Ok [];
  QUERY_USER_HOUR_DISTRIBUTION := fun _ => Ok [];
  QUERY_IDENTICAL_TX_RECEIVER := fun _ _ _ _ => Ok [];
  QUERY_ASN_DENSITY := fun _ => Ok [];
  QUERY_USER_ASN_HISTORY := fun _ => Ok []
|}.

(** The history read fails, every other read answers. *)
Definition history_down : Neo4jReads := {|
  QUERY_USER_TX_HISTORY := fun _ _ => Raise "ServiceUnavailable";
  QUERY_USER_PROFILE := fun _ => Ok [];
  QUERY_IP_ROTATION := fun _ => Ok [];
  QUERY_RECENT_AMOUNTS := fun _ _ => Ok [];
  QUERY_USER_HOUR_DISTRIBUTION := fun _ => Ok [];
  QUERY_IDENTICAL_TX_RECEIVER := fun _ _ _ _ => Ok [];
  QUERY_ASN_DENSITY := fun _ => Ok [];
  QUERY_USER_ASN_HISTORY := fun _ => Ok []
|}.

(** The profile read fails, every other read answers. *)
Definition profile_down : Neo4jReads := {|
  QUERY_USER_TX_HISTORY := fun _ _ => Ok [];
  QUERY_USER_PROFILE := fun _ => Raise "ServiceUnavailable";
  QUERY_IP_ROTATION := fun _ => Ok [];
  QUERY_RECENT_AMOUNTS := fun _ _ => Ok [];
  QUERY_USER_HOUR_DISTRIBUTION := fun _ => Ok [];
  QUERY_IDENTICAL_TX_RECEIVER := fun _ _ _ _ => Ok [];
  QUERY_ASN_DENSITY := fun _ => Ok [];
  QUERY_USER_ASN_HISTORY := fun _ => Ok []
|}.

(** History and profile answer, the four later reads fail. *)
Definition auxiliary_down : Neo4jReads := {|
  QUERY_USER_TX_HISTORY := fun _ _ => Ok [];
  QUERY_USER_PROFILE := fun _ => Ok [];
  QUERY_IP_ROTATION := fun _ => Raise "ServiceUnavailable";
  QUERY_RECENT_AMOUNTS := fun _ _ => Raise "ServiceUnavailable";
  QUERY_USER_HOUR_DISTRIBUTION := fun _ => Raise "ServiceUnavailable";
  QUERY_IDENTICAL_TX_RECEIVER := fun _ _ _ _ => Raise "ServiceUnavailable";
  QUERY_ASN_DENSITY := fun _ => Ok [];
  QUERY_USER_ASN_HISTORY := fun _ => Ok []
|}.

(** The same with a known user, last seen at (2.5, 10.0). *)
Definition auxiliary_down_known_user : Neo4jReads := {|
  QUERY_USER_TX_HISTORY := fun _ _ => Ok [];
  QUERY_USER_PROFILE := fun _ =>
    Ok [ {| p_avg_tx_amount := Some 900%Q; p_std_tx_amount := Some 150%Q;
            p_is_dormant := Some false;
            p_last_lat := Some 2.5%Q; p_last_lon := Some 10.0%Q |} ];
  QUERY_IP_ROTATION := fun _ => Raise "ServiceUnavailable";
  QUERY_RECENT_AMOUNTS := fun _ _ => Raise "ServiceUnavailable";
  QUERY_USER_HOUR_DISTRIBUTION := fun _ => Raise "ServiceUnavailable";
  QUERY_IDENTICAL_TX_RECEIVER := fun _ _ _ _ => Raise "ServiceUnavailable";
  QUERY_ASN_DENSITY := fun _ => Ok [];
  QUERY_USER_ASN_HISTORY := fun _ => Ok []
|}.

(** Sines and cosines as binary64 has them on the way from (2.5, 10.0) to
    its antipode (-2.5, -170.0), angles being left in degrees: the [a] of
    the haversine formula comes out just above 1. *)
Definition antipodal_lib : MathLib := {|
  math_log := fun _ => 0%Q;
  math_log1p := fun _ => 0%Q;
  math_sqrt := fun _ => 1%Q;
  math_sin := fun x =>
    if Qeq_bool x (-2.5) then (-0.043619387365336)%Q
    else if Qeq_bool x (-90) then (-1)%Q
    else 0%Q;
  math_cos := fun _ => 0.9990482215818578%Q;
  math_atan2 := fun _ _ => 0%Q;
  math_radians := fun x => x;
  np_percentile := fun _ _ => 0%Q
|}.

(** 14:30 and 05:10 on some day. *)
Definition afternoon : Datetime :=
  {| epoch := 1700000000; hour := 14; isoformat := "2023-11-14T14:30:00+00:00" |}.
Definition dawn : Datetime :=
  {| epoch := 1700052600; hour := 5; isoformat := "2023-11-15T05:10:00+00:00" |}.

(** A transfer of 1100 from [U0001] to [U0002]. *)
Definition transfer : TransactionInput := {|
  tx_id := "TX1";
  timestamp := afternoon;
  amount := 1100;
  currency := "INR";
  txn_type := PAY;
  sender := {| s_sender_id := "U0001"; s_upi_id := None; device := None;
               network := None; geo := None |};
  credential := None;
  receiver := {| r_receiver_id := "U0002"; r_upi_id := None;
                 r_receiver_type := PERSON; r_mcc_code := None |}
|}.

(** Nothing pending, nothing committed, no fault to come. *)
Definition quiet_world : World := {|
  neo_faults := []; neo_commits := [];
  redis_faults := []; redis_streams := ∅; redis_pending := ∅;
  alert_faults := []; alerts := [];
  clock := []; rng := []; logged := [];
  pool := {| processed_count := 0; pool_total_latency_ms := 0;
             deadlock_retries := 0; ingest_errors := 0 |};
  adapter := {| forwarded := 0; validation_errors := 0; adapter_total_latency_ms := 0 |}
|}.

(** An extractor output that carries a sub-score and no flag. *)
Definition scored (risk : Q) : Dict :=
  list_to_map [("risk", PyFloat risk); ("flags", PyList [])].

(** An engine whose five extractors all report the sub-score [risk]. *)
Definition flat_engine (risk : Q) : RiskEngine.Engine := {|
  RiskEngine.behavioral := fun _ _ _ _ _ _ _ _ => Ok (scored risk);
  RiskEngine.dead_account := fun _ _ => Ok (scored risk);
  RiskEngine.device_risk := fun _ _ _ _ _ _ _ _ => Ok (scored risk);
  RiskEngine.graph_intel := fun _ => Ok (scored risk);
  RiskEngine.velocity := fun _ _ => Ok (scored risk);
  RiskEngine.collusive_detector := None
|}.

(** A user who transacts by day: sixty transfers, none of them at dawn. *)
Definition day_user_store : Neo4jReads := {|
  QUERY_USER_TX_HISTORY := fun _ _ => Ok [];
  QUERY_USER_PROFILE := fun _ => Ok [];
  QUERY_IP_ROTATION := fun _ => Ok [];
  QUERY_RECENT_AMOUNTS := fun _ _ => Ok [];
  QUERY_USER_HOUR_DISTRIBUTION := fun _ =>
    Ok [ {| hr_hour := Some 9%Z; hr_cnt := 20 |};
         {| hr_hour := Some 14%Z; hr_cnt := 25 |};
         {| hr_hour := Some 18%Z; hr_cnt := 15 |} ];
  QUERY_IDENTICAL_TX_RECEIVER := fun _ _ _ _ => Ok [];
  QUERY_ASN_DENSITY := fun _ => Ok [];
  QUERY_USER_ASN_HISTORY := fun _ => Ok []
|}.

(** The transfer of [transfer], made at five in the morning. *)
Definition dawn_transfer : TransactionInput := {|
  tx_id := "TX2";
  timestamp := dawn;
  amount := 1100;
  currency := "INR";
  txn_type := PAY;
  sender := {| s_sender_id := "U0001"; s_upi_id := None; device := None;
               network := None; geo := None |};
  credential := None;
  receiver := {| r_receiver_id := "U0002"; r_upi_id := None;
                 r_receiver_type := PERSON; r_mcc_code := None |}
|}.

(** A device extractor output for a device never seen before. *)
Definition unseen_device : Dict :=
  list_to_map [("risk", PyFloat 20.0%Q); ("new_device_flag", PyBool true);
               ("flags", PyList ["New Device"])].

(** The engine over [day_user_store], on an unseen device. *)
Definition day_user_engine : RiskEngine.Engine :=
  RiskEngine.init Config.defaults flat_lib no_asn_database day_user_store
    (fun _ _ => Ok (scored 0))
    (fun _ _ _ _ _ _ _ _ => Ok unseen_device)
    (fun _ => Ok (scored 0))
    (fun _ _ => Ok (scored 0)).

(** Logarithms to six digits, at the arguments that the ASN example meets. *)
Definition log_table : MathLib := {|
  math_log := fun p =>
    if Qeq_bool p (3 # 4) then (-0.287682)%Q
    else if Qeq_bool p (1 # 4) then (-1.386294)%Q
    else 0%Q;
  math_log1p := fun x =>
    if Qeq_bool x 1000 then 6.908755%Q
    else if Qeq_bool x 3 then 1.386294%Q
    else 0%Q;
  math_sqrt := fun _ => 0%Q;
  math_sin := fun _ => 0%Q;
  math_cos := fun _ => 0%Q;
  math_atan2 := fun _ _ => 0%Q;
  math_radians := fun x => x;
  np_percentile := fun _ _ => 0%Q
|}.

(** An ASN database that knows one public address, of a foreign network. *)
Definition one_network_database : AsnDatabase := {|
  ip_address_parse := fun s =>
    if String.eqb s "8.8.8.8"
    then Some {| version := 4; is_private := false; is_loopback := false;
                 is_reserved := false; is_link_local := false |}
    else None;
  reader := Some (fun s =>
    if String.eqb s "8.8.8.8"
    then Ok (Some {| mmdb_asn := Some 15169%Z;
                     organization := Some {| org_name := Some "Google LLC";
                                             org_country := Some "US" |} |})
    else Ok None)
|}.

(** The same database with a second public address, 1.1.1.1, of which it
    has no record. *)
Definition sparse_database : AsnDatabase := {|
  ip_address_parse := fun s =>
    if String.eqb s "8.8.8.8" || String.eqb s "1.1.1.1"
    then Some {| version := 4; is_private := false; is_loopback := false;
                 is_reserved := false; is_link_local := false |}
    else None;
  reader := reader one_network_database
|}.

(** A user seen three times on network 55836 and once on 15169, which
    three accounts use. *)
Definition roaming_user_store : Neo4jReads := {|
  QUERY_USER_TX_HISTORY := fun _ _ => Ok [];
  QUERY_USER_PROFILE := fun _ => Ok [];
  QUERY_IP_ROTATION := fun _ => Ok [];
  QUERY_RECENT_AMOUNTS := fun _ _ => Ok [];
  QUERY_USER_HOUR_DISTRIBUTION := fun _ => Ok [];
  QUERY_IDENTICAL_TX_RECEIVER := fun _ _ _ _ => Ok [];
  QUERY_ASN_DENSITY := fun _ => Ok [ {| account_count := Some 3%Z |} ];
  QUERY_USER_ASN_HISTORY := fun _ =>
    Ok [ {| ah_asn := Some 55836%Z; ah_usage_count := Some 3%Z |};
         {| ah_asn := Some 15169%Z; ah_usage_count := Some 1%Z |} ]
|}.

(** A codec whose schema check rejects every payload. *)
Definition rejecting_codec : Codec := {|
  bytes_decode := fun s => Ok s;
  json_loads := fun _ => Ok (JObj []);
  json_dumps := fun _ => Ok "{}";
  parse_TransactionInput := fun _ => Raise "ValidationError: tx_id: field required"
|}.

(** A codec that accepts every payload as [transfer]. *)
Definition accepting_codec : Codec := {|
  bytes_decode := fun s => Ok s;
  json_loads := fun _ => Ok (JObj []);
  json_dumps := fun _ => Ok "{}";
  parse_TransactionInput := fun _ => Ok transfer
|}.

Definition raw_message : StreamEntry := [("payload", "{}")].

(** The message [msg_id] has been delivered to [group] and awaits its
    acknowledgement; the coming calls of the stream server do what [faults]
    tells. *)
Definition delivered (stream group msg_id : string) (faults : Faults) : World := {|
  neo_faults := []; neo_commits := [];
  redis_faults := faults; redis_streams := ∅;
  redis_pending := {[ (stream, group) := {[ msg_id ]} ]};
  alert_faults := []; alerts := [];
  clock := []; rng := []; logged := [];
  pool := {| processed_count := 0; pool_total_latency_ms := 0;
             deadlock_retries := 0; ingest_errors := 0 |};
  adapter := {| forwarded := 0; validation_errors := 0; adapter_total_latency_ms := 0 |}
|}.

(** A worker pool over [flat_engine 50] with a dashboard attached. *)
Definition flat_pool : WorkerPool.Pool :=
  {| WorkerPool.risk_engine := flat_engine 50; WorkerPool.alert_callback := true |}.

(** Extractor outputs of a dormant account that wakes up on a shared
    device with an amount spike. *)
Definition woken_dead_account : Dict :=
  list_to_map
    [("is_dormant", PyBool true); ("is_first_strike", PyBool true);
     ("days_slept", PyInt 40); ("days_inactive", PyInt 40);
     ("sleep_flash_flag", PyBool false); ("sleep_flash_ratio", PyFloat 1.2%Q);
     ("risk", PyFloat 35.0%Q);
     ("flags", PyList ["First-Strike: dormant 40d, woke up with ₹1100"])].
Definition shared_device : Dict :=
  list_to_map
    [("account_count", PyInt 3); ("device_multi_user_flag", PyBool false);
     ("device_multi_user_count", PyInt 1); ("new_device_flag", PyBool false);
     ("new_device_high_mpin", PyBool false); ("cap_mask_anomaly", PyInt 0);
     ("os_family", PyStr "android"); ("risk", PyFloat 20.0%Q);
     ("flags", PyList ["Shared Device: 3 accounts"])].
Definition spiking_behavioral : Dict :=
  list_to_map
    [("spike_flag", PyBool true); ("impossible_travel", PyBool false);
     ("ip_rotation_flag", PyBool false); ("fixed_amount_flag", PyBool false);
     ("circadian_anomaly", PyBool false); ("tx_identicality_flag", PyBool false);
     ("asn_class", PyStr "MOBILE_ISP"); ("asn_country", PyStr "IN");
     ("amount_zscore", PyFloat 3.4%Q); ("risk", PyFloat 20.0%Q);
     ("flags", PyList ["Amount spike: 3.4σ above baseline"])].
Definition calm_graph : Dict :=
  list_to_map
    [("community_id", PyStr "7"); ("community_risk", PyFloat 12.5%Q);
     ("betweenness", PyFloat 0.01%Q); ("risk", PyFloat 10.0%Q); ("flags", PyList [])].
Definition calm_velocity : Dict :=
  list_to_map
    [("outflow_inflow_ratio", PyFloat 0.2%Q); ("tx_per_min", PyFloat 1.0%Q);
     ("pass_through_ratio", PyFloat 0.2%Q); ("risk", PyFloat 5.0%Q); ("flags", PyList [])].
(** A sender that forwards nine tenths of what comes in. *)
Definition relaying_velocity : Dict :=
  list_to_map
    [("outflow_inflow_ratio", PyFloat 0.9%Q); ("tx_per_min", PyFloat 1.0%Q);
     ("pass_through_ratio", PyFloat 0.9%Q); ("risk", PyFloat 25.0%Q);
     ("flags", PyList ["Pass-through: 90% of inflow forwarded"])].

End Fixtures.

(* ================================================================== *)
(** * Vocabulary of the statements *)
(* ================================================================== *)

Module Views.

Import RiskEngine.

(** ** Frames: what a command leaves alone *)

(** The stream server as a whole. *)
Definition same_redis (w w' : World) : Prop :=
  redis_faults w' = redis_faults w
  /\ redis_streams w' = redis_streams w
  /\ redis_pending w' = redis_pending w.

(** The worker counter of failed messages. *)
Definition same_ingest_errors (w w' : World) : Prop :=
  ingest_errors (pool w') = ingest_errors (pool w).

(** Neither the stream server nor the counter of failed messages has moved. *)
Definition steady (w w' : World) : Prop :=
  same_redis w w' /\ same_ingest_errors w w'.

(** [m] touches neither, whether it returns or raises. *)
Definition keeps_steady {A} (m : M A) : Prop :=
  forall w r w', m w = (r, w') -> steady w w'.

(** [m] always returns. *)
Definition never_raises {A} (m : M A) : Prop :=
  forall w e w', m w <> (Raise e, w').

(** ** The writes of the engine's persist step *)

Section Scoring.
Variable settings : Settings.
Variable tx : TransactionInput.

(** The parameters of the engine's own [UPDATE_TX_RISK] write. *)
Definition engine_tx_params (fused : Q) (rsn : string) : Dict :=
  list_to_map
    [("tx_id", PyStr (tx_id tx));
     ("risk_score", PyFloat (py_round fused 2));
     ("status", PyStr (TransactionStatus_value (persisted_status (level_of settings fused))));
     ("reason", PyStr rsn);
     ("sender_lat", opt_float (sender_lat tx));
     ("sender_lon", opt_float (sender_lon tx))].

Definition engine_user_params (fused : Q) : Dict :=
  list_to_map
    [("user_id", PyStr (sender_id tx));
     ("risk_score", PyFloat (py_round fused 2))].

End Scoring.

(** The [status] parameters of the committed [UPDATE_TX_RISK] writes for
    one transaction, oldest first. *)
Definition committed_statuses (w : World) (tx_id : string) : list PyVal :=
  filter_map
    (fun c : Cypher * Dict =>
       match fst c, snd c !! "tx_id" with
       | UPDATE_TX_RISK, Some (PyStr t) =>
           if String.eqb t tx_id then Some (get (snd c) "status") else None
       | _, _ => None
       end)
    (neo_commits w).

(** ** The distance travelled *)

(** The behavioural extractor has the four coordinates: the distance to
    the last known place has to be computed. *)
Definition located (profile_rows : list ProfileRow) (sender_lat sender_lon : option Q)
    : bool :=
  Behavioral.truthyQ sender_lat && Behavioral.truthyQ sender_lon
  && Behavioral.truthyQ (column (head profile_rows) p_last_lat)
  && Behavioral.truthyQ (column (head profile_rows) p_last_lon).

(** The call of [_haversine_km] that [compute] then makes. *)
Definition distance (lib : MathLib) (profile_rows : list ProfileRow)
    (sender_lat sender_lon : option Q) : result Q :=
  Behavioral._haversine_km lib
    (default 0%Q (column (head profile_rows) p_last_lat))
    (default 0%Q (column (head profile_rows) p_last_lon))
    (default 0%Q sender_lat) (default 0%Q sender_lon).

(** ** The hits of the mule classifier *)

(** [d.get(k)] is truthy. *)
Definition flagged (d : Dict) (k : string) : bool := truthy (get d k).

(** [d.get(k, 0) > bound] and [d.get(k, 0) >= bound] hold: the entry is a
    number and it compares so. *)
Definition above (d : Dict) (k : string) (bound : Q) : bool :=
  match MuleDetection.get_gt d k bound with Ok b => b | Raise _ => false end.
Definition at_least (d : Dict) (k : string) (bound : Q) : bool :=
  match MuleDetection.get_ge d k bound with Ok b => b | Raise _ => false end.

#[local] Set Warnings "-inexact-float".

(** The weights of the classifier, in the order of its [score += ...]
    lines. *)
Definition mule_weights : list float :=
  [0.30; 0.25; 0.25; 0.20; 0.15; 0.20; 0.15; 0.10; 0.10; 0.05; 0.15; 0.08; 0.05;
   0.08; 0.08; 0.10; 0.15]%float.

(** The signals that the classifier weighs, in the same order: first
    strike, dormant with a risk above 40 (looked at only without a first
    strike), sleep-and-flash, pass-through, shared device, SIM swap, risky
    cluster, relay, impossible travel, amount spike, new device with a
    high amount under MPIN, capability mask, new device alone, IP
    rotation, fixed amounts, circadian anomaly, identical transfers. *)
Definition mule_signals (behavioral dead_account device graph velocity : Dict)
    : list bool :=
  [ flagged dead_account "is_first_strike";
    negb (flagged dead_account "is_first_strike")
    && flagged dead_account "is_dormant" && above dead_account "risk" 40;
    flagged dead_account "sleep_flash_flag";
    above velocity "outflow_inflow_ratio" MuleDetection._PASSTHROUGH_THRESHOLD;
    at_least device "account_count" MuleDetection._DEVICE_SHARE_THRESHOLD;
    flagged device "device_multi_user_flag";
    above graph "community_risk" 50;
    above velocity "tx_per_min" 5 && above velocity "outflow_inflow_ratio" 0.6;
    flagged behavioral "impossible_travel";
    flagged behavioral "spike_flag";
    flagged device "new_device_high_mpin";
    at_least device "cap_mask_anomaly" 2;
    flagged device "new_device_flag" && negb (flagged device "new_device_high_mpin");
    flagged behavioral "ip_rotation_flag";
    flagged behavioral "fixed_amount_flag";
    flagged behavioral "circadian_anomaly";
    flagged behavioral "tx_identicality_flag" ].

(** Each weight with whether its signal fired. *)
Definition mule_hits (behavioral dead_account device graph velocity : Dict)
    : list (float * bool) :=
  combine mule_weights (mule_signals behavioral dead_account device graph velocity).

(** The weights of the hits that fired, added to [start] one after the
    other in binary64, and their number. *)
Definition weighted_sum (hits : list (float * bool)) (start : float) : float :=
  fold_left (fun (score : float) (h : float * bool) =>
               if snd h then (score + fst h)%float else score) hits start.

Definition fired (hits : list (float * bool)) (start : nat) : nat :=
  fold_left (fun (n : nat) (h : float * bool) => if snd h then S n else n) hits start.

(** The accumulator that the hits [hs] lead to: their weighted sum from
    0.0, and one reason for each hit that fired. *)
Definition traced (hs : list (float * bool)) (acc : MuleDetection.Acc) : Prop :=
  fst acc = weighted_sum hs 0 /\ length (snd acc) = fired hs 0.

Definition traced_result (hs : list (float * bool)) (r : result MuleDetection.Acc) : Prop :=
  match r with
  | Ok acc => traced hs acc
  | Raise _ => True
  end.

(** ** The scores that the weights can add up to *)

(** A score with the number of hits behind it. *)
Definition State : Type := (float * nat)%type.

Definition state_ltb (x y : State) : bool :=
  PrimFloat.ltb (fst x) (fst y)
  || (PrimFloat.Leibniz.eqb (fst x) (fst y) && (snd x <? snd y)%nat).

Definition state_eqb (x y : State) : bool :=
  PrimFloat.Leibniz.eqb (fst x) (fst y) && (snd x =? snd y)%nat.

(** The union of two lists of states; two equal heads are kept once. *)
Fixpoint merge_states (a : list State) : list State -> list State :=
  fix merge_with (b : list State) : list State :=
    match a, b with
    | [], _ => b
    | _, [] => a
    | x :: a', y :: b' =>
        if state_eqb x y then x :: merge_states a' b'
        else if state_ltb x y then x :: merge_states a' b
        else y :: merge_with b'
    end.

(** The states that the weights [ws] lead to from [states], each weight
    being added or not. *)
Fixpoint reachable (ws : list float) (states : list State) : list State :=
  match ws with
  | [] => states
  | w :: ws' =>
      reachable ws'
        (merge_states states (map (fun st : State => ((fst st + w)%float, S (snd st))) states))
  end.

(** What holds of every score [s] that [n] hits add up to: it lies between
    0.05 n and 0.30 n; clamped by 1.0 it lies in [0, 1] and is not
    greater; and the clamped score is at least 0.5 as a float exactly when
    it is as a number. *)
Definition score_sound (st : State) : bool :=
  let q := float_value (fst st) in
  let clamped := py_min_float (fst st) 1.0 in
  Qle_bool (0.05 * inject_Z (Z.of_nat (snd st))) q
  && Qle_bool q (0.30 * inject_Z (Z.of_nat (snd st)))
  && Qle_bool 0 (float_value clamped)
  && Qle_bool (float_value clamped) 1
  && Qle_bool (float_value clamped) q
  && Bool.eqb (PrimFloat.leb 0.5 clamped) (Qle_bool 0.5 (float_value clamped)).

(** The entropy [-(p_1 log p_1 + ... + p_n log p_n)] of the distribution
    [p_i = c_i / total] that a dictionary of counts stands for. *)
Definition shannon (lib : MathLib) (counts : list (Z * Z)) (total : Z) : Q :=
  (- Qsum (map (fun kv : Z * Z =>
                  let p := inject_Z (snd kv) / inject_Z total in
                  p * math_log lib p)
               counts))%Q.

(** ** Failures of the stream adapter *)

(** The stage at which the adapter gives a message up: decoding the hash
    or its payload, validating it, publishing it (serialisation and
    [XADD]), or the [XACK] that follows the publication. *)
Inductive Stage : Type := Decoding | Validating | Publishing | Acknowledging.

(** The stage at which the handling of [data] fails in [w], if it does,
    with the faults of the stream server that are still to come when the
    handler turns to the acknowledgement of the failed message. *)
Definition failing_stage (codec : Codec) (data : StreamEntry) (w : World)
    : option (Stage * Faults) :=
  match (let* decoded := decode_fields codec data in tx_data_of codec decoded) with
  | Raise _ => Some (Decoding, redis_faults w)
  | Ok tx_data =>
      match parse_TransactionInput codec (snd (pop_meta tx_data)) with
      | Raise _ => Some (Validating, redis_faults w)
      | Ok _ =>
          match json_dumps codec
                  (StreamAdapter.carry_meta (snd (pop_meta tx_data)) (fst (pop_meta tx_data)))
          with
          | Raise _ => Some (Publishing, redis_faults w)
          | Ok _ =>
              match redis_faults w with
              | Some _ :: f => Some (Publishing, f)
              | None :: Some _ :: f => Some (Acknowledging, f)
              | _ => None
              end
          end
      end
  end.

(** The status that the threshold mapping of the specification assigns. *)
Definition mapped_status (settings : Settings) (R : Q) : TransactionStatus :=
  if Qleb (HIGH_RISK_THRESHOLD settings) R then BLOCKED
  else if Qleb (MEDIUM_RISK_THRESHOLD settings) R then FLAGGED
  else COMPLETED.

End Views.

Export Views.

(* ================================================================== *)
(** * Concrete rows and stores of the four other extractors *)
(* ================================================================== *)

Module FeatureFixtures.

Import FeatureStore.
Local Open Scope Q_scope.

(** A user who received 1000 and sent 1100 in nine transactions of the
    last minute. *)
Definition relay_row : VelocityRow := {|
  vr_send_count := Some 5%Z;
  vr_receive_count := Some 4%Z;
  vr_total_sent_window := Some 1100;
  vr_total_received_window := Some 1000;
  vr_outflow_inflow_ratio := Some 1.1;
  vr_total_activity := Some 9%Z
|}.

(** A distributor in community 7: six receivers, one sender. *)
Definition distributor_row : GraphFeaturesRow := {|
  gf_in_degree := Some 1%Z;
  gf_out_degree := Some 6%Z;
  gf_betweenness := Some 0.08;
  gf_pagerank := Some 0.01;
  gf_clustering_coeff := Some 0.2;
  gf_community_id := Some 7%Z;
  gf_avg_neighbor_risk := Some 30;
  gf_device_account_count := Some 1%Z
|}.

(** A store that knows nothing about anybody. *)
Definition silent_store : FeatureReads := {|
  QUERY_VELOCITY_FEATURES := fun _ _ => Ok [];
  QUERY_USER_GRAPH_FEATURES := fun _ => Ok [];
  QUERY_COMMUNITY_STATS := fun _ => Ok [];
  QUERY_DORMANT_WAKEUP := fun _ _ => Ok [];
  QUERY_DORMANT_STATUS := fun _ => Ok [];
  QUERY_RECENT_INFLOW_OUTFLOW := fun _ _ => Ok [];
  QUERY_DEVICE_INFO := fun _ => Ok [];
  QUERY_USER_DEVICE_HISTORY := fun _ => Ok [];
  QUERY_DEVICE_RISK_PROPAGATION := fun _ => Ok [];
  QUERY_DEVICE_USERS_24H := fun _ => Ok []
|}.

(** Community 7 has four members of average risk 62; the statistics of
    every other community cannot be read. *)
Definition risky_community_store : FeatureReads := {|
  QUERY_VELOCITY_FEATURES := fun _ _ => Ok [];
  QUERY_USER_GRAPH_FEATURES := fun _ => Ok [distributor_row];
  QUERY_COMMUNITY_STATS := fun cid =>
    if (cid =? 7)%Z
    then Ok [ {| cs_member_count := Some 4%Z; cs_avg_risk := Some 62;
                 cs_high_risk_count := Some 1%Z |} ]
    else Raise "ServiceUnavailable";
  QUERY_DORMANT_WAKEUP := fun _ _ => Ok [];
  QUERY_DORMANT_STATUS := fun _ => Ok [];
  QUERY_RECENT_INFLOW_OUTFLOW := fun _ _ => Ok [];
  QUERY_DEVICE_INFO := fun _ => Ok [];
  QUERY_USER_DEVICE_HISTORY := fun _ => Ok [];
  QUERY_DEVICE_RISK_PROPAGATION := fun _ => Ok [];
  QUERY_DEVICE_USERS_24H := fun _ => Ok []
|}.

(** An account that slept for 45 days, with an average transfer of 100,
    and that has just sent money again. *)
Definition sleeper_row : WakeupRow := {|
  wk_is_dormant := Some true;
  wk_is_first_strike := Some true;
  wk_is_volume_spike := Some false;
  wk_days_slept := Some 45%Z;
  wk_tx_count := Some 2%Z;
  wk_avg_tx_amount := Some 100;
  wk_recent_volume := Some 0
|}.

(** An account in daily use, with an average transfer of 100. *)
Definition awake_row : WakeupRow := {|
  wk_is_dormant := Some false;
  wk_is_first_strike := Some false;
  wk_is_volume_spike := Some false;
  wk_days_slept := Some 0%Z;
  wk_tx_count := Some 40%Z;
  wk_avg_tx_amount := Some 100;
  wk_recent_volume := Some 300
|}.

(** The device [D1] runs Android 13 and is used by the account [U0001]
    alone. *)
Definition android_store : FeatureReads := {|
  QUERY_VELOCITY_FEATURES := fun _ _ => Ok [];
  QUERY_USER_GRAPH_FEATURES := fun _ => Ok [];
  QUERY_COMMUNITY_STATS := fun _ => Ok [];
  QUERY_DORMANT_WAKEUP := fun _ _ => Ok [];
  QUERY_DORMANT_STATUS := fun _ => Ok [];
  QUERY_RECENT_INFLOW_OUTFLOW := fun _ _ => Ok [];
  QUERY_DEVICE_INFO := fun _ =>
    Ok [ {| di_account_count := Some 1%Z; di_os := Some "Android 13";
            di_capability_mask := Some "011001" |} ];
  QUERY_USER_DEVICE_HISTORY := fun _ => Ok [ {| dh_device_id := Some "D1" |} ];
  QUERY_DEVICE_RISK_PROPAGATION := fun _ =>
    Ok [ {| pr_device_risk_score := Some 10; pr_avg_user_risk := Some 20;
            pr_max_user_risk := Some 20 |} ];
  QUERY_DEVICE_USERS_24H := fun _ => Ok [ {| du_unique_users_24h := Some 1%Z |} ]
|}.

(** A library for which every two located points are 6371 km apart. *)
Definition far_lib : MathLib := {|
  math_log := fun _ => 0%Q;
  math_log1p := fun _ => 0%Q;
  math_sqrt := fun _ => 0%Q;
  math_sin := fun _ => 0%Q;
  math_cos := fun _ => 0%Q;
  math_atan2 := fun _ _ => 0.5%Q;
  math_radians := fun x => x;
  np_percentile := fun _ _ => 0%Q
|}.

(** A world whose coming random draws are [us]. *)
Definition drawing (us : list Q) : World := with_rng Fixtures.quiet_world us.

(** A detection store with one fraud island, cluster 7 with two members;
    the relay query fails. *)
Definition island_store : CollusiveFraud.DetectReads := {|
  CollusiveFraud.DETECT_FRAUD_ISLANDS := fun _ =>
    Ok [{| CollusiveFraud.fi_cluster_id := Some 7%Z;
           CollusiveFraud.fi_member_ids := ["U0001"; "U0002"]%string |}];
  CollusiveFraud.DETECT_MONEY_ROUTERS := fun _ => Ok [];
  CollusiveFraud.DETECT_CIRCULAR_FLOWS := Ok [];
  CollusiveFraud.DETECT_RAPID_CHAINS := Ok [];
  CollusiveFraud.DETECT_STAR_HUBS := fun _ _ => Ok [];
  CollusiveFraud.DETECT_RELAY_MULE := fun _ => Raise "ServiceUnavailable"
|}.

End FeatureFixtures.

(* ================================================================== *)
(** * Vocabulary of the statements about the extractors and the loops *)
(* ================================================================== *)

Module FeatureViews.

Local Open Scope Q_scope.

(** The first character of [s] is not a sign. *)
Definition unsigned (s : string) : Prop :=
  match s with
  | String c _ => c <> "+"%char /\ c <> "-"%char
  | EmptyString => True
  end.

(** How [_ingest_with_retry] reads the text of an exception. *)
Definition is_transient (exc : Exn) : bool :=
  str_contains "deadlock" (str_lower exc) || str_contains "transient" (str_lower exc).

Definition is_not_found (exc : Exn) : bool :=
  str_contains "not found" (str_lower exc) || str_contains "no node" (str_lower exc).

Definition is_constraint (exc : Exn) : bool :=
  str_contains "constraint" (str_lower exc).

(** What a write with retries leaves of the world [w]: the fault tape [f],
    the commits [c] and [d] deadlock retries; the counters of processed and
    failed messages, the stream server and the alerts are those of [w]. *)
Definition store_is (w : World) (f : Faults) (c : list (Cypher * Dict)) (d : Z)
    (w' : World) : Prop :=
  neo_faults w' = f
  /\ neo_commits w' = c
  /\ deadlock_retries (pool w') = d
  /\ processed_count (pool w') = processed_count (pool w)
  /\ ingest_errors (pool w') = ingest_errors (pool w)
  /\ redis_streams w' = redis_streams w
  /\ redis_pending w' = redis_pending w
  /\ alerts w' = alerts w.

(** The transient errors among [es] that are not constraint errors: the
    ones that count as deadlock retries. *)
Definition deadlocks (es : list Exn) : Z :=
  Z.of_nat (length (List.filter (fun e => negb (is_constraint e)) es)).

(** A world whose coming writes meet the faults [f]. *)
Definition failing_writes (f : Faults) : World :=
  with_neo Fixtures.quiet_world f [].

(** The two worker counters of finished messages have not moved. *)
Definition same_tally (w w' : World) : Prop :=
  processed_count (pool w') = processed_count (pool w)
  /\ ingest_errors (pool w') = ingest_errors (pool w).

Definition keeps_tally {A} (m : M A) : Prop :=
  forall w r w', m w = (r, w') -> same_tally w w'.

(** [m] counts one processed message when it returns and none when it
    raises. *)
Definition finishes_one {A} (m : M A) : Prop :=
  forall w r w', m w = (r, w') ->
    match r with
    | Ok _ => processed_count (pool w') = (processed_count (pool w) + 1)%Z
              /\ ingest_errors (pool w') = ingest_errors (pool w)
    | Raise _ => same_tally w w'
    end.

(** The number of entries of a stream. *)
Definition stream_length (w : World) (stream : string) : Z :=
  Z.of_nat (length (default [] (redis_streams w !! stream))).

(** Between [w] and [w'] the adapter has counted [df] forwarded messages
    and [dv] validation errors, and [stream] has grown by [dp] entries. *)
Definition moved (stream : string) (df dv dp : Z) (w w' : World) : Prop :=
  forwarded (adapter w') = (forwarded (adapter w) + df)%Z
  /\ validation_errors (adapter w') = (validation_errors (adapter w) + dv)%Z
  /\ stream_length w' stream = (stream_length w stream + dp)%Z.

(** [m] moves none of the three. *)
Definition keeps_quiet (stream : string) {A} (m : M A) : Prop :=
  forall w r w', m w = (r, w') -> moved stream 0 0 0 w w'.

(** The commits of [w'] are those of [w] and then [l]. *)
Definition commits_more (l : list (Cypher * Dict)) (w w' : World) : Prop :=
  neo_commits w' = neo_commits w ++ l.

(** The graph store has only gained commits. *)
Definition grows (w w' : World) : Prop := exists l, commits_more l w w'.

Definition keeps_growing {A} (m : M A) : Prop :=
  forall w r w', m w = (r, w') -> grows w w'.

(** The commit of the address of [tx] by [POST /transaction], when it has
    one. *)
Definition ip_commits (adb : AsnDatabase) (tx : TransactionInput) : list (Cypher * Dict) :=
  match ip_address tx with
  | Some ip =>
      if String.eqb ip "" then [] else [(INGEST_IP, Routes.ingest_ip_params adb tx ip)]
  | None => []
  end.

(** The services of a running application. *)
Definition ready (engine : RiskEngine.Engine) : Routes.Services :=
  {| Routes._neo4j := true; Routes._risk_engine := Some engine |}.

(** The entry of [d] under [k], when there is one, is a number. *)
Definition numeric_at (d : Dict) (k : string) : bool :=
  match d !! k with
  | Some v => is_ok (num v)
  | None => true
  end.

(** The keys whose entries the engine and the mule classifier use as
    numbers. *)
Definition compared_keys : list string :=
  ["risk"; "days_slept"; "days_inactive"; "sleep_flash_ratio"; "pass_through_ratio";
   "outflow_inflow_ratio"; "account_count"; "community_risk"; "betweenness";
   "tx_per_min"; "cap_mask_anomaly"; "amount_zscore"; "asn_risk"].

(** An extractor output as the engine expects it: numbers under the
    compared keys, a list under [flags], a string or nothing under
    [community_id]. *)
Definition typed (d : Dict) : bool :=
  forallb (numeric_at d) compared_keys
  && match d !! "flags" with
     | Some v => is_ok (as_list v)
     | None => true
     end
  && match d !! "community_id" with
     | Some (PyStr _) | Some PyNone | None => true
     | Some _ => false
     end.

End FeatureViews.

(* ================================================================== *)
(** * Facts about the run-time fragments *)
(* ================================================================== *)

Module PyFacts.

Local Open Scope Q_scope.

Lemma Qltb_true (x y : Q) : Qltb x y = true <-> x < y.
Proof.
  unfold Qltb. rewrite negb_true_iff.
  destruct (Qle_bool y x) eqn:E.
  - apply Qle_bool_iff in E. split; [discriminate | intros H; lra].
  - split; [intros _ | reflexivity].
    destruct (Qlt_le_dec x y) as [H | H]; [exact H |].
    apply Qle_bool_iff in H. congruence.
Qed.

Lemma Qltb_false (x y : Q) : Qltb x y = false <-> y <= x.
Proof.
  destruct (Qltb x y) eqn:E.
  - apply Qltb_true in E. split; [discriminate | intros H; lra].
  - split; [intros _ | reflexivity].
    destruct (Qlt_le_dec x y) as [H | H]; [| exact H].
    apply Qltb_true in H. congruence.
Qed.

Lemma Qleb_true (x y : Q) : Qleb x y = true <-> x <= y.
Proof. apply Qle_bool_iff. Qed.

Lemma Qleb_false (x y : Q) : Qleb x y = false <-> y < x.
Proof.
  unfold Qleb. destruct (Qle_bool x y) eqn:E.
  - apply Qle_bool_iff in E. split; [discriminate | intros H; lra].
  - split; [intros _ | reflexivity].
    destruct (Qlt_le_dec y x) as [H | H]; [exact H |].
    apply Qle_bool_iff in H. congruence.
Qed.

(** Case analysis on a comparison, with the order fact in the context. *)
Ltac case_cmp :=
  match goal with
  | |- context [Qltb ?x ?y] =>
      let E := fresh "E" in
      destruct (Qltb x y) eqn:E;
      [apply Qltb_true in E | apply Qltb_false in E]
  | |- context [Qleb ?x ?y] =>
      let E := fresh "E" in
      destruct (Qleb x y) eqn:E;
      [apply Qleb_true in E | apply Qleb_false in E]
  end.

Lemma py_min_le_l (a b : Q) : py_min a b <= a.
Proof. unfold py_min. case_cmp; lra. Qed.

Lemma py_min_le_r (a b : Q) : py_min a b <= b.
Proof. unfold py_min. case_cmp; lra. Qed.

Lemma py_min_glb (a b c : Q) : c <= a -> c <= b -> c <= py_min a b.
Proof. unfold py_min. case_cmp; lra. Qed.

Lemma py_min_cases (a b : Q) :
  (a <= b /\ py_min a b = a) \/ (b < a /\ py_min a b = b).
Proof. unfold py_min. case_cmp; [right | left]; split; auto. Qed.

Lemma py_max_ge_l (a b : Q) : a <= py_max a b.
Proof. unfold py_max. case_cmp; lra. Qed.

Lemma py_max_ge_r (a b : Q) : b <= py_max a b.
Proof. unfold py_max. case_cmp; lra. Qed.

Lemma py_max_lub (a b c : Q) : a <= c -> b <= c -> py_max a b <= c.
Proof. unfold py_max. case_cmp; lra. Qed.

(** Rounding to the nearest integer stays between the integers around. *)
Lemma round_half_even_ge (z : Z) (x : Q) :
  inject_Z z <= x -> (z <= round_half_even x)%Z.
Proof.
  intros H.
  assert (Hf : (z <= Qfloor x)%Z).
  { rewrite <- (Qfloor_Z z). apply Qfloor_resp_le. exact H. }
  unfold round_half_even.
  repeat match goal with |- context [if ?c then _ else _] => destruct c end; lia.
Qed.

Lemma round_half_even_le (z : Z) (x : Q) :
  x <= inject_Z z -> (round_half_even x <= z)%Z.
Proof.
  intros H.
  assert (Hf : (Qfloor x <= z)%Z).
  { rewrite <- (Qfloor_Z z). apply Qfloor_resp_le. exact H. }
  destruct (Z.eq_dec (Qfloor x) z) as [Heq | Hne].
  - (* [x] is the integer [z] itself *)
    assert (Hx : inject_Z (Qfloor x) <= x) by apply Qfloor_le.
    unfold round_half_even.
    assert (Hd : Qltb (x - inject_Z (Qfloor x)) (1 # 2) = true).
    { apply Qltb_true. rewrite Heq in *. lra. }
    rewrite Hd. lia.
  - unfold round_half_even.
    repeat match goal with |- context [if ?c then _ else _] => destruct c end; lia.
Qed.

Lemma pow10_pos (n : nat) : (0 < pow10 n)%Z.
Proof. unfold pow10. apply Z.pow_pos_nonneg; lia. Qed.

(** [round(x, n)] does not leave an interval with integer ends. *)
Lemma py_round_bounds (lo hi : Z) (x : Q) (n : nat) :
  inject_Z lo <= x <= inject_Z hi ->
  inject_Z lo <= py_round x n <= inject_Z hi.
Proof.
  intros [Hlo Hhi]. unfold py_round.
  pose proof (pow10_pos n) as Hp.
  set (p := pow10 n) in *.
  assert (HpQ : 0 < inject_Z p).
  { change 0 with (inject_Z 0). rewrite <- Zlt_Qlt. exact Hp. }
  assert (H1 : (lo * p <= round_half_even (x * inject_Z p))%Z).
  { apply round_half_even_ge. rewrite inject_Z_mult. nra. }
  assert (H2 : (round_half_even (x * inject_Z p) <= hi * p)%Z).
  { apply round_half_even_le. rewrite inject_Z_mult. nra. }
  set (r := round_half_even (x * inject_Z p)) in *.
  rewrite Zle_Qle in H1, H2. rewrite inject_Z_mult in H1, H2.
  split.
  - apply Qle_shift_div_l; [exact HpQ | exact H1].
  - apply Qle_shift_div_r; [exact HpQ | exact H2].
Qed.

End PyFacts.

(* ================================================================== *)
(** * Facts about the effect monad *)
(* ================================================================== *)

Module RuntimeFacts.

Lemma bind_ok {A B} (m : M A) (k : A -> M B) (w w' : World) (b : B) :
  bind m k w = (Ok b, w') ->
  exists a w1, m w = (Ok a, w1) /\ k a w1 = (Ok b, w').
Proof.
  unfold bind. destruct (m w) as [[a | e] w1]; intros H.
  - exists a, w1. split; [reflexivity | exact H].
  - discriminate.
Qed.

Lemma bind_raise {A B} (m : M A) (k : A -> M B) (w w' : World) (e : Exn) :
  bind m k w = (Raise e, w') ->
  m w = (Raise e, w') \/ exists a w1, m w = (Ok a, w1) /\ k a w1 = (Raise e, w').
Proof.
  unfold bind. destruct (m w) as [[a | e1] w1]; intros H.
  - right. exists a, w1. split; [reflexivity | exact H].
  - left. inversion H. reflexivity.
Qed.

Lemma lift_inv {A} (r r' : result A) (w w' : World) :
  lift r w = (r', w') -> r = r' /\ w' = w.
Proof. unfold lift. intros H. inversion H. split; reflexivity. Qed.

Lemma ret_inv {A} (a : A) (r : result A) (w w' : World) :
  ret a w = (r, w') -> r = Ok a /\ w' = w.
Proof. unfold ret. intros H. inversion H. split; reflexivity. Qed.

(** ** Frames *)

Lemma same_redis_refl (w : World) : same_redis w w.
Proof. repeat split. Qed.

Lemma same_redis_trans (w1 w2 w3 : World) :
  same_redis w1 w2 -> same_redis w2 w3 -> same_redis w1 w3.
Proof.
  unfold same_redis. intros (a & b & c) (a' & b' & c').
  repeat split; congruence.
Qed.

Lemma steady_refl (w : World) : steady w w.
Proof. repeat split. Qed.

Lemma steady_trans (w1 w2 w3 : World) : steady w1 w2 -> steady w2 w3 -> steady w1 w3.
Proof.
  unfold steady, same_ingest_errors. intros [a b] [a' b'].
  split; [eapply same_redis_trans; eassumption | congruence].
Qed.

Lemma keeps_steady_ret {A} (a : A) : keeps_steady (ret a).
Proof. intros w r w' H. apply ret_inv in H as [_ ->]. apply steady_refl. Qed.

Lemma keeps_steady_raise {A} (e : Exn) : keeps_steady (@raise A e).
Proof. intros w r w' H. inversion H. apply steady_refl. Qed.

Lemma keeps_steady_lift {A} (x : result A) : keeps_steady (lift x).
Proof. intros w r w' H. apply lift_inv in H as [_ ->]. apply steady_refl. Qed.

Lemma keeps_steady_bind {A B} (m : M A) (k : A -> M B) :
  keeps_steady m -> (forall a, keeps_steady (k a)) -> keeps_steady (bind m k).
Proof.
  intros Hm Hk w r w' H. unfold bind in H.
  destruct (m w) as [[a | e] w1] eqn:E.
  - eapply steady_trans; [eapply Hm, E | eapply Hk, H].
  - inversion H; subst. eapply Hm, E.
Qed.

Lemma keeps_steady_try {A} (m : M A) (h : Exn -> M A) :
  keeps_steady m -> (forall e, keeps_steady (h e)) -> keeps_steady (try_except m h).
Proof.
  intros Hm Hh w r w' H. unfold try_except in H.
  destruct (m w) as [[a | e] w1] eqn:E.
  - inversion H; subst. eapply Hm, E.
  - eapply steady_trans; [eapply Hm, E | eapply Hh, H].
Qed.

Lemma keeps_steady_write_async (q : Cypher) (params : Dict) :
  keeps_steady (write_async q params).
Proof.
  intros w r w' H. unfold write_async in H.
  destruct (next_fault (neo_faults w)) as [[e |] f]; inversion H; repeat split.
Qed.

Lemma keeps_steady_send_alert (a : Alert) : keeps_steady (send_alert a).
Proof.
  intros w r w' H. unfold send_alert in H.
  destruct (next_fault (alert_faults w)) as [[e |] f]; inversion H; repeat split.
Qed.

Lemma keeps_steady_perf_counter : keeps_steady perf_counter.
Proof.
  intros w r w' H. unfold perf_counter in H.
  destruct (clock w); inversion H; repeat split.
Qed.

Lemma keeps_steady_random : keeps_steady random.
Proof.
  intros w r w' H. unfold random in H.
  destruct (rng w); inversion H; repeat split.
Qed.

Lemma keeps_steady_log (lvl : Level) (msg : string) : keeps_steady (log_record lvl msg).
Proof. intros w r w' H. inversion H. repeat split. Qed.

Create HintDb frame.

#[export] Hint Resolve keeps_steady_ret keeps_steady_raise keeps_steady_lift
  keeps_steady_write_async keeps_steady_send_alert keeps_steady_perf_counter
  keeps_steady_random keeps_steady_log : frame.

(** Break a command into its parts and close each with the frame hints. *)
Ltac frame :=
  repeat first
    [ solve [auto with frame]
    | apply keeps_steady_bind; [| intros ?]
    | apply keeps_steady_try; [| intros ?]
    | match goal with
      | |- keeps_steady (if ?c then _ else _) => destruct c
      | |- keeps_steady (match ?x with _ => _ end) => destruct x
      | |- keeps_steady (let '(_, _) := ?x in _) => destruct x
      end ].

(** ** Commands that always return *)

Lemma never_raises_ret {A} (a : A) : never_raises (ret a).
Proof. intros w e w' H. discriminate H. Qed.

Lemma never_raises_log (lvl : Level) (msg : string) : never_raises (log_record lvl msg).
Proof. intros w e w' H. discriminate H. Qed.

Lemma never_raises_perf_counter : never_raises perf_counter.
Proof. intros w e w' H. unfold perf_counter in H. destruct (clock w); discriminate H. Qed.

Lemma never_raises_bind {A B} (m : M A) (k : A -> M B) :
  never_raises m -> (forall a, never_raises (k a)) -> never_raises (bind m k).
Proof.
  intros Hm Hk w e w' H. unfold bind in H.
  destruct (m w) as [[a | e1] w1] eqn:E.
  - exact (Hk a w1 e w' H).
  - exact (Hm w e1 w1 E).
Qed.

End RuntimeFacts.

(* ================================================================== *)
(** * The behavioural extractor: night window, absorbed reads *)
(* ================================================================== *)

Module BehavioralSpec.

Import Behavioral PyFacts.
Local Open Scope Q_scope.

(** Open the destructuring [let]s of a definition. *)
Ltac open_lets :=
  repeat match goal with
  | |- context [let '(_, _) := ?e in _] => destruct e
  end.

(** ** The distance travelled *)

Lemma sqrt_ok (lib : MathLib) (x : Q) : 0 <= x -> sqrt lib x = Ok (math_sqrt lib x).
Proof.
  intros H. unfold sqrt.
  destruct (Qltb x 0) eqn:E; [| reflexivity].
  apply Qltb_true in E. lra.
Qed.

Lemma sqrt_raises (lib : MathLib) (x : Q) :
  x < 0 -> sqrt lib x = Raise "math domain error".
Proof. intros H. unfold sqrt. apply Qltb_true in H. rewrite H. reflexivity. Qed.

(** The distance is defined when [a] lies in [0, 1], and only then. *)
Lemma haversine_km_defined (lib : MathLib) (lat1 lon1 lat2 lon2 : Q) :
  is_ok (_haversine_km lib lat1 lon1 lat2 lon2) = true
  <-> 0 <= haversine_a lib lat1 lon1 lat2 lon2 <= 1.
Proof.
  unfold _haversine_km. cbv zeta. set (a := haversine_a lib lat1 lon1 lat2 lon2).
  unfold sqrt.
  destruct (Qltb a 0) eqn:E0; cbn [rbind is_ok].
  - apply Qltb_true in E0. split; [discriminate | intros [H _]; lra].
  - apply Qltb_false in E0.
    destruct (Qltb (1 - a) 0) eqn:E1; cbn [rbind is_ok].
    + apply Qltb_true in E1. split; [discriminate | intros [_ H]; lra].
    + apply Qltb_false in E1. split; [intros _; split; lra | reflexivity].
Qed.

(** Past 1, it is the second square root that raises. *)
Lemma haversine_km_raises (lib : MathLib) (lat1 lon1 lat2 lon2 : Q) :
  1 < haversine_a lib lat1 lon1 lat2 lon2 ->
  _haversine_km lib lat1 lon1 lat2 lon2 = Raise "math domain error".
Proof.
  intros H. unfold _haversine_km. cbv zeta.
  rewrite sqrt_ok by lra. cbn [rbind].
  rewrite sqrt_raises by lra. reflexivity.
Qed.

Section Projections.
Variable settings : Settings.
Variable lib : MathLib.
Variable adb : AsnDatabase.
Variable neo4j : Neo4jReads.

Variable history : list HistoryRow.
Variable profile_rows : list ProfileRow.
Variable sender_id : string.
Variable amount : Q.
Variable timestamp : Datetime.
Variables sender_lat sender_lon : option Q.
Variables ip_address receiver_id : option string.
Variable is_new_device : bool.

Abbreviation located := (located profile_rows sender_lat sender_lon).
Abbreviation distance := (distance lib profile_rows sender_lat sender_lon).

(** The signals are there unless the distance is needed and undefined. *)
Lemma signals_defined :
  (located = true -> is_ok distance = true) ->
  exists s,
    signals settings lib adb neo4j history profile_rows sender_id amount timestamp
      sender_lat sender_lon ip_address receiver_id is_new_device = Ok s.
Proof.
  intros H. unfold signals. fold located. fold distance.
  destruct located.
  - specialize (H eq_refl). destruct distance as [geo_distance | e]; [| discriminate].
    cbn [rbind]. open_lets.
    match goal with |- context [if ?c then Ok _ else Ok _] => destruct c end;
      cbn [rbind]; open_lets; eexists; reflexivity.
  - cbn [rbind]. open_lets. eexists; reflexivity.
Qed.

(** Without the distance there are no signals: its error is theirs. *)
Lemma signals_undefined (e : Exn) :
  located = true -> distance = Raise e ->
  signals settings lib adb neo4j history profile_rows sender_id amount timestamp
    sender_lat sender_lon ip_address receiver_id is_new_device = Raise e.
Proof.
  intros Hl Hd. unfold signals. fold located. fold distance.
  rewrite Hl, Hd. cbn [rbind]. open_lets; reflexivity.
Qed.

(** Once the geo features are there, the signals are a record. *)
Ltac signals_of H :=
  unfold signals in H; fold located in H; fold distance in H;
  destruct located;
  [ destruct distance as [geo_distance | e]; cbn [rbind] in H;
    [ match type of H with
      | context [if ?c then Ok _ else Ok _] => destruct c
      end; cbn [rbind] in H
    | repeat match type of H with
        | context [let '(_, _) := ?e in _] => destruct e
        end; discriminate H ]
  | cbn [rbind] in H ];
  repeat match type of H with
    | context [let '(_, _) := ?e in _] => destruct e eqn:?
    end;
  injection H as <-; cbn.

Variable s : Signals.
Hypothesis signals_s :
  signals settings lib adb neo4j history profile_rows sender_id amount timestamp
    sender_lat sender_lon ip_address receiver_id is_new_device = Ok s.

Lemma signals_night_flag :
  night_flag s
  = ((NIGHT_START_HOUR settings <=? hour timestamp)%Z
     || (hour timestamp <=? NIGHT_END_HOUR settings)%Z).
Proof using signals_s. pose proof signals_s as H. signals_of H; reflexivity. Qed.

Lemma signals_hour : sig_hour s = hour timestamp.
Proof using signals_s. pose proof signals_s as H. signals_of H; reflexivity. Qed.

Lemma signals_ip_rotation :
  (ip_rotation_count s, ip_rotation_flag s) = ip_rotation_of settings neo4j sender_id.
Proof using signals_s. pose proof signals_s as H. signals_of H; congruence. Qed.

Lemma signals_fixed_amount :
  fixed_amount_flag s = fixed_amount_of settings neo4j sender_id amount.
Proof using signals_s. pose proof signals_s as H. signals_of H; reflexivity. Qed.

Lemma signals_circadian :
  (circadian_anomaly s, circadian_score s)
  = circadian_of settings neo4j sender_id (hour timestamp) is_new_device.
Proof using signals_s. pose proof signals_s as H. signals_of H; congruence. Qed.

Lemma signals_identicality :
  (tx_identicality_flag s, tx_identicality_count s)
  = identicality_of settings neo4j sender_id receiver_id amount.
Proof using signals_s. pose proof signals_s as H. signals_of H; congruence. Qed.

(** [compute] returns the features of the signals once the two leading
    reads have answered. *)
Lemma compute_ok :
  QUERY_USER_TX_HISTORY neo4j sender_id (BEHAVIORAL_HISTORY_COUNT settings) = Ok history ->
  QUERY_USER_PROFILE neo4j sender_id = Ok profile_rows ->
  compute settings lib adb neo4j sender_id amount timestamp sender_lat sender_lon
          ip_address receiver_id is_new_device
  = Ok (features_of settings s amount).
Proof using signals_s.
  intros H1 H2. unfold compute. rewrite H1, H2. cbn [rbind].
  rewrite signals_s. reflexivity.
Qed.

End Projections.

Section Absorbed.
Variable settings : Settings.
Variable neo4j : Neo4jReads.

Lemma ip_rotation_absorbed (sender_id : string) :
  is_ok (QUERY_IP_ROTATION neo4j sender_id) = false ->
  ip_rotation_of settings neo4j sender_id = (0%Z, false).
Proof.
  unfold ip_rotation_of.
  destruct (QUERY_IP_ROTATION neo4j sender_id); [discriminate | reflexivity].
Qed.

Lemma fixed_amount_absorbed (sender_id : string) (amount : Q) :
  is_ok (QUERY_RECENT_AMOUNTS neo4j sender_id (IP_ROTATION_WINDOW_HOURS settings)) = false ->
  fixed_amount_of settings neo4j sender_id amount = false.
Proof.
  unfold fixed_amount_of.
  destruct (QUERY_RECENT_AMOUNTS neo4j sender_id _); [discriminate | reflexivity].
Qed.

Lemma circadian_absorbed (sender_id : string) (hour : Z) (is_new_device : bool) :
  is_ok (QUERY_USER_HOUR_DISTRIBUTION neo4j sender_id) = false ->
  circadian_of settings neo4j sender_id hour is_new_device = (false, 0.0).
Proof.
  unfold circadian_of.
  destruct (QUERY_USER_HOUR_DISTRIBUTION neo4j sender_id); [discriminate | reflexivity].
Qed.

Lemma identicality_absorbed (sender_id rid : string) (amount : Q) :
  is_ok (QUERY_IDENTICAL_TX_RECEIVER neo4j sender_id rid amount
           (TX_IDENTICALITY_WINDOW_HOURS settings)) = false ->
  identicality_of settings neo4j sender_id (Some rid) amount = (false, 0%Z).
Proof.
  unfold identicality_of. destruct (String.eqb rid ""); [reflexivity |].
  destruct (QUERY_IDENTICAL_TX_RECEIVER neo4j sender_id rid amount _);
    [discriminate | reflexivity].
Qed.

(** What the extractor itself adds for a circadian anomaly: the penalty
    selected by its [is_new_device] argument. *)
Lemma circadian_of_score (sender_id : string) (hour : Z) (is_new_device : bool) :
  snd (circadian_of settings neo4j sender_id hour is_new_device)
  = if fst (circadian_of settings neo4j sender_id hour is_new_device)
    then (if is_new_device then CIRCADIAN_NEW_DEVICE_PENALTY settings
          else CIRCADIAN_ANOMALY_PENALTY settings)
    else 0.0%Q.
Proof.
  unfold circadian_of.
  destruct (QUERY_USER_HOUR_DISTRIBUTION neo4j sender_id) as [hour_rows |]; [| reflexivity].
  destruct (3 <=? length hour_rows)%nat; [| reflexivity].
  match goal with |- context [if ?c then (true, _) else _] => destruct c end; reflexivity.
Qed.

End Absorbed.

(** A dictionary that [compute] returns is the features of the signals
    of the rows that the two leading reads gave. *)
Lemma compute_inv (settings : Settings) (lib : MathLib) (adb : AsnDatabase)
    (neo4j : Neo4jReads) (sender_id : string) (amount : Q) (timestamp : Datetime)
    (sender_lat sender_lon : option Q) (ip_address receiver_id : option string)
    (is_new_device : bool) (d : Dict) :
  compute settings lib adb neo4j sender_id amount timestamp sender_lat sender_lon
          ip_address receiver_id is_new_device = Ok d ->
  exists history profile_rows s,
    QUERY_USER_TX_HISTORY neo4j sender_id (BEHAVIORAL_HISTORY_COUNT settings) = Ok history
    /\ QUERY_USER_PROFILE neo4j sender_id = Ok profile_rows
    /\ signals settings lib adb neo4j history profile_rows sender_id amount
          timestamp sender_lat sender_lon ip_address receiver_id is_new_device = Ok s
    /\ d = features_of settings s amount.
Proof.
  unfold compute.
  destruct (QUERY_USER_TX_HISTORY neo4j sender_id _) as [history |]; [| discriminate].
  destruct (QUERY_USER_PROFILE neo4j sender_id) as [profile_rows |]; [| discriminate].
  cbn [rbind].
  destruct (signals settings lib adb neo4j history profile_rows sender_id amount
              timestamp sender_lat sender_lon ip_address receiver_id is_new_device)
    as [s |] eqn:Hs; [| discriminate].
  cbn [rbind]. intros H. inversion H. exists history, profile_rows, s. auto.
Qed.

Section Claims.
Variable settings : Settings.
Variable lib : MathLib.
Variable adb : AsnDatabase.
Variable neo4j : Neo4jReads.

Variable sender_id : string.
Variable amount : Q.
Variable timestamp : Datetime.
Variables sender_lat sender_lon : option Q.
Variables ip_address receiver_id : option string.
Variable is_new_device : bool.

Lemma indicator_times (b : bool) (k : Q) : indicator b * k == (if b then k else 0).
Proof. destruct b; unfold indicator; ring. Qed.

(** C9.  In every dictionary that [compute] returns, the [is_night]
    entry is true exactly for the hours of [NIGHT_START_HOUR..23] and
    [0..NIGHT_END_HOUR], both ends included, so an hour equal to
    [NIGHT_END_HOUR] raises it; and the [risk] entry is the sum of the
    other eleven terms of the run plus 5 exactly when the flag is raised,
    clamped at 100 and rounded. *)
Theorem night_window_inclusive (d : Dict) :
  (0 <= hour timestamp <= 23)%Z ->
  compute settings lib adb neo4j sender_id amount timestamp sender_lat sender_lon
          ip_address receiver_id is_new_device = Ok d ->
  let in_window :=
    ((NIGHT_START_HOUR settings <= hour timestamp <= 23)%Z
     \/ (0 <= hour timestamp <= NIGHT_END_HOUR settings)%Z) in
  exists history profile_rows s,
    QUERY_USER_TX_HISTORY neo4j sender_id (BEHAVIORAL_HISTORY_COUNT settings) = Ok history
    /\ QUERY_USER_PROFILE neo4j sender_id = Ok profile_rows
    /\ signals settings lib adb neo4j history profile_rows sender_id amount
          timestamp sender_lat sender_lon ip_address receiver_id is_new_device = Ok s
    (* the flag *)
    /\ d !! "is_night" = Some (PyBool (night_flag s))
    /\ (night_flag s = true <-> in_window)
    /\ (d !! "is_night" = Some (PyBool true) <-> in_window)
    /\ (hour timestamp = NIGHT_END_HOUR settings -> d !! "is_night" = Some (PyBool true))
    (* its five points *)
    /\ d !! "risk" = Some (PyFloat (py_round (py_min (risk_sum settings s) 100.0) 2))
    /\ risk_sum settings s
       == zscore_term s + velocity_term s + travel_term s + iqr_term s + spike_term s
          + dormant_term s + asn_term s + ip_rotation_term settings s
          + fixed_amount_term settings s + circadian_term s + identicality_term settings s
          + (if night_flag s then 5 else 0).
Proof.
  intros Hh Hd in_window.
  apply compute_inv in Hd as (history & profile_rows & s & H1 & H2 & Hs & ->).
  exists history, profile_rows, s.
  assert (Hflag : night_flag s = true <-> in_window).
  { rewrite (signals_night_flag _ _ _ _ _ _ _ _ _ _ _ _ _ _ _ Hs). unfold in_window.
    rewrite orb_true_iff, !Z.leb_le. lia. }
  assert (Hentry : features_of settings s amount !! "is_night"
                   = Some (PyBool (night_flag s))) by reflexivity.
  split; [exact H1 |]. split; [exact H2 |]. split; [exact Hs |].
  split; [exact Hentry |].
  split; [exact Hflag |].
  split.
  { rewrite Hentry, <- Hflag. split; [intros H; inversion H; reflexivity | intros ->; reflexivity]. }
  split.
  { intros Heq. rewrite Hentry. f_equal. f_equal. apply Hflag. right. lia. }
  split; [reflexivity |].
  unfold risk_sum, night_term. rewrite indicator_times. ring.
Qed.

(** C6, as the code has it.  A failure of the history read or of the profile read
    is the failure of [compute].  Once both have answered, and unless the
    distance to the last known place is needed and not defined, [compute]
    returns the feature dictionary whatever the four later reads do, and a
    later read that fails leaves its signal at zero. *)
Theorem auxiliary_reads_absorbed :
  match QUERY_USER_TX_HISTORY neo4j sender_id (BEHAVIORAL_HISTORY_COUNT settings),
        QUERY_USER_PROFILE neo4j sender_id with
  | Raise e, _ =>
      compute settings lib adb neo4j sender_id amount timestamp sender_lat sender_lon
              ip_address receiver_id is_new_device = Raise e
  | Ok _, Raise e =>
      compute settings lib adb neo4j sender_id amount timestamp sender_lat sender_lon
              ip_address receiver_id is_new_device = Raise e
  | Ok history', Ok profile_rows' =>
      (located profile_rows' sender_lat sender_lon = true ->
       is_ok (distance lib profile_rows' sender_lat sender_lon) = true) ->
      exists s',
        signals settings lib adb neo4j history' profile_rows' sender_id amount timestamp
          sender_lat sender_lon ip_address receiver_id is_new_device = Ok s'
        /\ compute settings lib adb neo4j sender_id amount timestamp sender_lat sender_lon
              ip_address receiver_id is_new_device
           = Ok (features_of settings s' amount)
        /\ (is_ok (QUERY_IP_ROTATION neo4j sender_id) = false ->
            ip_rotation_flag s' = false /\ ip_rotation_count s' = 0%Z
            /\ ip_rotation_term settings s' = 0.0)
        /\ (is_ok (QUERY_RECENT_AMOUNTS neo4j sender_id (IP_ROTATION_WINDOW_HOURS settings))
            = false ->
            fixed_amount_flag s' = false /\ fixed_amount_term settings s' = 0.0)
        /\ (is_ok (QUERY_USER_HOUR_DISTRIBUTION neo4j sender_id) = false ->
            circadian_anomaly s' = false /\ circadian_term s' = 0.0)
        /\ (forall rid,
              receiver_id = Some rid ->
              is_ok (QUERY_IDENTICAL_TX_RECEIVER neo4j sender_id rid amount
                       (TX_IDENTICALITY_WINDOW_HOURS settings)) = false ->
              tx_identicality_flag s' = false /\ tx_identicality_count s' = 0%Z
              /\ identicality_term settings s' = 0.0)
  end.
Proof.
  destruct (QUERY_USER_TX_HISTORY neo4j sender_id (BEHAVIORAL_HISTORY_COUNT settings))
    as [history' | e] eqn:H1; [| unfold compute; rewrite H1; reflexivity].
  destruct (QUERY_USER_PROFILE neo4j sender_id) as [profile_rows' | e] eqn:H2;
    [| unfold compute; rewrite H1, H2; reflexivity].
  intros Hdist.
  destruct (signals_defined settings lib adb neo4j history' profile_rows' sender_id amount
              timestamp sender_lat sender_lon ip_address receiver_id is_new_device Hdist)
    as [s' Hs].
  exists s'.
  pose proof (signals_ip_rotation _ _ _ _ _ _ _ _ _ _ _ _ _ _ _ Hs) as Eip.
  pose proof (signals_fixed_amount _ _ _ _ _ _ _ _ _ _ _ _ _ _ _ Hs) as Efa.
  pose proof (signals_circadian _ _ _ _ _ _ _ _ _ _ _ _ _ _ _ Hs) as Eci.
  pose proof (signals_identicality _ _ _ _ _ _ _ _ _ _ _ _ _ _ _ Hs) as Eid.
  split; [exact Hs |].
  split; [apply (compute_ok _ _ _ _ _ _ _ _ _ _ _ _ _ _ _ Hs H1 H2) |].
  split; [| split; [| split]].
  - intros H. rewrite (ip_rotation_absorbed _ _ _ H) in Eip.
    injection Eip as Ec Ef. unfold ip_rotation_term. rewrite Ef. auto.
  - intros H. rewrite (fixed_amount_absorbed _ _ _ _ H) in Efa.
    unfold fixed_amount_term. rewrite Efa. auto.
  - intros H. rewrite (circadian_absorbed _ _ _ _ _ H) in Eci.
    injection Eci as Ea Es. unfold circadian_term. auto.
  - intros rid Hrid H. rewrite Hrid in Eid.
    rewrite (identicality_absorbed _ _ _ _ _ H) in Eid.
    injection Eid as Ef Ec. unfold identicality_term. rewrite Ef. auto.
Qed.

(** What the theorem leaves open: when the distance is needed and the
    square root of [1 - a] is not defined, its [ValueError] is the outcome
    of [compute], whatever the reads gave. *)
Lemma undefined_distance_propagates (history : list HistoryRow)
    (profile_rows : list ProfileRow) (e : Exn) :
  QUERY_USER_TX_HISTORY neo4j sender_id (BEHAVIORAL_HISTORY_COUNT settings) = Ok history ->
  QUERY_USER_PROFILE neo4j sender_id = Ok profile_rows ->
  located profile_rows sender_lat sender_lon = true ->
  distance lib profile_rows sender_lat sender_lon = Raise e ->
  compute settings lib adb neo4j sender_id amount timestamp sender_lat sender_lon
          ip_address receiver_id is_new_device = Raise e.
Proof.
  intros H1 H2 Hl Hd. unfold compute. rewrite H1, H2. cbn [rbind].
  rewrite (signals_undefined _ _ _ _ _ _ _ _ _ _ _ _ _ _ _ Hl Hd). reflexivity.
Qed.

End Claims.

(** C6 in its full generality does not hold: with the history read down, [compute] raises
    instead of returning features. *)
Lemma history_failure_not_absorbed :
  QUERY_USER_TX_HISTORY Fixtures.history_down "U0001"
    (BEHAVIORAL_HISTORY_COUNT Config.defaults) = Raise "ServiceUnavailable"
  /\ compute Config.defaults Fixtures.flat_lib Fixtures.no_asn_database
       Fixtures.history_down "U0001" 1100 Fixtures.afternoon None None None
       (Some "U0002") false
     = Raise "ServiceUnavailable".
Proof. split; reflexivity. Qed.

(** The same for the profile read. *)
Lemma profile_failure_not_absorbed :
  compute Config.defaults Fixtures.flat_lib Fixtures.no_asn_database
    Fixtures.profile_down "U0001" 1100 Fixtures.afternoon None None None
    (Some "U0002") false
  = Raise "ServiceUnavailable".
Proof. reflexivity. Qed.

(** A known user, last seen at (2.5, 10.0), pays from (-2.5, -170.0)
    while the four later reads are down: the features are returned with
    the four signals at zero. *)
Lemma auxiliary_reads_absorbed_witness :
  exists s',
    compute Config.defaults Fixtures.flat_lib Fixtures.no_asn_database
      Fixtures.auxiliary_down_known_user "U0001" 1100 Fixtures.afternoon
      (Some (-2.5)) (Some (-170.0)) None (Some "U0002") false
    = Ok (features_of Config.defaults s' 1100)
    /\ ip_rotation_flag s' = false
    /\ fixed_amount_flag s' = false
    /\ circadian_anomaly s' = false
    /\ tx_identicality_flag s' = false.
Proof.
  pose proof (auxiliary_reads_absorbed Config.defaults Fixtures.flat_lib
                Fixtures.no_asn_database Fixtures.auxiliary_down_known_user "U0001" 1100
                Fixtures.afternoon (Some (-2.5)) (Some (-170.0)) None (Some "U0002") false)
    as H.
  cbn [Fixtures.auxiliary_down_known_user QUERY_USER_TX_HISTORY QUERY_USER_PROFILE] in H.
  destruct H as (s' & _ & Hc & Hip & Hfa & Hci & Hid); [reflexivity |].
  exists s'. split; [exact Hc |].
  split; [apply Hip; reflexivity |].
  split; [apply Hfa; reflexivity |].
  split; [apply Hci; reflexivity |].
  apply (Hid "U0002" eq_refl). reflexivity.
Defined.

(** The same payment with sines and cosines as binary64 rounds them: [a]
    exceeds 1 and [compute] raises the [ValueError] of [math.sqrt]. *)
Lemma antipodal_payment_raises :
  compute Config.defaults Fixtures.antipodal_lib Fixtures.no_asn_database
    Fixtures.auxiliary_down_known_user "U0001" 1100 Fixtures.afternoon
    (Some (-2.5)) (Some (-170.0)) None (Some "U0002") false
  = Raise "math domain error".
Proof. vm_compute. reflexivity. Qed.

(** The night-window theorem at 05:10 under the default settings. *)
Lemma night_window_inclusive_witness :
  exists d,
    compute Config.defaults Fixtures.flat_lib Fixtures.no_asn_database
      Fixtures.empty_store "U0001" 1100 Fixtures.dawn None None None
      (Some "U0002") false = Ok d
    /\ d !! "is_night" = Some (PyBool true).
Proof.
  eexists. split; [reflexivity |].
  match goal with
  | |- ?d !! _ = _ =>
      assert (Hd : compute Config.defaults Fixtures.flat_lib Fixtures.no_asn_database
                     Fixtures.empty_store "U0001" 1100 Fixtures.dawn None None None
                     (Some "U0002") false = Ok d) by reflexivity
  end.
  assert (H : (0 <= hour Fixtures.dawn <= 23)%Z) by (simpl; lia).
  destruct (night_window_inclusive Config.defaults Fixtures.flat_lib Fixtures.no_asn_database
              Fixtures.empty_store "U0001" 1100 Fixtures.dawn None None None
              (Some "U0002") false _ H Hd)
    as (history & profile_rows & s & _ & _ & _ & _ & _ & _ & Hend & _).
  apply Hend. reflexivity.
Defined.

End BehavioralSpec.

(* ================================================================== *)
(** * The risk-fusion engine: what a scored transaction carries *)
(* ================================================================== *)

Module RiskEngineSpec.

Import RiskEngine MuleDetection PyFacts RuntimeFacts.
Local Open Scope Q_scope.

Section Scoring.
Variable settings : Settings.
Variable self : Engine.
Variable tx : TransactionInput.

(** What the persist step leaves in the store: nothing, the transaction
    write alone, or both writes. *)
Lemma persist_commits (fused : Q) (rsn : string) (w w' : World) (r : result unit) :
  try_except
    (let! _ := write_async UPDATE_TX_RISK (engine_tx_params settings tx fused rsn) in
     write_async UPDATE_USER_RISK (engine_user_params tx fused))
    (fun exc => log_record WARNING ("Failed to persist risk score: " +:+ exc)) w
  = (r, w') ->
  r = Ok tt
  /\ same_redis w w'
  /\ pool w' = pool w
  /\ (neo_commits w' = neo_commits w
      \/ neo_commits w' = neo_commits w ++ [(UPDATE_TX_RISK, engine_tx_params settings tx fused rsn)]
      \/ neo_commits w'
         = neo_commits w ++ [(UPDATE_TX_RISK, engine_tx_params settings tx fused rsn);
                             (UPDATE_USER_RISK, engine_user_params tx fused)]).
Proof.
  unfold try_except, bind, write_async, log_record.
  destruct (next_fault (neo_faults w)) as [[e1 |] f1]; simpl.
  - intros H. inversion H; subst. simpl. repeat split. left. reflexivity.
  - destruct (next_fault f1) as [[e2 |] f2]; simpl.
    + intros H. inversion H; subst. simpl. repeat split. right. left. reflexivity.
    + intros H. inversion H; subst. simpl. repeat split. right. right.
      rewrite <- app_assoc. reflexivity.
Qed.

(** A call of [score_transaction] that returns has gone through every
    step: the five extractor outputs, the sub-scores, the fused risk and the
    response fields are related as the steps write them. *)
Lemma score_transaction_returns (w w' : World) (resp : RiskResponse) :
  score_transaction settings self tx w = (Ok resp, w') ->
  exists behav dead device graph vel s_graph s_behavioral s_device s_dead s_velocity,
    behavioral self (sender_id tx) (amount tx) (timestamp tx) (sender_lat tx)
      (sender_lon tx) (ip_address tx) (Some (receiver_id tx)) false = Ok behav
    /\ dead_account self (sender_id tx) (amount tx) = Ok dead
    /\ device_risk self (device_id tx) (sender_id tx) (amount tx) (app_version tx)
         (capability_mask tx) (device_os tx)
         (option_map CredentialType_value (credential_type tx))
         (option_map CredentialSubType_value (credential_sub_type tx)) = Ok device
    /\ graph_intel self (sender_id tx) = Ok graph
    /\ velocity self (sender_id tx) (amount tx) = Ok vel
    /\ sub_scores behav dead device graph vel
       = Ok (s_graph, s_behavioral, s_device, s_dead, s_velocity)
    /\ let boosted := compound_boost settings behav device s_behavioral in
       let fused := fuse settings s_graph boosted s_device s_dead s_velocity in
       risk_score resp = py_round fused 2
       /\ risk_level resp = level_of settings fused
       /\ make_RiskBreakdown (py_round s_graph 2) (py_round boosted 2)
            (py_round s_device 2) (py_round s_dead 2) (py_round s_velocity 2)
          = Ok (breakdown resp)
       /\ in_0_100 (risk_score resp) = true
       /\ _build_reason settings behav dead device graph vel fused (resp_flags resp)
          = Ok (reason resp)
       /\ same_redis w w'
       /\ pool w' = pool w
       /\ (neo_commits w' = neo_commits w
           \/ neo_commits w'
              = neo_commits w
                ++ [(UPDATE_TX_RISK, engine_tx_params settings tx fused (reason resp))]
           \/ neo_commits w'
              = neo_commits w
                ++ [(UPDATE_TX_RISK, engine_tx_params settings tx fused (reason resp));
                    (UPDATE_USER_RISK, engine_user_params tx fused)]).
Proof.
  unfold score_transaction. intros H.
  apply bind_ok in H as (t0 & w0 & Ht0 & H).
  apply bind_ok in H as (behav & w1 & E1 & H). apply lift_inv in E1 as [E1 ->].
  apply bind_ok in H as (dead & w1 & E2 & H). apply lift_inv in E2 as [E2 ->].
  apply bind_ok in H as (device & w1 & E3 & H). apply lift_inv in E3 as [E3 ->].
  apply bind_ok in H as (graph & w1 & E4 & H). apply lift_inv in E4 as [E4 ->].
  apply bind_ok in H as (vel & w1 & E5 & H). apply lift_inv in E5 as [E5 ->].
  apply bind_ok in H as (ss & w1 & E6 & H). apply lift_inv in E6 as [E6 ->].
  destruct ss as [[[[s_graph s_behavioral] s_device] s_dead] s_velocity].
  apply bind_ok in H as (flags & w1 & E7 & H). apply lift_inv in E7 as [E7 ->].
  apply bind_ok in H as (rsn & w1 & E8 & H). apply lift_inv in E8 as [E8 ->].
  apply bind_ok in H as (bd & w1 & E9 & H). apply lift_inv in E9 as [E9 ->].
  apply bind_ok in H as (t1 & w1 & Ht1 & H).
  apply bind_ok in H as (u & w2 & EP & H).
  apply lift_inv in H as [ER ->].
  apply persist_commits in EP as (_ & Hredis & Hpool & Hcommits).
  pose proof (proj1 (keeps_steady_perf_counter _ _ _ Ht0)) as F0.
  pose proof (proj1 (keeps_steady_perf_counter _ _ _ Ht1)) as F1.
  assert (C0 : neo_commits w0 = neo_commits w /\ pool w0 = pool w).
  { unfold perf_counter in Ht0. destruct (clock w); inversion Ht0; subst; auto. }
  assert (C1 : neo_commits w1 = neo_commits w0 /\ pool w1 = pool w0).
  { unfold perf_counter in Ht1. destruct (clock w0); inversion Ht1; subst; auto. }
  destruct C0 as [C0 P0], C1 as [C1 P1].
  unfold make_RiskResponse in ER.
  destruct (match cluster_of self tx graph with
            | PyNone => Ok None
            | PyStr s => Ok (Some s)
            | _ => Raise "ValidationError: RiskResponse.cluster_id"
            end) as [cid |]; simpl in ER; [| discriminate].
  destruct (in_0_100 (py_round _ 2)) eqn:Hin in ER; [| discriminate].
  symmetry in ER. inversion ER; subst resp; simpl.
  exists behav, dead, device, graph, vel, s_graph, s_behavioral, s_device, s_dead, s_velocity.
  rewrite C1, C0 in Hcommits.
  repeat (split; [assumption || reflexivity |]).
  split; [eapply same_redis_trans; [exact F0 |]; eapply same_redis_trans; eassumption |].
  split; [congruence |].
  exact Hcommits.
Qed.

End Scoring.

(** ** Fusion *)

Lemma py_min_proper (a a' b b' : Q) : a == a' -> b == b' -> py_min a b == py_min a' b'.
Proof. intros Ha Hb. unfold py_min. repeat case_cmp; lra. Qed.

Lemma in_0_100_true (x : Q) : in_0_100 x = true <-> 0 <= x <= 100.
Proof.
  unfold in_0_100. rewrite andb_true_iff, !Qleb_true. reflexivity.
Qed.

(** The boost under the default penalties: fifteen more, at most 100. *)
Lemma compound_boost_defaults (behav device : Dict) (s_behavioral : Q) :
  compound_boost Config.defaults behav device s_behavioral
  == (if truthy (get behav "circadian_anomaly") && truthy (get device "new_device_flag")
      then py_min (s_behavioral + 15) 100
      else s_behavioral).
Proof.
  unfold compound_boost.
  destruct (truthy (get behav "circadian_anomaly") && truthy (get device "new_device_flag"));
    [| reflexivity].
  apply py_min_proper; simpl; [ring | reflexivity].
Qed.

Lemma compound_boost_bounds (behav device : Dict) (s_behavioral : Q) :
  0 <= s_behavioral <= 100 ->
  0 <= compound_boost Config.defaults behav device s_behavioral <= 100.
Proof.
  intros H. rewrite compound_boost_defaults.
  destruct (truthy (get behav "circadian_anomaly") && truthy (get device "new_device_flag"));
    [| exact H].
  pose proof (py_min_le_r (s_behavioral + 15) 100).
  split; [apply py_min_glb; lra | lra].
Qed.

(** The weighted sum under the default weights. *)
Lemma fuse_bounds (s_graph s_behavioral s_device s_dead s_velocity : Q) :
  0 <= s_graph <= 100 -> 0 <= s_behavioral <= 100 -> 0 <= s_device <= 100 ->
  0 <= s_dead <= 100 -> 0 <= s_velocity <= 100 ->
  0 <= fuse Config.defaults s_graph s_behavioral s_device s_dead s_velocity <= 100.
Proof.
  intros Hg Hb Hd Hx Hv. unfold fuse. simpl.
  match goal with |- _ <= py_min ?a ?b <= _ => pose proof (py_min_le_r a b) end.
  split; [apply py_min_glb; lra | lra].
Qed.

Lemma make_RiskBreakdown_inv (g b d x v : Q) (bd : RiskBreakdown) :
  make_RiskBreakdown g b d x v = Ok bd ->
  bd = {| rb_graph := g; rb_behavioral := b; rb_device := d;
          rb_dead_account := x; rb_velocity := v |}
  /\ (0 <= g <= 100) /\ (0 <= b <= 100) /\ (0 <= d <= 100)
  /\ (0 <= x <= 100) /\ (0 <= v <= 100).
Proof.
  unfold make_RiskBreakdown.
  destruct (in_0_100 g) eqn:Eg; simpl; [| discriminate].
  destruct (in_0_100 b) eqn:Eb; simpl; [| discriminate].
  destruct (in_0_100 d) eqn:Ed; simpl; [| discriminate].
  destruct (in_0_100 x) eqn:Ex; simpl; [| discriminate].
  destruct (in_0_100 v) eqn:Ev; simpl; [| discriminate].
  intros H. inversion H.
  apply in_0_100_true in Eg, Eb, Ed, Ex, Ev. auto 10.
Qed.

(** C3.  For every scored transaction the fused risk [R] is the weighted
    sum [0.30 S_graph + 0.25 S_behavioral + 0.20 S_device + 0.15 S_dead
    + 0.10 S_velocity] cut at 100, over the sub-scores that the five
    extractors report ([S_behavioral] after the compound boost); the
    weights sum to one, so sub-scores within [0, 100] give [0 <= R <= 100];
    the score that the response carries is [R] rounded to two digits and
    lies in [0, 100], as does every sub-score of the breakdown. *)
Theorem fused_risk_is_clamped_weighted_sum
    (self : Engine) (tx : TransactionInput) (w w' : World) (resp : RiskResponse) :
  score_transaction Config.defaults self tx w = (Ok resp, w') ->
  exists behav dead device graph vel S_graph S_beh0 S_device S_dead S_velocity,
    behavioral self (sender_id tx) (amount tx) (timestamp tx) (sender_lat tx)
      (sender_lon tx) (ip_address tx) (Some (receiver_id tx)) false = Ok behav
    /\ dead_account self (sender_id tx) (amount tx) = Ok dead
    /\ device_risk self (device_id tx) (sender_id tx) (amount tx) (app_version tx)
         (capability_mask tx) (device_os tx)
         (option_map CredentialType_value (credential_type tx))
         (option_map CredentialSubType_value (credential_sub_type tx)) = Ok device
    /\ graph_intel self (sender_id tx) = Ok graph
    /\ velocity self (sender_id tx) (amount tx) = Ok vel
    /\ num (get_or graph "risk" (PyInt 0)) = Ok S_graph
    /\ num (get_or behav "risk" (PyInt 0)) = Ok S_beh0
    /\ num (get_or device "risk" (PyInt 0)) = Ok S_device
    /\ num (get_or dead "risk" (PyInt 0)) = Ok S_dead
    /\ num (get_or vel "risk" (PyInt 0)) = Ok S_velocity
    /\ let S_behavioral := compound_boost Config.defaults behav device S_beh0 in
       let R := fuse Config.defaults S_graph S_behavioral S_device S_dead S_velocity in
       R = py_min (0.30 * S_graph + 0.25 * S_behavioral + 0.20 * S_device
                   + 0.15 * S_dead + 0.10 * S_velocity) 100.0
       /\ 0.30 + 0.25 + 0.20 + 0.15 + 0.10 == 1
       /\ R <= 100
       /\ (0 <= S_graph <= 100 -> 0 <= S_beh0 <= 100 -> 0 <= S_device <= 100 ->
           0 <= S_dead <= 100 -> 0 <= S_velocity <= 100 ->
           0 <= S_behavioral <= 100 /\ 0 <= R <= 100)
       /\ risk_score resp = py_round R 2
       /\ 0 <= risk_score resp <= 100
       /\ rb_graph (breakdown resp) = py_round S_graph 2
       /\ rb_behavioral (breakdown resp) = py_round S_behavioral 2
       /\ rb_device (breakdown resp) = py_round S_device 2
       /\ rb_dead_account (breakdown resp) = py_round S_dead 2
       /\ rb_velocity (breakdown resp) = py_round S_velocity 2
       /\ 0 <= rb_graph (breakdown resp) <= 100
       /\ 0 <= rb_behavioral (breakdown resp) <= 100
       /\ 0 <= rb_device (breakdown resp) <= 100
       /\ 0 <= rb_dead_account (breakdown resp) <= 100
       /\ 0 <= rb_velocity (breakdown resp) <= 100.
Proof.
  intros H.
  apply score_transaction_returns in H
    as (behav & dead & device & graph & vel & sg & sb & sd & sx & sv
        & E1 & E2 & E3 & E4 & E5 & ES & HR & HL & HB & HI & _).
  exists behav, dead, device, graph, vel, sg, sb, sd, sx, sv.
  unfold sub_scores in ES.
  destruct (num (get_or behav "risk" (PyInt 0))) as [sb' |]; simpl in ES; [| discriminate].
  destruct (num (get_or dead "risk" (PyInt 0))) as [sx' |]; simpl in ES; [| discriminate].
  destruct (num (get_or device "risk" (PyInt 0))) as [sd' |]; simpl in ES; [| discriminate].
  destruct (num (get_or graph "risk" (PyInt 0))) as [sg' |]; simpl in ES; [| discriminate].
  destruct (num (get_or vel "risk" (PyInt 0))) as [sv' |]; simpl in ES; [| discriminate].
  inversion ES; subst sg' sb' sd' sx' sv'.
  apply make_RiskBreakdown_inv in HB as (HB & Bg & Bb & Bd & Bx & Bv).
  apply in_0_100_true in HI.
  repeat (split; [assumption || reflexivity |]).
  cbv zeta.
  split.
  { unfold fuse.
    match goal with |- py_min ?a ?b <= _ => pose proof (py_min_le_r a b) end. lra. }
  split.
  { intros Hg Hb Hd Hx Hv.
    pose proof (compound_boost_bounds behav device sb Hb) as Hb'.
    split; [exact Hb' | apply fuse_bounds; assumption]. }
  split; [exact HR |].
  split; [exact HI |].
  rewrite HB. simpl. auto 10.
Qed.

(** Five extractors that all report 50, on a quiet world. *)
Lemma fused_risk_is_clamped_weighted_sum_witness :
  exists resp w',
    score_transaction Config.defaults (Fixtures.flat_engine 50) Fixtures.transfer
      Fixtures.quiet_world = (Ok resp, w')
    /\ (
  exists behav dead device graph vel S_graph S_beh0 S_device S_dead S_velocity,
    behavioral (Fixtures.flat_engine 50) (sender_id Fixtures.transfer)
        (amount Fixtures.transfer) (timestamp Fixtures.transfer) (sender_lat Fixtures.transfer)
      (sender_lon Fixtures.transfer) (ip_address Fixtures.transfer)
          (Some (receiver_id Fixtures.transfer)) false = Ok behav
    /\ dead_account (Fixtures.flat_engine 50) (sender_id Fixtures.transfer)
        (amount Fixtures.transfer) = Ok dead
    /\ device_risk (Fixtures.flat_engine 50) (device_id Fixtures.transfer)
        (sender_id Fixtures.transfer) (amount Fixtures.transfer) (app_version Fixtures.transfer)
         (capability_mask Fixtures.transfer) (device_os Fixtures.transfer)
         (option_map CredentialType_value (credential_type Fixtures.transfer))
         (option_map CredentialSubType_value (credential_sub_type Fixtures.transfer)) = Ok device
    /\ graph_intel (Fixtures.flat_engine 50) (sender_id Fixtures.transfer) = Ok graph
    /\ velocity (Fixtures.flat_engine 50) (sender_id Fixtures.transfer)
        (amount Fixtures.transfer) = Ok vel
    /\ num (get_or graph "risk" (PyInt 0)) = Ok S_graph
    /\ num (get_or behav "risk" (PyInt 0)) = Ok S_beh0
    /\ num (get_or device "risk" (PyInt 0)) = Ok S_device
    /\ num (get_or dead "risk" (PyInt 0)) = Ok S_dead
    /\ num (get_or vel "risk" (PyInt 0)) = Ok S_velocity
    /\ let S_behavioral := compound_boost Config.defaults behav device S_beh0 in
       let R := fuse Config.defaults S_graph S_behavioral S_device S_dead S_velocity in
       R = py_min (0.30 * S_graph + 0.25 * S_behavioral + 0.20 * S_device
                   + 0.15 * S_dead + 0.10 * S_velocity) 100.0
       /\ 0.30 + 0.25 + 0.20 + 0.15 + 0.10 == 1
       /\ R <= 100
       /\ (0 <= S_graph <= 100 -> 0 <= S_beh0 <= 100 -> 0 <= S_device <= 100 ->
           0 <= S_dead <= 100 -> 0 <= S_velocity <= 100 ->
           0 <= S_behavioral <= 100 /\ 0 <= R <= 100)
       /\ risk_score resp = py_round R 2
       /\ 0 <= risk_score resp <= 100
       /\ rb_graph (breakdown resp) = py_round S_graph 2
       /\ rb_behavioral (breakdown resp) = py_round S_behavioral 2
       /\ rb_device (breakdown resp) = py_round S_device 2
       /\ rb_dead_account (breakdown resp) = py_round S_dead 2
       /\ rb_velocity (breakdown resp) = py_round S_velocity 2
       /\ 0 <= rb_graph (breakdown resp) <= 100
       /\ 0 <= rb_behavioral (breakdown resp) <= 100
       /\ 0 <= rb_device (breakdown resp) <= 100
       /\ 0 <= rb_dead_account (breakdown resp) <= 100
       /\ 0 <= rb_velocity (breakdown resp) <= 100).
Proof.
  eexists. eexists. split; [vm_compute; reflexivity |].
  eapply (fused_risk_is_clamped_weighted_sum (Fixtures.flat_engine 50) Fixtures.transfer
            Fixtures.quiet_world).
  vm_compute. reflexivity.
Defined.

(** ** The circadian compound *)

(** C8.  For a transaction scored by an engine built over the graph
    store, the behavioural extractor is run without the new-device hint: a
    circadian anomaly adds [CIRCADIAN_ANOMALY_PENALTY] = 20 to its sum and
    nothing else.  The fuser alone raises the behavioural sub-score, by
    [CIRCADIAN_NEW_DEVICE_PENALTY - CIRCADIAN_ANOMALY_PENALTY] = 15 cut at
    100, exactly when the anomaly comes with a new device. *)
Theorem circadian_compound_boost_once
    (lib : MathLib) (adb : AsnDatabase) (neo4j : Neo4jReads)
    (dead_account : string -> Q -> result Dict)
    (device_risk :
       string -> string -> Q -> option string -> option string -> option string ->
       option string -> option string -> result Dict)
    (graph_intel : string -> result Dict)
    (velocity : string -> Q -> result Dict)
    (tx : TransactionInput) (w w' : World) (resp : RiskResponse) :
  score_transaction Config.defaults
    (init Config.defaults lib adb neo4j dead_account device_risk graph_intel velocity)
    tx w = (Ok resp, w') ->
  exists history profile_rows device s,
    let behav := Behavioral.features_of Config.defaults s (amount tx) in
    let S_beh0 := py_round (Behavioral.risk_of Config.defaults s) 2 in
    QUERY_USER_TX_HISTORY neo4j (sender_id tx) (BEHAVIORAL_HISTORY_COUNT Config.defaults)
    = Ok history
    /\ QUERY_USER_PROFILE neo4j (sender_id tx) = Ok profile_rows
    /\ Behavioral.signals Config.defaults lib adb neo4j history profile_rows
         (sender_id tx) (amount tx) (timestamp tx) (sender_lat tx) (sender_lon tx)
         (ip_address tx) (Some (receiver_id tx)) false = Ok s
    /\ device_risk (device_id tx) (sender_id tx) (amount tx) (app_version tx)
         (capability_mask tx) (device_os tx)
         (option_map CredentialType_value (credential_type tx))
         (option_map CredentialSubType_value (credential_sub_type tx)) = Ok device
    (* the extractor: the base penalty, never the elevated one *)
    /\ Behavioral.circadian_term s
       = (if Behavioral.circadian_anomaly s then CIRCADIAN_ANOMALY_PENALTY Config.defaults
          else 0.0)
    /\ CIRCADIAN_ANOMALY_PENALTY Config.defaults == 20
    /\ CIRCADIAN_NEW_DEVICE_PENALTY Config.defaults
       - CIRCADIAN_ANOMALY_PENALTY Config.defaults == 15
    (* the fuser: fifteen more, once, cut at 100 *)
    /\ rb_behavioral (breakdown resp)
       = py_round (compound_boost Config.defaults behav device S_beh0) 2
    /\ compound_boost Config.defaults behav device S_beh0
       == (if Behavioral.circadian_anomaly s && truthy (get device "new_device_flag")
           then py_min (S_beh0 + 15) 100
           else S_beh0).
Proof.
  intros H.
  apply score_transaction_returns in H
    as (behav & dead & device & graph & vel & sg & sb & sd & sx & sv
        & E1 & E2 & E3 & E4 & E5 & ES & HR & HL & HB & HI & _).
  simpl in E1, E3.
  apply BehavioralSpec.compute_inv in E1 as (history & profile_rows & s & Hh & Hp & Hs & ->).
  exists history, profile_rows, device, s. cbv zeta.
  assert (Esb : sb = py_round (Behavioral.risk_of Config.defaults s) 2).
  { unfold sub_scores in ES.
    change (num (get_or (Behavioral.features_of Config.defaults s (amount tx)) "risk"
                        (PyInt 0)))
      with (Ok (py_round (Behavioral.risk_of Config.defaults s) 2)) in ES.
    simpl in ES.
    destruct (num (get_or dead "risk" (PyInt 0))); simpl in ES; [| discriminate].
    destruct (num (get_or device "risk" (PyInt 0))); simpl in ES; [| discriminate].
    destruct (num (get_or graph "risk" (PyInt 0))); simpl in ES; [| discriminate].
    destruct (num (get_or vel "risk" (PyInt 0))); simpl in ES; [| discriminate].
    inversion ES. reflexivity. }
  subst sb.
  apply make_RiskBreakdown_inv in HB as (HB & _).
  split; [exact Hh |]. split; [exact Hp |]. split; [exact Hs |]. split; [exact E3 |].
  split.
  { pose proof (BehavioralSpec.signals_circadian Config.defaults lib adb neo4j history
                  profile_rows (sender_id tx) (amount tx) (timestamp tx) (sender_lat tx)
                  (sender_lon tx) (ip_address tx) (Some (receiver_id tx)) false s Hs) as E.
    pose proof (BehavioralSpec.circadian_of_score Config.defaults neo4j (sender_id tx)
                  (hour (timestamp tx)) false) as Hsc.
    rewrite <- E in Hsc. simpl in Hsc. unfold Behavioral.circadian_term. exact Hsc. }
  split; [reflexivity |]. split; [reflexivity |].
  split; [rewrite HB; reflexivity |].
  rewrite compound_boost_defaults.
  change (get (Behavioral.features_of Config.defaults s (amount tx)) "circadian_anomaly")
    with (PyBool (Behavioral.circadian_anomaly s)).
  reflexivity.
Qed.

(** A day-time user who pays at dawn from a device never seen before. *)
Lemma circadian_compound_boost_once_witness :
  exists resp w',
    score_transaction Config.defaults Fixtures.day_user_engine Fixtures.dawn_transfer
      Fixtures.quiet_world = (Ok resp, w')
    /\ (
  exists history profile_rows device s,
    let behav := Behavioral.features_of Config.defaults s (amount Fixtures.dawn_transfer) in
    let S_beh0 := py_round (Behavioral.risk_of Config.defaults s) 2 in
    QUERY_USER_TX_HISTORY Fixtures.day_user_store (sender_id Fixtures.dawn_transfer)
        (BEHAVIORAL_HISTORY_COUNT Config.defaults)
    = Ok history
    /\ QUERY_USER_PROFILE Fixtures.day_user_store (sender_id Fixtures.dawn_transfer) = Ok
        profile_rows
    /\ Behavioral.signals Config.defaults Fixtures.flat_lib Fixtures.no_asn_database
         Fixtures.day_user_store history profile_rows
         (sender_id Fixtures.dawn_transfer) (amount Fixtures.dawn_transfer)
         (timestamp Fixtures.dawn_transfer) (sender_lat Fixtures.dawn_transfer)
         (sender_lon Fixtures.dawn_transfer)
         (ip_address Fixtures.dawn_transfer) (Some (receiver_id Fixtures.dawn_transfer))
         false = Ok s
    /\ (fun _ _ _ _ _ _ _ _ => Ok Fixtures.unseen_device) (device_id Fixtures.dawn_transfer)
        (sender_id Fixtures.dawn_transfer) (amount Fixtures.dawn_transfer)
        (app_version Fixtures.dawn_transfer)
         (capability_mask Fixtures.dawn_transfer) (device_os Fixtures.dawn_transfer)
         (option_map CredentialType_value (credential_type Fixtures.dawn_transfer))
         (option_map CredentialSubType_value (credential_sub_type Fixtures.dawn_transfer)) = Ok
             device
    (* the extractor: the base penalty, never the elevated one *)
    /\ Behavioral.circadian_term s
       = (if Behavioral.circadian_anomaly s then CIRCADIAN_ANOMALY_PENALTY Config.defaults
          else 0.0)
    /\ CIRCADIAN_ANOMALY_PENALTY Config.defaults == 20
    /\ CIRCADIAN_NEW_DEVICE_PENALTY Config.defaults
       - CIRCADIAN_ANOMALY_PENALTY Config.defaults == 15
    (* the fuser: fifteen more, once, cut at 100 *)
    /\ rb_behavioral (breakdown resp)
       = py_round (compound_boost Config.defaults behav device S_beh0) 2
    /\ compound_boost Config.defaults behav device S_beh0
       == (if Behavioral.circadian_anomaly s && truthy (get device "new_device_flag")
           then py_min (S_beh0 + 15) 100
           else S_beh0)).
Proof.
  eexists. eexists. split; [vm_compute; reflexivity |].
  eapply (circadian_compound_boost_once Fixtures.flat_lib Fixtures.no_asn_database
           Fixtures.day_user_store
           (fun _ _ => Ok (Fixtures.scored 0))
           (fun _ _ _ _ _ _ _ _ => Ok Fixtures.unseen_device)
           (fun _ => Ok (Fixtures.scored 0))
           (fun _ _ => Ok (Fixtures.scored 0))
           Fixtures.dawn_transfer Fixtures.quiet_world).
  vm_compute. reflexivity.
Defined.

(** ** The status that the engine persists *)

(** The engine's own write knows two statuses; [BLOCKED] is not one of them. *)
Lemma persisted_status_two_valued (settings : Settings) (fused : Q) :
  persisted_status (level_of settings fused)
  = (if Qleb (HIGH_RISK_THRESHOLD settings) fused then FLAGGED else COMPLETED).
Proof.
  unfold level_of.
  destruct (Qleb (HIGH_RISK_THRESHOLD settings) fused); [reflexivity |].
  destruct (Qleb (MEDIUM_RISK_THRESHOLD settings) fused); reflexivity.
Qed.

(** It agrees with the threshold mapping below the medium threshold only. *)
Lemma persisted_status_on_mapping_iff (settings : Settings) (fused : Q) :
  MEDIUM_RISK_THRESHOLD settings <= HIGH_RISK_THRESHOLD settings ->
  persisted_status (level_of settings fused) = mapped_status settings fused
  <-> fused < MEDIUM_RISK_THRESHOLD settings.
Proof.
  intros Hth. rewrite persisted_status_two_valued. unfold mapped_status.
  destruct (Qleb (HIGH_RISK_THRESHOLD settings) fused) eqn:Hh.
  - apply Qleb_true in Hh. split; [discriminate | intros H; lra].
  - destruct (Qleb (MEDIUM_RISK_THRESHOLD settings) fused) eqn:Hm.
    + apply Qleb_true in Hm. split; [discriminate | intros H; lra].
    + apply Qleb_false in Hm. split; [intros _; exact Hm | reflexivity].
Qed.

(** C1, at two inputs.  Five extractors that all report 80 give a fused risk
    of 80, for which the threshold mapping asks for [BLOCKED]: the engine's
    persist step commits the status [FLAGGED].  Five extractors that all
    report 50 give a fused risk of 50, for which the mapping asks for
    [FLAGGED]: the persist step commits [COMPLETED]. *)
Theorem engine_persist_status_off_mapping :
  (exists resp w',
     score_transaction Config.defaults (Fixtures.flat_engine 80) Fixtures.transfer
       Fixtures.quiet_world = (Ok resp, w')
     /\ risk_score resp == 80
     /\ risk_level resp = HIGH
     /\ mapped_status Config.defaults (risk_score resp) = BLOCKED
     /\ committed_statuses w' "TX1" = [PyStr "FLAGGED"])
  /\ (exists resp w',
        score_transaction Config.defaults (Fixtures.flat_engine 50) Fixtures.transfer
          Fixtures.quiet_world = (Ok resp, w')
        /\ risk_score resp == 50
        /\ risk_level resp = MEDIUM
        /\ mapped_status Config.defaults (risk_score resp) = FLAGGED
        /\ committed_statuses w' "TX1" = [PyStr "COMPLETED"]).
Proof.
  split; eexists; eexists; (split; [vm_compute; reflexivity |]);
    repeat split; vm_compute; reflexivity || (intros H; discriminate H).
Qed.

(** ** The reason string *)

Lemma append_full_stop_nonempty (s : string) : s +:+ "." <> "".
Proof. destruct s; simpl; discriminate. Qed.

Lemma finish_reason_nonempty (settings : Settings) (parts : list string) (fused : Q) :
  finish_reason settings parts fused <> "".
Proof.
  unfold finish_reason. destruct parts as [| p rest].
  - destruct (Qleb (HIGH_RISK_THRESHOLD settings) fused);
      [apply append_full_stop_nonempty | discriminate].
  - apply append_full_stop_nonempty.
Qed.

(** C5, as the code has it.  Every scored transaction carries a non-empty
    reason.  When no signal contributes a part and the fused risk is below
    [HIGH_RISK_THRESHOLD], the reason is exactly
    [No significant risk indicators]; when no signal contributes a part and
    the fused risk reaches [HIGH_RISK_THRESHOLD], it is exactly
    [Multiple minor indicators combined above threshold.], full stop
    included; otherwise it is the parts joined by a full stop and a space,
    with a full stop at the end. *)
Theorem reason_never_empty
    (settings : Settings) (self : Engine) (tx : TransactionInput) (w w' : World)
    (resp : RiskResponse) :
  score_transaction settings self tx w = (Ok resp, w') ->
  exists behav dead device graph vel parts fused,
    behavioral self (sender_id tx) (amount tx) (timestamp tx) (sender_lat tx)
      (sender_lon tx) (ip_address tx) (Some (receiver_id tx)) false = Ok behav
    /\ dead_account self (sender_id tx) (amount tx) = Ok dead
    /\ device_risk self (device_id tx) (sender_id tx) (amount tx) (app_version tx)
         (capability_mask tx) (device_os tx)
         (option_map CredentialType_value (credential_type tx))
         (option_map CredentialSubType_value (credential_sub_type tx)) = Ok device
    /\ graph_intel self (sender_id tx) = Ok graph
    /\ velocity self (sender_id tx) (amount tx) = Ok vel
    /\ reason_parts settings behav dead device graph vel = Ok parts
    /\ risk_score resp = py_round fused 2
    /\ risk_level resp = level_of settings fused
    /\ reason resp <> ""
    /\ (parts = [] -> fused < HIGH_RISK_THRESHOLD settings ->
        reason resp = "No significant risk indicators")
    /\ (parts = [] -> HIGH_RISK_THRESHOLD settings <= fused ->
        reason resp = "Multiple minor indicators combined above threshold.")
    /\ (parts <> [] -> reason resp = str_join ". " parts +:+ ".").
Proof.
  intros H.
  apply score_transaction_returns in H
    as (behav & dead & device & graph & vel & sg & sb & sd & sx & sv
        & E1 & E2 & E3 & E4 & E5 & ES & HR & HL & HB & HI & Hrsn & _).
  unfold _build_reason in Hrsn.
  destruct (reason_parts settings behav dead device graph vel) as [parts | e] eqn:Hparts;
    simpl in Hrsn; [| discriminate].
  injection Hrsn as Hrsn.
  exists behav, dead, device, graph, vel, parts.
  eexists. repeat (split; [eassumption || reflexivity |]).
  rewrite <- Hrsn.
  split; [apply finish_reason_nonempty |].
  split; [| split].
  - intros -> Hlow. unfold finish_reason.
    apply Qleb_false in Hlow. rewrite Hlow. reflexivity.
  - intros -> Hhigh. unfold finish_reason.
    apply Qleb_true in Hhigh. rewrite Hhigh. reflexivity.
  - intros Hne. unfold finish_reason. destruct parts; [congruence | reflexivity].
Qed.

(** Five extractors that all report 50, without a flag or a signal. *)
Lemma reason_never_empty_witness :
  exists resp w',
    score_transaction Config.defaults (Fixtures.flat_engine 50) Fixtures.transfer
      Fixtures.quiet_world = (Ok resp, w')
    /\ (
  exists behav dead device graph vel parts fused,
    behavioral (Fixtures.flat_engine 50) (sender_id Fixtures.transfer)
        (amount Fixtures.transfer) (timestamp Fixtures.transfer) (sender_lat Fixtures.transfer)
      (sender_lon Fixtures.transfer) (ip_address Fixtures.transfer)
          (Some (receiver_id Fixtures.transfer)) false = Ok behav
    /\ dead_account (Fixtures.flat_engine 50) (sender_id Fixtures.transfer)
        (amount Fixtures.transfer) = Ok dead
    /\ device_risk (Fixtures.flat_engine 50) (device_id Fixtures.transfer)
        (sender_id Fixtures.transfer) (amount Fixtures.transfer) (app_version Fixtures.transfer)
         (capability_mask Fixtures.transfer) (device_os Fixtures.transfer)
         (option_map CredentialType_value (credential_type Fixtures.transfer))
         (option_map CredentialSubType_value (credential_sub_type Fixtures.transfer)) = Ok device
    /\ graph_intel (Fixtures.flat_engine 50) (sender_id Fixtures.transfer) = Ok graph
    /\ velocity (Fixtures.flat_engine 50) (sender_id Fixtures.transfer)
        (amount Fixtures.transfer) = Ok vel
    /\ reason_parts Config.defaults behav dead device graph vel = Ok parts
    /\ risk_score resp = py_round fused 2
    /\ risk_level resp = level_of Config.defaults fused
    /\ reason resp <> ""
    /\ (parts = [] -> fused < HIGH_RISK_THRESHOLD Config.defaults ->
        reason resp = "No significant risk indicators")
    /\ (parts = [] -> HIGH_RISK_THRESHOLD Config.defaults <= fused ->
        reason resp = "Multiple minor indicators combined above threshold.")
    /\ (parts <> [] -> reason resp = str_join ". " parts +:+ ".")).
Proof.
  eexists. eexists. split; [vm_compute; reflexivity |].
  eapply (reason_never_empty Config.defaults (Fixtures.flat_engine 50) Fixtures.transfer
            Fixtures.quiet_world).
  vm_compute. reflexivity.
Defined.

(** Five extractors that all report 80, without a flag or a signal: no part,
    a fused risk of 80, and a reason that ends with a full stop. *)
Lemma reason_above_threshold_has_full_stop :
  exists resp w',
    score_transaction Config.defaults (Fixtures.flat_engine 80) Fixtures.transfer
      Fixtures.quiet_world = (Ok resp, w')
    /\ reason_parts Config.defaults (Fixtures.scored 80) (Fixtures.scored 80)
         (Fixtures.scored 80) (Fixtures.scored 80) (Fixtures.scored 80) = Ok []
    /\ risk_score resp == 80
    /\ reason resp = "Multiple minor indicators combined above threshold."
    /\ reason resp <> "Multiple minor indicators combined above threshold".
Proof.
  eexists. eexists. split; [vm_compute; reflexivity |].
  split; [vm_compute; reflexivity |].
  split; [vm_compute; reflexivity |].
  split; [vm_compute; reflexivity |].
  vm_compute. intros H. discriminate H.
Qed.

End RiskEngineSpec.

(* ================================================================== *)
(** * The mule classifier *)
(* ================================================================== *)

Module MuleSpec.

Import MuleDetection PyFacts FeatureViews.
Local Open Scope Q_scope.

(** ** Reads of the classifier *)

(** A comparison with a positive bound that succeeds has found the key. *)
Lemma get_gt_found (d : Dict) (k : string) (bound : Q) :
  0 <= bound -> get_gt d k bound = Ok true -> exists v, d !! k = Some v.
Proof.
  intros Hb. unfold get_gt, get_or.
  destruct (d !! k) as [v |]; [eauto |]. simpl. intros H. exfalso.
  injection H as H. apply Qltb_true in H. change (inject_Z 0) with 0 in H. lra.
Qed.

Lemma get_ge_found (d : Dict) (k : string) (bound : Q) :
  0 < bound -> get_ge d k bound = Ok true -> exists v, d !! k = Some v.
Proof.
  intros Hb. unfold get_ge, get_or.
  destruct (d !! k) as [v |]; [eauto |]. simpl. intros H. exfalso.
  injection H as H. apply Qleb_true in H. change (inject_Z 0) with 0 in H. lra.
Qed.

Lemma is_ok_bind {A B} (m : result A) (k : A -> result B) :
  is_ok m = true ->
  (forall a, m = Ok a -> is_ok (k a) = true) ->
  is_ok (rbind m k) = true.
Proof. destruct m as [a | e]; simpl; [auto | discriminate]. Qed.

Lemma is_ok_fmt_f (n : nat) (v : PyVal) :
  (exists q, num v = Ok q) -> is_ok (fmt_f n v) = true.
Proof. intros [q Hq]. unfold fmt_f. rewrite Hq. reflexivity. Qed.

Lemma is_ok_fmt_int (v : PyVal) :
  (exists q, num v = Ok q) -> is_ok (fmt_int v) = true.
Proof. intros [q Hq]. unfold fmt_int. rewrite Hq. reflexivity. Qed.

Lemma is_ok_exists {A} (m : result A) : (exists a, m = Ok a) -> is_ok m = true.
Proof. intros [a ->]. reflexivity. Qed.

Lemma is_ok_inv {A} (r : result A) : is_ok r = true -> exists a, r = Ok a.
Proof. destruct r as [a | e]; [eauto | discriminate]. Qed.

Lemma item_found (d : Dict) (k : string) (v : PyVal) :
  d !! k = Some v -> item d k = Ok v.
Proof. intros H. unfold item. rewrite H. reflexivity. Qed.

(** ** Reads of typed outputs return *)

Lemma typed_at (d : Dict) (k : string) :
  typed d = true -> In k compared_keys -> numeric_at d k = true.
Proof.
  unfold typed. intros H Hk.
  apply andb_prop in H as [H _]. apply andb_prop in H as [H _].
  rewrite forallb_forall in H. apply H, Hk.
Qed.

Lemma numeric_found (d : Dict) (k : string) (v : PyVal) :
  numeric_at d k = true -> d !! k = Some v -> exists q, num v = Ok q.
Proof.
  unfold numeric_at. intros H Hk. rewrite Hk in H.
  destruct (num v) as [q | e]; [eauto | discriminate].
Qed.

Lemma num_get_or_at (d : Dict) (k : string) :
  numeric_at d k = true -> exists q, num (get_or d k (PyInt 0)) = Ok q.
Proof.
  intros Hd. unfold get_or. destruct (d !! k) as [v |] eqn:Hk; cbn [default from_option id].
  - eapply numeric_found; eauto.
  - cbn. eauto.
Qed.

Lemma num_py_or_at (d : Dict) (k k' : string) :
  numeric_at d k = true -> numeric_at d k' = true ->
  exists q, num (py_or (get d k) (get_or d k' (PyInt 0))) = Ok q.
Proof.
  intros Hk Hk'. unfold py_or, get.
  destruct (d !! k) as [v |] eqn:E; cbn [default from_option id].
  - destruct (truthy v) eqn:Ht.
    + exact (numeric_found d k v Hk E).
    + apply num_get_or_at, Hk'.
  - cbn [truthy]. apply num_get_or_at, Hk'.
Qed.

Lemma get_gt_at (d : Dict) (k : string) (bound : Q) :
  numeric_at d k = true -> exists b, get_gt d k bound = Ok b.
Proof.
  intros Hd. unfold get_gt. destruct (num_get_or_at d k Hd) as [q ->]. cbn. eauto.
Qed.

Lemma get_ge_at (d : Dict) (k : string) (bound : Q) :
  numeric_at d k = true -> exists b, get_ge d k bound = Ok b.
Proof.
  intros Hd. unfold get_ge. destruct (num_get_or_at d k Hd) as [q ->]. cbn. eauto.
Qed.

Section Total.

Variables behavioral dead_account device graph velocity : Dict.
Hypothesis dead_typed : typed dead_account = true.
Hypothesis device_typed : typed device = true.
Hypothesis graph_typed : typed graph = true.
Hypothesis velocity_typed : typed velocity = true.

Ltac key := apply typed_at; [assumption | simpl; tauto].

(** A guarded read of the classifier returns. *)
Ltac reads :=
  repeat first
    [ reflexivity
    | apply is_ok_fmt_int, num_py_or_at; key
    | apply is_ok_fmt_f, num_get_or_at; key
    | apply is_ok_exists, num_get_or_at; key
    | apply is_ok_exists, get_gt_at; key
    | apply is_ok_exists, get_ge_at; key
    | apply is_ok_fmt_f; assumption
    | apply is_ok_exists; assumption
    | match goal with
      | |- is_ok (if ?c then _ else _) = true => destruct c
      | |- is_ok (let x := ?e in @?k x) = true =>
          change (is_ok (k e) = true); cbv beta
      | |- is_ok (rbind _ _) = true =>
          apply is_ok_bind; [| intros ? ?; cbv beta]
      end ].

Ltac next_read :=
  lazymatch goal with
  | |- is_ok (let x := ?e in @?k x) = true =>
      let y := fresh x in
      set (y := e); change (is_ok (k y) = true); clearbody y; cbv beta
  | |- is_ok (rbind _ _) = true =>
      apply is_ok_bind; [solve [reads] | intros ? _; cbv beta]
  end.

(** A read whose outcome guards a later subscript. *)
Ltac next_guard b Hb :=
  apply is_ok_bind; [solve [reads] | intros b Hb; cbv beta].

(** A subscript behind a comparison that succeeded finds a number. *)
Ltac guarded_item d Hguard :=
  let v := fresh "v" in
  let Hv := fresh "Hv" in
  let Hn := fresh "Hn" in
  first [ apply get_gt_found in Hguard as [v Hv]; [| unfold Qle; simpl; lia]
        | apply get_ge_found in Hguard as [v Hv]; [| reflexivity] ];
  match type of Hv with
  | _ !! ?k = Some _ =>
      assert (Hn : exists q, num v = Ok q)
        by (apply (numeric_found d k v); [key | exact Hv])
  end;
  rewrite (item_found _ _ _ Hv); cbn [rbind];
  reads.

(** On typed outputs no read of the classifier raises. *)
Lemma accumulate_returns_typed :
  is_ok (accumulate behavioral dead_account device graph velocity) = true.
Proof using dead_typed device_typed graph_typed velocity_typed.
  cbv beta delta [accumulate].
  do 3 next_read.                              (* first strike, sleep-and-flash *)
  lazymatch goal with
  | |- is_ok (let x := ?e in @?k x) = true => change (is_ok (k e) = true); cbv beta
  end.
  do 2 next_read.                              (* pass-through *)
  next_guard shared Hshared.                   (* shared device *)
  apply is_ok_bind; [| intros ? _; cbv beta].
  { destruct shared; [| reflexivity]. guarded_item device Hshared. }
  next_read.                                   (* SIM swap *)
  next_guard clustered Hclustered.             (* cluster *)
  apply is_ok_bind; [| intros ? _; cbv beta].
  { destruct clustered; [| reflexivity]. guarded_item graph Hclustered. }
  next_guard fast Hfast.                       (* relay *)
  apply is_ok_bind; [| intros ? _; cbv beta].
  { match goal with |- is_ok (if ?c then _ else _) = true => destruct c eqn:Hrelay end;
      [| reflexivity].
    apply andb_prop in Hrelay as [-> _].
    guarded_item velocity Hfast. }
  do 3 next_read.                              (* travel, spike, new device and MPIN *)
  next_guard masked Hmasked.                   (* capability mask *)
  apply is_ok_bind; [| intros ? _; cbv beta].
  { destruct masked; [| reflexivity]. guarded_item device Hmasked. }
  repeat next_read.
  reflexivity.
Qed.

End Total.

(** ** The score is the weighted sum of the hits *)

Lemma firstn_snoc {A} (l : list A) (k : nat) (x : A) :
  nth_error l k = Some x -> firstn (S k) l = firstn k l ++ [x].
Proof.
  revert k. induction l as [| y l IH]; intros [| k]; simpl; try discriminate.
  - intros [= ->]. reflexivity.
  - intros H. rewrite (IH _ H). reflexivity.
Qed.

Lemma traced_start (hs : list (float * bool)) : traced (firstn 0 hs) (0.0%float, []).
Proof. split; reflexivity. Qed.

Lemma traced_hit (hs : list (float * bool)) (k : nat) (acc : Acc) (w : float)
    (text : string) :
  traced (firstn k hs) acc -> nth_error hs k = Some (w, true) ->
  traced (firstn (S k) hs) (hit acc w text).
Proof.
  intros [Hs Hn] Hk. rewrite (firstn_snoc _ _ _ Hk).
  unfold traced, weighted_sum, fired, hit. rewrite !fold_left_app. cbn [fold_left fst snd].
  rewrite length_app. cbn [length].
  unfold weighted_sum in Hs. unfold fired in Hn. rewrite <- Hs, <- Hn.
  split; [reflexivity | lia].
Qed.

Lemma traced_skip (hs : list (float * bool)) (k : nat) (acc : Acc) (w : float) :
  traced (firstn k hs) acc -> nth_error hs k = Some (w, false) ->
  traced (firstn (S k) hs) acc.
Proof.
  intros [Hs Hn] Hk. rewrite (firstn_snoc _ _ _ Hk).
  unfold traced, weighted_sum, fired. rewrite !fold_left_app. cbn [fold_left fst snd].
  split; assumption.
Qed.

Lemma traced_bind (hs hs' : list (float * bool)) (m : result Acc) (k : Acc -> result Acc) :
  traced_result hs m ->
  (forall acc, traced hs acc -> traced_result hs' (k acc)) ->
  traced_result hs' (rbind m k).
Proof. destruct m as [acc | e]; simpl; auto. Qed.

Lemma traced_bind_any {X} (hs : list (float * bool)) (m : result X) (k : X -> result Acc) :
  (forall x, m = Ok x -> traced_result hs (k x)) -> traced_result hs (rbind m k).
Proof. destruct m as [x | e]; simpl; auto. Qed.

Lemma above_of (d : Dict) (k : string) (bound : Q) (b : bool) :
  get_gt d k bound = Ok b -> above d k bound = b.
Proof. intros H. unfold above. rewrite H. reflexivity. Qed.

Lemma above_of_num (d : Dict) (k : string) (bound x : Q) :
  num (get_or d k (PyInt 0)) = Ok x -> above d k bound = Qltb bound x.
Proof. intros H. unfold above, get_gt. rewrite H. reflexivity. Qed.

Lemma at_least_of (d : Dict) (k : string) (bound : Q) (b : bool) :
  get_ge d k bound = Ok b -> at_least d k bound = b.
Proof. intros H. unfold at_least. rewrite H. reflexivity. Qed.

Lemma traced_let (hs hs' : list (float * bool)) (e : Acc) (k : Acc -> result Acc) :
  traced hs e ->
  (forall acc, traced hs acc -> traced_result hs' (k acc)) ->
  traced_result hs' (let acc := e in k acc).
Proof. intros He Hk. apply Hk, He. Qed.

Section Traced.

Variables behavioral dead_account device graph velocity : Dict.

Abbreviation hits := (mule_hits behavioral dead_account device graph velocity).

(** The entry of the hits at a position, with what is known of its signal. *)
Ltac entry :=
  cbv [mule_hits mule_signals mule_weights combine nth_error];
  unfold flagged;
  repeat match goal with
         | H : get_gt _ _ _ = Ok _ |- _ => apply above_of in H
         | H : get_ge _ _ _ = Ok _ |- _ => apply at_least_of in H
         end;
  try match goal with
      | H : num (get_or ?d ?k _) = Ok _ |- _ => rewrite !(above_of_num d k _ _ H)
      end;
  repeat match goal with
         | H : above _ _ _ = _ |- _ => rewrite H
         | H : at_least _ _ _ = _ |- _ => rewrite H
         | H : ?c = true |- context [?c] => rewrite H
         | H : ?c = false |- context [?c] => rewrite H
         end;
  cbn [negb andb]; rewrite ?andb_false_r; reflexivity.

(** The outcome of one [if] of the classifier. *)
Ltac outcome :=
  repeat first
    [ exact I
    | assumption
    | apply traced_start
    | match goal with
      | |- traced_result _ (Ok _) => cbn [traced_result]
      | |- traced_result _ (Raise _) => exact I
      | |- traced_result _ (if ?c then _ else _) => destruct c eqn:?
      | |- traced _ (if ?c then _ else _) => destruct c eqn:?
      | |- traced_result _ (let x := _ in _) => cbv zeta
      | |- traced _ (let x := _ in _) => cbv zeta
      | |- traced_result _ (rbind (A := Acc) _ _) => fail 1
      | |- traced_result _ (rbind _ _) => apply traced_bind_any; intros ? ?
      | |- traced (firstn (S _) _) (hit _ _ _) => apply traced_hit; [| solve [entry]]
      | |- traced (firstn (S _) _) _ => eapply traced_skip; [| solve [entry]]
      end ].

(** The next statement: an [if] that gives the accumulator after [k]
    signals, or a read. *)
Ltac weigh k :=
  lazymatch goal with
  | |- traced_result ?hs (let x := ?e in @?K x) =>
      refine (traced_let (firstn k hits) hs e K _ _);
      [ solve [outcome] | intros ? ?; cbv beta ]
  | |- traced_result _ (rbind _ _) =>
      apply (traced_bind (firstn k hits)); [ solve [outcome] | intros ? ?; cbv beta ]
  end.

Ltac read x Hx :=
  lazymatch goal with
  | |- traced_result ?hs (let x := ?e in @?K x) =>
      change (traced_result hs (K e)); cbv beta
  | |- traced_result _ (rbind _ _) =>
      apply traced_bind_any; intros x Hx; cbv beta
  end.

(** The accumulator that [accumulate] returns is the one of the hits. *)
Lemma accumulate_traced :
  traced_result hits (accumulate behavioral dead_account device graph velocity).
Proof.
  cbv beta delta [accumulate].
  read acc0 I.
  weigh 2%nat.                                 (* first strike or dormant *)
  weigh 3%nat.                                 (* sleep-and-flash *)
  read pt_ratio I. read pt Hpt. weigh 4%nat.   (* pass-through *)
  read shared Hshared. weigh 5%nat.            (* shared device *)
  weigh 6%nat.                                 (* SIM swap *)
  read clustered Hclustered. weigh 7%nat.      (* cluster *)
  read fast Hfast. weigh 8%nat.                (* relay *)
  weigh 9%nat. weigh 10%nat. weigh 11%nat.     (* travel, spike, new device and MPIN *)
  read masked Hmasked. weigh 12%nat.           (* capability mask *)
  weigh 13%nat. weigh 14%nat. weigh 15%nat. weigh 16%nat. weigh 17%nat.
  cbn [traced_result]. assumption.
Qed.

End Traced.

(** ** Every score that the weights can add up to *)

Lemma state_eqb_eq (x y : State) : state_eqb x y = true -> x = y.
Proof.
  destruct x as [s n], y as [s' n']. unfold state_eqb. cbn [fst snd].
  intros H. apply andb_prop in H as [Hs Hn].
  apply FloatAxioms.Leibniz.eqb_spec in Hs. apply Nat.eqb_eq in Hn. congruence.
Qed.

Lemma merge_states_cons (x : State) (a : list State) (y : State) (b : list State) :
  merge_states (x :: a) (y :: b)
  = if state_eqb x y then x :: merge_states a b
    else if state_ltb x y then x :: merge_states a (y :: b)
    else y :: merge_states (x :: a) b.
Proof. reflexivity. Qed.

(** Merging loses no state. *)
Lemma In_merge_states (a b : list State) (z : State) :
  In z a \/ In z b -> In z (merge_states a b).
Proof.
  revert b. induction a as [| x a IHa]; intros b.
  - destruct b; simpl; tauto.
  - induction b as [| y b IHb]; [simpl; tauto |].
    rewrite merge_states_cons.
    destruct (state_eqb x y) eqn:E.
    + apply state_eqb_eq in E. subst y.
      intros [[-> | H] | [-> | H]]; simpl; auto.
    + destruct (state_ltb x y).
      * intros [[-> | H] | H]; [left; reflexivity | |]; right; apply IHa; auto.
      * intros [H | [-> | H]]; [| left; reflexivity |]; right; apply IHb; auto.
Qed.

(** Whatever signals fire, the score and the number of hits are among the
    reachable states. *)
Lemma reachable_complete (ws : list float) :
  forall (states : list State) (bs : list bool) (s : float) (n : nat),
    In (s, n) states -> length bs = length ws ->
    In (weighted_sum (combine ws bs) s, fired (combine ws bs) n) (reachable ws states).
Proof.
  induction ws as [| w ws IH]; intros states bs s n Hin Hlen.
  - exact Hin.
  - destruct bs as [| b bs]; [discriminate |].
    cbn [combine reachable]. unfold weighted_sum, fired. cbn [fold_left fst snd].
    apply (IH _ bs); [| simpl in Hlen; lia].
    apply In_merge_states. destruct b.
    + right. apply (in_map (fun st : State => ((fst st + w)%float, S (snd st))) _ _ Hin).
    + left. exact Hin.
Qed.

(** The check of the 1608 states that the seventeen weights lead to. *)
Lemma reachable_scores_sound :
  forallb score_sound (reachable mule_weights [(0%float, 0%nat)]) = true.
Proof. vm_compute. reflexivity. Qed.

Lemma hits_sound (behavioral dead_account device graph velocity : Dict) :
  let hits := mule_hits behavioral dead_account device graph velocity in
  score_sound (weighted_sum hits 0, fired hits 0) = true.
Proof.
  cbv zeta. pose proof reachable_scores_sound as H. rewrite forallb_forall in H.
  apply H. unfold mule_hits.
  apply (reachable_complete mule_weights [(0%float, 0%nat)]
           (mule_signals behavioral dead_account device graph velocity));
    [left; reflexivity | reflexivity].
Qed.

(** What the check says of a score [s] behind [n] hits. *)
Lemma score_sound_inv (s : float) (n : nat) :
  score_sound (s, n) = true ->
  0.05 * inject_Z (Z.of_nat n) <= float_value s
  /\ float_value s <= 0.30 * inject_Z (Z.of_nat n)
  /\ 0 <= float_value (py_min_float s 1.0) <= 1
  /\ (PrimFloat.leb 0.5 (py_min_float s 1.0) = true
      <-> 0.5 <= float_value (py_min_float s 1.0))
  /\ float_value (py_min_float s 1.0) <= float_value s.
Proof.
  unfold score_sound. cbn [fst snd]. intros H.
  apply andb_prop in H as [H H6]. apply andb_prop in H as [H H5].
  apply andb_prop in H as [H H4]. apply andb_prop in H as [H H3].
  apply andb_prop in H as [H1 H2].
  apply Qle_bool_iff in H1, H2, H3, H4, H5.
  apply eqb_prop in H6.
  split; [exact H1 |]. split; [exact H2 |]. split; [split; assumption |].
  split; [rewrite H6; apply Qle_bool_iff | exact H5].
Qed.

Lemma py_round_ge_milli (k : Z) (x : Q) :
  inject_Z k / 1000 <= x -> inject_Z k / 1000 <= py_round x 3.
Proof.
  intros H. unfold py_round. change (inject_Z (pow10 3)) with 1000.
  assert (Hr : (k <= round_half_even (x * 1000))%Z).
  { apply round_half_even_ge.
    assert (E : inject_Z k == inject_Z k / 1000 * 1000) by field. rewrite E.
    apply Qmult_le_compat_r; [exact H | discriminate]. }
  rewrite Zle_Qle in Hr.
  apply Qmult_le_compat_r with (z := / 1000) in Hr; [exact Hr | discriminate].
Qed.

(** [evaluate] on an accumulator. *)
Lemma evaluate_inv (behavioral dead_account device graph velocity : Dict)
    (fused_risk : Q) (acc : Acc) :
  accumulate behavioral dead_account device graph velocity = Ok acc ->
  evaluate behavioral dead_account device graph velocity fused_risk
  = Ok {| is_mule := PrimFloat.leb 0.5 (py_min_float (fst acc) 1.0)
                     || Qleb _MULE_RISK_THRESHOLD fused_risk;
          confidence := py_round (float_value (py_min_float (fst acc) 1.0)) 3;
          reasons := snd acc |}.
Proof. intros H. unfold evaluate. rewrite H. reflexivity. Qed.

(** C4, as the code has it.  On extractor outputs with numbers under the
    compared keys, and for every fused risk, the classifier returns a
    verdict.  Its score is the sum, in binary64 and in the order of the
    code, of the weights of the signals that fired, clamped by 1.0: the
    score and the confidence, which is the score rounded to three decimals,
    lie in [0, 1], and every signal that fired left one reason.  The
    verdict is a mule exactly when that score, before it is rounded, is at
    least 0.5 or the fused risk is at least 65; so a fused risk of 65 or
    more gives a mule whatever the score, and a mule has a confidence of
    at least 0.5 or a fused risk of at least 65. *)
Theorem mule_iff_score_or_fused_risk
    (behavioral dead_account device graph velocity : Dict) (fused_risk : Q) :
  typed dead_account = true ->
  typed device = true ->
  typed graph = true ->
  typed velocity = true ->
  let hits := mule_hits behavioral dead_account device graph velocity in
  let score := py_min_float (weighted_sum hits 0) 1.0 in
  exists acc verdict,
    accumulate behavioral dead_account device graph velocity = Ok acc
    /\ evaluate behavioral dead_account device graph velocity fused_risk = Ok verdict
    /\ fst acc = weighted_sum hits 0
    /\ length (snd acc) = fired hits 0
    /\ reasons verdict = snd acc
    /\ 0 <= float_value score <= 1
    /\ confidence verdict = py_round (float_value score) 3
    /\ 0 <= confidence verdict <= 1
    /\ (is_mule verdict = true <-> 0.5 <= float_value score \/ 65 <= fused_risk)
    /\ (65 <= fused_risk -> is_mule verdict = true)
    /\ (is_mule verdict = true -> 0.5 <= confidence verdict \/ 65 <= fused_risk).
Proof.
  intros Hdead Hdevice Hgraph Hvelocity hits score.
  pose proof (accumulate_returns_typed behavioral dead_account device graph velocity
                Hdead Hdevice Hgraph Hvelocity) as Hret.
  pose proof (accumulate_traced behavioral dead_account device graph velocity) as Htr.
  destruct (accumulate behavioral dead_account device graph velocity)
    as [acc | e] eqn:Hacc; [| discriminate].
  clear Hret. destruct Htr as [Hsum Hlen]. fold hits in Hsum, Hlen.
  pose proof (hits_sound behavioral dead_account device graph velocity) as Hsound.
  cbv zeta in Hsound. fold hits in Hsound.
  apply score_sound_inv in Hsound as (_ & _ & Hrange & Hhalf & _). fold score in Hrange, Hhalf.
  exists acc. eexists. split; [reflexivity |].
  split; [apply evaluate_inv, Hacc |].
  cbn [is_mule confidence reasons]. rewrite Hsum. fold score.
  assert (Hmule : PrimFloat.leb 0.5 score || Qleb _MULE_RISK_THRESHOLD fused_risk = true
                  <-> 0.5 <= float_value score \/ 65 <= fused_risk).
  { rewrite orb_true_iff, Hhalf, Qleb_true. reflexivity. }
  split; [reflexivity |]. split; [exact Hlen |]. split; [reflexivity |].
  split; [exact Hrange |]. split; [reflexivity |].
  split; [apply (py_round_bounds 0 1); exact Hrange |].
  split; [exact Hmule |].
  split; [intros H; apply Hmule; right; exact H |].
  intros H. apply Hmule in H as [H | H]; [left | right; exact H].
  assert (E : inject_Z 500 / 1000 == 0.5) by reflexivity.
  rewrite <- E. apply py_round_ge_milli. rewrite E. exact H.
Qed.

(** The claim as it is worded does not hold: a dormant account that
    wakes up on a device shared by three accounts with an amount spike has
    the weights 0.30, 0.15 and 0.05, which add up to 0.49999999999999994
    in binary64.  At a fused risk of 30 the verdict is no mule, with a
    confidence of 0.5. *)
Lemma confidence_half_not_mule :
  exists verdict,
    evaluate Fixtures.spiking_behavioral Fixtures.woken_dead_account
      Fixtures.shared_device Fixtures.calm_graph Fixtures.calm_velocity 30 = Ok verdict
    /\ confidence verdict == 0.5
    /\ is_mule verdict = false
    /\ length (reasons verdict) = 3%nat
    /\ ~ (is_mule verdict = true <-> 0.5 <= confidence verdict \/ 65 <= 30).
Proof.
  eexists. split; [vm_compute; reflexivity |].
  cbn [confidence is_mule reasons].
  split; [reflexivity |]. split; [reflexivity |]. split; [reflexivity |].
  intros [_ H]. discriminate H. left. discriminate.
Qed.

(** The theorem on the same outputs. *)
Lemma mule_iff_score_or_fused_risk_witness :
  exists verdict,
    evaluate Fixtures.spiking_behavioral Fixtures.woken_dead_account
      Fixtures.shared_device Fixtures.calm_graph Fixtures.calm_velocity 30 = Ok verdict
    /\ length (reasons verdict) = 3%nat
    /\ (is_mule verdict = true
        <-> 0.5 <= float_value
                     (py_min_float
                        (weighted_sum
                           (mule_hits Fixtures.spiking_behavioral Fixtures.woken_dead_account
                              Fixtures.shared_device Fixtures.calm_graph
                              Fixtures.calm_velocity) 0) 1.0)
            \/ 65 <= 30).
Proof.
  destruct (mule_iff_score_or_fused_risk
              Fixtures.spiking_behavioral Fixtures.woken_dead_account
              Fixtures.shared_device Fixtures.calm_graph Fixtures.calm_velocity 30)
    as (acc & verdict & _ & Hev & _ & Hlen & Hr & _ & _ & _ & Hmule & _);
    [reflexivity | reflexivity | reflexivity | reflexivity |].
  exists verdict. split; [exact Hev |].
  split; [rewrite Hr, Hlen; reflexivity | exact Hmule].
Defined.

End MuleSpec.

(* ================================================================== *)
(** * The ASN risk *)
(* ================================================================== *)

Module AsnSpec.

Import PyFacts.
Local Open Scope Q_scope.

(** ** The mode *)

Lemma best_of_fold (d : list (Z * Z)) (b : Z * Z) :
  let r := fold_left (fun best kv' => if (snd best <? snd kv')%Z then kv' else best) d b in
  (r = b \/ In r d) /\ (snd b <= snd r)%Z /\ (forall kv, In kv d -> (snd kv <= snd r)%Z).
Proof.
  revert b. induction d as [| kv d IH]; intros b; simpl.
  - split; [left; reflexivity |]. split; [lia | intros kv []].
  - specialize (IH (if (snd b <? snd kv)%Z then kv else b)).
    simpl in IH. destruct IH as (Hin & Hle & Hall).
    destruct (snd b <? snd kv)%Z eqn:Hcmp.
    + apply Z.ltb_lt in Hcmp.
      split; [destruct Hin as [-> | Hin]; auto |].
      split; [lia |].
      intros kv' [<- | Hkv']; [exact Hle | apply Hall, Hkv'].
    + apply Z.ltb_ge in Hcmp.
      split; [destruct Hin as [-> | Hin]; auto |].
      split; [exact Hle |].
      intros kv' [<- | Hkv']; [lia | apply Hall, Hkv'].
Qed.

(** [mode_of] returns a key of greatest count. *)
Lemma mode_of_most_used (d : list (Z * Z)) (m : Z) :
  mode_of d = Some m ->
  exists c, In (m, c) d /\ forall kv, In kv d -> (snd kv <= c)%Z.
Proof.
  destruct d as [| kv d]; simpl; [discriminate |].
  intros H. injection H as H.
  pose proof (best_of_fold d kv) as (Hin & Hle & Hall). simpl in *.
  set (r := fold_left (fun best kv' => if (snd best <? snd kv')%Z then kv' else best) d kv)
    in *.
  exists (snd r). split.
  - rewrite <- H. rewrite <- surjective_pairing.
    destruct Hin as [-> | Hin]; [left; reflexivity | right; exact Hin].
  - intros kv' [<- | Hkv']; [exact Hle | apply Hall, Hkv'].
Qed.

(** ** The entropy *)

Lemma entropy_fold (lib : MathLib) (d : list (Z * Z)) (total : Z) (h : Q) :
  (0 < total)%Z ->
  (forall kv, In kv d -> (0 < snd kv)%Z) ->
  fold_left
    (fun (h : Q) kv =>
       let p := (inject_Z (snd kv) / inject_Z total)%Q in
       if Qltb 0 p then (h - p * math_log lib p)%Q else h)
    d h
  == h + shannon lib d total.
Proof.
  intros Htotal. revert h. unfold shannon.
  induction d as [| kv d IH]; intros h Hpos; simpl.
  - unfold Qsum. simpl. ring.
  - assert (Hp : Qltb 0 (inject_Z (snd kv) / inject_Z total) = true).
    { apply Qltb_true. apply Qlt_shift_div_l.
      - change 0 with (inject_Z 0). rewrite <- Zlt_Qlt. exact Htotal.
      - rewrite Qmult_0_l. change 0 with (inject_Z 0). rewrite <- Zlt_Qlt.
        apply Hpos. left. reflexivity. }
    rewrite Hp. rewrite IH by (intros kv' Hkv'; apply Hpos; right; exact Hkv').
    unfold Qsum. simpl. ring.
Qed.

(** The loop of step 7 computes the entropy of the counted distribution. *)
Lemma entropy_of_shannon (lib : MathLib) (d : list (Z * Z)) (total : Z) :
  (0 < total)%Z ->
  (forall kv, In kv d -> (0 < snd kv)%Z) ->
  entropy_of lib d total == shannon lib d total.
Proof.
  intros Htotal Hpos. unfold entropy_of.
  rewrite entropy_fold by assumption. ring.
Qed.

(** ** The parts of the sum *)

(** The addresses that the classifier resolves: the public IPv4 addresses
    of which the database has a record. *)
Lemma resolve_valid_iff (adb : AsnDatabase) (ip : string) :
  valid (resolve adb ip) = true
  <-> _is_valid_public_ipv4 adb ip = true
      /\ exists rd data, reader adb = Some rd /\ rd ip = Ok (Some data).
Proof.
  unfold resolve.
  destruct (_is_valid_public_ipv4 adb ip); simpl.
  2: { split; [discriminate | intros [H _]; discriminate]. }
  destruct (reader adb) as [rd |]; simpl.
  2: { split; [discriminate | intros (_ & rd & data & H & _); discriminate]. }
  destruct (rd ip) as [[data |] | e] eqn:Hrd; simpl.
  - split; [| reflexivity]. intros _. split; [reflexivity |]. eauto.
  - split; [discriminate |]. intros (_ & rd' & data & [= <-] & H). congruence.
  - split; [discriminate |]. intros (_ & rd' & data & [= <-] & H). congruence.
Qed.

Lemma resolve_foreign_flag (adb : AsnDatabase) (ip : string) :
  (foreign_flag (resolve adb ip) = 0 \/ foreign_flag (resolve adb ip) = 1)%Z.
Proof.
  unfold resolve.
  destruct (_is_valid_public_ipv4 adb ip); simpl; [| auto].
  destruct (reader adb) as [rd |]; simpl; [| auto].
  destruct (rd ip) as [[data |] | e]; simpl; auto.
  destruct (String.eqb _ "IN"); auto.
Qed.

(** The density is [log(1 + n)] for the [n] accounts of the first row read
    for the network. *)
Lemma asn_density_of_row (lib : MathLib) (neo4j : Neo4jReads) (asn_number : Z)
    (row : AsnDensityRow) (rest : list AsnDensityRow) :
  (0 < asn_number)%Z ->
  QUERY_ASN_DENSITY neo4j asn_number = Ok (row :: rest) ->
  (0 <= default 0%Z (account_count row))%Z ->
  asn_density_of lib neo4j asn_number
  = math_log1p lib (inject_Z (default 0%Z (account_count row))).
Proof.
  intros Hasn Hq Hn. unfold asn_density_of.
  apply Z.ltb_lt in Hasn. rewrite Hasn, Hq. unfold log1p.
  destruct (Qleb _ (-1)) eqn:E; [| reflexivity].
  apply Qleb_true in E. exfalso.
  assert (H : inject_Z 0 <= inject_Z (default 0%Z (account_count row)))
    by (rewrite <- Zle_Qle; exact Hn).
  change (inject_Z 0) with 0 in H. lra.
Qed.

(** It is zero when there is no network number, when the read fails or
    finds nothing, and when the count read is negative. *)
Lemma asn_density_of_nothing (lib : MathLib) (neo4j : Neo4jReads) (asn_number : Z) :
  (asn_number <= 0)%Z
  \/ (exists e, QUERY_ASN_DENSITY neo4j asn_number = Raise e)
  \/ QUERY_ASN_DENSITY neo4j asn_number = Ok []
  \/ (exists row rest,
        QUERY_ASN_DENSITY neo4j asn_number = Ok (row :: rest)
        /\ (default 0%Z (account_count row) < 0)%Z) ->
  asn_density_of lib neo4j asn_number = 0.
Proof.
  unfold asn_density_of.
  destruct (0 <? asn_number)%Z eqn:Hasn; [| reflexivity].
  apply Z.ltb_lt in Hasn.
  intros [H | [[e H] | [H | (row & rest & H & Hn)]]]; [lia | | |]; rewrite H;
    try reflexivity.
  unfold log1p. destruct (Qleb _ (-1)) eqn:E; [reflexivity |].
  apply Qleb_false in E. exfalso.
  assert (Hq : inject_Z (default 0%Z (account_count row)) <= inject_Z (-1))
    by (rewrite <- Zle_Qle; lia).
  change (inject_Z (-1)) with (-1) in Hq. lra.
Qed.

Lemma asn_history_of_cases (lib : MathLib) (neo4j : Neo4jReads) (sender_id : string)
    (asn_number : Z) :
  (forall e, QUERY_USER_ASN_HISTORY neo4j sender_id = Raise e ->
             asn_history_of lib neo4j sender_id asn_number = (0%Z, 0))
  /\ (forall rows,
        QUERY_USER_ASN_HISTORY neo4j sender_id = Ok rows ->
        asn_history_of lib neo4j sender_id asn_number
        = match mode_of (fst (count_asns rows)) with
          | Some mode_asn =>
              (if (asn_number =? mode_asn)%Z then 0%Z else 1%Z,
               if (0 <? snd (count_asns rows))%Z
               then entropy_of lib (fst (count_asns rows)) (snd (count_asns rows))
               else 0)
          | None => (0%Z, 0)
          end).
Proof.
  unfold asn_history_of. split.
  - intros e ->. reflexivity.
  - intros rows ->. destruct rows as [| row rows]; [reflexivity |].
    destruct (count_asns (row :: rows)) as [counts total]. reflexivity.
Qed.

Lemma final_asn_risk_bounds (lib : MathLib) (asn_base asn_density : Q)
    (asn_drift foreign_flag : Z) (asn_entropy : Q) :
  let r := final_asn_risk lib asn_base asn_density asn_drift foreign_flag asn_entropy in
  0 <= asn_risk r <= 1 /\ 0 <= asn_risk_scaled r <= 20.
Proof.
  simpl.
  match goal with
  | |- 0 <= py_min (py_max ?raw 0.0) 1.0 <= 1 /\ _ =>
      pose proof (py_min_le_r (py_max raw 0.0) 1.0) as Hhi;
      pose proof (py_max_ge_r raw 0.0) as Hlo;
      pose proof (py_min_glb (py_max raw 0.0) 1.0 0) as Hglb;
      set (x := py_min (py_max raw 0.0) 1.0) in *
  end.
  assert (H0 : 0 <= x) by (apply Hglb; [lra | unfold Qle; simpl; lia]).
  split; split; lra.
Qed.

(** An address that the classifier does not resolve carries no ASN risk. *)
Lemma unresolved_address_scores_zero
    (lib : MathLib) (neo4j : Neo4jReads) (adb : AsnDatabase) (sender_id ip : string) :
  valid (resolve adb ip) = false ->
  res_asn_risk (compute_asn_risk lib neo4j adb sender_id ip) = 0.0
  /\ res_asn_risk_scaled (compute_asn_risk lib neo4j adb sender_id ip) = 0.0.
Proof. intros H. unfold compute_asn_risk. rewrite H. split; reflexivity. Qed.

(** C7, as the code has it.  The formula is that of the addresses that the
    classifier resolves, the public IPv4 addresses of which the ASN
    database has a record; any other address, public or not, scores 0.
    For a resolved address the full ASN risk is [0.4 base
    + 0.3 min(density / log(1 + 1000), 1) + 0.2 drift + 0.2 foreign
    + 0.1 min(H / 2.5, 1)] brought into [0, 1], and the scaled risk is
    twenty times it, before the rounding of the returned dictionary.  The
    density is [log(1 + n)] for the [n] accounts read for the network, and
    0 when there is nothing to read; the drift is 1 exactly when the user's
    history has a mode (a most used ASN) and the current ASN differs from
    it; [H] is the entropy of the distribution of the user's history; the
    foreign flag is 0 or 1.  In every case the risk that the caller
    receives lies in [0, 1] and the scaled risk in [0, 20]. *)
Theorem asn_risk_formula
    (lib : MathLib) (neo4j : Neo4jReads) (adb : AsnDatabase) (sender_id ip : string) :
  let info := resolve adb ip in
  let density := asn_density_of lib neo4j (asn info) in
  let drift := fst (asn_history_of lib neo4j sender_id (asn info)) in
  let H := snd (asn_history_of lib neo4j sender_id (asn info)) in
  let r := final_asn_risk lib (asn_base info) density drift (foreign_flag info) H in
  let res := compute_asn_risk lib neo4j adb sender_id ip in
  (* the addresses that resolve, and the others *)
  (valid info = true
   <-> _is_valid_public_ipv4 adb ip = true
       /\ exists rd data, reader adb = Some rd /\ rd ip = Ok (Some data))
  /\ (valid info = false -> res_asn_risk res = 0.0 /\ res_asn_risk_scaled res = 0.0)
  (* what the caller receives for a resolved address *)
  /\ (valid info = true ->
      res_asn_risk res = py_round (asn_risk r) 4
      /\ res_asn_risk_scaled res = py_round (asn_risk_scaled r) 2)
  /\ 0 <= res_asn_risk res <= 1
  /\ 0 <= res_asn_risk_scaled res <= 20
  (* the formula and the scaling *)
  /\ asn_risk r
     = py_min (py_max (0.4 * asn_base info
                       + 0.3 * py_min (density / math_log1p lib 1000) 1.0
                       + 0.2 * inject_Z drift
                       + 0.2 * inject_Z (foreign_flag info)
                       + 0.1 * py_min (H / 2.5) 1.0) 0.0) 1.0
  /\ asn_risk_scaled r == 20 * asn_risk r
  /\ 0 <= asn_risk r <= 1
  /\ 0 <= asn_risk_scaled r <= 20
  (* the ingredients *)
  /\ (foreign_flag info = 0 \/ foreign_flag info = 1)%Z
  /\ (forall row rest,
        (0 < asn info)%Z ->
        QUERY_ASN_DENSITY neo4j (asn info) = Ok (row :: rest) ->
        (0 <= default 0%Z (account_count row))%Z ->
        density = math_log1p lib (inject_Z (default 0%Z (account_count row))))
  /\ ((asn info <= 0)%Z
      \/ (exists e, QUERY_ASN_DENSITY neo4j (asn info) = Raise e)
      \/ QUERY_ASN_DENSITY neo4j (asn info) = Ok []
      \/ (exists row rest,
            QUERY_ASN_DENSITY neo4j (asn info) = Ok (row :: rest)
            /\ (default 0%Z (account_count row) < 0)%Z) ->
      density = 0)
  /\ (drift = 0 \/ drift = 1)%Z
  /\ (forall e, QUERY_USER_ASN_HISTORY neo4j sender_id = Raise e -> drift = 0%Z /\ H = 0)
  /\ (forall rows,
        QUERY_USER_ASN_HISTORY neo4j sender_id = Ok rows ->
        let counts := fst (count_asns rows) in
        let total := snd (count_asns rows) in
        (drift = 1%Z <-> exists m, mode_of counts = Some m /\ asn info <> m)
        /\ (forall m, mode_of counts = Some m ->
            exists c, In (m, c) counts /\ forall kv, In kv counts -> (snd kv <= c)%Z)
        /\ ((forall kv, In kv counts -> (0 < snd kv)%Z) ->
            (counts <> [] -> (0 < total)%Z) ->
            H == shannon lib counts total)).
Proof.
  cbv zeta.
  pose proof (final_asn_risk_bounds lib (asn_base (resolve adb ip))
                (asn_density_of lib neo4j (asn (resolve adb ip)))
                (fst (asn_history_of lib neo4j sender_id (asn (resolve adb ip))))
                (foreign_flag (resolve adb ip))
                (snd (asn_history_of lib neo4j sender_id (asn (resolve adb ip)))))
    as [Hrisk Hscaled].
  cbv zeta in Hrisk, Hscaled.
  set (r := final_asn_risk lib (asn_base (resolve adb ip))
              (asn_density_of lib neo4j (asn (resolve adb ip)))
              (fst (asn_history_of lib neo4j sender_id (asn (resolve adb ip))))
              (foreign_flag (resolve adb ip))
              (snd (asn_history_of lib neo4j sender_id (asn (resolve adb ip))))) in *.
  assert (Hres : valid (resolve adb ip) = true ->
                 res_asn_risk (compute_asn_risk lib neo4j adb sender_id ip)
                 = py_round (asn_risk r) 4
                 /\ res_asn_risk_scaled (compute_asn_risk lib neo4j adb sender_id ip)
                    = py_round (asn_risk_scaled r) 2).
  { intros Hvalid. unfold compute_asn_risk. rewrite Hvalid. simpl negb. cbv iota. cbv zeta.
    subst r.
    destruct (asn_history_of lib neo4j sender_id (asn (resolve adb ip))) as [dr en].
    split; reflexivity. }
  pose proof (unresolved_address_scores_zero lib neo4j adb sender_id ip) as Hzero.
  destruct (asn_history_of_cases lib neo4j sender_id (asn (resolve adb ip)))
    as [Hdown Hup].
  split; [apply resolve_valid_iff |].
  split; [exact Hzero |].
  split; [exact Hres |].
  assert (Hboth : 0 <= res_asn_risk (compute_asn_risk lib neo4j adb sender_id ip) <= 1
                  /\ 0 <= res_asn_risk_scaled (compute_asn_risk lib neo4j adb sender_id ip)
                     <= 20).
  { destruct (valid (resolve adb ip)) eqn:Hvalid.
    - destruct (Hres eq_refl) as [-> ->].
      split; [apply (py_round_bounds 0 1) | apply (py_round_bounds 0 20)]; assumption.
    - destruct (Hzero eq_refl) as [-> ->]. split; split; unfold Qle; simpl; lia. }
  split; [apply Hboth |]. split; [apply Hboth |].
  split; [reflexivity |].
  split; [subst r; simpl; ring |].
  split; [exact Hrisk |].
  split; [exact Hscaled |].
  split; [apply resolve_foreign_flag |].
  split; [apply asn_density_of_row |].
  split; [apply asn_density_of_nothing |].
  split.
  { destruct (QUERY_USER_ASN_HISTORY neo4j sender_id) as [rows | e] eqn:Hq.
    - rewrite (Hup rows eq_refl).
      destruct (mode_of (fst (count_asns rows))) as [m |]; simpl; [| auto].
      destruct (asn (resolve adb ip) =? m)%Z; auto.
    - rewrite (Hdown e eq_refl). auto. }
  split.
  { intros e He. rewrite (Hdown e He). split; reflexivity. }
  intros rows Hrows. cbv zeta. rewrite (Hup rows Hrows).
  split; [| split].
  - destruct (mode_of (fst (count_asns rows))) as [m |]; simpl.
    + destruct (asn (resolve adb ip) =? m)%Z eqn:Hm.
      * apply Z.eqb_eq in Hm. split; [discriminate |].
        intros (m' & Hm' & Hne). congruence.
      * apply Z.eqb_neq in Hm. split; [| reflexivity].
        intros _. exists m. split; [reflexivity | exact Hm].
    + split; [discriminate |]. intros (m' & Hm' & _). discriminate.
  - intros m Hm. apply mode_of_most_used, Hm.
  - intros Hpos Htotal.
    destruct (fst (count_asns rows)) as [| kv counts] eqn:Hcounts.
    + simpl. unfold shannon, Qsum. simpl. ring.
    + assert (Ht : (0 < snd (count_asns rows))%Z) by (apply Htotal; discriminate).
      simpl mode_of. cbv iota. simpl snd.
      apply Z.ltb_lt in Ht as Ht'. rewrite Ht'.
      apply entropy_of_shannon; assumption.
Qed.

(** The claim as it is worded does not hold: 1.1.1.1 is a valid public
    IPv4 address of which the database has no record, and the user's
    history has a most used network, from which the address differs.  The
    drift alone would make the formula at least 0.2, whatever is taken for
    its other parts; the risk returned is 0. *)
Lemma unrecorded_address_scores_zero :
  let res :=
    compute_asn_risk Fixtures.log_table Fixtures.roaming_user_store
      Fixtures.sparse_database "U0001" "1.1.1.1" in
  _is_valid_public_ipv4 Fixtures.sparse_database "1.1.1.1" = true
  /\ (exists rows m,
        QUERY_USER_ASN_HISTORY Fixtures.roaming_user_store "U0001" = Ok rows
        /\ mode_of (fst (count_asns rows)) = Some m
        /\ asn (resolve Fixtures.sparse_database "1.1.1.1") <> m)
  /\ res_asn_risk res = 0.0
  /\ res_asn_risk_scaled res = 0.0
  /\ forall base density_norm foreign entropy_norm : Q,
       0 <= base -> 0 <= density_norm -> 0 <= foreign -> 0 <= entropy_norm ->
       ~ res_asn_risk res
         == py_min (py_max (0.4 * base + 0.3 * density_norm + 0.2 * 1
                            + 0.2 * foreign + 0.1 * entropy_norm) 0.0) 1.0.
Proof.
  cbv zeta. split; [reflexivity |].
  split; [eexists; exists 55836%Z; split; [reflexivity |]; split; [reflexivity | discriminate] |].
  split; [reflexivity |]. split; [reflexivity |].
  intros base dn fo en Hb Hd Hf He Heq.
  change (res_asn_risk
            (compute_asn_risk Fixtures.log_table Fixtures.roaming_user_store
               Fixtures.sparse_database "U0001" "1.1.1.1")) with 0.0 in Heq.
  set (raw := 0.4 * base + 0.3 * dn + 0.2 * 1 + 0.2 * fo + 0.1 * en) in *.
  assert (Hraw : 0.2 <= raw) by (unfold raw; lra).
  pose proof (py_max_ge_l raw 0.0) as Hmax.
  destruct (py_min_cases (py_max raw 0.0) 1.0) as [[_ E] | [_ E]]; rewrite E in Heq; lra.
Qed.

(** A user at home on network 55836 who appears on the foreign network
    15169: the address resolves, the drift is 1, three accounts are on
    the network. *)
Lemma asn_risk_formula_witness :
  let info := resolve Fixtures.one_network_database "8.8.8.8" in
  let res := compute_asn_risk Fixtures.log_table Fixtures.roaming_user_store
      Fixtures.one_network_database "U0001" "8.8.8.8" in
  valid info = true
  /\ asn_density_of Fixtures.log_table Fixtures.roaming_user_store (asn info)
     = math_log1p Fixtures.log_table 3
  /\ fst (asn_history_of Fixtures.log_table Fixtures.roaming_user_store "U0001" (asn info))
     = 1%Z
  /\ 0 <= res_asn_risk res <= 1
  /\ 0 <= res_asn_risk_scaled res <= 20.
Proof.
  pose proof (asn_risk_formula Fixtures.log_table Fixtures.roaming_user_store
                Fixtures.one_network_database "U0001" "8.8.8.8") as H.
  cbv zeta in H.
  destruct H as (_ & _ & _ & Hr & Hs & _ & _ & _ & _ & _ & Hdensity & _ & _ & _ & Hrows).
  split; [reflexivity |].
  split; [apply (Hdensity {| account_count := Some 3%Z |} []); [reflexivity | reflexivity | discriminate] |].
  split; [| split; assumption].
  apply (Hrows _ eq_refl). exists 55836%Z. split; [reflexivity | discriminate].
Defined.

End AsnSpec.

(* ================================================================== *)
(** * The worker pool *)
(* ================================================================== *)

Module WorkerPoolSpec.

Import RiskEngine WorkerPool PyFacts RuntimeFacts.
Local Open Scope Q_scope.

(** The write-back of the worker follows the threshold mapping. *)
Lemma tx_status_of_mapped (settings : Settings) (risk_score : Q) :
  tx_status_of settings risk_score
  = TransactionStatus_value (mapped_status settings risk_score).
Proof.
  unfold tx_status_of, mapped_status.
  destruct (Qleb (HIGH_RISK_THRESHOLD settings) risk_score); [reflexivity |].
  destruct (Qleb (MEDIUM_RISK_THRESHOLD settings) risk_score); reflexivity.
Qed.

(** On the worker path the same transaction is written twice: at a fused
    risk of 50 the engine commits [COMPLETED] and the write-back of the
    worker then commits [FLAGGED]. *)
Lemma worker_write_back_overrides_engine_status :
  exists w',
    _process_message Config.defaults Fixtures.flat_lib Fixtures.no_asn_database
      Fixtures.accepting_codec Fixtures.flat_pool "worker-0" "1700000000000-0"
      Fixtures.raw_message
      (Fixtures.delivered "fraud_queue" "fraud_workers" "1700000000000-0" [])
    = (Ok tt, w')
    /\ committed_statuses w' "TX1" = [PyStr "COMPLETED"; PyStr "FLAGGED"]
    /\ is_pending w' "fraud_queue" "fraud_workers" "1700000000000-0" = false.
Proof. eexists. split; [vm_compute; reflexivity |]. split; vm_compute; reflexivity. Qed.

(** ** Frames of the stages *)

Lemma keeps_steady_random_uniform (a b : Q) : keeps_steady (random_uniform a b).
Proof. unfold random_uniform. frame. Qed.

Lemma keeps_steady_random_choice {A} (first : A) (others : list A) :
  keeps_steady (random_choice first others).
Proof. unfold random_choice. frame. Qed.

Lemma keeps_steady_get_pool : keeps_steady get_pool.
Proof. intros w r w' H. inversion H. apply steady_refl. Qed.

Lemma keeps_steady_set_deadlock_retries (n : Z) : keeps_steady (set_deadlock_retries n).
Proof. intros w r w' H. inversion H. repeat split. Qed.

#[local] Hint Resolve keeps_steady_random_uniform keeps_steady_random_choice
  keeps_steady_get_pool keeps_steady_set_deadlock_retries : frame.

Lemma keeps_steady_ingest_attempts (fallback : option (M unit)) (query : Cypher)
    (params : Dict) (attempt remaining : nat) :
  (forall m, fallback = Some m -> keeps_steady m) ->
  keeps_steady (ingest_attempts fallback query params attempt remaining).
Proof.
  intros Hfb. revert attempt.
  induction remaining as [| remaining IH]; intros attempt; simpl.
  - frame.
  - apply keeps_steady_try; [frame |]. intros exc.
    destruct fallback as [safe_ingest |].
    + destruct (_ || _) eqn:Hnf at 1.
      all: repeat first
        [ apply IH
        | apply (Hfb safe_ingest eq_refl)
        | unfold sleep; solve [auto with frame]
        | apply keeps_steady_bind; [| intros ?]
        | match goal with
          | |- keeps_steady (if ?c then _ else _) => destruct c
          | |- keeps_steady (match ?x with _ => _ end) => destruct x
          end ].
    + repeat first
        [ apply IH
        | unfold sleep; solve [auto with frame]
        | apply keeps_steady_bind; [| intros ?]
        | match goal with
          | |- keeps_steady (if ?c then _ else _) => destruct c
          | |- keeps_steady (match ?x with _ => _ end) => destruct x
          end ].
Qed.

Lemma keeps_steady_ingest_with_retry (query : Cypher) (params : Dict) :
  keeps_steady (_ingest_with_retry query params).
Proof.
  unfold _ingest_with_retry.
  apply keeps_steady_ingest_attempts. intros m Hm.
  destruct (Cypher_eqb query INGEST_TRANSACTION); [| discriminate].
  replace m with (ingest_attempts None INGEST_TRANSACTION_SAFE params 0 _MAX_RETRIES)
    by congruence.
  apply keeps_steady_ingest_attempts. intros m' Hm'. discriminate.
Qed.

Lemma keeps_steady_enrich_ip (adb : AsnDatabase) (tx : TransactionInput) :
  keeps_steady (enrich_ip adb tx).
Proof. unfold enrich_ip. frame. Qed.

Lemma keeps_steady_build_geo_evidence (lib : MathLib) (a b c d : Q) (city : string) :
  keeps_steady (_build_geo_evidence lib a b c d city).
Proof. unfold _build_geo_evidence. frame. Qed.

Lemma keeps_steady_enriched_of (lib : MathLib) (tx : TransactionInput) (_meta : Json)
    (tx_status : string) (risk_response : RiskResponse) (lat lon : Q) (city : string) :
  keeps_steady (enriched_of lib tx _meta tx_status risk_response lat lon city).
Proof.
  unfold enriched_of.
  do 2 (apply keeps_steady_bind; [frame | intros ?]).
  apply keeps_steady_bind; [apply keeps_steady_build_geo_evidence | intros ?].
  frame.
Qed.

Lemma keeps_steady_score_transaction (settings : Settings) (self : Engine)
    (tx : TransactionInput) :
  keeps_steady (score_transaction settings self tx).
Proof. unfold score_transaction. frame. Qed.

(** ** A message whose processing fails *)

Lemma bind_raise_steady {A B} (m : M A) (k : A -> M B) (w w' : World) (e : Exn) :
  keeps_steady m ->
  bind m k w = (Raise e, w') ->
  steady w w' \/ exists a w1, steady w w1 /\ k a w1 = (Raise e, w').
Proof.
  intros Hm H. apply bind_raise in H as [H | (a & w1 & Ha & H)].
  - left. eapply Hm, H.
  - right. exists a, w1. split; [eapply Hm, Ha | exact H].
Qed.

(** What is left of the pipeline after the acknowledgement always returns. *)
Lemma after_ack_never_raises (worker_name : string) (tx : TransactionInput) (t0 : Q) :
  never_raises
    (let! t1 := perf_counter in
     let elapsed_ms := ((t1 - t0) * 1000)%Q in
     let! p := get_pool in
     let! _ := set_processed (processed_count p + 1) (pool_total_latency_ms p + elapsed_ms) in
     let! _ :=
       if (processed_count p + 1 =? 1)%Z
       then log_record INFO ("First transaction processed: tx_id=" +:+ tx_id tx)
       else ret tt in
     if ((processed_count p + 1) mod 50 =? 0)%Z
     then log_record INFO (worker_name +:+ " | processed=" +:+ pretty (processed_count p + 1)%Z)
     else ret tt).
Proof.
  apply never_raises_bind; [apply never_raises_perf_counter | intros t1].
  apply never_raises_bind; [intros w e w' H; discriminate H | intros p].
  apply never_raises_bind; [intros w e w' H; discriminate H | intros _].
  apply never_raises_bind.
  - destruct (_ =? 1)%Z; [apply never_raises_log | apply never_raises_ret].
  - intros _. destruct (_ =? 0)%Z; [apply never_raises_log | apply never_raises_ret].
Qed.

(** An acknowledgement that raises has removed nothing. *)
Lemma xack_raise (stream group msg_id : string) (w w' : World) (e : Exn) :
  xack stream group msg_id w = (Raise e, w') ->
  redis_streams w' = redis_streams w
  /\ redis_pending w' = redis_pending w
  /\ pool w' = pool w.
Proof.
  unfold xack. destruct (next_fault (redis_faults w)) as [[e' |] f]; intros H;
    inversion H; subst; repeat split.
Qed.

Section Failing.

Variable settings : Settings.
Variable lib : MathLib.
Variable adb : AsnDatabase.
Variable codec : Codec.
Variable self : Pool.
Variables worker_name msg_id : string.
Variable data : StreamEntry.

(** Wherever the body of the [try] statement raises, the pending entries,
    the streams and the error counter are as they were. *)
Lemma process_body_raise (t0 : Q) (w w' : World) (e : Exn) :
  process_body settings lib adb codec self worker_name msg_id data t0 w = (Raise e, w') ->
  redis_streams w' = redis_streams w
  /\ redis_pending w' = redis_pending w
  /\ ingest_errors (pool w') = ingest_errors (pool w).
Proof.
  assert (Hdone : forall w1, steady w w1 ->
            redis_streams w1 = redis_streams w
            /\ redis_pending w1 = redis_pending w
            /\ ingest_errors (pool w1) = ingest_errors (pool w)).
  { intros w1 ((_ & Hs & Hp) & He). auto. }
  unfold process_body. intros H.
  (* decode *)
  apply bind_raise_steady in H as [H | (decoded & w1 & S1 & H)];
    [apply Hdone, H | | apply keeps_steady_lift].
  apply bind_raise_steady in H as [H | (tx_data & w2 & S2 & H)];
    [apply Hdone; eapply steady_trans; eassumption | | apply keeps_steady_lift].
  pose proof (steady_trans _ _ _ S1 S2) as S. clear S1 S2 w1.
  destruct (pop_meta tx_data) as [_meta tx_data'].
  (* parse *)
  apply bind_raise_steady in H as [H | (tx & w3 & S3 & H)];
    [apply Hdone; eapply steady_trans; eassumption | | apply keeps_steady_lift].
  pose proof (steady_trans _ _ _ S S3) as S'. clear S S3 w2.
  (* ingest *)
  apply bind_raise_steady in H as [H | (u1 & w4 & S4 & H)];
    [apply Hdone; eapply steady_trans; eassumption | |
     apply keeps_steady_ingest_with_retry].
  pose proof (steady_trans _ _ _ S' S4) as S. clear S' S4 w3.
  (* IP intelligence *)
  apply bind_raise_steady in H as [H | (geo & w5 & S5 & H)];
    [apply Hdone; eapply steady_trans; eassumption | |
     apply keeps_steady_enrich_ip].
  pose proof (steady_trans _ _ _ S S5) as S'. clear S S5 w4.
  destruct geo as [[ip_geo_lat ip_geo_lon] ip_city].
  (* score *)
  apply bind_raise_steady in H as [H | (risk_response & w6 & S6 & H)];
    [apply Hdone; eapply steady_trans; eassumption | |
     apply keeps_steady_score_transaction].
  pose proof (steady_trans _ _ _ S' S6) as S. clear S' S6 w5.
  (* write-back *)
  apply bind_raise_steady in H as [H | (u2 & w7 & S7 & H)];
    [apply Hdone; eapply steady_trans; eassumption | | frame].
  pose proof (steady_trans _ _ _ S S7) as S'. clear S S7 w6.
  (* alert *)
  apply bind_raise_steady in H as [H | (u3 & w8 & S8 & H)];
    [apply Hdone; eapply steady_trans; eassumption | |
     destruct (alert_callback self);
       [apply keeps_steady_bind;
          [apply keeps_steady_enriched_of | intros ?; auto with frame]
       | auto with frame]].
  pose proof (steady_trans _ _ _ S' S8) as S. clear S' S8 w7.
  (* acknowledge *)
  apply bind_raise in H as [H | (u4 & w9 & Hack & H)].
  - apply xack_raise in H as (Hs & Hp & Hpool).
    destruct (Hdone _ S) as (Hs' & Hp' & He').
    repeat split; congruence.
  - exfalso. exact (after_ack_never_raises worker_name tx t0 w9 e w' H).
Qed.

(** C2, as the code has it.  When the per-message pipeline raises, at
    whatever stage, the worker goes on: [_process_message] returns, the
    error is logged and [ingest_errors] goes up by one.  The message is not
    acknowledged: the pending entries of the processing log are what they
    were before the call, so a message that was pending is pending still. *)
Theorem failed_message_stays_pending (w w1 : World) (e : Exn) :
  (let! t0 := perf_counter in
   process_body settings lib adb codec self worker_name msg_id data t0) w
  = (Raise e, w1) ->
  exists w',
    _process_message settings lib adb codec self worker_name msg_id data w = (Ok tt, w')
    /\ ingest_errors (pool w') = (ingest_errors (pool w) + 1)%Z
    /\ logged w' = logged w1 ++ [(ERROR, "Failed to process msg " +:+ msg_id +:+ ": " +:+ e)]
    /\ redis_streams w' = redis_streams w
    /\ redis_pending w' = redis_pending w
    /\ is_pending w' (REDIS_STREAM_KEY settings) (REDIS_CONSUMER_GROUP settings) msg_id
       = is_pending w (REDIS_STREAM_KEY settings) (REDIS_CONSUMER_GROUP settings) msg_id.
Proof.
  intros H.
  apply bind_raise in H as [H | (t0 & w0 & Ht0 & H)];
    [exfalso; exact (never_raises_perf_counter _ _ _ H) |].
  pose proof (keeps_steady_perf_counter _ _ _ Ht0) as ((_ & Hs0 & Hp0) & He0).
  pose proof (process_body_raise t0 w0 w1 e H) as (Hs1 & Hp1 & He1).
  unfold same_ingest_errors in He0.
  eexists. split.
  { unfold _process_message, bind at 1. rewrite Ht0.
    unfold try_except. rewrite H. reflexivity. }
  simpl.
  split; [congruence |]. split; [reflexivity |].
  split; [congruence |]. split; [congruence |].
  unfold is_pending. simpl. rewrite Hp1, Hp0. reflexivity.
Qed.

End Failing.

(** A payload that the schema rejects, for a message that is pending. *)
Lemma failed_message_stays_pending_witness :
  is_pending (Fixtures.delivered "fraud_queue" "fraud_workers" "1700000000000-0" [])
    "fraud_queue" "fraud_workers" "1700000000000-0" = true
  /\ exists w',
       _process_message Config.defaults Fixtures.flat_lib Fixtures.no_asn_database
         Fixtures.rejecting_codec Fixtures.flat_pool "worker-0" "1700000000000-0"
         Fixtures.raw_message
         (Fixtures.delivered "fraud_queue" "fraud_workers" "1700000000000-0" [])
       = (Ok tt, w')
       /\ ingest_errors (pool w') = 1%Z
       /\ is_pending w' "fraud_queue" "fraud_workers" "1700000000000-0" = true.
Proof.
  set (w := Fixtures.delivered "fraud_queue" "fraud_workers" "1700000000000-0" []).
  assert (Hpending : is_pending w "fraud_queue" "fraud_workers" "1700000000000-0" = true)
    by (vm_compute; reflexivity).
  split; [exact Hpending |].
  destruct (failed_message_stays_pending Config.defaults Fixtures.flat_lib
              Fixtures.no_asn_database Fixtures.rejecting_codec Fixtures.flat_pool
              "worker-0" "1700000000000-0" Fixtures.raw_message w w
              "ValidationError: tx_id: field required")
    as (w' & Hrun & Herr & _ & _ & _ & Hstill).
  { vm_compute. reflexivity. }
  exists w'. split; [exact Hrun |]. split; [exact Herr |].
  rewrite <- Hpending. exact Hstill.
Defined.

End WorkerPoolSpec.

(* ================================================================== *)
(** * The stream adapter *)
(* ================================================================== *)

Module StreamAdapterSpec.

Import StreamAdapter RuntimeFacts.

(** An acknowledgement that goes through takes the message off the pending
    entries and leaves the streams alone. *)
Lemma xack_ok (stream group msg_id : string) (w : World) (f : Faults) :
  next_fault (redis_faults w) = (None, f) ->
  exists w',
    xack stream group msg_id w = (Ok tt, w')
    /\ is_pending w' stream group msg_id = false
    /\ redis_streams w' = redis_streams w
    /\ redis_faults w' = f
    /\ adapter w' = adapter w
    /\ pool w' = pool w.
Proof.
  intros Hf. unfold xack. rewrite Hf. eexists. split; [reflexivity |].
  simpl. split; [| repeat split].
  unfold is_pending. simpl. rewrite lookup_insert_eq. simpl.
  apply bool_decide_eq_false. intros Hin.
  apply elem_of_difference in Hin as [_ Hn]. apply Hn, elem_of_singleton. reflexivity.
Qed.

Lemma xack_fault (stream group msg_id : string) (w : World) (e : Exn) (f : Faults) :
  redis_faults w = Some e :: f ->
  xack stream group msg_id w
  = (Raise e, with_redis w f (redis_streams w) (redis_pending w)).
Proof. intros Hf. unfold xack. rewrite Hf. reflexivity. Qed.

Section Failing.

Variable settings : Settings.
Variable codec : Codec.
Variables worker msg_id : string.
Variable data : StreamEntry.

(** The handler of the outer [except] clause: one more error, one log
    record, one acknowledgement whose own failure is swallowed. *)
Lemma outer_handler (exc : Exn) (w : World) :
  exists w',
    (let! a := get_adapter in
     let! _ := set_validation_errors (validation_errors a + 1) in
     let! _ :=
       log_record ERROR (worker +:+ " failed to process msg " +:+ msg_id +:+ ": " +:+ exc) in
     try_except
       (xack (REDIS_UPI_STREAM_KEY settings) (REDIS_UPI_CONSUMER_GROUP settings) msg_id)
       (fun _ => ret tt)) w = (Ok tt, w')
    /\ redis_streams w' = redis_streams w
    /\ forwarded (adapter w') = forwarded (adapter w)
    /\ validation_errors (adapter w') = (validation_errors (adapter w) + 1)%Z
    /\ (fst (next_fault (redis_faults w)) = None ->
        is_pending w' (REDIS_UPI_STREAM_KEY settings) (REDIS_UPI_CONSUMER_GROUP settings)
          msg_id = false)
    /\ (forall e f, redis_faults w = Some e :: f -> redis_pending w' = redis_pending w).
Proof.
  unfold bind, get_adapter, set_validation_errors, log_record, try_except. simpl.
  match goal with
  | |- context [xack ?s ?g ?m ?w0] =>
      set (w1 := w0);
      destruct (next_fault (redis_faults w1)) as [[e |] f] eqn:Hf
  end.
  - unfold xack. rewrite Hf. eexists. split; [reflexivity |].
    simpl. repeat split. simpl in Hf. rewrite Hf. discriminate.
  - destruct (xack_ok (REDIS_UPI_STREAM_KEY settings) (REDIS_UPI_CONSUMER_GROUP settings)
                msg_id w1 f Hf) as (w' & Hack & Hpend & Hs & _ & Ha & _).
    rewrite Hack. exists w'. split; [reflexivity |].
    split; [rewrite Hs; reflexivity |].
    split; [rewrite Ha; reflexivity |].
    split; [rewrite Ha; reflexivity |].
    split; [intros _; exact Hpend |].
    intros e' f' Hw. simpl in Hf. rewrite Hw in Hf. discriminate.
Qed.

(** The stream server refuses a command that is not the last. *)
Lemma next_fault_refused (tape : Faults) (e : Exn) (f : Faults) :
  next_fault tape = (Some e, f) -> tape = Some e :: f.
Proof. destruct tape as [| o l]; simpl; intros H; inversion H; reflexivity. Qed.

(** What the outer handler leaves once the body has failed before the
    publication, in a world [w1] that differs from [w] by the clock and by
    the faults consumed. *)
Lemma failed_before_publication (exc : Exn) (w w1 : World) (tape : Faults) :
  redis_faults w1 = tape -> redis_streams w1 = redis_streams w ->
  redis_pending w1 = redis_pending w -> adapter w1 = adapter w ->
  exists w',
    (let! a := get_adapter in
     let! _ := set_validation_errors (validation_errors a + 1) in
     let! _ :=
       log_record ERROR (worker +:+ " failed to process msg " +:+ msg_id +:+ ": " +:+ exc) in
     try_except
       (xack (REDIS_UPI_STREAM_KEY settings) (REDIS_UPI_CONSUMER_GROUP settings) msg_id)
       (fun _ => ret tt)) w1 = (Ok tt, w')
    /\ forwarded (adapter w') = forwarded (adapter w)
    /\ redis_streams w' = redis_streams w
    /\ validation_errors (adapter w') = (validation_errors (adapter w) + 1)%Z
    /\ (fst (next_fault tape) = None ->
        is_pending w' (REDIS_UPI_STREAM_KEY settings) (REDIS_UPI_CONSUMER_GROUP settings)
          msg_id = false)
    /\ (forall e f, tape = Some e :: f -> redis_pending w' = redis_pending w).
Proof.
  intros Hf Hs Hp Ha.
  destruct (outer_handler exc w1) as (w' & Hrun & Hs' & Hfw & Hve & Hack & Hrefused).
  exists w'. split; [exact Hrun |].
  split; [congruence |]. split; [congruence |]. split; [congruence |].
  split; [intros H; apply Hack; rewrite Hf; exact H |].
  intros e f Ht. rewrite <- Hp. apply (Hrefused e f). congruence.
Qed.

(** C10, as the code has it.  When the handling of a message fails,
    [_handle_message] returns all the same, [forwarded] has not moved and
    [validation_errors], the one error counter whatever the stage, has
    gone up.  Nothing has been added to the processing log, unless what
    failed is the acknowledgement that follows the publication.  When the
    stream server takes the acknowledgement of the handler, the counter
    has gone up by exactly one and the message is off the pending entries
    of the raw log.  When it refuses it, the refusal is swallowed and the
    message stays pending; only a validation failure is acknowledged a
    second time, by the outer handler, which counts it a second time. *)
Theorem adapter_failure_counted_and_acknowledged
    (w : World) (stage : Stage) (tape : Faults) :
  failing_stage codec data w = Some (stage, tape) ->
  let stream := REDIS_UPI_STREAM_KEY settings in
  let group := REDIS_UPI_CONSUMER_GROUP settings in
  exists w',
    _handle_message settings codec worker msg_id data w = (Ok tt, w')
    /\ forwarded (adapter w') = forwarded (adapter w)
    /\ (validation_errors (adapter w) < validation_errors (adapter w'))%Z
    (* what is on the processing log *)
    /\ (stage <> Acknowledging -> redis_streams w' = redis_streams w)
    /\ (stage = Acknowledging ->
        exists payload,
          redis_streams w'
          = <[REDIS_STREAM_KEY settings :=
                default [] (redis_streams w !! REDIS_STREAM_KEY settings)
                ++ [[("payload", payload)]]]> (redis_streams w))
    (* the acknowledgement is taken *)
    /\ (fst (next_fault tape) = None ->
        validation_errors (adapter w') = (validation_errors (adapter w) + 1)%Z
        /\ is_pending w' stream group msg_id = false)
    (* the acknowledgement is refused *)
    /\ (forall e f,
          tape = Some e :: f ->
          match stage with
          | Validating =>
              validation_errors (adapter w') = (validation_errors (adapter w) + 2)%Z
              /\ (fst (next_fault f) = None -> is_pending w' stream group msg_id = false)
              /\ (forall e' f', f = Some e' :: f' -> redis_pending w' = redis_pending w)
          | _ =>
              validation_errors (adapter w') = (validation_errors (adapter w) + 1)%Z
              /\ redis_pending w' = redis_pending w
          end).
Proof.
  unfold failing_stage. intros Hstage. cbv zeta.
  unfold _handle_message, bind at 1.
  destruct (perf_counter w) as [[t0 | e0] w0] eqn:Ht0;
    [| exfalso; exact (never_raises_perf_counter _ _ _ Ht0)].
  assert (Hw0 : redis_faults w0 = redis_faults w /\ redis_streams w0 = redis_streams w
                /\ redis_pending w0 = redis_pending w /\ adapter w0 = adapter w).
  { unfold perf_counter in Ht0. destruct (clock w); inversion Ht0; subst; auto. }
  destruct Hw0 as (Hf0 & Hs0 & Hp0 & Ha0).
  (* a failure that the outer handler alone sees *)
  assert (Hplain : forall exc w1 st,
            st <> Validating -> st <> Acknowledging ->
            redis_faults w1 = tape -> redis_streams w1 = redis_streams w ->
            redis_pending w1 = redis_pending w -> adapter w1 = adapter w ->
            stage = st ->
            exists w',
              (let! a := get_adapter in
               let! _ := set_validation_errors (validation_errors a + 1) in
               let! _ :=
                 log_record ERROR
                   (worker +:+ " failed to process msg " +:+ msg_id +:+ ": " +:+ exc) in
               try_except
                 (xack (REDIS_UPI_STREAM_KEY settings) (REDIS_UPI_CONSUMER_GROUP settings)
                    msg_id)
                 (fun _ => ret tt)) w1 = (Ok tt, w')
              /\ forwarded (adapter w') = forwarded (adapter w)
              /\ (validation_errors (adapter w) < validation_errors (adapter w'))%Z
              /\ (stage <> Acknowledging -> redis_streams w' = redis_streams w)
              /\ (stage = Acknowledging ->
                  exists payload,
                    redis_streams w'
                    = <[REDIS_STREAM_KEY settings :=
                          default [] (redis_streams w !! REDIS_STREAM_KEY settings)
                          ++ [[("payload", payload)]]]> (redis_streams w))
              /\ (fst (next_fault tape) = None ->
                  validation_errors (adapter w') = (validation_errors (adapter w) + 1)%Z
                  /\ is_pending w' (REDIS_UPI_STREAM_KEY settings)
                       (REDIS_UPI_CONSUMER_GROUP settings) msg_id = false)
              /\ (forall e f,
                    tape = Some e :: f ->
                    match stage with
                    | Validating =>
                        validation_errors (adapter w')
                        = (validation_errors (adapter w) + 2)%Z
                        /\ (fst (next_fault f) = None ->
                            is_pending w' (REDIS_UPI_STREAM_KEY settings)
                              (REDIS_UPI_CONSUMER_GROUP settings) msg_id = false)
                        /\ (forall e' f', f = Some e' :: f' ->
                            redis_pending w' = redis_pending w)
                    | _ =>
                        validation_errors (adapter w')
                        = (validation_errors (adapter w) + 1)%Z
                        /\ redis_pending w' = redis_pending w
                    end)).
  { intros exc w1 st Hnv Hna Hf Hs Hp Ha ->.
    destruct (failed_before_publication exc w w1 tape Hf Hs Hp Ha)
      as (w' & Hrun & Hfw & Hs' & Hve & Hack & Hrefused).
    exists w'. split; [exact Hrun |]. split; [exact Hfw |].
    split; [lia |]. split; [intros _; exact Hs' |].
    split; [intros H; contradiction |].
    split; [intros H; split; [exact Hve | apply Hack, H] |].
    intros e f Ht. destruct st; try contradiction;
      (split; [exact Hve | apply (Hrefused e f Ht)]). }
  unfold try_except, handle_body.
  unfold bind at 1. unfold lift at 1.
  destruct (decode_fields codec data) as [decoded | e1] eqn:Hdec; simpl in Hstage.
  2: { (* the hash does not decode *)
    injection Hstage as <- <-.
    apply (Hplain e1 w0 Decoding); auto; discriminate. }
  unfold bind at 1. unfold lift at 1.
  destruct (tx_data_of codec decoded) as [tx_data | e2] eqn:Hload; simpl in Hstage.
  2: { (* the payload is no JSON *)
    injection Hstage as <- <-.
    apply (Hplain e2 w0 Decoding); auto; discriminate. }
  destruct (pop_meta tx_data) as [meta tx_data'] eqn:Hpop. simpl in Hstage.
  unfold bind at 1. unfold try_except at 1. unfold bind at 1. unfold lift at 1.
  destruct (parse_TransactionInput codec tx_data') as [tx | e3] eqn:Hparse.
  2: { (* the schema rejects the payload *)
    injection Hstage as <- <-. clear Hplain.
    unfold bind at 1, get_adapter at 1.
    unfold bind at 1, set_validation_errors at 1.
    unfold bind at 1, log_record at 1.
    unfold bind at 1.
    match goal with
    | |- context [xack ?s ?g ?m ?w1] => set (w1' := w1)
    end.
    destruct (next_fault (redis_faults w1')) as [[e |] f] eqn:Hnf.
    - (* the acknowledgement fails: the outer handler takes over *)
      assert (Hw1 : redis_faults w1' = Some e :: f) by (apply next_fault_refused, Hnf).
      rewrite (xack_fault _ _ _ _ _ _ Hw1).
      destruct (outer_handler e (with_redis w1' f (redis_streams w1') (redis_pending w1')))
        as (w' & Hrun & Hs & Hfw & Hve & Hack & Hrefused).
      exists w'. split; [exact Hrun |].
      simpl in Hs, Hfw, Hve, Hack, Hrefused.
      split; [congruence |].
      split; [rewrite Hve, Ha0; lia |].
      split; [intros _; congruence |].
      split; [discriminate |].
      split.
      + intros Hnext. exfalso. rewrite <- Hf0 in Hnext.
        simpl in Hw1. rewrite Hw1 in Hnext. discriminate.
      + intros e' f' Htape.
        simpl in Hw1. rewrite <- Hf0, Hw1 in Htape. injection Htape as <- <-.
        split; [rewrite Hve, Ha0; lia |].
        split; [exact Hack |].
        intros e'' f'' Hf. rewrite (Hrefused e'' f'' Hf). exact Hp0.
    - (* the acknowledgement goes through: the early return *)
      destruct (xack_ok (REDIS_UPI_STREAM_KEY settings) (REDIS_UPI_CONSUMER_GROUP settings)
                  msg_id w1' f Hnf) as (w' & Hack & Hpend & Hs & Hf & Ha & _).
      rewrite Hack. exists w'. split; [reflexivity |].
      simpl in Hs, Ha.
      split; [rewrite Ha; simpl; rewrite Ha0; reflexivity |].
      split; [rewrite Ha; simpl; rewrite Ha0; lia |].
      split; [intros _; congruence |].
      split; [discriminate |].
      split.
      + intros _. split; [rewrite Ha; simpl; rewrite Ha0; reflexivity | exact Hpend].
      + intros e' f' Htape. exfalso.
        rewrite <- Hf0 in Htape. simpl in Hnf. rewrite Htape in Hnf. discriminate. }
  simpl in Hstage. unfold ret at 1.
  unfold publish_to_fraud_queue. unfold bind at 1. unfold bind at 1. unfold lift at 1.
  destruct (json_dumps codec (carry_meta tx_data' meta)) as [payload | e4] eqn:Hdump.
  2: { (* the payload does not serialise *)
    injection Hstage as <- <-.
    apply (Hplain e4 w0 Publishing); auto; discriminate. }
  destruct (redis_faults w) as [| [e5 |] f] eqn:Hfaults; try discriminate.
  - (* the stream server refuses the entry *)
    injection Hstage as <- <-.
    unfold xadd at 1. rewrite Hf0. simpl next_fault. cbv iota.
    apply (Hplain e5 (with_redis w0 f (redis_streams w0) (redis_pending w0)) Publishing);
      auto; discriminate.
  - (* the entry is published, its acknowledgement is refused *)
    destruct f as [| [e6 |] f']; try discriminate.
    injection Hstage as <- <-. clear Hplain.
    unfold xadd at 1. rewrite Hf0. simpl next_fault. cbv iota.
    match goal with
    | |- context [bind (xack ?s ?g ?m) ?k ?w1] => set (w1' := w1); set (rest := k)
    end.
    unfold bind at 1.
    assert (Hw1 : redis_faults w1' = Some e6 :: f') by reflexivity.
    rewrite (xack_fault (REDIS_UPI_STREAM_KEY settings) (REDIS_UPI_CONSUMER_GROUP settings)
               msg_id w1' e6 f' Hw1).
    destruct (outer_handler e6 (with_redis w1' f' (redis_streams w1') (redis_pending w1')))
      as (w' & Hrun & Hs & Hfw & Hve & Hack & Hrefused).
    exists w'. split; [exact Hrun |].
    simpl in Hs, Hfw, Hve, Hack, Hrefused.
    split; [congruence |].
    split; [rewrite Hve, Ha0; lia |].
    split; [intros H; contradiction |].
    split; [intros _; exists payload; rewrite Hs, Hs0; reflexivity |].
    split; [intros H; split; [rewrite Hve, Ha0; reflexivity | apply Hack, H] |].
    intros e f Ht. split; [rewrite Hve, Ha0; reflexivity |].
    rewrite (Hrefused e f Ht). exact Hp0.
Qed.

(** The other way round: a message that fails at no stage is published,
    acknowledged and counted as forwarded. *)
Lemma adapter_success_publishes (w : World) :
  failing_stage codec data w = None ->
  exists payload w',
    _handle_message settings codec worker msg_id data w = (Ok tt, w')
    /\ redis_streams w'
       = <[REDIS_STREAM_KEY settings :=
             default [] (redis_streams w !! REDIS_STREAM_KEY settings)
             ++ [[("payload", payload)]]]> (redis_streams w)
    /\ forwarded (adapter w') = (forwarded (adapter w) + 1)%Z
    /\ validation_errors (adapter w') = validation_errors (adapter w)
    /\ is_pending w' (REDIS_UPI_STREAM_KEY settings) (REDIS_UPI_CONSUMER_GROUP settings)
         msg_id = false.
Proof.
  unfold failing_stage. intros Hstage.
  unfold _handle_message, bind at 1.
  destruct (perf_counter w) as [[t0 | e0] w0] eqn:Ht0;
    [| exfalso; exact (never_raises_perf_counter _ _ _ Ht0)].
  assert (Hw0 : redis_faults w0 = redis_faults w /\ redis_streams w0 = redis_streams w
                /\ redis_pending w0 = redis_pending w /\ adapter w0 = adapter w).
  { unfold perf_counter in Ht0. destruct (clock w); inversion Ht0; subst; auto. }
  destruct Hw0 as (Hf0 & Hs0 & Hp0 & Ha0).
  unfold try_except, handle_body.
  unfold bind at 1. unfold lift at 1.
  destruct (decode_fields codec data) as [decoded | e1]; simpl in Hstage;
    [| discriminate].
  unfold bind at 1. unfold lift at 1.
  destruct (tx_data_of codec decoded) as [tx_data | e2]; simpl in Hstage;
    [| discriminate].
  destruct (pop_meta tx_data) as [meta tx_data']. simpl in Hstage.
  unfold bind at 1. unfold try_except at 1. unfold bind at 1. unfold lift at 1.
  destruct (parse_TransactionInput codec tx_data') as [tx | e3]; [| discriminate].
  unfold ret at 1.
  unfold publish_to_fraud_queue. unfold bind at 1. unfold bind at 1. unfold lift at 1.
  destruct (json_dumps codec (carry_meta tx_data' meta)) as [payload | e4];
    [| discriminate].
  exists payload.
  assert (Hnext : exists f, next_fault (redis_faults w0) = (None, f)
                            /\ exists f', next_fault f = (None, f')).
  { rewrite Hf0. destruct (redis_faults w) as [| [e5 |] [| [e6 |] f]]; try discriminate;
      simpl; eauto. }
  destruct Hnext as (f & Hnext & f' & Hack).
  unfold xadd at 1. rewrite Hnext. cbv iota.
  match goal with
  | |- context [bind (xack ?s ?g ?m) ?k ?w1] => set (w1' := w1); set (rest := k)
  end.
  unfold bind at 1.
  assert (Hack' : next_fault (redis_faults w1') = (None, f')) by exact Hack.
  destruct (xack_ok (REDIS_UPI_STREAM_KEY settings) (REDIS_UPI_CONSUMER_GROUP settings)
              msg_id w1' f' Hack') as (w2 & Hrun & Hpend & Hs & _ & Ha & _).
  rewrite Hrun. subst rest. cbv beta.
  unfold bind at 1.
  destruct (perf_counter w2) as [[t1 | e1] w3] eqn:Ht1;
    [| exfalso; exact (never_raises_perf_counter _ _ _ Ht1)].
  assert (Hw3 : redis_streams w3 = redis_streams w2
                /\ redis_pending w3 = redis_pending w2 /\ adapter w3 = adapter w2).
  { unfold perf_counter in Ht1. destruct (clock w2); inversion Ht1; subst; auto. }
  destruct Hw3 as (Hs3 & Hp3 & Ha3).
  unfold bind at 1, get_adapter at 1.
  unfold bind at 1, set_forwarded at 1.
  assert (Hpend3 : is_pending w3 (REDIS_UPI_STREAM_KEY settings)
                     (REDIS_UPI_CONSUMER_GROUP settings) msg_id = false).
  { unfold is_pending in *. rewrite Hp3. exact Hpend. }
  assert (Hfinal : forall (m1 m2 : M unit) w4,
            (m1 = ret tt \/ exists l s, m1 = log_record l s) ->
            (m2 = ret tt \/ exists l s, m2 = log_record l s) ->
            exists w', bind m1 (fun _ => m2) w4 = (Ok tt, w')
              /\ redis_streams w' = redis_streams w4
              /\ redis_pending w' = redis_pending w4
              /\ adapter w' = adapter w4).
  { intros m1 m2 w4 [-> | (l1 & s1 & ->)] [-> | (l2 & s2 & ->)];
      eexists; (split; [reflexivity |]); repeat split. }
  match goal with
  | |- context [bind ?m1 (fun _ => ?m2) ?w4] =>
      destruct (Hfinal m1 m2 w4) as (w' & Hrun' & Hs' & Hp' & Ha')
  end.
  { destruct (_ =? 1)%Z; [right; eauto | left; reflexivity]. }
  { destruct (_ =? 0)%Z; [right; eauto | left; reflexivity]. }
  exists w'. split; [rewrite Hrun'; reflexivity |].
  simpl in Hs', Hp', Ha', Hs.
  split; [rewrite Hs', Hs3, Hs, Hs0; reflexivity |].
  rewrite Ha'. simpl. rewrite Ha3, Ha. simpl. rewrite Ha0.
  split; [reflexivity |]. split; [reflexivity |].
  unfold is_pending in *. rewrite Hp'. exact Hpend3.
Qed.

End Failing.

(** The claim as it is worded does not hold: a payload that the schema
    rejects, while the stream server refuses two commands, is counted
    twice and is still pending on the raw log. *)
Lemma refused_acknowledgement_stays_pending :
  let w :=
    Fixtures.delivered "upi_raw" "upi_adapter" "1700000000000-0"
      [Some "ConnectionError"; Some "ConnectionError"] in
  is_pending w "upi_raw" "upi_adapter" "1700000000000-0" = true
  /\ exists w',
       _handle_message Config.defaults Fixtures.rejecting_codec "adapter-0"
         "1700000000000-0" Fixtures.raw_message w = (Ok tt, w')
       /\ validation_errors (adapter w') = 2%Z
       /\ is_pending w' "upi_raw" "upi_adapter" "1700000000000-0" = true.
Proof.
  cbv zeta. split; [vm_compute; reflexivity |].
  eexists. split; [vm_compute; reflexivity |].
  split; vm_compute; reflexivity.
Qed.

(** Nor is a failing message always kept off the processing log: when the
    acknowledgement that follows the publication is refused, the message is
    counted as an error although the workers will score it. *)
Lemma published_message_counted_as_error :
  exists w',
    _handle_message Config.defaults Fixtures.accepting_codec "adapter-0"
      "1700000000000-0" Fixtures.raw_message
      (Fixtures.delivered "upi_raw" "upi_adapter" "1700000000000-0"
         [None; Some "ConnectionError"])
    = (Ok tt, w')
    /\ redis_streams w' !! "fraud_queue" = Some [[("payload", "{}")]]
    /\ forwarded (adapter w') = 0%Z
    /\ validation_errors (adapter w') = 1%Z.
Proof.
  eexists. split; [vm_compute; reflexivity |].
  split; [| split]; vm_compute; reflexivity.
Qed.

(** A payload that the schema rejects, on a stream server that answers. *)
Lemma adapter_failure_counted_and_acknowledged_witness :
  is_pending (Fixtures.delivered "upi_raw" "upi_adapter" "1700000000000-0" [])
    "upi_raw" "upi_adapter" "1700000000000-0" = true
  /\ exists w',
       _handle_message Config.defaults Fixtures.rejecting_codec "adapter-0"
         "1700000000000-0" Fixtures.raw_message
         (Fixtures.delivered "upi_raw" "upi_adapter" "1700000000000-0" [])
       = (Ok tt, w')
       /\ redis_streams w' = ∅
       /\ validation_errors (adapter w') = 1%Z
       /\ is_pending w' "upi_raw" "upi_adapter" "1700000000000-0" = false.
Proof.
  split; [vm_compute; reflexivity |].
  destruct (adapter_failure_counted_and_acknowledged Config.defaults
              Fixtures.rejecting_codec "adapter-0" "1700000000000-0" Fixtures.raw_message
              (Fixtures.delivered "upi_raw" "upi_adapter" "1700000000000-0" [])
              Validating [])
    as (w' & Hrun & _ & _ & Hs & _ & Hack & _).
  { vm_compute. reflexivity. }
  destruct (Hack eq_refl) as [Hve Hpend].
  exists w'. split; [exact Hrun |]. split; [apply Hs; discriminate |].
  split; [exact Hve | exact Hpend].
Defined.

End StreamAdapterSpec.

(* ================================================================== *)
(** * Properties of the feature extractors and of the services *)
(* ================================================================== *)

Module VelocitySpec.

Import FeatureStore Velocity PyFacts.
Local Open Scope Q_scope.

Lemma py_min_eq_l (a b : Q) : a <= b -> py_min a b = a.
Proof.
  intros H. unfold py_min. destruct (Qltb b a) eqn:E; [| reflexivity].
  apply Qltb_true in E. lra.
Qed.

Lemma In_flag_if (b : bool) (text x : string) :
  In x (flag_if b text) <-> b = true /\ x = text.
Proof.
  destruct b; simpl; split.
  - intros [H | []]. auto.
  - intros [_ ->]. auto.
  - intros [].
  - intros [H _]. discriminate.
Qed.

Section Bounds.
Variable settings : Settings.
Variable f : VelocityRow.
Variable tx_amount : Q.

Lemma burst_score_cases :
  let s := scores settings f tx_amount in
  burst_score s = 30.0 \/ burst_score s = 15.0 \/ burst_score s = 0.0.
Proof.
  cbv zeta. unfold scores. cbn [burst_score].
  repeat match goal with |- context [if ?c then _ else _] => destruct c end; auto.
Qed.

Lemma pass_through_le : pass_through_score (scores settings f tx_amount) <= 35.
Proof.
  unfold scores. cbn [pass_through_score].
  repeat case_cmp; try (unfold Qle; simpl; lia).
  match goal with |- py_min ?a ?b * _ <= _ => pose proof (py_min_le_r a b) end. lra.
Qed.

Lemma velocity_component_le : velocity_component (scores settings f tx_amount) <= 20.
Proof.
  unfold scores. cbn [velocity_component].
  match goal with |- py_min ?a ?b * _ <= _ => pose proof (py_min_le_r a b) end. lra.
Qed.

Lemma single_tx_cases :
  let s := scores settings f tx_amount in
  single_tx_ratio_score s = 15.0 \/ single_tx_ratio_score s = 0.0.
Proof.
  cbv zeta. unfold scores. cbn [single_tx_ratio_score].
  repeat match goal with |- context [if ?c then _ else _] => destruct c end; auto.
Qed.

Lemma pass_through_ge :
  0 <= total_sent (scores settings f tx_amount) ->
  0 <= pass_through_score (scores settings f tx_amount).
Proof.
  unfold scores. cbn [pass_through_score total_sent]. intros Hs.
  set (sent := default 0 (vr_total_sent_window f)) in *.
  set (recv := default 0 (vr_total_received_window f)) in *.
  case_cmp; [| unfold Qle; simpl; lia].
  assert (Hr : 0 <= sent / recv).
  { apply Qle_shift_div_l; [exact E | lra]. }
  cbv zeta. repeat case_cmp; try (unfold Qle; simpl; lia).
  assert (0 <= py_min (sent / recv / 1.5) 1.0).
  { apply py_min_glb; [| unfold Qle; simpl; lia].
    apply Qle_shift_div_l; [reflexivity | lra]. }
  lra.
Qed.

Lemma tx_per_min_ge :
  (0 <= total_activity (scores settings f tx_amount))%Z ->
  0 <= tx_per_min (scores settings f tx_amount).
Proof.
  unfold scores. cbn [tx_per_min total_activity]. intros Ha.
  set (a := default 0%Z (vr_total_activity f)) in *.
  match goal with |- _ <= _ / py_max ?x 1 => pose proof (py_max_ge_r x 1) as Hm end.
  apply Qle_shift_div_l; [lra |].
  assert (0 <= inject_Z a) by (change 0 with (inject_Z 0); rewrite <- Zle_Qle; exact Ha).
  lra.
Qed.

Lemma velocity_component_ge :
  (0 <= total_activity (scores settings f tx_amount))%Z ->
  0 <= velocity_component (scores settings f tx_amount).
Proof.
  intros Ha. pose proof (tx_per_min_ge Ha) as Ht.
  unfold scores in *. cbn [velocity_component tx_per_min] in *.
  match goal with |- _ <= py_min ?a ?b * _ =>
    assert (0 <= py_min a b)
      by (apply py_min_glb; [apply Qle_shift_div_l; [reflexivity | lra]
                            | unfold Qle; simpl; lia])
  end.
  lra.
Qed.

End Bounds.

(** X1.  The four parts of the velocity risk are capped at 30, 35, 20 and
    15, so their sum never exceeds 100 and the final [min(risk, 100.0)]
    returns the sum itself.  The [risk] entry of the returned dictionary is
    that sum rounded to two decimals, at most 100; with a non-negative
    activity count and a non-negative amount sent, as counts and sums of
    amounts are, it is not negative either. *)
Theorem velocity_clamp_never_cuts (settings : Settings) (f : VelocityRow)
    (tx_amount : Q) (user_id : string) :
  let s := scores settings f tx_amount in
  burst_score s <= 30
  /\ pass_through_score s <= 35
  /\ velocity_component s <= 20
  /\ single_tx_ratio_score s <= 15
  /\ risk_sum s
     = burst_score s + pass_through_score s + velocity_component s
       + single_tx_ratio_score s
  /\ risk_sum s <= 100
  /\ risk s = risk_sum s
  /\ features_of user_id f s !! "risk" = Some (PyFloat (py_round (risk_sum s) 2))
  /\ py_round (risk_sum s) 2 <= 100
  /\ ((0 <= total_activity s)%Z -> 0 <= total_sent s ->
      0 <= risk_sum s /\ 0 <= py_round (risk_sum s) 2).
Proof.
  cbv zeta.
  pose proof (burst_score_cases settings f tx_amount) as Hb.
  pose proof (pass_through_le settings f tx_amount) as Hp.
  pose proof (velocity_component_le settings f tx_amount) as Hv.
  pose proof (single_tx_cases settings f tx_amount) as Hs.
  cbv zeta in Hb, Hs.
  set (s := scores settings f tx_amount) in *.
  assert (Hb30 : 0 <= burst_score s <= 30).
  { destruct Hb as [-> | [-> | ->]]; split; unfold Qle; simpl; lia. }
  assert (Hs15 : 0 <= single_tx_ratio_score s <= 15).
  { destruct Hs as [-> | ->]; split; unfold Qle; simpl; lia. }
  assert (Hsum : risk_sum s
                 = burst_score s + pass_through_score s + velocity_component s
                   + single_tx_ratio_score s) by reflexivity.
  assert (Hle : risk_sum s <= 100) by (rewrite Hsum; lra).
  assert (Hrisk : risk s = risk_sum s).
  { change (risk s) with (py_min (risk_sum s) 100.0). apply py_min_eq_l.
    lra. }
  split; [apply Hb30 |]. split; [exact Hp |]. split; [exact Hv |].
  split; [apply Hs15 |]. split; [exact Hsum |]. split; [exact Hle |].
  split; [exact Hrisk |].
  split; [unfold features_of; rewrite Hrisk; reflexivity |].
  split.
  - destruct (Qlt_le_dec (risk_sum s) 0) as [Hneg | Hpos].
    + assert (Hfloor : inject_Z (Qfloor (risk_sum s)) <= risk_sum s) by apply Qfloor_le.
      pose proof (py_round_bounds (Qfloor (risk_sum s)) 100 (risk_sum s) 2
                    (conj Hfloor Hle)) as [_ H].
      exact H.
    + apply (py_round_bounds 0 100). split; assumption.
  - intros Ha Hsent.
    pose proof (pass_through_ge settings f tx_amount Hsent) as Hp0.
    pose proof (velocity_component_ge settings f tx_amount Ha) as Hv0.
    fold s in Hp0, Hv0.
    assert (H0 : 0 <= risk_sum s) by (rewrite Hsum; lra).
    split; [exact H0 |].
    apply (py_round_bounds 0 100). split; assumption.
Qed.

(** The velocity theorem at a relay of 1100 out of 1000 received. *)
Lemma velocity_clamp_never_cuts_witness :
  let s := scores Config.defaults FeatureFixtures.relay_row 600 in
  (0 <= total_activity s)%Z /\ 0 <= total_sent s
  /\ 0 <= risk_sum s /\ risk_sum s <= 100 /\ risk s = risk_sum s.
Proof.
  cbv zeta.
  pose proof (velocity_clamp_never_cuts Config.defaults FeatureFixtures.relay_row 600 "U0001")
    as (_ & _ & _ & _ & _ & Hle & Hrisk & _ & _ & Hpos).
  assert (Ha : (0 <= total_activity (scores Config.defaults FeatureFixtures.relay_row 600))%Z)
    by (vm_compute; discriminate).
  assert (Hs : 0 <= total_sent (scores Config.defaults FeatureFixtures.relay_row 600))
    by (vm_compute; discriminate).
  destruct (Hpos Ha Hs) as [H0 _].
  repeat split; assumption.
Defined.

(** X2.  What the three velocity flags mean in terms of the row read from
    the store.  The burst flag is raised exactly when the activity count
    reaches [BURST_TX_THRESHOLD].  The pass-through flag needs more than the
    threshold: the amount sent must exceed 15/14 of the amount received, so
    a ratio between the threshold and 15/14 scores without being flagged.
    The velocity flag is raised exactly when [tx_per_min] exceeds 5, and for
    a window of at most 60 seconds [tx_per_min] is the activity count
    itself. *)
Theorem velocity_flags_meaning (settings : Settings) (f : VelocityRow) (tx_amount : Q) :
  let s := scores settings f tx_amount in
  let ratio := total_sent s / total_received s in
  (In "Transaction Burst Detected" (flags s)
   <-> (BURST_TX_THRESHOLD settings <= total_activity s)%Z)
  /\ (In "Rapid Pass-Through Pattern" (flags s)
      <-> 0 < total_received s
          /\ PASS_THROUGH_RATIO_THRESHOLD settings < ratio /\ 15 # 14 < ratio)
  /\ (In ("High Velocity: " +:+ format_fixed 1 (tx_per_min s) +:+ " tx/min") (flags s)
      <-> 5 < tx_per_min s)
  /\ ((VELOCITY_WINDOW_SEC settings <= 60)%Z ->
      tx_per_min s == inject_Z (total_activity s)).
Proof.
  cbv zeta. unfold scores.
  cbn [flags burst_score pass_through_score tx_per_min total_activity total_sent
       total_received].
  set (activity := default 0%Z (vr_total_activity f)).
  set (sent := default 0 (vr_total_sent_window f)).
  set (recv := default 0 (vr_total_received_window f)).
  set (tpm := inject_Z activity / py_max (inject_Z (VELOCITY_WINDOW_SEC settings) / 60) 1).
  set (burst := if (BURST_TX_THRESHOLD settings <=? activity)%Z then 30.0
                else if (BURST_TX_THRESHOLD settings / 2 <=? activity)%Z then 15.0
                else 0.0).
  set (pass := if Qltb 0 recv then _ else 0.0).
  assert (Hburst : Qleb 30 burst = true <-> (BURST_TX_THRESHOLD settings <= activity)%Z).
  { subst burst. destruct (BURST_TX_THRESHOLD settings <=? activity)%Z eqn:E.
    - apply Z.leb_le in E. split; [auto | reflexivity].
    - apply Z.leb_gt in E.
      split; [| lia].
      destruct (_ <=? activity)%Z; intros H; vm_compute in H; discriminate. }
  assert (Hpass : Qltb 25 pass = true
                  <-> 0 < recv /\ PASS_THROUGH_RATIO_THRESHOLD settings < sent / recv
                      /\ 15 # 14 < sent / recv).
  { subst pass. rewrite Qltb_true. case_cmp.
    - cbv zeta. set (r := sent / recv).
      assert (Hdiv : r / 1.5 == r * (10 # 15)) by (unfold Qdiv; reflexivity).
      case_cmp.
      + destruct (py_min_cases (r / 1.5) 1.0) as [[Hc ->] | [Hc ->]].
        * split.
          -- intros H. split; [exact E |]. split; [exact E0 |].
             rewrite Hdiv in H. lra.
          -- intros (_ & _ & H). rewrite Hdiv. lra.
        * split.
          -- intros _. split; [exact E |]. split; [exact E0 |].
             rewrite Hdiv in Hc. lra.
          -- intros _. lra.
      + case_cmp; (split; [intros H; lra | intros (_ & H & _); lra]).
    - split; [intros H; lra | intros (H & _); lra]. }
  assert (Htpm : Qltb 5 tpm = true <-> 5 < tpm) by apply Qltb_true.
  split; [| split; [| split]].
  - rewrite !in_app_iff, !In_flag_if, Hburst.
    split.
    + intros [[H _] | [[_ H] | [_ H]]]; [exact H | discriminate H | discriminate H].
    + intros H. left. auto.
  - rewrite !in_app_iff, !In_flag_if, Hpass.
    split.
    + intros [[_ H] | [[H _] | [_ H]]]; [discriminate H | exact H | discriminate H].
    + intros H. right. left. auto.
  - rewrite !in_app_iff, !In_flag_if, Htpm.
    split.
    + intros [[_ H] | [[_ H] | [H _]]]; [discriminate H | discriminate H | exact H].
    + intros H. right. right. auto.
  - intros Hw. subst tpm.
    assert (Hq : inject_Z (VELOCITY_WINDOW_SEC settings) / 60 <= 1).
    { apply Qle_shift_div_r; [reflexivity |].
      rewrite Zle_Qle in Hw. change (inject_Z 60) with 60 in Hw. lra. }
    destruct (Qle_lt_or_eq _ _ Hq) as [Hlt | Heq].
    + unfold py_max. apply Qltb_true in Hlt. rewrite Hlt. field.
    + unfold py_max.
      assert (Hf : Qltb (inject_Z (VELOCITY_WINDOW_SEC settings) / 60) 1 = false)
        by (apply Qltb_false; lra).
      rewrite Hf, Heq. field.
Qed.

(** The relay of [relay_row] is flagged on all three counts but the burst. *)
Lemma velocity_flags_meaning_witness :
  let s := scores Config.defaults FeatureFixtures.relay_row 600 in
  (VELOCITY_WINDOW_SEC Config.defaults <= 60)%Z
  /\ tx_per_min s == inject_Z (total_activity s)
  /\ In "Rapid Pass-Through Pattern" (flags s).
Proof.
  cbv zeta.
  pose proof (velocity_flags_meaning Config.defaults FeatureFixtures.relay_row 600)
    as (_ & Hpass & _ & Hwin).
  assert (Hw : (VELOCITY_WINDOW_SEC Config.defaults <= 60)%Z) by (vm_compute; discriminate).
  split; [exact Hw |]. split; [exact (Hwin Hw) |].
  apply Hpass. vm_compute. repeat split.
Defined.

End VelocitySpec.

Module GraphSpec.

Import FeatureStore GraphIntelligence PyFacts.
Local Open Scope Q_scope.

Section Bounds.
Variable neo4j : FeatureReads.

Lemma community_risk_of_cases (community_id : option Z) :
  (community_risk_of neo4j community_id = 0.0
   \/ community_risk_of neo4j community_id = 40.0)
  \/ exists cid row rest,
       community_id = Some cid
       /\ QUERY_COMMUNITY_STATS neo4j cid = Ok (row :: rest)
       /\ (3 <= default 0%Z (cs_member_count row))%Z
       /\ 50 < default 0 (cs_avg_risk row)
       /\ community_risk_of neo4j community_id = py_min (default 0 (cs_avg_risk row)) 100.
Proof.
  unfold community_risk_of.
  destruct community_id as [cid |]; [| left; left; reflexivity].
  destruct (QUERY_COMMUNITY_STATS neo4j cid) as [[| row rest] | e] eqn:Hq;
    try (left; left; reflexivity).
  cbv zeta.
  destruct (3 <=? default 0%Z (cs_member_count row))%Z eqn:Hm; simpl.
  - destruct (Qltb 50 (default 0 (cs_avg_risk row))) eqn:Ha.
    + right. exists cid, row, rest. apply Z.leb_le in Hm. apply Qltb_true in Ha.
      repeat split; auto.
    + destruct (2 <=? _)%Z; [left; right | left; left]; reflexivity.
  - destruct (2 <=? _)%Z; [left; right | left; left]; reflexivity.
Qed.

Lemma community_risk_bounds (community_id : option Z) :
  0 <= community_risk_of neo4j community_id <= 100.
Proof.
  destruct (community_risk_of_cases community_id)
    as [[-> | ->] | (cid & row & rest & _ & _ & _ & Ha & ->)].
  - split; unfold Qle; simpl; lia.
  - split; unfold Qle; simpl; lia.
  - split; [apply py_min_glb; lra | apply py_min_le_r].
Qed.

End Bounds.

(** X3.  The structural part of the graph risk.  A user cannot be a
    fan-out hub and a fan-in hub at once, so the two hub flags never appear
    together and the structural score is one of 0, 10, 15 and 25, never the
    40 that the three additions could reach.  The centrality, pagerank and
    contagion parts are capped at 30, 15 and 15 and the community risk lies
    in [0, 100]; the risk returned is at most 100, and it is not negative
    when the betweenness, the pagerank and the neighbour risk read from the
    store are not. *)
Theorem graph_hub_flags_exclusive (neo4j : FeatureReads) (f : GraphFeaturesRow)
    (user_id : string) :
  let s := scores neo4j f in
  ~ (In "Fan-Out Hub (Distributor)" (flags s) /\ In "Fan-In Hub (Collector)" (flags s))
  /\ (structural_score s == 0 \/ structural_score s == 10
      \/ structural_score s == 15 \/ structural_score s == 25)
  /\ centrality_score s <= 30
  /\ pagerank_score s <= 15
  /\ neighbor_contagion s <= 15
  /\ 0 <= community_risk s <= 100
  /\ risk s <= 100
  /\ features_of user_id s !! "risk" = Some (PyFloat (py_round (risk s) 2))
  /\ (0 <= betweenness s -> 0 <= pagerank s -> 0 <= avg_neighbor_risk s ->
      0 <= risk s /\ 0 <= py_round (risk s) 2 <= 100).
Proof.
  cbv zeta. unfold scores.
  cbn [flags structural_score centrality_score pagerank_score neighbor_contagion
       community_risk risk betweenness pagerank avg_neighbor_risk].
  set (ind := default 0%Z (gf_in_degree f)).
  set (outd := default 0%Z (gf_out_degree f)).
  set (bt := default 0.0 (gf_betweenness f)).
  set (pr := default 0.0 (gf_pagerank f)).
  set (cc := default 0.0 (gf_clustering_coeff f)).
  set (nr := default 0.0 (gf_avg_neighbor_risk f)).
  pose proof (community_risk_bounds neo4j (gf_community_id f)) as Hc.
  set (cr := community_risk_of neo4j (gf_community_id f)) in *.
  set (fan_out := (5 <=? outd)%Z && (ind <=? 2)%Z).
  set (fan_in := (5 <=? ind)%Z && (outd <=? 2)%Z).
  assert (Hex : fan_out && fan_in = false).
  { subst fan_out fan_in.
    destruct (5 <=? outd)%Z eqn:H1, (outd <=? 2)%Z eqn:H2;
      rewrite ?andb_false_r, ?andb_false_l; try reflexivity.
    apply Z.leb_le in H1, H2. lia. }
  set (ring := Qltb 0.5 cc && (4 <? ind + outd)%Z).
  set (st := if ring then _ else _).
  assert (Hst : st == 0 \/ st == 10 \/ st == 15 \/ st == 25).
  { subst st. destruct fan_out, fan_in, ring; try discriminate Hex; cbv zeta.
    all: first [ left; reflexivity | right; left; reflexivity
               | right; right; left; reflexivity | right; right; right; reflexivity ]. }
  assert (Hst25 : 0 <= st <= 25) by (destruct Hst as [H | [H | [H | H]]]; lra).
  pose proof (py_min_le_r (bt * 200) 30) as Hce.
  pose proof (py_min_le_r (pr * 500) 15) as Hpr.
  pose proof (py_min_le_r (nr * 0.3) 15) as Hnc.
  set (sum := cr * 0.30 + py_min (bt * 200) 30 + py_min (pr * 500) 15 + st
              + py_min (nr * 0.3) 15).
  split.
  { intros [H1 H2].
    rewrite !in_app_iff, !VelocitySpec.In_flag_if in H1, H2.
    destruct H1 as [[_ H1] | [[_ H1] | [[H1 _] | [_ H1]]]]; try discriminate H1.
    destruct H2 as [[_ H2] | [[_ H2] | [[_ H2] | [H2 _]]]]; try discriminate H2.
    rewrite H1, H2 in Hex. discriminate Hex. }
  split; [exact Hst |].
  split; [exact Hce |]. split; [exact Hpr |]. split; [exact Hnc |].
  split; [exact Hc |].
  split; [pose proof (py_min_le_r sum 100.0); lra |].
  split; [reflexivity |].
  intros Hb Hp Hn.
  assert (H0 : 0 <= py_min sum 100.0).
  { apply py_min_glb; [| unfold Qle; simpl; lia]. subst sum.
    assert (0 <= py_min (bt * 200) 30) by (apply py_min_glb; lra).
    assert (0 <= py_min (pr * 500) 15) by (apply py_min_glb; lra).
    assert (0 <= py_min (nr * 0.3) 15) by (apply py_min_glb; lra).
    lra. }
  split; [exact H0 |].
  apply (py_round_bounds 0 100). split; [exact H0 |].
  pose proof (py_min_le_r sum 100.0). change (inject_Z 100) with 100. lra.
Qed.

(** The graph theorem at a distributor in a risky community. *)
Lemma graph_hub_flags_exclusive_witness :
  let s := scores FeatureFixtures.risky_community_store FeatureFixtures.distributor_row in
  0 <= betweenness s /\ 0 <= pagerank s /\ 0 <= avg_neighbor_risk s
  /\ 0 <= risk s /\ risk s <= 100.
Proof.
  cbv zeta.
  pose proof (graph_hub_flags_exclusive FeatureFixtures.risky_community_store
                FeatureFixtures.distributor_row "U0001")
    as (_ & _ & _ & _ & _ & _ & Hle & _ & Hpos).
  assert (Hb : 0 <= betweenness (scores FeatureFixtures.risky_community_store
                                   FeatureFixtures.distributor_row))
    by (vm_compute; discriminate).
  assert (Hp : 0 <= pagerank (scores FeatureFixtures.risky_community_store
                                FeatureFixtures.distributor_row))
    by (vm_compute; discriminate).
  assert (Hn : 0 <= avg_neighbor_risk (scores FeatureFixtures.risky_community_store
                                         FeatureFixtures.distributor_row))
    by (vm_compute; discriminate).
  destruct (Hpos Hb Hp Hn) as [H0 _].
  repeat split; assumption.
Defined.

(** X4.  The community block of the graph extractor.  The statistics read
    is guarded: when it fails, or finds nothing, the community risk is 0 and
    the user's community is still reported.  The community risk exceeds 50
    exactly when the statistics show at least three members with an average
    risk above 50; it is then that average, capped at 100, and only then is
    the cluster flag raised, naming the community of the user.  A community
    with two high-risk members and a lower average scores 40 and raises no
    flag. *)
Theorem community_flag_meaning (neo4j : FeatureReads) (f : GraphFeaturesRow)
    (user_id : string) :
  let s := scores neo4j f in
  (forall cid,
     gf_community_id f = Some cid ->
     is_ok (QUERY_COMMUNITY_STATS neo4j cid) = false
     \/ QUERY_COMMUNITY_STATS neo4j cid = Ok [] ->
     community_risk s = 0.0
     /\ features_of user_id s !! "community_id" = Some (PyStr (pretty cid)))
  /\ (gf_community_id f = None ->
      community_risk s = 0.0 /\ features_of user_id s !! "community_id" = Some PyNone)
  /\ (50 < community_risk s
      <-> exists cid row rest,
            gf_community_id f = Some cid
            /\ QUERY_COMMUNITY_STATS neo4j cid = Ok (row :: rest)
            /\ (3 <= default 0%Z (cs_member_count row))%Z
            /\ 50 < default 0 (cs_avg_risk row))
  /\ (forall cid row rest,
        gf_community_id f = Some cid ->
        QUERY_COMMUNITY_STATS neo4j cid = Ok (row :: rest) ->
        (3 <= default 0%Z (cs_member_count row))%Z ->
        50 < default 0 (cs_avg_risk row) ->
        community_risk s = py_min (default 0 (cs_avg_risk row)) 100
        /\ In ("Member of High-Risk Cluster " +:+ pretty cid) (flags s))
  /\ (forall text,
        In text (flags s) ->
        String.prefix "Member of High-Risk Cluster " text = true ->
        50 < community_risk s
        /\ exists cid, gf_community_id f = Some cid
                       /\ text = "Member of High-Risk Cluster " +:+ pretty cid).
Proof.
  cbv zeta. unfold scores. cbn [community_risk flags cluster_id_str].
  set (fan_out := (5 <=? _)%Z && (_ <=? 2)%Z).
  set (fan_in := (5 <=? _)%Z && (_ <=? 2)%Z).
  pose proof (community_risk_of_cases neo4j (gf_community_id f)) as Hcases.
  set (cr := community_risk_of neo4j (gf_community_id f)) in *.
  split.
  { intros cid Hcid Hread. split.
    - subst cr. unfold community_risk_of. rewrite Hcid.
      destruct Hread as [Hread | ->]; [| reflexivity].
      destruct (QUERY_COMMUNITY_STATS neo4j cid); [discriminate | reflexivity].
    - unfold features_of. cbn [cluster_id_str]. rewrite Hcid. reflexivity. }
  split.
  { intros Hnone. split.
    - subst cr. unfold community_risk_of. rewrite Hnone. reflexivity.
    - unfold features_of. cbn [cluster_id_str]. rewrite Hnone. reflexivity. }
  assert (Hiff : 50 < cr
                 <-> exists cid row rest,
                       gf_community_id f = Some cid
                       /\ QUERY_COMMUNITY_STATS neo4j cid = Ok (row :: rest)
                       /\ (3 <= default 0%Z (cs_member_count row))%Z
                       /\ 50 < default 0 (cs_avg_risk row)).
  { split.
    - intros H.
      destruct Hcases as [[Hc | Hc] | (cid & row & rest & H1 & H2 & H3 & H4 & _)].
      + rewrite Hc in H. vm_compute in H. discriminate.
      + rewrite Hc in H. vm_compute in H. discriminate.
      + exists cid, row, rest. auto.
    - intros (cid & row & rest & H1 & H2 & H3 & H4).
      subst cr. unfold community_risk_of. rewrite H1, H2. cbv zeta.
      apply Z.leb_le in H3. apply Qltb_true in H4 as H4'. rewrite H3, H4'. simpl.
      destruct (py_min_cases (default 0 (cs_avg_risk row)) 100) as [[_ ->] | [_ ->]]; lra. }
  split; [exact Hiff |].
  split.
  { intros cid row rest H1 H2 H3 H4.
    assert (Hcr : cr = py_min (default 0 (cs_avg_risk row)) 100).
    { subst cr. unfold community_risk_of. rewrite H1, H2. cbv zeta.
      apply Z.leb_le in H3. apply Qltb_true in H4 as H4'. rewrite H3, H4'. reflexivity. }
    split; [exact Hcr |].
    rewrite !in_app_iff, !VelocitySpec.In_flag_if. right. left.
    split.
    - apply Qltb_true. apply Hiff. exists cid, row, rest. auto.
    - rewrite H1. reflexivity. }
  intros text Hin Hpre.
  rewrite !in_app_iff, !VelocitySpec.In_flag_if in Hin.
  destruct Hin as [[_ ->] | [[Hc ->] | [[_ ->] | [_ ->]]]]; try discriminate Hpre.
  apply Qltb_true in Hc. split; [exact Hc |].
  apply Hiff in Hc as (cid & row & rest & H1 & _).
  exists cid. rewrite H1. split; reflexivity.
Qed.

(** A distributor of community 7, whose statistics show a risky cluster. *)
Lemma community_flag_meaning_witness :
  let s := scores FeatureFixtures.risky_community_store FeatureFixtures.distributor_row in
  community_risk s = py_min 62 100
  /\ In ("Member of High-Risk Cluster " +:+ pretty 7%Z) (flags s).
Proof.
  cbv zeta.
  pose proof (community_flag_meaning FeatureFixtures.risky_community_store
                FeatureFixtures.distributor_row "U0001")
    as (_ & _ & _ & Hflag & _).
  apply (Hflag 7%Z {| cs_member_count := Some 4%Z; cs_avg_risk := Some 62;
                      cs_high_risk_count := Some 1%Z |} []);
    vm_compute; first [reflexivity | discriminate].
Defined.

End GraphSpec.

Module DeadAccountSpec.

Import FeatureStore DeadAccount PyFacts.
Local Open Scope Q_scope.

Lemma spike_score_of_le (avg_amount tx_amount : Q) :
  spike_score_of avg_amount tx_amount <= 30.
Proof.
  unfold spike_score_of. repeat case_cmp; try (unfold Qle; simpl; lia).
  cbv zeta.
  match goal with |- py_min ?a ?b * _ <= _ => pose proof (py_min_le_r a b) end. lra.
Qed.

Lemma spike_score_of_ge (avg_amount tx_amount : Q) :
  0 <= tx_amount -> 0 <= spike_score_of avg_amount tx_amount.
Proof.
  intros Ht. unfold spike_score_of. repeat case_cmp; try (unfold Qle; simpl; lia).
  cbv zeta.
  assert (Hr : 0 <= tx_amount / avg_amount) by (apply Qle_shift_div_l; lra).
  assert (0 <= py_min (tx_amount / avg_amount / 10.0) 1.0).
  { apply py_min_glb; [| unfold Qle; simpl; lia].
    apply Qle_shift_div_l; [reflexivity | lra]. }
  lra.
Qed.

Lemma py_div_inv (a b q : Q) : py_div a b = Ok q -> ~ b == 0 /\ q = a / b.
Proof.
  unfold py_div. destruct (Qeq_bool b 0) eqn:E; [discriminate |].
  intros H. inversion H. split; [| reflexivity].
  intros Hb. apply Qeq_bool_iff in Hb. congruence.
Qed.

(** The record that [wakeup_scores] returns, field by field. *)
Lemma wakeup_scores_inv (settings : Settings) (w : WakeupRow) (tx_amount : Q) (s : Wakeup) :
  wakeup_scores settings w tx_amount = Ok s ->
  let T := inject_Z (DORMANT_DAYS_THRESHOLD settings) in
  let dormant_branch :=
    truthy (wk_dormant s) || truthy (wk_first_strike s) || Qltb T (days_slept s) in
  ~ T == 0
  /\ wk_dormant s = opt_bool (wk_is_dormant w)
  /\ wk_first_strike s = opt_bool (wk_is_first_strike w)
  /\ days_slept s = inject_Z (default 0%Z (wk_days_slept w))
  /\ wk_avg_amount s = default 0 (wk_avg_tx_amount w)
  /\ wk_inactivity_score s = py_min (days_slept s / T) 1.0 * 30
  /\ wk_spike_score s = spike_score_of (wk_avg_amount s) tx_amount
  /\ sleep_flash_ratio s
     = (if Qltb 0 (wk_avg_amount s) then tx_amount / wk_avg_amount s else 0.0)
  /\ sleep_flash_flag s
     = Qleb (SLEEP_FLASH_RATIO_THRESHOLD settings) (sleep_flash_ratio s)
       && Qleb (inject_Z (SLEEP_FLASH_DORMANT_DAYS settings)) (days_slept s)
  /\ wk_risk_sum s
     = (if dormant_branch
        then
          if sleep_flash_flag s
          then wk_inactivity_score s + wk_spike_score s + first_strike_bonus s
               + wk_low_activity_bonus s + 20.0
          else wk_inactivity_score s + wk_spike_score s + first_strike_bonus s
               + wk_low_activity_bonus s
        else wk_spike_score s * 0.3)
  /\ wk_risk s = py_min (wk_risk_sum s) 100.0
  /\ 0 <= first_strike_bonus s <= 25
  /\ 0 <= wk_low_activity_bonus s <= 10
  /\ wk_flags s
     = (if truthy (wk_first_strike s)
        then ["First-Strike: Dormant " +:+ pretty (py_int (days_slept s)) +:+ "d → active"]
        else flag_if (truthy (wk_dormant s) && Qltb 40 (wk_risk s))
               "Dormant Account Activated")
       ++ flag_if (truthy (wk_volume_spike s)) "Volume Spike After Dormancy"
       ++ flag_if (Qltb 20 (wk_spike_score s)) "Sudden Volume Spike on Dormant Account"
       ++ flag_if (sleep_flash_flag s)
            ("Sleep-and-Flash Mule: ratio=" +:+ format_fixed 0 (sleep_flash_ratio s)
             +:+ "x, dormant=" +:+ pretty (py_int (days_slept s)) +:+ "d").
Proof.
  unfold wakeup_scores.
  destruct (py_div _ _) as [slept |] eqn:Hdiv; [| discriminate].
  apply py_div_inv in Hdiv as [HT ->].
  cbn [rbind]. intros H. inversion H; subst s; clear H. cbv zeta.
  cbn [wk_dormant wk_first_strike days_slept wk_avg_amount wk_inactivity_score
       wk_spike_score sleep_flash_ratio sleep_flash_flag wk_risk_sum wk_risk
       first_strike_bonus wk_low_activity_bonus wk_flags wk_volume_spike].
  split; [exact HT |].
  do 10 (split; [reflexivity |]).
  split.
  { destruct (truthy (opt_bool (wk_is_first_strike w))),
             (truthy (opt_bool (wk_is_volume_spike w))); cbv zeta;
      try (split; unfold Qle; simpl; lia).
    all: match goal with |- _ <= py_min ?a ?b <= _ =>
           pose proof (py_min_le_r a b);
           assert (0 <= py_min a b) by (apply py_min_glb; unfold Qle; simpl; lia)
         end; lra. }
  split.
  { destruct (_ <=? 3)%Z; split; unfold Qle; simpl; lia. }
  reflexivity.
Qed.

(** X5.  An account that is awake is capped.  On the wake-up path, for a
    positive amount, the spike score lies in [0, 30] and the risk is at most
    100; when the account is neither marked dormant nor a first strike and
    has slept no longer than [DORMANT_DAYS_THRESHOLD], the risk is three
    tenths of the spike score, so at most 9, whatever the amount, and
    neither of the dormancy flags is raised. *)
Theorem awake_account_capped (settings : Settings) (w : WakeupRow) (tx_amount : Q)
    (s : Wakeup) :
  0 < tx_amount ->
  wakeup_scores settings w tx_amount = Ok s ->
  0 <= wk_spike_score s <= 30
  /\ wk_risk s <= 100
  /\ wakeup_features s !! "risk" = Some (PyFloat (py_round (wk_risk s) 2))
  /\ (truthy (wk_dormant s) = false ->
      truthy (wk_first_strike s) = false ->
      days_slept s <= inject_Z (DORMANT_DAYS_THRESHOLD settings) ->
      wk_risk s == wk_spike_score s * 0.3
      /\ 0 <= wk_risk s <= 9
      /\ 0 <= py_round (wk_risk s) 2 <= 9
      /\ ~ In "Dormant Account Activated" (wk_flags s)
      /\ ~ In ("First-Strike: Dormant " +:+ pretty (py_int (days_slept s)) +:+ "d → active")
             (wk_flags s)).
Proof.
  intros Hamt Hs.
  apply wakeup_scores_inv in Hs
    as (HT & Hd & Hf & Hdays & Havg & Hin & Hsp & Hratio & Hflag & Hsum & Hrisk & Hfb & Hlo
        & Hflags).
  cbv zeta in *.
  assert (Hspike : 0 <= wk_spike_score s <= 30).
  { rewrite Hsp. split; [apply spike_score_of_ge; lra | apply spike_score_of_le]. }
  split; [exact Hspike |].
  split; [rewrite Hrisk; pose proof (py_min_le_r (wk_risk_sum s) 100.0); lra |].
  split; [reflexivity |].
  intros Hnd Hnf Hawake.
  assert (Hbranch : truthy (wk_dormant s) || truthy (wk_first_strike s)
                    || Qltb (inject_Z (DORMANT_DAYS_THRESHOLD settings)) (days_slept s)
                    = false).
  { rewrite Hnd, Hnf. simpl. apply Qltb_false. exact Hawake. }
  rewrite Hbranch in Hsum.
  assert (Hr : wk_risk s = wk_spike_score s * 0.3).
  { rewrite Hrisk, Hsum. apply VelocitySpec.py_min_eq_l. lra. }
  assert (Hr9 : 0 <= wk_risk s <= 9) by (rewrite Hr; lra).
  split; [rewrite Hr; reflexivity |].
  split; [exact Hr9 |].
  split; [apply (py_round_bounds 0 9); exact Hr9 |].
  rewrite Hflags, Hnf, Hnd. cbn [andb flag_if app].
  split; intros Hin';
    rewrite !in_app_iff, !VelocitySpec.In_flag_if in Hin';
    destruct Hin' as [[_ H] | [[_ H] | [_ H]]]; discriminate H.
Qed.

(** An account in daily use that sends fifty times its average. *)
Lemma awake_account_capped_witness :
  exists s,
    wakeup_scores Config.defaults FeatureFixtures.awake_row 5000 = Ok s
    /\ 0 <= wk_risk s <= 9.
Proof.
  eexists. split; [vm_compute; reflexivity |].
  eapply (awake_account_capped Config.defaults FeatureFixtures.awake_row 5000);
    vm_compute; first [reflexivity | discriminate].
Defined.

(** X6.  Sleep and flash means a full spike.  Whenever the settings ask for
    a ratio of at least 10 and for at least [DORMANT_DAYS_THRESHOLD] days of
    sleep, as the defaults (50 and 30 against 30) do, an account with the
    sleep-and-flash flag has the full spike score of 30 and the full
    inactivity score of 30, and carries the volume-spike flag.  If it is
    marked dormant, is a first strike or has slept longer than the
    threshold, its risk is at least 80; if it has slept for exactly the
    threshold and is marked neither, the flag is raised all the same but
    the risk is 9. *)
Theorem sleep_and_flash_is_full_spike (settings : Settings) (w : WakeupRow)
    (tx_amount : Q) (s : Wakeup) :
  10 <= SLEEP_FLASH_RATIO_THRESHOLD settings ->
  (0 < DORMANT_DAYS_THRESHOLD settings <= SLEEP_FLASH_DORMANT_DAYS settings)%Z ->
  wakeup_scores settings w tx_amount = Ok s ->
  sleep_flash_flag s = true ->
  wk_spike_score s == 30
  /\ wk_inactivity_score s == 30
  /\ In "Sudden Volume Spike on Dormant Account" (wk_flags s)
  /\ (truthy (wk_dormant s) = true \/ truthy (wk_first_strike s) = true
      \/ inject_Z (DORMANT_DAYS_THRESHOLD settings) < days_slept s ->
      80 <= wk_risk s)
  /\ (truthy (wk_dormant s) = false -> truthy (wk_first_strike s) = false ->
      days_slept s == inject_Z (DORMANT_DAYS_THRESHOLD settings) ->
      wk_risk s == 9).
Proof.
  intros Hratio10 [HT0 HTle] Hs Hsf.
  apply wakeup_scores_inv in Hs
    as (HT & Hd & Hf & Hdays & Havg & Hin & Hsp & Hratio & Hflag & Hsum & Hrisk & Hfb & Hlo
        & Hflags).
  cbv zeta in *.
  rewrite Hsf in Hflag. symmetry in Hflag. apply andb_prop in Hflag as [Hr Hdz].
  apply Qleb_true in Hr, Hdz.
  set (T := inject_Z (DORMANT_DAYS_THRESHOLD settings)) in *.
  assert (HTpos : 0 < T).
  { subst T. change 0 with (inject_Z 0). rewrite <- Zlt_Qlt. exact HT0. }
  assert (HTd : T <= days_slept s).
  { assert (T <= inject_Z (SLEEP_FLASH_DORMANT_DAYS settings))
      by (subst T; rewrite <- Zle_Qle; exact HTle).
    lra. }
  (* the average is positive, for the ratio is at least ten *)
  destruct (Qltb 0 (wk_avg_amount s)) eqn:Hpos.
  2: { rewrite Hratio in Hr. exfalso.
       assert (H : 10 <= 0.0) by lra. vm_compute in H. apply H. reflexivity. }
  apply Qltb_true in Hpos.
  assert (Hspike : wk_spike_score s == 30).
  { rewrite Hsp. unfold spike_score_of.
    apply Qltb_true in Hpos as Hpos'. rewrite Hpos'. cbv zeta.
    rewrite Hratio in Hr.
    set (r := tx_amount / wk_avg_amount s) in *.
    assert (Hdiv : r / 10.0 == r * (10 # 100)) by (unfold Qdiv; reflexivity).
    destruct (py_min_cases (r / 10.0) 1.0) as [[Hc ->] | [Hc ->]].
    - rewrite Hdiv in *. lra.
    - lra. }
  assert (Hinact : wk_inactivity_score s == 30).
  { rewrite Hin.
    assert (Hq : 1 <= days_slept s / T) by (apply Qle_shift_div_l; lra).
    destruct (py_min_cases (days_slept s / T) 1.0) as [[Hc Hm] | [Hc Hm]];
      rewrite Hm; lra. }
  split; [exact Hspike |]. split; [exact Hinact |].
  split.
  { rewrite Hflags, !in_app_iff, !VelocitySpec.In_flag_if.
    right. right. left. split; [apply Qltb_true; lra | reflexivity]. }
  split.
  - intros Hbranch.
    assert (Hb : truthy (wk_dormant s) || truthy (wk_first_strike s)
                 || Qltb T (days_slept s) = true).
    { destruct Hbranch as [H | [H | H]];
        [rewrite H | rewrite H | apply Qltb_true in H; rewrite H];
        rewrite ?orb_true_r, ?orb_true_l; reflexivity. }
    rewrite Hb, Hsf in Hsum.
    rewrite Hrisk. apply py_min_glb; [rewrite Hsum; lra | unfold Qle; simpl; lia].
  - intros Hnd Hnf Heq.
    assert (Hb : truthy (wk_dormant s) || truthy (wk_first_strike s)
                 || Qltb T (days_slept s) = false).
    { rewrite Hnd, Hnf. simpl. apply Qltb_false. lra. }
    rewrite Hb in Hsum.
    rewrite Hrisk, Hsum.
    rewrite (VelocitySpec.py_min_eq_l (wk_spike_score s * 0.3) 100.0) by lra. lra.
Qed.

(** The sleeper of [sleeper_row] sends sixty times its average. *)
Lemma sleep_and_flash_is_full_spike_witness :
  exists s,
    wakeup_scores Config.defaults FeatureFixtures.sleeper_row 6000 = Ok s
    /\ sleep_flash_flag s = true
    /\ wk_spike_score s == 30
    /\ 80 <= wk_risk s.
Proof.
  eexists. split; [vm_compute; reflexivity |].
  split; [vm_compute; reflexivity |].
  assert (H1 : 10 <= SLEEP_FLASH_RATIO_THRESHOLD Config.defaults)
    by (vm_compute; discriminate).
  assert (H2 : (0 < DORMANT_DAYS_THRESHOLD Config.defaults
                <= SLEEP_FLASH_DORMANT_DAYS Config.defaults)%Z)
    by (vm_compute; split; [reflexivity | discriminate]).
  pose proof (sleep_and_flash_is_full_spike Config.defaults FeatureFixtures.sleeper_row 6000
                _ H1 H2 eq_refl eq_refl) as (Hs & _ & _ & Hr & _).
  split; [exact Hs |].
  apply Hr. left. reflexivity.
Defined.

End DeadAccountSpec.

Module DeviceRiskSpec.

Import FeatureStore DeviceRisk PyFacts FeatureViews.
Local Open Scope Q_scope.

(** ** Strings *)

Lemma append_cons (c : ascii) (a b : string) : String c a +:+ b = String c (a +:+ b).
Proof. reflexivity. Qed.

Lemma length_append (a b : string) :
  String.length (a +:+ b) = (String.length a + String.length b)%nat.
Proof.
  induction a as [| c a IH]; [reflexivity |].
  rewrite append_cons. simpl. rewrite IH. reflexivity.
Qed.

Lemma length_zeros (n : nat) : String.length (zeros n) = n.
Proof. induction n as [| n IH]; simpl; [reflexivity | rewrite IH; reflexivity]. Qed.

Lemma length_py_zfill (width : nat) (s : string) :
  String.length (py_zfill width s) = Nat.max width (String.length s).
Proof.
  unfold py_zfill. destruct s as [| c s'].
  - rewrite length_zeros. simpl. lia.
  - destruct (_ || _)%bool; simpl; rewrite length_append, length_zeros; simpl; lia.
Qed.

Lemma count_diff_sym (a b : string) : count_diff a b = count_diff b a.
Proof.
  revert b. induction a as [| c1 a IH]; intros [| c2 b]; simpl; try reflexivity.
  rewrite IH, Ascii.eqb_sym. reflexivity.
Qed.

Lemma count_diff_le (a b : string) : (count_diff a b <= String.length a)%nat.
Proof.
  revert b. induction a as [| c1 a IH]; intros [| c2 b]; simpl; try lia.
  specialize (IH b). destruct (Ascii.eqb c1 c2); lia.
Qed.

Lemma count_diff_refl (a : string) : count_diff a a = O.
Proof.
  induction a as [| c a IH]; simpl; [reflexivity |].
  rewrite Ascii.eqb_refl, IH. reflexivity.
Qed.

Lemma count_diff_zero (a b : string) :
  String.length a = String.length b -> count_diff a b = O -> a = b.
Proof.
  revert b. induction a as [| c1 a IH]; intros [| c2 b]; simpl; try discriminate.
  - reflexivity.
  - intros Hl Hc. destruct (Ascii.eqb c1 c2) eqn:E; [| discriminate].
    apply Ascii.eqb_eq in E. subst c2. f_equal. apply IH; [lia | exact Hc].
Qed.

Lemma append_empty_r (s : string) : s +:+ "" = s.
Proof.
  induction s as [| c s IH]; [reflexivity |].
  rewrite append_cons, IH. reflexivity.
Qed.

Lemma py_zfill_unsigned (width : nat) (s : string) :
  unsigned s -> py_zfill width s = zeros (width - String.length s) +:+ s.
Proof.
  unfold py_zfill, unsigned. destruct s as [| c s']; intros H.
  - simpl. rewrite append_empty_r. reflexivity.
  - destruct H as [Hp Hm].
    apply Ascii.eqb_neq in Hp, Hm. rewrite Hp, Hm. reflexivity.
Qed.

Lemma zeros_unsigned (k : nat) (s : string) : unsigned s -> unsigned (zeros k +:+ s).
Proof.
  destruct k as [| k]; simpl; [auto |]. intros _. split; discriminate.
Qed.

(** X7.  The Hamming distance between two capability masks: it is 0 when
    either mask is missing or empty, it is symmetric, it is 0 between a
    mask and itself, and it never exceeds the length of the longer mask.
    The shorter mask is padded with zeros on the left: a mask and the same
    mask with leading zeros are at distance 0, and two masks of the same
    length are at distance 0 only if they are equal. *)
Theorem hamming_distance_of_masks (a b : string) :
  _hamming_distance None (Some b) = 0%Z
  /\ _hamming_distance (Some a) None = 0%Z
  /\ _hamming_distance (Some "") (Some b) = 0%Z
  /\ _hamming_distance (Some a) (Some "") = 0%Z
  /\ _hamming_distance (Some a) (Some b) = _hamming_distance (Some b) (Some a)
  /\ _hamming_distance (Some a) (Some a) = 0%Z
  /\ (0 <= _hamming_distance (Some a) (Some b)
      <= Z.of_nat (Nat.max (String.length a) (String.length b)))%Z
  /\ (forall k, unsigned a -> _hamming_distance (Some a) (Some (zeros k +:+ a)) = 0%Z)
  /\ (unsigned a -> unsigned b -> String.length a = String.length b ->
      _hamming_distance (Some a) (Some b) = 0%Z -> a = "" \/ b = "" \/ a = b).
Proof.
  split; [reflexivity |].
  split; [unfold _hamming_distance; simpl; rewrite orb_true_r; reflexivity |].
  split; [reflexivity |].
  split; [unfold _hamming_distance; simpl; rewrite orb_true_r; reflexivity |].
  split.
  { unfold _hamming_distance. cbn [nonempty].
    cbn [from_option id].
    rewrite (orb_comm (negb (negb (String.eqb a "")))).
    destruct (_ || _)%bool; [reflexivity |].
    cbv zeta. rewrite (Nat.max_comm (String.length b)), count_diff_sym. reflexivity. }
  split.
  { unfold _hamming_distance. destruct (_ || _)%bool; [reflexivity |].
    cbv zeta. rewrite count_diff_refl. reflexivity. }
  split.
  { unfold _hamming_distance. destruct (_ || _)%bool; [lia |].
    cbv zeta. cbn [from_option id].
    pose proof (count_diff_le (py_zfill (Nat.max (String.length a) (String.length b)) a)
                  (py_zfill (Nat.max (String.length a) (String.length b)) b)) as H.
    rewrite length_py_zfill in H. lia. }
  split.
  { intros k Ha. unfold _hamming_distance. destruct (_ || _)%bool; [reflexivity |].
    cbv zeta. cbn [from_option id].
    rewrite !py_zfill_unsigned by (auto using zeros_unsigned).
    rewrite length_append, length_zeros.
    replace (Nat.max (String.length a) (k + String.length a)) with (k + String.length a)%nat
      by lia.
    replace (k + String.length a - String.length a)%nat with k by lia.
    replace (k + String.length a - (k + String.length a))%nat with O by lia.
    simpl. rewrite count_diff_refl. reflexivity. }
  intros Ha Hb Hlen. unfold _hamming_distance. cbn [nonempty].
    cbn [from_option id].
  destruct (String.eqb a "") eqn:Ea; [apply String.eqb_eq in Ea; auto |].
  destruct (String.eqb b "") eqn:Eb; [apply String.eqb_eq in Eb; auto |].
  cbn [negb orb]. cbv zeta. intros H.
  rewrite !py_zfill_unsigned in H by assumption.
  rewrite <- Hlen, Nat.max_id, Nat.sub_diag in H.
  change (zeros 0 +:+ a) with a in H. change (zeros 0 +:+ b) with b in H.
  right. right. apply count_diff_zero; [exact Hlen | lia].
Qed.

(** Two capability masks that differ in two bits, one written with a
    leading zero. *)
Lemma hamming_distance_of_masks_witness :
  unsigned "11001"
  /\ _hamming_distance (Some "11001") (Some ("0" +:+ "11001")) = 0%Z
  /\ _hamming_distance (Some "011001") (Some "010011") = 2%Z.
Proof.
  assert (Hu : unsigned "11001") by (split; discriminate).
  split; [exact Hu |].
  pose proof (hamming_distance_of_masks "11001" "011001")
    as (_ & _ & _ & _ & _ & _ & _ & Hpad & _).
  split; [exact (Hpad 1%nat Hu) | reflexivity].
Defined.

(** ** The parts of the device risk *)

Lemma os_drift_cases (stored_os : string) (device_os : option string) (p : Q)
    (fl : list string) :
  os_drift stored_os device_os = Ok (p, fl) -> p = 5.0 \/ p = 0.0.
Proof.
  unfold os_drift.
  destruct (_ && _)%bool; [| intros H; inversion H; auto].
  destruct (first_word (str_lower stored_os)); [| discriminate].
  destruct (first_word (str_lower (default "" device_os))); [| discriminate].
  cbn [rbind]. destruct (_ && _)%bool; intros H; inversion H; auto.
Qed.

Lemma hamming_nonneg (a b : option string) : (0 <= _hamming_distance a b)%Z.
Proof. unfold _hamming_distance. destruct (_ || _)%bool; cbv zeta; lia. Qed.

Lemma mask_drift_cases (settings : Settings) (capability_mask stored_mask : option string) :
  let '(anomaly, penalty, _) := mask_drift settings capability_mask stored_mask in
  (0 <= anomaly)%Z /\ penalty <= 5
  /\ (0 <= CAPABILITY_MASK_CHANGE_WEIGHT settings -> 0 <= penalty).
Proof.
  unfold mask_drift. destruct (_ && _ && _)%bool.
  - cbv zeta. pose proof (hamming_nonneg capability_mask stored_mask) as Hh.
    split; [exact Hh |].
    split; [match goal with |- py_min ?a ?b <= _ => pose proof (py_min_le_r a b) end; lra |].
    intros Hw. apply py_min_glb; [| unfold Qle; simpl; lia].
    assert (0 <= inject_Z (_hamming_distance capability_mask stored_mask))
      by (change 0 with (inject_Z 0); rewrite <- Zle_Qle; exact Hh).
    nra.
  - split; [lia |]. split; [unfold Qle; simpl; lia | intros _; unfold Qle; simpl; lia].
Qed.

Section Scores.
Variable settings : Settings.
Variable info : DeviceInfoRow.
Variable history_rows : list DeviceHistoryRow.
Variable prop_rows : list PropagationRow.
Variable multi_user_rows : list DeviceUsersRow.
Variable device_id : string.
Variable amount : Q.
Variables capability_mask device_os credential_sub_type : option string.

(** The record that [scores] returns, part by part. *)
Lemma scores_inv (s : Scores) :
  scores settings info history_rows prop_rows multi_user_rows device_id amount
    capability_mask device_os credential_sub_type = Ok s ->
  exists device_risk_score os_penalty os_flags,
    match head prop_rows with
    | Some row => pr_device_risk_score row
    | None => Some 0
    end = Some device_risk_score
    /\ os_drift (stored_os s) device_os = Ok (os_penalty, os_flags)
    /\ stored_os s = str_strip (default "" (di_os info))
    /\ (multi_account_score s = 40.0 \/ multi_account_score s = 25.0
        \/ multi_account_score s = 10.0 \/ multi_account_score s = 0.0)
    /\ propagation_score s = py_min (device_risk_score / 100.0) 1.0 * 25
    /\ (high_risk_bonus s = 10.0 \/ high_risk_bonus s = 0.0)
    /\ (os_anomaly_score s = 10.0 \/ os_anomaly_score s = 0.0)
    /\ drift_sum s
       = 0.0 + os_penalty
         + snd (fst (mask_drift settings capability_mask (di_capability_mask info)))
    /\ cap_mask_anomaly s
       = fst (fst (mask_drift settings capability_mask (di_capability_mask info)))
    /\ device_drift_score s = py_min (drift_sum s) 15.0
    /\ new_device_score s
       = (if is_new_device s then NEW_DEVICE_PENALTY settings else 0.0)
    /\ sim_swap_score s
       = (if device_multi_user_flag s then DEVICE_MULTI_USER_PENALTY settings else 0.0)
    /\ new_device_high_mpin_score s
       = (if is_new_device s && Qleb (NEW_DEVICE_HIGH_AMOUNT_THRESHOLD settings) amount
             && is_mpin credential_sub_type
          then 15.0 else 0.0)
    /\ risk_sum s
       = multi_account_score s + propagation_score s + high_risk_bonus s
         + os_anomaly_score s + device_drift_score s + new_device_score s
         + sim_swap_score s + new_device_high_mpin_score s
    /\ risk s = py_min (risk_sum s) 100.0.
Proof.
  unfold scores.
  destruct (match head prop_rows with
            | Some row => pr_device_risk_score row
            | None => Some 0
            end) as [device_risk_score |] eqn:Hscore; [| discriminate].
  cbn [rbind].
  destruct (os_drift (str_strip (default "" (di_os info))) device_os)
    as [[os_penalty os_flags] |] eqn:Hos; [| discriminate].
  cbn [rbind].
  destruct (mask_drift settings capability_mask (di_capability_mask info))
    as [[anomaly penalty] mask_flags] eqn:Hmask.
  intros H. inversion H; subst s; clear H.
  cbn [stored_os multi_account_score propagation_score high_risk_bonus os_anomaly_score
       drift_sum cap_mask_anomaly device_drift_score new_device_score sim_swap_score
       new_device_high_mpin_score risk_sum risk is_new_device device_multi_user_flag
       fst snd].
  exists device_risk_score, os_penalty, os_flags.
  split; [reflexivity |]. split; [exact Hos |]. split; [reflexivity |].
  split.
  { repeat match goal with |- context [if ?c then _ else _] => destruct c end; auto. }
  split; [reflexivity |].
  split; [destruct (Qltb 80 _); auto |].
  split.
  { repeat match goal with |- context [if ?c then _ else _] => destruct c end; auto. }
  repeat (split; [reflexivity |]). reflexivity.
Qed.

End Scores.

(** X8.  The parts of the device risk.  The drift score is the sum of at
    most 5 for a change of OS family and at most 5 for a change of
    capability mask, so it never exceeds 10 and its clamp at 15 never cuts.
    The account, propagation, high-risk, OS and compound parts are at most
    40, 25, 10, 10 and 15, and the risk returned is at most 100.  When the
    penalties and the mask weight of the settings and the device risk read
    from the store are not negative, no part is negative and the risk lies
    in [0, 100]. *)
Theorem device_drift_clamp_never_cuts (settings : Settings) (info : DeviceInfoRow)
    (history_rows : list DeviceHistoryRow) (prop_rows : list PropagationRow)
    (multi_user_rows : list DeviceUsersRow) (device_id : string) (amount : Q)
    (app_version capability_mask device_os credential_sub_type : option string)
    (s : Scores) :
  scores settings info history_rows prop_rows multi_user_rows device_id amount
    capability_mask device_os credential_sub_type = Ok s ->
  drift_sum s <= 10
  /\ device_drift_score s = drift_sum s
  /\ multi_account_score s <= 40
  /\ propagation_score s <= 25
  /\ high_risk_bonus s <= 10
  /\ os_anomaly_score s <= 10
  /\ new_device_high_mpin_score s <= 15
  /\ risk s <= 100
  /\ features_of device_id app_version capability_mask (head prop_rows) s !! "risk"
     = Some (PyFloat (py_round (risk s) 2))
  /\ (0 <= CAPABILITY_MASK_CHANGE_WEIGHT settings ->
      0 <= NEW_DEVICE_PENALTY settings ->
      0 <= DEVICE_MULTI_USER_PENALTY settings ->
      (forall row q, head prop_rows = Some row -> pr_device_risk_score row = Some q ->
                     0 <= q) ->
      0 <= drift_sum s /\ 0 <= risk s /\ 0 <= py_round (risk s) 2 <= 100).
Proof.
  intros Hs.
  apply scores_inv in Hs
    as (drs & osp & osf & Hdrs & Hos & Hstored & Hma & Hprop & Hhr & Hoa & Hdsum & Hcap
        & Hdrift & Hnew & Hsim & Hcomp & Hsum & Hrisk).
  apply os_drift_cases in Hos.
  pose proof (mask_drift_cases settings capability_mask (di_capability_mask info)) as Hmask.
  destruct (mask_drift settings capability_mask (di_capability_mask info))
    as [[anomaly penalty] mask_flags].
  cbn [fst snd] in Hdsum, Hcap. destruct Hmask as (Han & Hp5 & Hp0).
  assert (Hosp : 0 <= osp <= 5) by (destruct Hos as [-> | ->]; split; unfold Qle; simpl; lia).
  assert (Hd10 : drift_sum s <= 10) by (rewrite Hdsum; lra).
  assert (Hdeq : device_drift_score s = drift_sum s).
  { rewrite Hdrift. apply VelocitySpec.py_min_eq_l. lra. }
  assert (Hma40 : 0 <= multi_account_score s <= 40).
  { destruct Hma as [-> | [-> | [-> | ->]]]; split; unfold Qle; simpl; lia. }
  assert (Hp25 : propagation_score s <= 25).
  { rewrite Hprop. pose proof (py_min_le_r (drs / 100.0) 1.0). lra. }
  assert (Hhr10 : 0 <= high_risk_bonus s <= 10).
  { destruct Hhr as [-> | ->]; split; unfold Qle; simpl; lia. }
  assert (Hoa10 : 0 <= os_anomaly_score s <= 10).
  { destruct Hoa as [-> | ->]; split; unfold Qle; simpl; lia. }
  assert (Hc15 : 0 <= new_device_high_mpin_score s <= 15).
  { rewrite Hcomp. destruct (_ && _ && _)%bool; split; unfold Qle; simpl; lia. }
  assert (Hr100 : risk s <= 100).
  { rewrite Hrisk. pose proof (py_min_le_r (risk_sum s) 100.0). lra. }
  split; [exact Hd10 |]. split; [exact Hdeq |].
  split; [apply Hma40 |]. split; [exact Hp25 |].
  split; [apply Hhr10 |]. split; [apply Hoa10 |]. split; [apply Hc15 |].
  split; [exact Hr100 |]. split; [reflexivity |].
  intros Hw Hnp Hsp Hq.
  assert (Hdrs0 : 0 <= drs).
  { destruct (head prop_rows) as [row |] eqn:Hhead.
    - exact (Hq row drs eq_refl Hdrs).
    - inversion Hdrs. lra. }
  assert (Hprop0 : 0 <= propagation_score s).
  { rewrite Hprop.
    assert (0 <= py_min (drs / 100.0) 1.0).
    { apply py_min_glb; [| unfold Qle; simpl; lia].
      apply Qle_shift_div_l; [reflexivity | lra]. }
    lra. }
  assert (Hd0 : 0 <= drift_sum s) by (rewrite Hdsum; specialize (Hp0 Hw); lra).
  assert (Hn0 : 0 <= new_device_score s).
  { rewrite Hnew. destruct (is_new_device s); [exact Hnp | unfold Qle; simpl; lia]. }
  assert (Hs0 : 0 <= sim_swap_score s).
  { rewrite Hsim. destruct (device_multi_user_flag s); [exact Hsp | unfold Qle; simpl; lia]. }
  assert (H0 : 0 <= risk s).
  { rewrite Hrisk. apply py_min_glb; [| unfold Qle; simpl; lia].
    rewrite Hsum, Hdeq. lra. }
  split; [exact Hd0 |]. split; [exact H0 |].
  apply (py_round_bounds 0 100). split; [exact H0 | exact Hr100].
Qed.

(** The device of [android_store], reporting another mask from an iPhone. *)
Lemma device_drift_clamp_never_cuts_witness :
  exists s,
    scores Config.defaults
      {| di_account_count := Some 1%Z; di_os := Some "Android 13";
         di_capability_mask := Some "011001" |}
      [ {| dh_device_id := Some "D1" |} ] [] [] "D1" 500 (Some "010011") (Some "iOS 17")
      None = Ok s
    /\ drift_sum s <= 10
    /\ device_drift_score s = drift_sum s.
Proof.
  pose proof (device_drift_clamp_never_cuts Config.defaults
                {| di_account_count := Some 1%Z; di_os := Some "Android 13";
                   di_capability_mask := Some "011001" |}
                [ {| dh_device_id := Some "D1" |} ] [] [] "D1" 500 None (Some "010011")
                (Some "iOS 17") None _ eq_refl) as (H1 & H2 & _).
  eexists. split; [reflexivity |]. split; assumption.
Defined.

(** ** A blank OS name *)

Lemma is_space_lower (c : ascii) : is_space (lower_ascii c) = is_space c.
Proof.
  destruct c as [[] [] [] [] [] [] [] []]; reflexivity.
Qed.

Lemma lstrip_lower (s : string) : lstrip (str_lower s) = str_lower (lstrip s).
Proof.
  induction s as [| c s IH]; [reflexivity |].
  simpl. rewrite is_space_lower. destruct (is_space c); [exact IH | reflexivity].
Qed.

Lemma lstrip_head (s : string) :
  match lstrip s with
  | String c _ => is_space c = false
  | EmptyString => True
  end.
Proof.
  induction s as [| c s IH]; simpl; [exact I |].
  destruct (is_space c) eqn:E; [exact IH | exact E].
Qed.

Lemma rstrip_head (s : string) :
  match s, rstrip s with
  | String c _, String c' _ => c' = c
  | _, _ => True
  end.
Proof.
  destruct s as [| c s]; [exact I |].
  simpl. destruct (rstrip s); [destruct (is_space c); exact I || reflexivity | reflexivity].
Qed.

(** A name that [strip] leaves non-empty starts with a word. *)
Lemma lstrip_strip (s : string) : str_strip s <> "" -> lstrip (str_strip s) = str_strip s.
Proof.
  unfold str_strip. intros Hne.
  pose proof (lstrip_head s) as Hl. pose proof (rstrip_head (lstrip s)) as Hr.
  destruct (lstrip s) as [| c t]; [contradiction Hne; reflexivity |].
  destruct (rstrip (String c t)) as [| c' t']; [contradiction Hne; reflexivity |].
  subst c'. simpl. rewrite Hl. reflexivity.
Qed.

Lemma str_lower_empty (s : string) : str_lower s = "" -> s = "".
Proof. destruct s; [reflexivity | discriminate]. Qed.

Lemma first_word_strip (s : string) :
  str_strip s <> "" -> is_ok (first_word (str_lower (str_strip s))) = true.
Proof.
  intros Hne. unfold first_word. rewrite lstrip_lower, (lstrip_strip s Hne).
  destruct (str_lower (str_strip s)) eqn:E; [| reflexivity].
  apply str_lower_empty in E. contradiction.
Qed.

Lemma first_word_blank (s : string) :
  lstrip s = "" -> first_word (str_lower s) = Raise "IndexError: list index out of range".
Proof. intros H. unfold first_word. rewrite lstrip_lower, H. reflexivity. Qed.

(** X9.  A blank OS name in the transaction makes the device extractor
    fail.  When the store knows the device with a non-blank OS name, every
    read answers and the propagation row has a device risk, a [device_os]
    that is not empty but consists of white space only makes [compute] raise
    an [IndexError]: the OS family of the transaction is the first element
    of an empty [split()]. *)
Theorem blank_device_os_raises (settings : Settings) (neo4j : FeatureReads)
    (device_id sender_id : string) (amount : Q)
    (app_version capability_mask credential_type credential_sub_type : option string)
    (os : string) (info : DeviceInfoRow) (rest : list DeviceInfoRow)
    (history_rows : list DeviceHistoryRow) (prop_rows : list PropagationRow)
    (multi_user_rows : list DeviceUsersRow) :
  QUERY_DEVICE_INFO neo4j device_id = Ok (info :: rest) ->
  QUERY_USER_DEVICE_HISTORY neo4j sender_id = Ok history_rows ->
  QUERY_DEVICE_RISK_PROPAGATION neo4j device_id = Ok prop_rows ->
  QUERY_DEVICE_USERS_24H neo4j device_id = Ok multi_user_rows ->
  (forall row, head prop_rows = Some row -> pr_device_risk_score row <> None) ->
  str_strip (default "" (di_os info)) <> "" ->
  os <> "" ->
  lstrip os = "" ->
  compute settings neo4j device_id sender_id amount app_version capability_mask
    (Some os) credential_type credential_sub_type
  = Raise "IndexError: list index out of range".
Proof.
  intros Hinfo Hhist Hprop Husers Hscore Hstored Hos Hblank.
  unfold compute. rewrite Hinfo. cbn [rbind]. rewrite Hhist. cbn [rbind].
  rewrite Hprop. cbn [rbind]. rewrite Husers. cbn [rbind].
  unfold scores.
  destruct (match head prop_rows with
            | Some row => pr_device_risk_score row
            | None => Some 0
            end) as [drs |] eqn:Hdrs.
  2: { destruct (head prop_rows) as [row |] eqn:Hh; [| discriminate].
       exfalso. exact (Hscore row eq_refl Hdrs). }
  cbn [rbind].
  assert (Hdrift : os_drift (str_strip (default "" (di_os info))) (Some os)
                   = Raise "IndexError: list index out of range").
  { unfold os_drift. cbn [nonempty].
    apply String.eqb_neq in Hstored as Hs'. apply String.eqb_neq in Hos as Ho'.
    rewrite Hs', Ho'. cbn [negb andb].
    pose proof (first_word_strip (default "" (di_os info)) Hstored) as Hw.
    destruct (first_word (str_lower (str_strip (default "" (di_os info)))));
      [| discriminate].
    cbn [rbind]. cbn [from_option id]. rewrite (first_word_blank os Hblank). reflexivity. }
  rewrite Hdrift. reflexivity.
Qed.

(** The device of [android_store], with three spaces for an OS name. *)
Lemma blank_device_os_raises_witness :
  compute Config.defaults FeatureFixtures.android_store "D1" "U0001" 500 None None
    (Some "   ") None None
  = Raise "IndexError: list index out of range".
Proof.
  eapply (blank_device_os_raises Config.defaults FeatureFixtures.android_store
            "D1" "U0001" 500 None None None None "   ");
    try reflexivity; try discriminate.
  intros row Hrow. inversion Hrow. discriminate.
Defined.

End DeviceRiskSpec.

Module MuleReasonsSpec.

Import MuleDetection PyFacts FeatureViews.
Local Open Scope Q_scope.

#[local] Set Warnings "-inexact-float".

(** The clamp by 1.0 returns the score or 1. *)
Lemma py_min_float_one (s : float) :
  float_value (py_min_float s 1.0) = float_value s
  \/ float_value (py_min_float s 1.0) == 1.
Proof.
  unfold py_min_float. destruct (PrimFloat.ltb 1.0 s); [right | left]; reflexivity.
Qed.

Lemma inject_nat_pos (n : nat) : (0 < n)%nat -> 1 <= inject_Z (Z.of_nat n).
Proof.
  intros H. change 1 with (inject_Z 1). rewrite <- Zle_Qle. lia.
Qed.

(** X10.  Score and reasons of the mule classifier go together.  Every hit
    adds one reason and a weight between 0.05 and 0.30, so the score before
    the clamp lies between 0.05 and 0.30 times the number of reasons.  Hence
    the verdict has no reason exactly when its confidence is 0, and a
    verdict that is a mule at a fused risk below 65 rests on at least two
    reasons. *)
Theorem mule_reasons_match_score
    (behavioral dead_account device graph velocity : Dict) (fused_risk : Q)
    (verdict : Verdict) :
  evaluate behavioral dead_account device graph velocity fused_risk = Ok verdict ->
  exists acc,
    accumulate behavioral dead_account device graph velocity = Ok acc
    /\ reasons verdict = snd acc
    /\ 0.05 * inject_Z (Z.of_nat (length (reasons verdict))) <= float_value (fst acc)
    /\ float_value (fst acc) <= 0.30 * inject_Z (Z.of_nat (length (reasons verdict)))
    /\ (reasons verdict = [] <-> confidence verdict == 0)
    /\ (is_mule verdict = true -> fused_risk < 65 ->
        (2 <= length (reasons verdict))%nat).
Proof.
  intros Hev.
  pose proof (MuleSpec.accumulate_traced behavioral dead_account device graph velocity)
    as Htr.
  pose proof (MuleSpec.hits_sound behavioral dead_account device graph velocity) as Hsound.
  cbv zeta in Hsound.
  unfold evaluate in Hev.
  destruct (accumulate behavioral dead_account device graph velocity) as [acc | e];
    [| discriminate].
  cbn [rbind] in Hev. cbv zeta in Hev. inversion Hev; subst verdict; clear Hev.
  cbn [reasons confidence is_mule].
  destruct Htr as [Hsum Hlen]. rewrite <- Hsum, <- Hlen in Hsound.
  apply MuleSpec.score_sound_inv in Hsound as (Hlo & Hhi & Hrange & Hhalf & Hclamp).
  exists acc. split; [reflexivity |]. split; [reflexivity |].
  split; [exact Hlo |]. split; [exact Hhi |].
  split.
  - split.
    + intros Hnil. rewrite Hnil in Hhi. cbn [length] in Hhi.
      change (inject_Z (Z.of_nat 0)) with 0 in Hhi.
      pose proof (py_round_bounds 0 0 (float_value (py_min_float (fst acc) 1.0)) 3) as Hb.
      change (inject_Z 0) with 0 in Hb.
      assert (H0 : 0 <= float_value (py_min_float (fst acc) 1.0) <= 0) by lra.
      specialize (Hb H0). lra.
    + intros Hc. destruct (snd acc) as [| r rs] eqn:Hsnd; [reflexivity |].
      exfalso. cbn [length] in Hlo.
      pose proof (inject_nat_pos (S (length rs)) (Nat.lt_0_succ _)) as Hn.
      assert (Hs : inject_Z 50 / 1000 <= float_value (py_min_float (fst acc) 1.0)).
      { assert (E : inject_Z 50 / 1000 == 0.05) by reflexivity. rewrite E.
        destruct (py_min_float_one (fst acc)) as [-> | ->]; lra. }
      apply MuleSpec.py_round_ge_milli in Hs.
      assert (E : inject_Z 50 / 1000 == 0.05) by reflexivity. rewrite E in Hs. lra.
  - intros Hmule Hfused.
    apply orb_prop in Hmule as [Hs | Hf].
    + apply Hhalf in Hs.
      assert (Hn : 0.5 <= 0.30 * inject_Z (Z.of_nat (length (snd acc)))) by lra.
      destruct (length (snd acc)) as [| [| n]]; [| | lia].
      * change (inject_Z (Z.of_nat 0)) with 0 in Hn. lra.
      * change (inject_Z (Z.of_nat 1)) with 1 in Hn. lra.
    + apply Qleb_true in Hf. unfold _MULE_RISK_THRESHOLD in Hf. lra.
Qed.

(** The verdict on a woken account that spikes on a shared device and
    forwards what comes in, at a fused risk of 30: four reasons. *)
Lemma mule_reasons_match_score_witness :
  exists verdict,
    evaluate Fixtures.spiking_behavioral Fixtures.woken_dead_account
      Fixtures.shared_device Fixtures.calm_graph Fixtures.relaying_velocity 30 = Ok verdict
    /\ is_mule verdict = true
    /\ (2 <= length (reasons verdict))%nat.
Proof.
  eexists. split; [vm_compute; reflexivity |].
  split; [vm_compute; reflexivity |].
  match goal with
  | |- (2 <= length (reasons ?v))%nat =>
      assert (Hev : evaluate Fixtures.spiking_behavioral Fixtures.woken_dead_account
                      Fixtures.shared_device Fixtures.calm_graph
                      Fixtures.relaying_velocity 30 = Ok v)
        by (vm_compute; reflexivity);
      destruct (mule_reasons_match_score _ _ _ _ _ _ _ Hev)
        as (acc & _ & _ & _ & _ & _ & H)
  end.
  apply H; vm_compute; reflexivity.
Defined.

End MuleReasonsSpec.

Module EngineFlagsSpec.

Import RiskEngine MuleDetection PyFacts RuntimeFacts.
Local Open Scope Q_scope.

(** ** Removal of duplicates *)

Lemma existsb_eqb_In (x : string) (l : list string) :
  existsb (String.eqb x) l = true <-> In x l.
Proof.
  rewrite existsb_exists. split.
  - intros (y & Hy & E). apply String.eqb_eq in E. subst y. exact Hy.
  - intros H. exists x. split; [exact H | apply String.eqb_refl].
Qed.

Lemma In_dedup (seen l : list string) (x : string) :
  In x (dedup_keep_first seen l) <-> In x l /\ ~ In x seen.
Proof.
  revert seen. induction l as [| y l IH]; intros seen; simpl.
  - tauto.
  - destruct (existsb (String.eqb y) seen) eqn:E.
    + apply existsb_eqb_In in E. rewrite IH. split.
      * intros [H1 H2]. auto.
      * intros [[-> | H1] H2]; [contradiction | auto].
    + assert (Hy : ~ In y seen).
      { intros H. apply existsb_eqb_In in H. congruence. }
      simpl. rewrite IH. simpl. split.
      * intros [-> | [H1 H2]]; [auto |]. split; [auto | tauto].
      * intros [[-> | H1] H2]; [auto |].
        destruct (string_dec y x) as [-> | Hne]; [auto |].
        right. split; [exact H1 |]. intros [H | H]; [congruence | contradiction].
Qed.

Lemma NoDup_dedup (seen l : list string) : List.NoDup (dedup_keep_first seen l).
Proof.
  revert seen. induction l as [| y l IH]; intros seen; simpl.
  - constructor.
  - destruct (existsb (String.eqb y) seen); [apply IH |].
    constructor; [| apply IH].
    rewrite In_dedup. simpl. tauto.
Qed.

Lemma length_dedup (seen l : list string) :
  (length (dedup_keep_first seen l) <= length l)%nat.
Proof.
  revert seen. induction l as [| y l IH]; intros seen; simpl; [lia |].
  destruct (existsb (String.eqb y) seen); simpl.
  - specialize (IH seen). lia.
  - specialize (IH (y :: seen)). lia.
Qed.

Lemma head_dedup (l : list string) : head (fromkeys_list l) = head l.
Proof. destruct l; reflexivity. Qed.

(** ** What a returned response was built from *)

Lemma make_RiskResponse_inv (tx_id : string) (score : Q) (level : RiskLevel)
    (bd : RiskBreakdown) (cid : PyVal) (flags : list string) (rsn : string) (ms : Q)
    (ts : Datetime) (resp : RiskResponse) :
  make_RiskResponse tx_id score level bd cid flags rsn ms ts = Ok resp ->
  resp_tx_id resp = tx_id /\ risk_score resp = score /\ risk_level resp = level
  /\ breakdown resp = bd /\ resp_flags resp = flags /\ reason resp = rsn
  /\ processing_time_ms resp = ms /\ in_0_100 score = true
  /\ (cid = PyNone /\ cluster_id resp = None
      \/ exists c, cid = PyStr c /\ cluster_id resp = Some c).
Proof.
  unfold make_RiskResponse.
  destruct cid as [| b | z | q | c | l]; cbn [rbind]; try discriminate.
  - destruct (in_0_100 score); [| discriminate].
    intros H. inversion H. cbn. repeat (split; [reflexivity |]). left. auto.
  - destruct (in_0_100 score); [| discriminate].
    intros H. inversion H. cbn. repeat (split; [reflexivity |]). right. eauto.
Qed.

Section Scoring.
Variable settings : Settings.
Variable self : Engine.
Variable tx : TransactionInput.

Lemma score_transaction_flags (w w' : World) (resp : RiskResponse) :
  score_transaction settings self tx w = (Ok resp, w') ->
  exists behav dead device graph vel s_graph s_behavioral s_device s_dead s_velocity,
    behavioral self (sender_id tx) (amount tx) (timestamp tx) (sender_lat tx)
      (sender_lon tx) (ip_address tx) (Some (receiver_id tx)) false = Ok behav
    /\ dead_account self (sender_id tx) (amount tx) = Ok dead
    /\ device_risk self (device_id tx) (sender_id tx) (amount tx) (app_version tx)
         (capability_mask tx) (device_os tx)
         (option_map CredentialType_value (credential_type tx))
         (option_map CredentialSubType_value (credential_sub_type tx)) = Ok device
    /\ graph_intel self (sender_id tx) = Ok graph
    /\ velocity self (sender_id tx) (amount tx) = Ok vel
    /\ sub_scores behav dead device graph vel
       = Ok (s_graph, s_behavioral, s_device, s_dead, s_velocity)
    /\ let fused :=
         fuse settings s_graph (compound_boost settings behav device s_behavioral)
           s_device s_dead s_velocity in
       collect_flags self tx behav dead device graph vel fused = Ok (resp_flags resp)
       /\ risk_level resp = level_of settings fused
       /\ risk_score resp = py_round fused 2.
Proof.
  unfold score_transaction. intros H.
  apply bind_ok in H as (t0 & w0 & Ht0 & H).
  apply bind_ok in H as (behav & w1 & E1 & H). apply lift_inv in E1 as [E1 ->].
  apply bind_ok in H as (dead & w1 & E2 & H). apply lift_inv in E2 as [E2 ->].
  apply bind_ok in H as (device & w1 & E3 & H). apply lift_inv in E3 as [E3 ->].
  apply bind_ok in H as (graph & w1 & E4 & H). apply lift_inv in E4 as [E4 ->].
  apply bind_ok in H as (vel & w1 & E5 & H). apply lift_inv in E5 as [E5 ->].
  apply bind_ok in H as (ss & w1 & E6 & H). apply lift_inv in E6 as [E6 ->].
  destruct ss as [[[[s_graph s_behavioral] s_device] s_dead] s_velocity].
  apply bind_ok in H as (flags & w1 & E7 & H). apply lift_inv in E7 as [E7 ->].
  apply bind_ok in H as (rsn & w1 & E8 & H). apply lift_inv in E8 as [E8 ->].
  apply bind_ok in H as (bd & w1 & E9 & H). apply lift_inv in E9 as [E9 ->].
  apply bind_ok in H as (t1 & w1 & Ht1 & H).
  apply bind_ok in H as (u & w2 & EP & H).
  apply lift_inv in H as [ER ->].
  apply make_RiskResponse_inv in ER as (_ & HR & HL & _ & HF & _).
  exists behav, dead, device, graph, vel, s_graph, s_behavioral, s_device, s_dead, s_velocity.
  cbv zeta. rewrite HF, HR, HL.
  repeat (split; [assumption || reflexivity |]). reflexivity.
Qed.

End Scoring.

Lemma collect_flags_inv (self : Engine) (tx : TransactionInput)
    (behav dead device graph vel : Dict) (fused : Q) (flags : list string) :
  collect_flags self tx behav dead device graph vel fused = Ok flags ->
  exists f1 f2 f3 f4 f5 mule,
    as_list (get_or behav "flags" (PyList [])) = Ok f1
    /\ as_list (get_or dead "flags" (PyList [])) = Ok f2
    /\ as_list (get_or device "flags" (PyList [])) = Ok f3
    /\ as_list (get_or graph "flags" (PyList [])) = Ok f4
    /\ as_list (get_or vel "flags" (PyList [])) = Ok f5
    /\ evaluate behav dead device graph vel fused = Ok mule
    /\ flags
       = fromkeys_list
           ((f1 ++ f2 ++ f3 ++ f4 ++ f5)
            ++ match collusive_detector self with
               | Some detector => get_user_flags detector (sender_id tx)
               | None => []
               end
            ++ (if is_mule mule
                then ("MULE SUSPECTED (confidence=" +:+ format_percent0 (confidence mule)
                      +:+ ")") :: reasons mule
                else [])).
Proof.
  unfold collect_flags.
  destruct (as_list (get_or behav "flags" (PyList []))) as [f1 |]; [| discriminate].
  destruct (as_list (get_or dead "flags" (PyList []))) as [f2 |]; [| discriminate].
  destruct (as_list (get_or device "flags" (PyList []))) as [f3 |]; [| discriminate].
  destruct (as_list (get_or graph "flags" (PyList []))) as [f4 |]; [| discriminate].
  destruct (as_list (get_or vel "flags" (PyList []))) as [f5 |]; [| discriminate].
  cbn [rbind]. cbv zeta.
  destruct (evaluate behav dead device graph vel fused) as [mule |]; [| discriminate].
  cbn [rbind]. intros H. inversion H; clear H.
  exists f1, f2, f3, f4, f5, mule.
  repeat (split; [reflexivity |]).
  destruct (collusive_detector self) as [detector |], (is_mule mule);
    rewrite ?app_nil_r, <- ?app_assoc; reflexivity.
Qed.

(** What a returned response was scored from: the five extractor runs,
    their flag lists, the fused score and the verdict of the classifier. *)
Lemma score_transaction_sources (settings : Settings) (self : Engine)
    (tx : TransactionInput) (w w' : World) (resp : RiskResponse) :
  score_transaction settings self tx w = (Ok resp, w') ->
  exists behav dead device graph vel s_graph s_behavioral s_device s_dead s_velocity
         f1 f2 f3 f4 f5 mule,
    behavioral self (sender_id tx) (amount tx) (timestamp tx) (sender_lat tx)
      (sender_lon tx) (ip_address tx) (Some (receiver_id tx)) false = Ok behav
    /\ dead_account self (sender_id tx) (amount tx) = Ok dead
    /\ device_risk self (device_id tx) (sender_id tx) (amount tx) (app_version tx)
         (capability_mask tx) (device_os tx)
         (option_map CredentialType_value (credential_type tx))
         (option_map CredentialSubType_value (credential_sub_type tx)) = Ok device
    /\ graph_intel self (sender_id tx) = Ok graph
    /\ velocity self (sender_id tx) (amount tx) = Ok vel
    /\ sub_scores behav dead device graph vel
       = Ok (s_graph, s_behavioral, s_device, s_dead, s_velocity)
    /\ as_list (get_or behav "flags" (PyList [])) = Ok f1
    /\ as_list (get_or dead "flags" (PyList [])) = Ok f2
    /\ as_list (get_or device "flags" (PyList [])) = Ok f3
    /\ as_list (get_or graph "flags" (PyList [])) = Ok f4
    /\ as_list (get_or vel "flags" (PyList [])) = Ok f5
    /\ let fused :=
         fuse settings s_graph (compound_boost settings behav device s_behavioral)
           s_device s_dead s_velocity in
       evaluate behav dead device graph vel fused = Ok mule
       /\ resp_flags resp
          = fromkeys_list
              ((f1 ++ f2 ++ f3 ++ f4 ++ f5)
               ++ match collusive_detector self with
                  | Some detector => get_user_flags detector (sender_id tx)
                  | None => []
                  end
               ++ (if is_mule mule
                   then ("MULE SUSPECTED (confidence="
                         +:+ format_percent0 (confidence mule) +:+ ")") :: reasons mule
                   else []))
       /\ risk_level resp = level_of settings fused
       /\ risk_score resp = py_round fused 2.
Proof.
  intros H.
  apply score_transaction_flags in H
    as (behav & dead & device & graph & vel & sg & sb & sd & sx & sv
        & E1 & E2 & E3 & E4 & E5 & E6 & Hflags & HL & HR).
  apply collect_flags_inv in Hflags
    as (f1 & f2 & f3 & f4 & f5 & mule & F1 & F2 & F3 & F4 & F5 & Hev & Hflags).
  exists behav, dead, device, graph, vel, sg, sb, sd, sx, sv, f1, f2, f3, f4, f5, mule.
  cbv zeta. rewrite <- Hflags. tauto.
Qed.

(** X11.  The flags of a response carry no duplicate, and they are the
    flags of the five extractors, then those of the collusion cache, then,
    for a mule, the mule flag and the reasons of the classifier.  With
    [behav], [dead], [device], [graph] and [vel] what the five extractors
    of the engine returned for the transaction, [f1] to [f5] the lists
    under their key ["flags"] and [mule] the verdict of the classifier on
    these five results and the fused score: every one of these sources is
    among the flags of the response, every flag of the response is one of
    them, and the first flag of the sources comes first. *)
Theorem response_flags_unique (settings : Settings) (self : Engine)
    (tx : TransactionInput) (w w' : World) (resp : RiskResponse) :
  score_transaction settings self tx w = (Ok resp, w') ->
  exists behav dead device graph vel s_graph s_behavioral s_device s_dead s_velocity
         f1 f2 f3 f4 f5 mule sources,
    (* the five extractor runs *)
    behavioral self (sender_id tx) (amount tx) (timestamp tx) (sender_lat tx)
      (sender_lon tx) (ip_address tx) (Some (receiver_id tx)) false = Ok behav
    /\ dead_account self (sender_id tx) (amount tx) = Ok dead
    /\ device_risk self (device_id tx) (sender_id tx) (amount tx) (app_version tx)
         (capability_mask tx) (device_os tx)
         (option_map CredentialType_value (credential_type tx))
         (option_map CredentialSubType_value (credential_sub_type tx)) = Ok device
    /\ graph_intel self (sender_id tx) = Ok graph
    /\ velocity self (sender_id tx) (amount tx) = Ok vel
    (* their flags *)
    /\ as_list (get_or behav "flags" (PyList [])) = Ok f1
    /\ as_list (get_or dead "flags" (PyList [])) = Ok f2
    /\ as_list (get_or device "flags" (PyList [])) = Ok f3
    /\ as_list (get_or graph "flags" (PyList [])) = Ok f4
    /\ as_list (get_or vel "flags" (PyList [])) = Ok f5
    (* the verdict of the classifier on the fused score *)
    /\ sub_scores behav dead device graph vel
       = Ok (s_graph, s_behavioral, s_device, s_dead, s_velocity)
    /\ evaluate behav dead device graph vel
         (fuse settings s_graph (compound_boost settings behav device s_behavioral)
            s_device s_dead s_velocity) = Ok mule
    /\ sources
       = (f1 ++ f2 ++ f3 ++ f4 ++ f5)
         ++ match collusive_detector self with
            | Some detector => get_user_flags detector (sender_id tx)
            | None => []
            end
         ++ (if is_mule mule
             then ("MULE SUSPECTED (confidence=" +:+ format_percent0 (confidence mule)
                   +:+ ")") :: reasons mule
             else [])
    /\ resp_flags resp = fromkeys_list sources
    /\ List.NoDup (resp_flags resp)
    /\ (forall flag, In flag (resp_flags resp) <-> In flag sources)
    /\ head (resp_flags resp) = head sources
    /\ (length (resp_flags resp) <= length sources)%nat.
Proof.
  intros H.
  apply score_transaction_sources in H
    as (behav & dead & device & graph & vel & sg & sb & sd & sx & sv
        & f1 & f2 & f3 & f4 & f5 & mule
        & E1 & E2 & E3 & E4 & E5 & E6 & F1 & F2 & F3 & F4 & F5 & Hev & Hflags & _).
  exists behav, dead, device, graph, vel, sg, sb, sd, sx, sv, f1, f2, f3, f4, f5, mule.
  eexists.
  do 12 (split; [eassumption |]).
  split; [reflexivity |].
  split; [exact Hflags |].
  rewrite Hflags. split; [apply NoDup_dedup |].
  split; [intros flag; unfold fromkeys_list; rewrite In_dedup; simpl; tauto |].
  split; [apply head_dedup |].
  apply length_dedup.
Qed.

(** Five extractors that all report 80, on a quiet world. *)
Lemma response_flags_unique_witness :
  exists resp w',
    score_transaction Config.defaults (Fixtures.flat_engine 80) Fixtures.transfer
      Fixtures.quiet_world = (Ok resp, w')
    /\ List.NoDup (resp_flags resp)
    /\ (length (resp_flags resp) <= 1)%nat.
Proof.
  eexists. eexists. split; [vm_compute; reflexivity |].
  match goal with
  | |- List.NoDup (resp_flags ?r) /\ _ =>
      assert (Hev : exists w',
                score_transaction Config.defaults (Fixtures.flat_engine 80)
                  Fixtures.transfer Fixtures.quiet_world = (Ok r, w'))
        by (eexists; vm_compute; reflexivity)
  end.
  destruct Hev as [w' Hev].
  destruct (response_flags_unique _ _ _ _ _ _ Hev)
    as (behav & dead & device & graph & vel & sg & sb & sd & sx & sv
        & f1 & f2 & f3 & f4 & f5 & mule & sources
        & _ & _ & _ & _ & _ & _ & _ & _ & _ & _ & _ & _ & _ & _ & Hnd & _).
  split; [exact Hnd | vm_compute; lia].
Defined.

Lemma level_of_high (settings : Settings) (fused : Q) :
  level_of settings fused = HIGH <-> HIGH_RISK_THRESHOLD settings <= fused.
Proof.
  unfold level_of. case_cmp; [tauto |].
  split; [| intros H; lra].
  destruct (Qleb (MEDIUM_RISK_THRESHOLD settings) fused); discriminate.
Qed.

(** The classifier declares a mule whenever the fused score reaches 65. *)
Lemma evaluate_high_fused (behav dead device graph vel : Dict) (fused : Q)
    (mule : Verdict) :
  evaluate behav dead device graph vel fused = Ok mule ->
  65 <= fused -> is_mule mule = true.
Proof.
  unfold evaluate. intros Hev Hfused.
  destruct (accumulate behav dead device graph vel) as [acc |]; [| discriminate].
  cbn [rbind] in Hev. cbv zeta in Hev. inversion Hev. cbn [is_mule].
  apply orb_true_iff. right. apply Qleb_true. unfold _MULE_RISK_THRESHOLD. lra.
Qed.

(** X12.  A high-risk response is a mule response.  With a high-risk
    threshold of at least 65, the threshold of the mule classifier, as the
    default of 70 is, every response of level [HIGH] carries the flag
    [MULE SUSPECTED (confidence=...)] and every reason of the classifier,
    whatever the confidence; a response without that flag is not of level
    [HIGH].  Here [behav], [dead], [device], [graph] and [vel] are what
    the five extractors of the engine returned for the transaction,
    [fused] is the fusion of their sub-scores, of which the score of the
    response is the rounding, and [mule] is the verdict of the classifier
    on them. *)
Theorem high_risk_carries_mule_flag (settings : Settings) (self : Engine)
    (tx : TransactionInput) (w w' : World) (resp : RiskResponse) :
  65 <= HIGH_RISK_THRESHOLD settings ->
  score_transaction settings self tx w = (Ok resp, w') ->
  risk_level resp = HIGH ->
  exists behav dead device graph vel s_graph s_behavioral s_device s_dead s_velocity
         fused mule,
    (* the five extractor runs *)
    behavioral self (sender_id tx) (amount tx) (timestamp tx) (sender_lat tx)
      (sender_lon tx) (ip_address tx) (Some (receiver_id tx)) false = Ok behav
    /\ dead_account self (sender_id tx) (amount tx) = Ok dead
    /\ device_risk self (device_id tx) (sender_id tx) (amount tx) (app_version tx)
         (capability_mask tx) (device_os tx)
         (option_map CredentialType_value (credential_type tx))
         (option_map CredentialSubType_value (credential_sub_type tx)) = Ok device
    /\ graph_intel self (sender_id tx) = Ok graph
    /\ velocity self (sender_id tx) (amount tx) = Ok vel
    (* the fused score and the verdict *)
    /\ sub_scores behav dead device graph vel
       = Ok (s_graph, s_behavioral, s_device, s_dead, s_velocity)
    /\ fused
       = fuse settings s_graph (compound_boost settings behav device s_behavioral)
           s_device s_dead s_velocity
    /\ evaluate behav dead device graph vel fused = Ok mule
    /\ HIGH_RISK_THRESHOLD settings <= fused
    /\ risk_score resp = py_round fused 2
    /\ is_mule mule = true
    /\ In ("MULE SUSPECTED (confidence=" +:+ format_percent0 (confidence mule) +:+ ")")
          (resp_flags resp)
    /\ (forall r, In r (reasons mule) -> In r (resp_flags resp)).
Proof.
  intros Hthr H Hlevel.
  apply score_transaction_sources in H
    as (behav & dead & device & graph & vel & sg & sb & sd & sx & sv
        & f1 & f2 & f3 & f4 & f5 & mule
        & E1 & E2 & E3 & E4 & E5 & E6 & _ & _ & _ & _ & _ & Hev & Hflags & HL & HR).
  cbv zeta in Hev, Hflags, HL, HR.
  set (fused := fuse settings sg (compound_boost settings behav device sb) sd sx sv) in *.
  rewrite HL in Hlevel. apply level_of_high in Hlevel.
  assert (Hmule : is_mule mule = true).
  { apply (evaluate_high_fused _ _ _ _ _ _ _ Hev). lra. }
  exists behav, dead, device, graph, vel, sg, sb, sd, sx, sv, fused, mule.
  do 6 (split; [eassumption |]).
  split; [reflexivity |].
  split; [exact Hev |]. split; [exact Hlevel |]. split; [exact HR |].
  split; [exact Hmule |].
  rewrite Hflags, Hmule. unfold fromkeys_list.
  split.
  - rewrite In_dedup. split; [| intros []].
    rewrite !in_app_iff. right. right. left. reflexivity.
  - intros r Hr. rewrite In_dedup. split; [| intros []].
    rewrite !in_app_iff. right. right. right. exact Hr.
Qed.

(** Five extractors that all report 80: level [HIGH], flagged as a mule. *)
Lemma high_risk_carries_mule_flag_witness :
  exists resp w',
    score_transaction Config.defaults (Fixtures.flat_engine 80) Fixtures.transfer
      Fixtures.quiet_world = (Ok resp, w')
    /\ risk_level resp = HIGH
    /\ resp_flags resp <> [].
Proof.
  eexists. eexists. split; [vm_compute; reflexivity |].
  split; [reflexivity |].
  match goal with
  | |- resp_flags ?r <> [] =>
      assert (Hev : exists w',
                score_transaction Config.defaults (Fixtures.flat_engine 80)
                  Fixtures.transfer Fixtures.quiet_world = (Ok r, w'))
        by (eexists; vm_compute; reflexivity)
  end.
  destruct Hev as [w' Hev].
  assert (Hthr : 65 <= HIGH_RISK_THRESHOLD Config.defaults) by (vm_compute; discriminate).
  destruct (high_risk_carries_mule_flag _ _ _ _ _ _ Hthr Hev eq_refl)
    as (behav & dead & device & graph & vel & sg & sb & sd & sx & sv & fused & mule
        & _ & _ & _ & _ & _ & _ & _ & _ & _ & _ & _ & Hin & _).
  intros Hnil. rewrite Hnil in Hin. exact Hin.
Defined.

End EngineFlagsSpec.

Module EnginePersistSpec.

Import RiskEngine MuleDetection PyFacts RuntimeFacts.
Local Open Scope Q_scope.

Lemma perf_counter_sim (w1 w2 : World) :
  clock w1 = clock w2 ->
  exists t w1' w2',
    perf_counter w1 = (Ok t, w1') /\ perf_counter w2 = (Ok t, w2')
    /\ clock w1' = clock w2'.
Proof.
  intros H. unfold perf_counter. rewrite H.
  destruct (clock w2) as [| t c] eqn:E.
  - exists 0, w1, w2. repeat split. congruence.
  - exists t, (with_clock w1 c), (with_clock w2 c). repeat split.
Qed.

Lemma persist_returns (m1 m2 : Cypher * Dict) (what : string) (w : World) :
  exists w',
    try_except
      (let! _ := write_async (fst m1) (snd m1) in write_async (fst m2) (snd m2))
      (fun exc => log_record WARNING (what +:+ exc)) w
    = (Ok tt, w')
    /\ clock w' = clock w.
Proof.
  unfold try_except, bind, write_async, log_record.
  destruct (next_fault (neo_faults w)) as [[e1 |] f1]; cbn.
  - eexists. split; reflexivity.
  - destruct (next_fault f1) as [[e2 |] f2]; cbn; eexists; split; reflexivity.
Qed.

Lemma bind_step {A B} (m : M A) (k : A -> M B) (w w' : World) (a : A) :
  m w = (Ok a, w') -> bind m k w = k a w'.
Proof. intros H. unfold bind. rewrite H. reflexivity. Qed.

Lemma bind_lift {A B} (r : result A) (k : A -> M B) (w : World) :
  bind (lift r) k w = match r with Ok a => k a w | Raise e => (Raise e, w) end.
Proof. unfold bind, lift. destruct r; reflexivity. Qed.

(** Two runs of the engine on worlds with the same clock readings end in the
    same result. *)
Lemma score_depends_on_clock (settings : Settings) (self : Engine)
    (tx : TransactionInput) (w1 w2 : World) :
  clock w1 = clock w2 ->
  fst (score_transaction settings self tx w1) = fst (score_transaction settings self tx w2).
Proof.
  intros Hclock. unfold score_transaction.
  destruct (perf_counter_sim w1 w2 Hclock) as (t0 & a1 & a2 & E1 & E2 & Hc).
  rewrite (bind_step _ _ _ _ _ E1), (bind_step _ _ _ _ _ E2).
  rewrite !bind_lift.
  destruct (behavioral self _ _ _ _ _ _ _ _) as [behav | e]; [| reflexivity].
  rewrite !bind_lift.
  destruct (dead_account self _ _) as [dead | e]; [| reflexivity].
  rewrite !bind_lift.
  destruct (device_risk self _ _ _ _ _ _ _ _) as [device | e]; [| reflexivity].
  rewrite !bind_lift.
  destruct (graph_intel self _) as [graph | e]; [| reflexivity].
  rewrite !bind_lift.
  destruct (velocity self _ _) as [vel | e]; [| reflexivity].
  rewrite !bind_lift.
  destruct (sub_scores behav dead device graph vel)
    as [[[[[s_graph s_behavioral] s_device] s_dead] s_velocity] | e]; [| reflexivity].
  cbv zeta. rewrite !bind_lift.
  destruct (collect_flags self tx behav dead device graph vel _) as [flags | e];
    [| reflexivity].
  rewrite !bind_lift.
  destruct (_build_reason settings behav dead device graph vel _ flags) as [rsn | e];
    [| reflexivity].
  rewrite !bind_lift.
  destruct (make_RiskBreakdown _ _ _ _ _) as [bd | e]; [| reflexivity].
  destruct (perf_counter_sim a1 a2 Hc) as (t1 & b1 & b2 & F1 & F2 & Hc').
  rewrite (bind_step _ _ _ _ _ F1), (bind_step _ _ _ _ _ F2).
  match goal with
  | |- fst (bind (try_except (bind (write_async ?q1 ?p1) (fun _ => write_async ?q2 ?p2))
                    (fun exc => log_record WARNING (?what +:+ exc))) _ _) = _ =>
      destruct (persist_returns (q1, p1) (q2, p2) what b1) as (c1 & G1 & _);
      destruct (persist_returns (q1, p1) (q2, p2) what b2) as (c2 & G2 & _)
  end.
  cbn [fst snd] in G1, G2.
  rewrite (bind_step _ _ _ _ _ G1), (bind_step _ _ _ _ _ G2).
  reflexivity.
Qed.

(** X13.  The response does not depend on the store's write side.  Two
    runs of [score_transaction] on worlds with the same clock readings
    return the same response, or raise the same exception, whatever the
    faults of the graph writes, the state of the streams and the counters:
    a failure of the persist step is only logged. *)
Theorem response_ignores_persist_faults (settings : Settings) (self : Engine)
    (tx : TransactionInput) (w1 w2 : World) :
  clock w1 = clock w2 ->
  fst (score_transaction settings self tx w1) = fst (score_transaction settings self tx w2).
Proof. apply score_depends_on_clock. Qed.

(** The same scoring with the graph store up and with its writes failing. *)
Lemma response_ignores_persist_faults_witness :
  let down := with_neo Fixtures.quiet_world [Some "ServiceUnavailable"] [] in
  clock Fixtures.quiet_world = clock down
  /\ fst (score_transaction Config.defaults (Fixtures.flat_engine 80) Fixtures.transfer
            Fixtures.quiet_world)
     = fst (score_transaction Config.defaults (Fixtures.flat_engine 80) Fixtures.transfer
              down).
Proof.
  cbv zeta.
  assert (H : clock Fixtures.quiet_world
              = clock (with_neo Fixtures.quiet_world [Some "ServiceUnavailable"] []))
    by reflexivity.
  split; [exact H |].
  exact (response_ignores_persist_faults Config.defaults (Fixtures.flat_engine 80)
           Fixtures.transfer _ _ H).
Defined.

Lemma level_of_cases (settings : Settings) (fused : Q) :
  (level_of settings fused = HIGH /\ HIGH_RISK_THRESHOLD settings <= fused)
  \/ (level_of settings fused = MEDIUM /\ fused < HIGH_RISK_THRESHOLD settings
      /\ MEDIUM_RISK_THRESHOLD settings <= fused)
  \/ (level_of settings fused = LOW /\ fused < HIGH_RISK_THRESHOLD settings
      /\ fused < MEDIUM_RISK_THRESHOLD settings).
Proof.
  unfold level_of. repeat case_cmp; auto.
Qed.

Lemma py_round_ge (z : Z) (x : Q) (n : nat) : inject_Z z <= x -> inject_Z z <= py_round x n.
Proof.
  intros H.
  apply (py_round_bounds z (Qceiling x) x n). split; [exact H | apply Qle_ceiling].
Qed.

Lemma py_round_le (z : Z) (x : Q) (n : nat) : x <= inject_Z z -> py_round x n <= inject_Z z.
Proof.
  intros H.
  apply (py_round_bounds (Qfloor x) z x n). split; [apply Qfloor_le | exact H].
Qed.

(** X14.  Level of the response and status of the worker.  Under the
    default thresholds the worker derives its status from the rounded
    score while the engine derives the level from the fused risk itself.
    They agree up to the rounding: a [HIGH] response is always [BLOCKED], a
    [MEDIUM] one is [FLAGGED] or [BLOCKED], a [LOW] one is [COMPLETED] or
    [FLAGGED]; a fused risk of 69.996 gives [MEDIUM] with [BLOCKED], and one
    of 39.996 gives [LOW] with [FLAGGED]. *)
Theorem worker_status_follows_level (self : Engine) (tx : TransactionInput)
    (w w' : World) (resp : RiskResponse) :
  score_transaction Config.defaults self tx w = (Ok resp, w') ->
  let status := WorkerPool.tx_status_of Config.defaults (risk_score resp) in
  (risk_level resp = HIGH -> status = "BLOCKED")
  /\ (risk_level resp = MEDIUM -> status = "FLAGGED" \/ status = "BLOCKED")
  /\ (risk_level resp = LOW -> status = "COMPLETED" \/ status = "FLAGGED")
  /\ risk_level resp <> CRITICAL
  /\ (level_of Config.defaults 69.996 = MEDIUM
      /\ WorkerPool.tx_status_of Config.defaults (py_round 69.996 2) = "BLOCKED")
  /\ (level_of Config.defaults 39.996 = LOW
      /\ WorkerPool.tx_status_of Config.defaults (py_round 39.996 2) = "FLAGGED").
Proof.
  intros H.
  apply EngineFlagsSpec.score_transaction_flags in H
    as (behav & dead & device & graph & vel & sg & sb & sd & sx & sv
        & _ & _ & _ & _ & _ & _ & _ & HL & HR).
  cbv zeta in HL, HR. cbv zeta.
  set (fused := fuse Config.defaults sg (compound_boost Config.defaults behav device sb)
                  sd sx sv) in *.
  rewrite HL, HR. unfold WorkerPool.tx_status_of.
  change (HIGH_RISK_THRESHOLD Config.defaults) with 70.0.
  change (MEDIUM_RISK_THRESHOLD Config.defaults) with 40.0.
  destruct (level_of_cases Config.defaults fused)
    as [[E Hh] | [(E & Hh & Hm) | (E & Hh & Hm)]];
    change (HIGH_RISK_THRESHOLD Config.defaults) with 70.0 in *;
    change (MEDIUM_RISK_THRESHOLD Config.defaults) with 40.0 in *;
    rewrite E.
  - pose proof (py_round_ge 70 fused 2) as Hr. change (inject_Z 70) with 70 in Hr.
    assert (Hb : Qleb 70.0 (py_round fused 2) = true) by (apply Qleb_true; lra).
    rewrite Hb.
    split; [reflexivity |]. split; [discriminate |]. split; [discriminate |].
    split; [discriminate |]. split; split; vm_compute; reflexivity.
  - pose proof (py_round_ge 40 fused 2) as Hr. change (inject_Z 40) with 40 in Hr.
    assert (Hb : Qleb 40.0 (py_round fused 2) = true) by (apply Qleb_true; lra).
    rewrite Hb.
    split; [discriminate |].
    split; [intros _; destruct (Qleb 70.0 _); auto |].
    split; [discriminate |].
    split; [discriminate |]. split; split; vm_compute; reflexivity.
  - pose proof (py_round_le 40 fused 2) as Hr. change (inject_Z 40) with 40 in Hr.
    assert (Hb : Qleb 70.0 (py_round fused 2) = false) by (apply Qleb_false; lra).
    rewrite Hb.
    split; [discriminate |]. split; [discriminate |].
    split; [intros _; destruct (Qleb 40.0 _); auto |].
    split; [discriminate |]. split; split; vm_compute; reflexivity.
Qed.

(** Five extractors that all report 80: [HIGH] and [BLOCKED]. *)
Lemma worker_status_follows_level_witness :
  exists resp w',
    score_transaction Config.defaults (Fixtures.flat_engine 80) Fixtures.transfer
      Fixtures.quiet_world = (Ok resp, w')
    /\ risk_level resp = HIGH
    /\ WorkerPool.tx_status_of Config.defaults (risk_score resp) = "BLOCKED".
Proof.
  eexists. eexists. split; [vm_compute; reflexivity |].
  split; [reflexivity |].
  match goal with
  | |- WorkerPool.tx_status_of _ (risk_score ?r) = _ =>
      assert (Hev : exists w',
                score_transaction Config.defaults (Fixtures.flat_engine 80)
                  Fixtures.transfer Fixtures.quiet_world = (Ok r, w'))
        by (eexists; vm_compute; reflexivity)
  end.
  destruct Hev as [w' Hev].
  destruct (worker_status_follows_level _ _ _ _ _ Hev) as (Hhigh & _).
  apply Hhigh. reflexivity.
Defined.

End EnginePersistSpec.

Module BehavioralRangeSpec.

Import Behavioral PyFacts BehavioralSpec.
Local Open Scope Q_scope.

Lemma indicator_nonneg (b : bool) (k : Q) : 0 <= k -> 0 <= indicator b * k.
Proof. intros H. destruct b; unfold indicator; lra. Qed.

(** The scaled ASN risk that [compute_asn_risk] returns lies in [0, 20]. *)
Lemma asn_risk_scaled_range (lib : MathLib) (neo4j : Neo4jReads) (adb : AsnDatabase)
    (sender_id ip : string) :
  0 <= res_asn_risk_scaled (compute_asn_risk lib neo4j adb sender_id ip) <= 20.
Proof.
  unfold compute_asn_risk.
  destruct (negb (valid (resolve adb ip))).
  - cbn. split; unfold Qle; simpl; lia.
  - cbv zeta.
    destruct (asn_history_of lib neo4j sender_id (asn (resolve adb ip))) as [dr en].
    cbn [res_asn_risk_scaled].
    apply (py_round_bounds 0 20).
    apply (AsnSpec.final_asn_risk_bounds lib).
Qed.

Section Range.
Variable settings : Settings.
Variable lib : MathLib.
Variable adb : AsnDatabase.
Variable neo4j : Neo4jReads.

Variable history : list HistoryRow.
Variable profile_rows : list ProfileRow.
Variable sender_id : string.
Variable amount : Q.
Variable timestamp : Datetime.
Variables sender_lat sender_lon : option Q.
Variables ip_address receiver_id : option string.
Variable is_new_device : bool.

Abbreviation located := (Views.located profile_rows sender_lat sender_lon).
Abbreviation distance := (Views.distance lib profile_rows sender_lat sender_lon).

(** The record behind returned signals. *)
Ltac record_of H :=
  unfold signals in H; fold located in H; fold distance in H;
  destruct located;
  [ destruct distance as [geo_distance | e]; cbn [rbind] in H;
    [ match type of H with
      | context [if ?c then Ok _ else Ok _] => destruct c
      end; cbn [rbind] in H
    | repeat match type of H with
        | context [let '(_, _) := ?e in _] => destruct e
        end; discriminate H ]
  | cbn [rbind] in H ];
  repeat match type of H with
    | context [let '(_, _) := ?e in _] => destruct e
    end;
  injection H as <-.

Lemma signals_velocity_score_range (s : Signals) :
  signals settings lib adb neo4j history profile_rows sender_id amount timestamp
    sender_lat sender_lon ip_address receiver_id is_new_device = Ok s ->
  0 <= velocity_score s <= 1.
Proof.
  intros H. record_of H; cbn [velocity_score];
    match goal with
    | |- 0 <= py_min (inject_Z (Z.of_nat ?n) / inject_Z ?d) 1.0 <= 1 =>
        assert (Hn : 0 <= inject_Z (Z.of_nat n))
          by (change 0 with (inject_Z 0); rewrite <- Zle_Qle; lia);
        assert (Hd : 0 < inject_Z d)
          by (change 0 with (inject_Z 0); rewrite <- Zlt_Qlt; lia);
        pose proof (py_min_le_r (inject_Z (Z.of_nat n) / inject_Z d) 1.0) as Hle
    end;
    (split; [| lra]);
    (apply py_min_glb; [| unfold Qle; simpl; lia]);
    (apply Qle_shift_div_l; [exact Hd | lra]).
Qed.

Lemma signals_asn_risk_scaled_range (s : Signals) :
  signals settings lib adb neo4j history profile_rows sender_id amount timestamp
    sender_lat sender_lon ip_address receiver_id is_new_device = Ok s ->
  0 <= asn_risk_scaled s <= 20.
Proof.
  intros H. record_of H; cbn [asn_risk_scaled];
    (destruct ip_address as [ip |]; [| split; unfold Qle; simpl; lia]);
    (destruct (String.eqb ip ""); [split; unfold Qle; simpl; lia |]);
    apply asn_risk_scaled_range.
Qed.

(** X15.  The behavioural risk stays in range.  With penalties that are
    not negative, as the defaults are, every one of the twelve terms of the
    behavioural sum is non-negative for every store, library and
    transaction whose signals are computed, so the risk, the sum clamped at
    100, lies in [0, 100], and so does the rounded [risk] entry that the
    engine reads.  The signals are computed unless the distance to the last
    known place is needed and its square root is undefined. *)
Theorem behavioural_risk_in_range :
  0 <= IP_ROTATION_PENALTY settings ->
  0 <= FIXED_AMOUNT_PENALTY settings ->
  0 <= CIRCADIAN_ANOMALY_PENALTY settings ->
  0 <= CIRCADIAN_NEW_DEVICE_PENALTY settings ->
  0 <= TX_IDENTICALITY_PENALTY settings ->
  ((located = true -> is_ok distance = true) ->
   exists s,
     signals settings lib adb neo4j history profile_rows sender_id amount timestamp
       sender_lat sender_lon ip_address receiver_id is_new_device = Ok s)
  /\ forall s,
       signals settings lib adb neo4j history profile_rows sender_id amount timestamp
         sender_lat sender_lon ip_address receiver_id is_new_device = Ok s ->
       0 <= zscore_term s <= 30
       /\ 0 <= velocity_term s <= 20
       /\ 0 <= asn_term s <= 20
       /\ 0 <= circadian_term s
       /\ 0 <= risk_sum settings s
       /\ 0 <= risk_of settings s <= 100
       /\ features_of settings s amount !! "risk"
          = Some (PyFloat (py_round (risk_of settings s) 2))
       /\ 0 <= py_round (risk_of settings s) 2 <= 100.
Proof.
  intros Hip Hfa Hca Hcn Hid.
  split; [apply signals_defined |].
  intros s Hs.
  pose proof (signals_velocity_score_range s Hs) as Hv.
  pose proof (signals_asn_risk_scaled_range s Hs) as Ha.
  pose proof (signals_circadian settings lib adb neo4j history profile_rows sender_id
                amount timestamp sender_lat sender_lon ip_address receiver_id
                is_new_device s Hs) as Hc.
  assert (Hz : 0 <= zscore_term s <= 30).
  { unfold zscore_term. split; [| apply py_min_le_r].
    apply py_min_glb; [| unfold Qle; simpl; lia].
    pose proof (Qabs_nonneg (amount_zscore s)). lra. }
  assert (Hvt : 0 <= velocity_term s <= 20) by (unfold velocity_term; lra).
  assert (Hcirc : 0 <= circadian_term s).
  { unfold circadian_term.
    pose proof (circadian_of_score settings neo4j sender_id (hour timestamp) is_new_device)
      as Hsc.
    rewrite <- Hc in Hsc. cbn [fst snd] in Hsc. rewrite Hsc.
    destruct (circadian_anomaly s); [| unfold Qle; simpl; lia].
    destruct is_new_device; assumption. }
  assert (Hsum : 0 <= risk_sum settings s).
  { unfold risk_sum.
    pose proof (indicator_nonneg (impossible_travel s) 20) as H1.
    pose proof (indicator_nonneg (night_flag s) 5) as H2.
    pose proof (indicator_nonneg (iqr_outlier_flag s) 15) as H3.
    pose proof (indicator_nonneg (spike s) 10) as H4.
    pose proof (indicator_nonneg (truthy (dormant_burst s)) 15) as H5.
    unfold travel_term, night_term, iqr_term, spike_term, dormant_term, asn_term,
      ip_rotation_term, fixed_amount_term, identicality_term.
    assert (0 <= (if ip_rotation_flag s then IP_ROTATION_PENALTY settings else 0.0))
      by (destruct (ip_rotation_flag s); [assumption | unfold Qle; simpl; lia]).
    assert (0 <= (if fixed_amount_flag s then FIXED_AMOUNT_PENALTY settings else 0.0))
      by (destruct (fixed_amount_flag s); [assumption | unfold Qle; simpl; lia]).
    assert (0 <= (if tx_identicality_flag s then TX_IDENTICALITY_PENALTY settings else 0.0))
      by (destruct (tx_identicality_flag s); [assumption | unfold Qle; simpl; lia]).
    lra. }
  assert (Hrisk : 0 <= risk_of settings s <= 100).
  { unfold risk_of. split; [apply py_min_glb; [exact Hsum | unfold Qle; simpl; lia] |].
    pose proof (py_min_le_r (risk_sum settings s) 100.0). lra. }
  split; [exact Hz |]. split; [exact Hvt |]. split; [exact Ha |].
  split; [exact Hcirc |]. split; [exact Hsum |]. split; [exact Hrisk |].
  split; [reflexivity |].
  apply (py_round_bounds 0 100). exact Hrisk.
Qed.

End Range.

(** The transfer of 1100 at dawn, under the default penalties. *)
Lemma behavioural_risk_in_range_witness :
  exists s,
    signals Config.defaults Fixtures.flat_lib Fixtures.no_asn_database
      Fixtures.day_user_store [] [] "U0001" 1100 Fixtures.dawn None None None
      (Some "U0002") false = Ok s
    /\ 0 <= risk_of Config.defaults s <= 100.
Proof.
  destruct (behavioural_risk_in_range Config.defaults Fixtures.flat_lib
              Fixtures.no_asn_database Fixtures.day_user_store [] [] "U0001" 1100
              Fixtures.dawn None None None (Some "U0002") false)
    as [Hdefined Hrange];
    [vm_compute; discriminate | vm_compute; discriminate | vm_compute; discriminate
    | vm_compute; discriminate | vm_compute; discriminate |].
  destruct Hdefined as [s Hs]; [discriminate |].
  exists s. split; [exact Hs |].
  apply (Hrange s Hs).
Defined.

(** X16.  A first transaction carries no amount signal.  For a sender with
    no history rows and no profile row, whatever the amount, the signals
    are computed, the z-score is 0, there is no spike, no dormant burst, no
    impossible travel and no IQR outlier, and the velocity score is 0: the
    behavioural sum is made of the night, ASN, IP-rotation, fixed-amount,
    circadian and identicality terms alone, and none of the amount or
    travel flags is raised. *)
Theorem first_transaction_has_no_amount_signal
    (settings : Settings) (lib : MathLib) (adb : AsnDatabase) (neo4j : Neo4jReads)
    (sender_id : string) (amount : Q) (timestamp : Datetime)
    (sender_lat sender_lon : option Q) (ip_address receiver_id : option string)
    (is_new_device : bool) :
  exists s,
    signals settings lib adb neo4j [] [] sender_id amount timestamp
      sender_lat sender_lon ip_address receiver_id is_new_device = Ok s
    /\ amount_zscore s = 0.0
    /\ rolling_mean s = amount
    /\ spike s = false
    /\ truthy (dormant_burst s) = false
    /\ impossible_travel s = false
    /\ iqr_outlier_flag s = false
    /\ velocity_score s == 0
    /\ risk_sum settings s
       == night_term s + asn_term s + ip_rotation_term settings s
          + fixed_amount_term settings s + circadian_term s + identicality_term settings s
    /\ features_of settings s amount !! "spike_flag" = Some (PyBool false)
    /\ features_of settings s amount !! "impossible_travel" = Some (PyBool false)
    /\ features_of settings s amount !! "dormant_burst" = Some (PyBool false).
Proof.
  assert (H : exists s,
              signals settings lib adb neo4j [] [] sender_id amount timestamp
                sender_lat sender_lon ip_address receiver_id is_new_device = Ok s
              /\ amount_zscore s = 0.0 /\ rolling_mean s = amount /\ spike s = false
              /\ dormant_burst s = PyBool false /\ impossible_travel s = false
              /\ iqr_outlier_flag s = false
              /\ velocity_score s
                 = py_min (inject_Z (Z.of_nat 0)
                           / inject_Z (Z.max (BURST_TX_THRESHOLD settings) 1)) 1.0).
  { unfold signals. cbn [head filter_map length Nat.leb column default].
    change (Qltb 0 0.0) with false.
    change (truthyQ None) with false.
    rewrite !andb_false_r.
    cbv beta iota. cbn [rbind].
    open_lets.
    eexists. split; [reflexivity |].
    cbn [amount_zscore rolling_mean spike dormant_burst impossible_travel
         iqr_outlier_flag velocity_score truthy negb length List.filter].
    repeat split. }
  destruct H as (s & Hsig & Hz & Hm & Hs & Hd & Ht & Hi & Hv).
  exists s. split; [exact Hsig |].
  assert (Hv0 : velocity_score s == 0).
  { rewrite Hv. change (inject_Z (Z.of_nat 0)) with 0.
    rewrite (VelocitySpec.py_min_eq_l (0 / _) 1.0).
    - unfold Qdiv. ring.
    - unfold Qdiv. rewrite Qmult_0_l. unfold Qle; simpl; lia. }
  split; [exact Hz |]. split; [exact Hm |]. split; [exact Hs |].
  split; [rewrite Hd; reflexivity |]. split; [exact Ht |]. split; [exact Hi |].
  split; [exact Hv0 |].
  split.
  { unfold risk_sum, zscore_term, velocity_term, travel_term, iqr_term, spike_term,
      dormant_term.
    rewrite Hz, Hs, Hd, Ht, Hi, Hv0. cbn [truthy indicator].
    assert (Hq : py_min (Qabs 0.0 * 10) 30 == 0) by (vm_compute; reflexivity).
    rewrite Hq. ring. }
  unfold features_of.
  split; [rewrite Hs; reflexivity |].
  split; [rewrite Ht; reflexivity |].
  rewrite Hd. reflexivity.
Qed.

End BehavioralRangeSpec.

Module AsnClassSpec.

Import AsnIntelligence PyFacts.
Local Open Scope Q_scope.

Lemma keyword_class_in (org : string) (kws : list (string * string)) (cls : string) :
  keyword_class org kws = Some cls -> In cls (map snd kws).
Proof.
  induction kws as [| [k c] kws IH]; simpl; [discriminate |].
  destruct (str_contains k org).
  - intros [= <-]. left. reflexivity.
  - intros H. right. apply IH, H.
Qed.

Lemma classify_indian_asn_classes (a : Z) (org : string) :
  In (_classify_indian_asn a org)
     ["MOBILE_ISP"; "BROADBAND"; "ENTERPRISE"; "INDIAN_CLOUD"; "HOSTING"; "UNKNOWN"]%string.
Proof.
  unfold _classify_indian_asn.
  destruct (asn_in a _MOBILE_ISP_ASNS); [simpl; tauto |].
  destruct (asn_in a _BROADBAND_ASNS); [simpl; tauto |].
  destruct (asn_in a _ENTERPRISE_ASNS); [simpl; tauto |].
  destruct (asn_in a _INDIAN_CLOUD_ASNS); [simpl; tauto |].
  destruct (asn_in a _HOSTING_ASNS); [simpl; tauto |].
  cbv zeta.
  destruct (keyword_class (str_lower org) _ORG_KEYWORDS) as [cls |] eqn:Hk;
    [| simpl; tauto].
  apply keyword_class_in in Hk. simpl in Hk.
  repeat match type of Hk with
         | _ \/ _ => destruct Hk as [Hk | Hk]
         end;
    try (subst cls; simpl; tauto).
  contradiction.
Qed.

Lemma indian_class_base (cls : string) :
  In cls ["MOBILE_ISP"; "BROADBAND"; "ENTERPRISE"; "INDIAN_CLOUD"; "HOSTING"; "UNKNOWN"]%string ->
  cls <> "FOREIGN"%string
  /\ 0 <= py_round (default 0.5 (assoc_get cls _CLASS_BASE_SCORES)) 3 <= 0.7.
Proof.
  simpl.
  intros [<- | [<- | [<- | [<- | [<- | [<- | []]]]]]];
    (split; [discriminate | split; vm_compute; discriminate]).
Qed.

(** X17.  Indian or foreign, never both.  [resolve] answers in one of three
    shapes.  An address that is not public IPv4, or that the database does
    not know (no reader, a failing read, no record), gives the null result:
    class UNKNOWN, base 0, no foreign flag.  A record registered in IN gives
    foreign flag 0, one of the six Indian classes, never FOREIGN, and a base
    between 0 and 0.7; an ASN of the curated mobile list is MOBILE_ISP with
    base 0 whatever the organisation is called.  Every other record gives
    foreign flag 1, class FOREIGN and base 0.8. *)
Theorem resolve_indian_or_foreign (adb : AsnDatabase) (ip : string) :
  let info := resolve adb ip in
  (info = _NULL_RESULT
   /\ (_is_valid_public_ipv4 adb ip = false
       \/ reader adb = None
       \/ exists rd, reader adb = Some rd
                     /\ ((exists e, rd ip = Raise e) \/ rd ip = Ok None)))
  \/ (valid info = true /\ is_indian info = true /\ country info = "IN"%string
      /\ foreign_flag info = 0%Z
      /\ In (asn_class info)
            ["MOBILE_ISP"; "BROADBAND"; "ENTERPRISE"; "INDIAN_CLOUD"; "HOSTING";
             "UNKNOWN"]%string
      /\ asn_class info <> "FOREIGN"%string
      /\ 0 <= asn_base info <= 0.7
      /\ (asn_in (asn info) _MOBILE_ISP_ASNS = true ->
          asn_class info = "MOBILE_ISP"%string /\ asn_base info == 0))
  \/ (valid info = true /\ is_indian info = false /\ country info <> "IN"%string
      /\ foreign_flag info = 1%Z
      /\ asn_class info = "FOREIGN"%string
      /\ asn_base info == 0.8).
Proof.
  cbv zeta. unfold resolve.
  destruct (_is_valid_public_ipv4 adb ip); cbn [negb];
    [| left; split; [reflexivity | left; reflexivity]].
  destruct (reader adb) as [rd |];
    [| left; split; [reflexivity | right; left; reflexivity]].
  destruct (rd ip) as [[data |] | e] eqn:Hrd.
  - right. cbv zeta.
    set (country := str_upper (default ""%string
                                 (org_country (default {| org_name := None;
                                                          org_country := None |}
                                                       (organization data))))).
    destruct (String.eqb country "IN") eqn:Hc; cbn [negb].
    + left. cbn [valid is_indian AsnIntelligence.country foreign_flag asn_class
                 asn_base asn].
      apply String.eqb_eq in Hc.
      pose proof (classify_indian_asn_classes
                    (default 0%Z (mmdb_asn data))
                    (default ""%string
                       (org_name (default {| org_name := None; org_country := None |}
                                          (organization data))))) as Hin.
      destruct (indian_class_base _ Hin) as [Hnf Hb].
      do 2 (split; [reflexivity |]). split; [exact Hc |].
      split; [reflexivity |].
      split; [exact Hin |]. split; [exact Hnf |]. split; [exact Hb |].
      intros Hmob. unfold _classify_indian_asn. rewrite Hmob.
      split; [reflexivity | vm_compute; reflexivity].
    + right. cbn [valid is_indian AsnIntelligence.country foreign_flag asn_class
                  asn_base asn].
      apply String.eqb_neq in Hc.
      do 2 (split; [reflexivity |]). split; [exact Hc |].
      do 2 (split; [reflexivity |]). vm_compute. reflexivity.
  - left. split; [reflexivity |]. right. right. exists rd.
    split; [reflexivity | right; exact Hrd].
  - left. split; [reflexivity |]. right. right. exists rd.
    split; [reflexivity | left; exists e; exact Hrd].
Qed.

End AsnClassSpec.

Module IngestRetrySpec.

Import Runtime WorkerPool RuntimeFacts FeatureViews.

Lemma write_async_fault (q : Cypher) (p : Dict) (w : World) (e : Exn) (f : Faults) :
  neo_faults w = Some e :: f ->
  write_async q p w = (Raise e, with_neo w f (neo_commits w)).
Proof. intros H. unfold write_async. rewrite H. reflexivity. Qed.

Lemma write_async_through (q : Cypher) (p : Dict) (w : World) (f : Faults) :
  neo_faults w = None :: f ->
  write_async q p w = (Ok tt, with_neo w f (neo_commits w ++ [(q, p)])).
Proof. intros H. unfold write_async. rewrite H. reflexivity. Qed.

Lemma bind_run {A B} (m : M A) (k : A -> M B) (w w' : World) (a : A) :
  m w = (Ok a, w') -> bind m k w = k a w'.
Proof. intros H. unfold bind. rewrite H. reflexivity. Qed.

Lemma with_rng_same (w : World) : with_rng w (rng w) = w.
Proof. destruct w. reflexivity. Qed.

Lemma random_uniform_runs (a b : Q) (w : World) :
  exists x r, random_uniform a b w = (Ok x, with_rng w r).
Proof.
  unfold random_uniform, bind, random, ret.
  destruct (rng w) as [| u r] eqn:Hr.
  - eexists. exists []. rewrite <- Hr, with_rng_same. reflexivity.
  - eexists. exists r. reflexivity.
Qed.

Lemma store_is_trans (w w1 w2 : World) (f f' : Faults) (c c' : list (Cypher * Dict))
    (d d' : Z) :
  store_is w f c d w1 -> store_is w1 f' c' d' w2 -> store_is w f' c' d' w2.
Proof.
  unfold store_is. intros (_ & _ & _ & H1 & H2 & H3 & H4 & H5) (G1 & G2 & G3 & G4 & G5 & G6 & G7 & G8).
  repeat split; congruence.
Qed.

(** One failed attempt that is tried again. *)
Lemma retry_step (fb : option (M unit)) (q : Cypher) (p : Dict) (a n : nat)
    (w : World) (e : Exn) (f : Faults) :
  neo_faults w = Some e :: f ->
  fb = None \/ is_not_found e = false ->
  (S a <? _MAX_RETRIES)%nat = true ->
  is_constraint e || is_transient e = true ->
  exists w1,
    ingest_attempts fb q p a (S n) w = ingest_attempts fb q p (S a) n w1
    /\ store_is w f (neo_commits w)
         (deadlock_retries (pool w) + (if is_constraint e then 0 else 1)) w1.
Proof.
  intros Hf Hfb Ha He.
  cbn [ingest_attempts]. unfold try_except at 1.
  rewrite (write_async_fault q p w e f Hf). cbv zeta.
  unfold is_not_found, is_constraint, is_transient in *.
  assert (Hmatch :
    forall (X : M unit),
      match fb with
      | Some safe_ingest =>
          if str_contains "not found" (str_lower e) || str_contains "no node" (str_lower e)
          then (let! _ := log_record DEBUG "User not pre-seeded, falling back to SAFE ingest" in
                safe_ingest)
          else X
      | None => X
      end = X).
  { intros X. destruct Hfb as [-> | ->]; [reflexivity |]. destruct fb; reflexivity. }
  rewrite Hmatch. clear Hmatch.
  rewrite Ha.
  destruct (random_uniform_runs 0 0.01 (with_neo w f (neo_commits w))) as (x & r & Hru).
  destruct (str_contains "constraint" (str_lower e)) eqn:Hc; cbn [andb orb] in *.
  - erewrite bind_run by exact Hru.
    erewrite bind_run by reflexivity.
    erewrite bind_run by reflexivity.
    eexists. split; [reflexivity |].
    unfold store_is; cbn; rewrite Z.add_0_r; repeat split.
  - rewrite He. cbn [andb].
    erewrite bind_run by exact Hru.
    erewrite bind_run by reflexivity.
    erewrite bind_run by reflexivity.
    erewrite bind_run by reflexivity.
    erewrite bind_run by reflexivity.
    eexists. split; [reflexivity |].
    unfold store_is; cbn; repeat split.
Qed.

(** The errors [es] are each retried. *)
Lemma retried_prefix (fb : option (M unit)) (q : Cypher) (p : Dict) (rest : Faults)
    (es : list Exn) :
  forall (a n : nat) (w : World),
    neo_faults w = map Some es ++ rest ->
    (a + length es < _MAX_RETRIES)%nat ->
    Forall (fun e => (fb = None \/ is_not_found e = false)
                     /\ is_constraint e || is_transient e = true) es ->
    exists w1,
      ingest_attempts fb q p a (S (length es + n)) w
      = ingest_attempts fb q p (a + length es) (S n) w1
      /\ store_is w rest (neo_commits w) (deadlock_retries (pool w) + deadlocks es) w1.
Proof.
  induction es as [| e es IH]; intros a n w Hf Ha Hes.
  - cbn [length Nat.add map app] in *. rewrite Nat.add_0_r.
    exists w. split; [reflexivity |].
    unfold store_is, deadlocks. cbn. rewrite Z.add_0_r. repeat split. exact Hf.
  - inversion Hes as [| ? ? [Hfb He] Hrest]; subst.
    cbn [length map app] in *.
    assert (Hlt : (S a <? _MAX_RETRIES)%nat = true)
      by (apply Nat.ltb_lt; unfold _MAX_RETRIES in *; lia).
    destruct (retry_step fb q p a (S (length es + n)) w e _ Hf Hfb Hlt He)
      as (w1 & Hstep & Hst).
    cbn [Nat.add]. rewrite Hstep.
    destruct Hst as (Hf1 & Hc1 & Hd1 & Hrest1).
    destruct (IH (S a) n w1 Hf1 ltac:(lia) Hrest) as (w' & Hrun & Hst').
    exists w'. split; [rewrite Hrun; f_equal; lia |].
    rewrite Hc1, Hd1 in Hst'.
    assert (Hd : (deadlock_retries (pool w) + deadlocks (e :: es)
                  = deadlock_retries (pool w) + (if is_constraint e then 0 else 1)
                    + deadlocks es)%Z).
    { unfold deadlocks. cbn [List.filter].
      destruct (is_constraint e); cbn [negb length]; lia. }
    rewrite Hd.
    destruct Hst' as (G1 & G2 & G3 & G4 & G5 & G6 & G7 & G8).
    destruct Hrest1 as (K4 & K5 & K6 & K7 & K8).
    unfold store_is. repeat split; congruence.
Qed.

(** The fallback of [_ingest_with_retry] and the errors that do not take it. *)
Lemma no_fallback_taken (q : Cypher) (p : Dict) (es : list Exn) :
  Forall (fun e => is_constraint e || is_transient e = true) es ->
  Forall (fun e => Cypher_eqb q INGEST_TRANSACTION && is_not_found e = false) es ->
  Forall (fun e =>
            ((if Cypher_eqb q INGEST_TRANSACTION
              then Some (ingest_attempts None INGEST_TRANSACTION_SAFE p 0 _MAX_RETRIES)
              else None) = None \/ is_not_found e = false)
            /\ is_constraint e || is_transient e = true) es.
Proof.
  intros H1 H2. induction es as [| e es IH]; constructor.
  - inversion H1; inversion H2; subst. split; [| assumption].
    destruct (Cypher_eqb q INGEST_TRANSACTION); [right | left; reflexivity].
    cbn [andb] in *. assumption.
  - inversion H1; inversion H2; subst. apply IH; assumption.
Qed.

Lemma no_fallback_for (q : Cypher) (p : Dict) (e : Exn) :
  Cypher_eqb q INGEST_TRANSACTION && is_not_found e = false ->
  (if Cypher_eqb q INGEST_TRANSACTION
   then Some (ingest_attempts None INGEST_TRANSACTION_SAFE p 0 _MAX_RETRIES)
   else None) = None \/ is_not_found e = false.
Proof.
  destruct (Cypher_eqb q INGEST_TRANSACTION); [right | left; reflexivity].
  cbn [andb] in *. assumption.
Qed.

(** The last attempt, or one that meets an error that is not retried. *)
Lemma final_step (fb : option (M unit)) (q : Cypher) (p : Dict) (a n : nat)
    (w : World) (e : Exn) (f : Faults) :
  neo_faults w = Some e :: f ->
  fb = None \/ is_not_found e = false ->
  (if is_constraint e then (S a <? _MAX_RETRIES)%nat = false
   else (S a <? _MAX_RETRIES)%nat = false \/ is_transient e = false) ->
  exists w1,
    ingest_attempts fb q p a (S n) w
    = (if is_constraint e then Ok tt else Raise e, w1)
    /\ store_is w f (neo_commits w) (deadlock_retries (pool w)) w1.
Proof.
  intros Hf Hfb Hlast.
  cbn [ingest_attempts]. unfold try_except at 1.
  rewrite (write_async_fault q p w e f Hf). cbv zeta.
  unfold is_not_found, is_constraint, is_transient in *.
  assert (Hmatch :
    forall (X : M unit),
      match fb with
      | Some safe_ingest =>
          if str_contains "not found" (str_lower e) || str_contains "no node" (str_lower e)
          then (let! _ := log_record DEBUG "User not pre-seeded, falling back to SAFE ingest" in
                safe_ingest)
          else X
      | None => X
      end = X).
  { intros X. destruct Hfb as [-> | ->]; [reflexivity |]. destruct fb; reflexivity. }
  rewrite Hmatch. clear Hmatch.
  destruct (str_contains "constraint" (str_lower e)) eqn:Hc; cbn [andb orb] in *.
  - rewrite Hlast. eexists. split; [reflexivity |].
    unfold store_is; cbn; repeat split.
  - assert (Hno : (str_contains "deadlock" (str_lower e)
                   || str_contains "transient" (str_lower e))
                  && (S a <? _MAX_RETRIES)%nat = false).
    { destruct Hlast as [-> | ->]; [apply andb_false_r | reflexivity]. }
    rewrite Hno. eexists. split; [reflexivity |].
    unfold store_is; cbn; repeat split.
Qed.

Section Retry.
Variable query : Cypher.
Variable params : Dict.
Variable w : World.
Variable es : list Exn.
Variable f : Faults.

(** X18.  A retried write is committed once.  When the coming writes meet
    at most two errors, each a constraint race or a transient (deadlock)
    error and none taking the fallback to the safe statement, and the next
    write goes through, [_ingest_with_retry] returns: the statement is
    committed exactly once, the fault tape is consumed up to the successful
    write, and [deadlock_retries] has grown by the number of transient
    errors that were not constraint errors. *)
Theorem retried_write_commits_once :
  neo_faults w = map Some es ++ None :: f ->
  (length es < _MAX_RETRIES)%nat ->
  Forall (fun e => is_constraint e || is_transient e = true) es ->
  Forall (fun e => Cypher_eqb query INGEST_TRANSACTION && is_not_found e = false) es ->
  exists w',
    _ingest_with_retry query params w = (Ok tt, w')
    /\ store_is w f (neo_commits w ++ [(query, params)])
         (deadlock_retries (pool w) + deadlocks es) w'
    /\ (0 <= deadlocks es <= 2)%Z.
Proof.
  intros Hf Hlen Hretry Hnf.
  unfold _ingest_with_retry. cbv zeta.
  set (fb := if Cypher_eqb query INGEST_TRANSACTION then _ else None).
  pose proof (no_fallback_taken query params es Hretry Hnf) as Hes. fold fb in Hes.
  assert (Hn : exists n, _MAX_RETRIES = S (length es + n))
    by (exists (_MAX_RETRIES - S (length es))%nat; unfold _MAX_RETRIES in *; lia).
  destruct Hn as [n Hn]. rewrite Hn.
  destruct (retried_prefix fb query params (None :: f) es 0 n w Hf Hlen Hes)
    as (w1 & Hrun & Hst).
  rewrite Hrun. cbn [ingest_attempts]. unfold try_except.
  destruct Hst as (G1 & G2 & G3 & G4 & G5 & G6 & G7 & G8).
  rewrite (write_async_through query params w1 f G1).
  eexists. split; [reflexivity |]. split.
  - unfold store_is. cbn. repeat split; congruence.
  - unfold deadlocks.
    pose proof (filter_length_le (fun e => negb (is_constraint e)) es).
    unfold _MAX_RETRIES in *. lia.
Qed.

Variable e : Exn.

(** X19.  How the retry loop ends on an error.  After at most two retried
    errors, an error that is not retried decides the outcome.  A constraint
    error met on the third attempt is swallowed: [_ingest_with_retry]
    returns normally although nothing has been committed, and the caller
    goes on to score a transaction that the graph does not hold.  An error
    that is no constraint error, and is either not transient or met on the
    third attempt, comes out as it is.  Either way nothing is committed and
    the deadlock counter has grown only by the retries before. *)
Theorem retry_loop_ends_on_error :
  neo_faults w = map Some es ++ Some e :: f ->
  (length es < _MAX_RETRIES)%nat ->
  Forall (fun e => is_constraint e || is_transient e = true) es ->
  Forall (fun e => Cypher_eqb query INGEST_TRANSACTION && is_not_found e = false)
         (e :: es) ->
  S (length es) = _MAX_RETRIES \/ is_constraint e || is_transient e = false ->
  exists w',
    _ingest_with_retry query params w
    = (if is_constraint e then Ok tt else Raise e, w')
    /\ store_is w f (neo_commits w) (deadlock_retries (pool w) + deadlocks es) w'.
Proof.
  intros Hf Hlen Hretry Hnf Hlast.
  inversion Hnf as [| ? ? Hnfe Hnfes]; subst.
  unfold _ingest_with_retry. cbv zeta.
  set (fb := if Cypher_eqb query INGEST_TRANSACTION then _ else None).
  pose proof (no_fallback_taken query params es Hretry Hnfes) as Hes. fold fb in Hes.
  pose proof (no_fallback_for query params e Hnfe) as Hfb. fold fb in Hfb.
  assert (Hn : exists n, _MAX_RETRIES = S (length es + n))
    by (exists (_MAX_RETRIES - S (length es))%nat; unfold _MAX_RETRIES in *; lia).
  destruct Hn as [n Hn]. rewrite Hn.
  destruct (retried_prefix fb query params (Some e :: f) es 0 n w Hf Hlen Hes)
    as (w1 & Hrun & Hst).
  rewrite Hrun.
  destruct Hst as (G1 & G2 & G3 & G4 & G5 & G6 & G7 & G8).
  destruct (final_step fb query params (0 + length es) n w1 e f G1 Hfb) as (w' & Hfin & Hst').
  { cbn [Nat.add].
    destruct Hlast as [Hl | Hno].
    - assert (Hge : (S (length es) <? _MAX_RETRIES)%nat = false)
        by (apply Nat.ltb_ge; lia).
      destruct (is_constraint e); [exact Hge | left; exact Hge].
    - apply orb_false_elim in Hno as [Hc Ht]. rewrite Hc. right. exact Ht. }
  exists w'. split; [exact Hfin |].
  destruct Hst' as (K1 & K2 & K3 & K4 & K5 & K6 & K7 & K8).
  unfold store_is; repeat split; congruence.
Qed.

(** X20.  A missing user sends the ingest to the safe statement.  When the
    lock-free [INGEST_TRANSACTION] meets an error that reads as not found,
    whatever else the text says, the call continues as a fresh
    [_ingest_with_retry] of [INGEST_TRANSACTION_SAFE] with the same
    parameters and its own three attempts, after one DEBUG record; nothing
    has been committed or counted meanwhile. *)
Theorem missing_user_falls_back_to_safe :
  neo_faults w = Some e :: f ->
  is_not_found e = true ->
  exists w1,
    _ingest_with_retry INGEST_TRANSACTION params w
    = _ingest_with_retry INGEST_TRANSACTION_SAFE params w1
    /\ store_is w f (neo_commits w) (deadlock_retries (pool w)) w1
    /\ logged w1
       = logged w ++ [(DEBUG, "User not pre-seeded, falling back to SAFE ingest"%string)].
Proof.
  intros Hf Hnf.
  unfold _ingest_with_retry. cbv zeta. cbn [Cypher_eqb].
  unfold _MAX_RETRIES at 2. cbn [ingest_attempts]. unfold try_except at 1.
  rewrite (write_async_fault INGEST_TRANSACTION params w e f Hf). cbv zeta.
  unfold is_not_found in Hnf. rewrite Hnf.
  erewrite bind_run by reflexivity.
  eexists. split; [reflexivity |].
  split; [unfold store_is; cbn; repeat split | reflexivity].
Qed.

End Retry.

(** One deadlock, then the write of the IP node goes through. *)
Lemma retried_write_commits_once_witness :
  exists w',
    _ingest_with_retry INGEST_IP ∅
      (failing_writes [Some "TransientError: DeadlockDetected"%string; None])
    = (Ok tt, w')
    /\ neo_commits w' = [(INGEST_IP, ∅)]
    /\ deadlock_retries (pool w') = 1%Z.
Proof.
  destruct (retried_write_commits_once INGEST_IP ∅
              (failing_writes [Some "TransientError: DeadlockDetected"%string; None])
              ["TransientError: DeadlockDetected"%string] [] eq_refl)
    as (w' & Hrun & (_ & Hc & Hd & _) & _).
  - vm_compute. lia.
  - repeat constructor.
  - repeat constructor.
  - exists w'. split; [exact Hrun |]. split; [exact Hc | exact Hd].
Defined.

(** Three constraint races in a row on the safe ingest. *)
Lemma retry_loop_ends_on_error_witness :
  exists w',
    _ingest_with_retry INGEST_TRANSACTION_SAFE ∅
      (failing_writes [Some "ConstraintValidationFailed: constraint"%string;
                       Some "ConstraintValidationFailed: constraint"%string;
                       Some "ConstraintValidationFailed: constraint"%string])
    = (Ok tt, w')
    /\ neo_commits w' = [].
Proof.
  destruct (retry_loop_ends_on_error INGEST_TRANSACTION_SAFE ∅
              (failing_writes [Some "ConstraintValidationFailed: constraint"%string;
                               Some "ConstraintValidationFailed: constraint"%string;
                               Some "ConstraintValidationFailed: constraint"%string])
              ["ConstraintValidationFailed: constraint"%string;
               "ConstraintValidationFailed: constraint"%string] []
              "ConstraintValidationFailed: constraint"%string eq_refl)
    as (w' & Hrun & (_ & Hc & _)).
  - vm_compute. lia.
  - repeat constructor.
  - repeat constructor.
  - left. reflexivity.
  - exists w'. split; [exact Hrun | exact Hc].
Defined.

(** The sender is not in the graph; the safe statement creates it. *)
Lemma missing_user_falls_back_to_safe_witness :
  exists w1,
    _ingest_with_retry INGEST_TRANSACTION ∅
      (failing_writes [Some "Node not found"%string; None])
    = _ingest_with_retry INGEST_TRANSACTION_SAFE ∅ w1
    /\ neo_faults w1 = [None].
Proof.
  destruct (missing_user_falls_back_to_safe ∅
              (failing_writes [Some "Node not found"%string; None]) [None]
              "Node not found"%string eq_refl)
    as (w1 & Hrun & (Hf & _) & _).
  - reflexivity.
  - exists w1. split; [exact Hrun | exact Hf].
Defined.

End IngestRetrySpec.

Module BatchSpec.

Import Runtime RiskEngine WorkerPool StreamAdapter Batches RuntimeFacts FeatureViews.

Lemma same_tally_refl (w : World) : same_tally w w.
Proof. split; reflexivity. Qed.

Lemma same_tally_trans (w1 w2 w3 : World) :
  same_tally w1 w2 -> same_tally w2 w3 -> same_tally w1 w3.
Proof. intros [A B] [C D]. split; congruence. Qed.

Lemma keeps_tally_ret {A} (a : A) : keeps_tally (ret a).
Proof. intros w r w' H. inversion H. apply same_tally_refl. Qed.

Lemma keeps_tally_raise {A} (e : Exn) : keeps_tally (@raise A e).
Proof. intros w r w' H. inversion H. apply same_tally_refl. Qed.

Lemma keeps_tally_lift {A} (x : result A) : keeps_tally (lift x).
Proof. intros w r w' H. inversion H. apply same_tally_refl. Qed.

Lemma keeps_tally_bind {A B} (m : M A) (k : A -> M B) :
  keeps_tally m -> (forall a, keeps_tally (k a)) -> keeps_tally (bind m k).
Proof.
  intros Hm Hk w r w' H. unfold bind in H.
  destruct (m w) as [[a | e] w1] eqn:E.
  - eapply same_tally_trans; [eapply Hm, E | eapply Hk, H].
  - inversion H; subst. eapply Hm, E.
Qed.

Lemma keeps_tally_try {A} (m : M A) (h : Exn -> M A) :
  keeps_tally m -> (forall e, keeps_tally (h e)) -> keeps_tally (try_except m h).
Proof.
  intros Hm Hh w r w' H. unfold try_except in H.
  destruct (m w) as [[a | e] w1] eqn:E.
  - inversion H; subst. eapply Hm, E.
  - eapply same_tally_trans; [eapply Hm, E | eapply Hh, H].
Qed.

Lemma keeps_tally_write_async (q : Cypher) (params : Dict) :
  keeps_tally (write_async q params).
Proof.
  intros w r w' H. unfold write_async in H.
  destruct (next_fault (neo_faults w)) as [[e |] f]; inversion H; repeat split.
Qed.

Lemma keeps_tally_xadd (stream : string) (fields : StreamEntry) :
  keeps_tally (xadd stream fields).
Proof.
  intros w r w' H. unfold xadd in H.
  destruct (next_fault (redis_faults w)) as [[e |] f]; inversion H; repeat split.
Qed.

Lemma keeps_tally_xack (stream group msg_id : string) :
  keeps_tally (xack stream group msg_id).
Proof.
  intros w r w' H. unfold xack in H.
  destruct (next_fault (redis_faults w)) as [[e |] f]; inversion H; repeat split.
Qed.

Lemma keeps_tally_send_alert (a : Alert) : keeps_tally (send_alert a).
Proof.
  intros w r w' H. unfold send_alert in H.
  destruct (next_fault (alert_faults w)) as [[e |] f]; inversion H; repeat split.
Qed.

Lemma keeps_tally_perf_counter : keeps_tally perf_counter.
Proof.
  intros w r w' H. unfold perf_counter in H.
  destruct (clock w); inversion H; repeat split.
Qed.

Lemma keeps_tally_random : keeps_tally random.
Proof.
  intros w r w' H. unfold random in H.
  destruct (rng w); inversion H; repeat split.
Qed.

Lemma keeps_tally_log (lvl : Level) (msg : string) : keeps_tally (log_record lvl msg).
Proof. intros w r w' H. inversion H. repeat split. Qed.

Lemma keeps_tally_get_pool : keeps_tally get_pool.
Proof. intros w r w' H. inversion H. apply same_tally_refl. Qed.

Lemma keeps_tally_set_deadlock_retries (n : Z) : keeps_tally (set_deadlock_retries n).
Proof. intros w r w' H. inversion H. repeat split. Qed.

Create HintDb tally.

#[local] Hint Resolve keeps_tally_ret keeps_tally_raise keeps_tally_lift
  keeps_tally_write_async keeps_tally_xadd keeps_tally_xack keeps_tally_send_alert
  keeps_tally_perf_counter keeps_tally_random keeps_tally_log keeps_tally_get_pool
  keeps_tally_set_deadlock_retries : tally.

Ltac tally :=
  repeat first
    [ solve [auto with tally]
    | apply keeps_tally_bind; [| intros ?]
    | apply keeps_tally_try; [| intros ?]
    | match goal with
      | |- keeps_tally (if ?c then _ else _) => destruct c
      | |- keeps_tally (match ?x with _ => _ end) => destruct x
      | |- keeps_tally (let '(_, _) := ?x in _) => destruct x
      end ].

Lemma keeps_tally_random_uniform (a b : Q) : keeps_tally (random_uniform a b).
Proof. unfold random_uniform. tally. Qed.

Lemma keeps_tally_random_choice {A} (first : A) (others : list A) :
  keeps_tally (random_choice first others).
Proof. unfold random_choice. tally. Qed.

#[local] Hint Resolve keeps_tally_random_uniform keeps_tally_random_choice : tally.

Lemma keeps_tally_ingest_attempts (fallback : option (M unit)) (query : Cypher)
    (params : Dict) (attempt remaining : nat) :
  (forall m, fallback = Some m -> keeps_tally m) ->
  keeps_tally (ingest_attempts fallback query params attempt remaining).
Proof.
  intros Hfb. revert attempt.
  induction remaining as [| remaining IH]; intros attempt; simpl.
  - tally.
  - apply keeps_tally_try; [tally |]. intros exc.
    destruct fallback as [safe_ingest |].
    + destruct (_ || _) eqn:Hnf at 1.
      all: repeat first
        [ apply IH
        | apply (Hfb safe_ingest eq_refl)
        | unfold sleep; solve [auto with tally]
        | apply keeps_tally_bind; [| intros ?]
        | match goal with
          | |- keeps_tally (if ?c then _ else _) => destruct c
          | |- keeps_tally (match ?x with _ => _ end) => destruct x
          end ].
    + repeat first
        [ apply IH
        | unfold sleep; solve [auto with tally]
        | apply keeps_tally_bind; [| intros ?]
        | match goal with
          | |- keeps_tally (if ?c then _ else _) => destruct c
          | |- keeps_tally (match ?x with _ => _ end) => destruct x
          end ].
Qed.

Lemma keeps_tally_ingest_with_retry (query : Cypher) (params : Dict) :
  keeps_tally (_ingest_with_retry query params).
Proof.
  unfold _ingest_with_retry.
  apply keeps_tally_ingest_attempts. intros m Hm.
  destruct (Cypher_eqb query INGEST_TRANSACTION); [| discriminate].
  replace m with (ingest_attempts None INGEST_TRANSACTION_SAFE params 0 _MAX_RETRIES)
    by congruence.
  apply keeps_tally_ingest_attempts. intros m' Hm'. discriminate.
Qed.

Lemma keeps_tally_enrich_ip (adb : AsnDatabase) (tx : TransactionInput) :
  keeps_tally (enrich_ip adb tx).
Proof. unfold enrich_ip. tally. Qed.

Lemma keeps_tally_build_geo_evidence (lib : MathLib) (a b c d : Q) (city : string) :
  keeps_tally (_build_geo_evidence lib a b c d city).
Proof. unfold _build_geo_evidence. tally. Qed.

Lemma keeps_tally_enriched_of (lib : MathLib) (tx : TransactionInput) (_meta : Json)
    (tx_status : string) (risk_response : RiskResponse) (lat lon : Q) (city : string) :
  keeps_tally (enriched_of lib tx _meta tx_status risk_response lat lon city).
Proof.
  unfold enriched_of.
  do 2 (apply keeps_tally_bind; [tally | intros ?]).
  apply keeps_tally_bind; [apply keeps_tally_build_geo_evidence | intros ?].
  tally.
Qed.

Lemma keeps_tally_score_transaction (settings : Settings) (self : Engine)
    (tx : TransactionInput) :
  keeps_tally (score_transaction settings self tx).
Proof. unfold score_transaction. tally. Qed.

Lemma finishes_one_bind {A B} (m : M A) (k : A -> M B) :
  keeps_tally m -> (forall a, finishes_one (k a)) -> finishes_one (bind m k).
Proof.
  intros Hm Hk w r w' H. unfold bind in H.
  destruct (m w) as [[a | e] w1] eqn:E.
  - pose proof (Hm _ _ _ E) as [P1 P2]. pose proof (Hk a _ _ _ H) as Hr.
    destruct r; destruct Hr as [Q1 Q2]; split; congruence.
  - inversion H; subst. eapply Hm, E.
Qed.

Section Worker.
Variable settings : Settings.
Variable lib : MathLib.
Variable adb : AsnDatabase.
Variable codec : Codec.
Variable self : Pool.
Variable name : string.

Lemma finishes_one_tail (worker_name : string) (tx : TransactionInput) (t0 : Q) :
  finishes_one
    (let! t1 := perf_counter in
     let elapsed_ms := ((t1 - t0) * 1000)%Q in
     let! p := get_pool in
     let! _ := set_processed (processed_count p + 1) (pool_total_latency_ms p + elapsed_ms) in
     let! _ :=
       if (processed_count p + 1 =? 1)%Z
       then log_record INFO ("First transaction processed: tx_id=" +:+ tx_id tx)
       else ret tt in
     if ((processed_count p + 1) mod 50 =? 0)%Z
     then log_record INFO (worker_name +:+ " | processed=" +:+ pretty (processed_count p + 1)%Z)
     else ret tt).
Proof.
  intros w r w' H.
  unfold bind, perf_counter, get_pool, set_processed, log_record, ret in H.
  destruct (clock w); cbn in H;
    repeat match type of H with
           | context [if ?c then _ else _] => destruct c
           end;
    inversion H; subst; cbn; split; reflexivity.
Qed.

Lemma finishes_one_process_body (msg_id : string) (data : StreamEntry) (t0 : Q) :
  finishes_one (process_body settings lib adb codec self name msg_id data t0).
Proof.
  unfold process_body.
  apply finishes_one_bind; [tally | intros decoded].
  apply finishes_one_bind; [tally | intros tx_data].
  destruct (pop_meta tx_data) as [_meta tx_data'].
  apply finishes_one_bind; [tally | intros tx].
  apply finishes_one_bind; [apply keeps_tally_ingest_with_retry | intros _].
  apply finishes_one_bind; [apply keeps_tally_enrich_ip | intros [[lat lon] city]].
  apply finishes_one_bind; [apply keeps_tally_score_transaction | intros resp].
  apply finishes_one_bind; [tally | intros _].
  apply finishes_one_bind.
  { destruct (alert_callback self); [| tally].
    apply keeps_tally_bind; [apply keeps_tally_enriched_of | intros ?; tally]. }
  intros _.
  apply finishes_one_bind; [tally | intros _].
  apply finishes_one_tail.
Qed.

(** Every message ends in exactly one of the two counters. *)
Lemma process_message_counts_one (msg_id : string) (data : StreamEntry) (w : World) :
  exists w',
    _process_message settings lib adb codec self name msg_id data w = (Ok tt, w')
    /\ ((processed_count (pool w') = (processed_count (pool w) + 1)%Z
         /\ ingest_errors (pool w') = ingest_errors (pool w))
        \/ (processed_count (pool w') = processed_count (pool w)
            /\ ingest_errors (pool w') = (ingest_errors (pool w) + 1)%Z)).
Proof.
  unfold _process_message, bind at 1.
  destruct (perf_counter w) as [[t0 | e] w0] eqn:Ht0;
    [| exfalso; exact (never_raises_perf_counter _ _ _ Ht0)].
  pose proof (keeps_tally_perf_counter _ _ _ Ht0) as [P0 E0].
  unfold try_except.
  destruct (process_body settings lib adb codec self name msg_id data t0 w0)
    as [[[] | e] w1] eqn:Hbody;
    pose proof (finishes_one_process_body msg_id data t0 _ _ _ Hbody) as [P1 E1].
  - eexists. split; [reflexivity |]. left. split; congruence.
  - eexists. split; [reflexivity |]. right. cbn. split; congruence.
Qed.

(** X21.  A batch is fully accounted for.  The loop of [_worker] over the
    entries of a batch never stops on a message: for every batch, codec,
    engine and world, with whatever faults in the store, the stream server
    and the alert callback, it returns, and each entry has gone to exactly
    one of the two counters, [processed_count] when its pipeline ran to the
    end and [ingest_errors] when it raised. *)
Theorem batch_is_fully_accounted (entries : list (string * StreamEntry)) (w : World) :
  exists w',
    process_entries settings lib adb codec self name entries w = (Ok tt, w')
    /\ (processed_count (pool w') + ingest_errors (pool w')
        = processed_count (pool w) + ingest_errors (pool w) + Z.of_nat (length entries))%Z
    /\ (processed_count (pool w) <= processed_count (pool w'))%Z
    /\ (ingest_errors (pool w) <= ingest_errors (pool w'))%Z.
Proof.
  revert w. induction entries as [| [msg_id data] rest IH]; intros w.
  - exists w. split; [reflexivity |]. cbn [length]. lia.
  - cbn [process_entries length]. unfold bind.
    destruct (process_message_counts_one msg_id data w) as (w1 & Hrun & Hcount).
    rewrite Hrun.
    destruct (IH w1) as (w' & Hrest & Hsum & Hp & He).
    exists w'. split; [exact Hrest |]. lia.
Qed.

End Worker.

End BatchSpec.

Module AdapterBatchSpec.

Import Runtime StreamAdapter Batches RuntimeFacts FeatureViews.

Lemma stream_length_xadd (w : World) (f : Faults) (stream : string) (fields : StreamEntry) :
  stream_length
    (with_redis w f
       (<[stream := default [] (redis_streams w !! stream) ++ [fields]]> (redis_streams w))
       (redis_pending w)) stream
  = (stream_length w stream + 1)%Z.
Proof.
  unfold stream_length. cbn [redis_streams with_redis].
  rewrite lookup_insert_eq. cbn [default from_option id].
  rewrite length_app. cbn [length]. lia.
Qed.

Lemma bind_cases {A B} (m : M A) (k : A -> M B) (w w' : World) (r : result B) :
  bind m k w = (r, w') ->
  (exists e, m w = (Raise e, w') /\ r = Raise e)
  \/ (exists a w1, m w = (Ok a, w1) /\ k a w1 = (r, w')).
Proof.
  unfold bind. destruct (m w) as [[a | e] w1] eqn:E; intros H.
  - right. exists a, w1. split; [reflexivity | exact H].
  - left. exists e. inversion H; subst. split; reflexivity.
Qed.

Lemma try_cases {A} (m : M A) (h : Exn -> M A) (w w' : World) (r : result A) :
  try_except m h w = (r, w') ->
  (exists a, m w = (Ok a, w') /\ r = Ok a)
  \/ (exists e w1, m w = (Raise e, w1) /\ h e w1 = (r, w')).
Proof.
  unfold try_except. destruct (m w) as [[a | e] w1] eqn:E; intros H.
  - left. exists a. inversion H; subst. split; reflexivity.
  - right. exists e, w1. split; [reflexivity | exact H].
Qed.

Section Adapter.
Variable settings : Settings.
Variable codec : Codec.
Variable name : string.

Lemma moved_refl (w : World) : moved (REDIS_STREAM_KEY settings) 0 0 0 w w.
Proof. unfold moved. lia. Qed.

Lemma moved_trans (a b c a' b' c' : Z) (w1 w2 w3 : World) :
  moved (REDIS_STREAM_KEY settings) a b c w1 w2 -> moved (REDIS_STREAM_KEY settings) a' b' c' w2 w3 ->
  moved (REDIS_STREAM_KEY settings) (a + a') (b + b') (c + c') w1 w3.
Proof. unfold moved. lia. Qed.

Lemma keeps_quiet_lift {A} (x : result A) : keeps_quiet (REDIS_STREAM_KEY settings) (lift x).
Proof. intros w r w' H. inversion H. apply moved_refl. Qed.

Lemma keeps_quiet_xack (stream group msg_id : string) :
  keeps_quiet (REDIS_STREAM_KEY settings) (xack stream group msg_id).
Proof.
  intros w r w' H. unfold xack in H.
  destruct (next_fault (redis_faults w)) as [[e |] f]; inversion H;
    unfold moved, stream_length; cbn; lia.
Qed.

Lemma keeps_quiet_perf_counter : keeps_quiet (REDIS_STREAM_KEY settings) perf_counter.
Proof.
  intros w r w' H. unfold perf_counter in H.
  destruct (clock w); inversion H; unfold moved, stream_length; cbn; lia.
Qed.

Lemma keeps_quiet_log (lvl : Level) (msg : string) : keeps_quiet (REDIS_STREAM_KEY settings) (log_record lvl msg).
Proof. intros w r w' H. inversion H. unfold moved, stream_length; cbn; lia. Qed.

Lemma xadd_moves (fields : StreamEntry) (w w' : World) (r : result unit) :
  xadd (REDIS_STREAM_KEY settings) fields w = (r, w') ->
  match r with
  | Ok _ => moved (REDIS_STREAM_KEY settings) 0 0 1 w w'
  | Raise _ => moved (REDIS_STREAM_KEY settings) 0 0 0 w w'
  end.
Proof.
  unfold xadd. destruct (next_fault (redis_faults w)) as [[e |] f]; intros H;
    inversion H; subst.
  - unfold moved, stream_length; cbn; lia.
  - unfold moved. rewrite stream_length_xadd. cbn. lia.
Qed.

(** What is left of the handler after the acknowledgement. *)
Lemma forwarded_tail (tx : TransactionInput) (t0 : Q) (w w' : World) (r : result unit) :
  (let! t1 := perf_counter in
   let elapsed_ms := ((t1 - t0) * 1000)%Q in
   let! a := get_adapter in
   let! _ := set_forwarded (forwarded a + 1) (adapter_total_latency_ms a + elapsed_ms) in
   let! _ :=
     if (forwarded a + 1 =? 1)%Z
     then log_record INFO ("First message forwarded: tx_id=" +:+ tx_id tx)
     else ret tt in
   if ((forwarded a + 1) mod 100 =? 0)%Z
   then log_record INFO (name +:+ " | forwarded=" +:+ pretty (forwarded a + 1)%Z)
   else ret tt) w = (r, w') ->
  r = Ok tt /\ moved (REDIS_STREAM_KEY settings) 1 0 0 w w'.
Proof.
  unfold bind, perf_counter, get_adapter, set_forwarded, log_record, ret.
  destruct (clock w); cbn;
    repeat match goal with
           | |- context [if ?c then _ else _] => destruct c
           end;
    intros H; inversion H; subst; (split; [reflexivity |]);
    unfold moved, stream_length; cbn; lia.
Qed.

(** The validation handler: one error counted, then the acknowledgement. *)
Lemma validation_handler (msg_id : string) (val_err : Exn) (w w' : World)
    (r : result (option TransactionInput)) :
  (let! a := get_adapter in
   let! _ := set_validation_errors (validation_errors a + 1) in
   let! _ :=
     log_record WARNING ("Validation failed for msg " +:+ msg_id +:+ ": " +:+ val_err) in
   let! _ := xack (REDIS_UPI_STREAM_KEY settings) (REDIS_UPI_CONSUMER_GROUP settings)
               msg_id in
   ret None) w = (r, w') ->
  (r = Ok None \/ exists e, r = Raise e) /\ moved (REDIS_STREAM_KEY settings) 0 1 0 w w'.
Proof.
  unfold bind, get_adapter, set_validation_errors, log_record, ret, xack. cbn.
  destruct (next_fault (redis_faults w)) as [[e |] f]; intros H; inversion H; subst;
    (split; [eauto |]); unfold moved, stream_length; cbn; lia.
Qed.

Lemma parse_step {T} (x : result T) (w w1 : World) (r : result (option T)) :
  (let! tx := lift x in ret (Some tx)) w = (r, w1) ->
  w1 = w /\ r = match x with Ok tx => Ok (Some tx) | Raise e => Raise e end.
Proof.
  unfold bind, lift, ret. destruct x; intros H; inversion H; subst; split; reflexivity.
Qed.

Ltac moves :=
  unfold moved in *;
  repeat match goal with
         | H : _ /\ _ |- _ => destruct H
         end;
  first [ solve [repeat split; lia]
        | left; solve [repeat split; lia]
        | right; left; solve [repeat split; lia]
        | right; right; solve [repeat split; lia] ].

Lemma handle_body_outcome (msg_id : string) (data : StreamEntry) (t0 : Q)
    (w w' : World) (r : result unit) :
  handle_body settings codec name msg_id data t0 w = (r, w') ->
  match r with
  | Ok _ => moved (REDIS_STREAM_KEY settings) 1 0 1 w w'
            \/ moved (REDIS_STREAM_KEY settings) 0 1 0 w w'
  | Raise _ => moved (REDIS_STREAM_KEY settings) 0 0 0 w w'
               \/ moved (REDIS_STREAM_KEY settings) 0 1 0 w w'
               \/ moved (REDIS_STREAM_KEY settings) 0 0 1 w w'
  end.
Proof.
  unfold handle_body. cbv zeta. intros H.
  (* decode *)
  apply bind_cases in H as [(e & Hm & ->) | (decoded & w1 & Hm & H)];
    [left; exact (keeps_quiet_lift _ _ _ _ Hm) |].
  apply lift_inv in Hm as [_ ->].
  apply bind_cases in H as [(e & Hm & ->) | (tx_data & w1 & Hm & H)];
    [left; exact (keeps_quiet_lift _ _ _ _ Hm) |].
  apply lift_inv in Hm as [_ ->].
  destruct (pop_meta tx_data) as [meta tx_data'].
  (* validate *)
  apply bind_cases in H as [(e & Hm & ->) | (validated & w1 & Hm & H)].
  { apply try_cases in Hm as [(a & _ & Hr) | (e' & w1 & Hp & Hh)]; [discriminate |].
    apply parse_step in Hp as [-> _].
    apply validation_handler in Hh as [_ Hmv]. right. left. exact Hmv. }
  apply try_cases in Hm as [(a & Hp & Hr) | (e' & w2 & Hp & Hh)].
  2: { apply parse_step in Hp as [-> _].
       apply validation_handler in Hh as [[Hr | [e Hr]] Hmv]; [| discriminate].
       injection Hr as Hv. subst validated. unfold ret in H. inversion H; subst.
       right. exact Hmv. }
  apply parse_step in Hp as [-> Hx]. injection Hr as Hv. subst validated.
  destruct (parse_TransactionInput codec tx_data') as [tx | e]; [| discriminate].
  injection Hx as Ha. subst a.
  (* publish *)
  apply bind_cases in H as [(e & Hm & ->) | ([] & w1 & Hm & H)].
  { unfold publish_to_fraud_queue in Hm.
    apply bind_cases in Hm as [(e' & Hm & _) | (payload & w1 & Hm & Hadd)];
      [left; exact (keeps_quiet_lift _ _ _ _ Hm) |].
    apply lift_inv in Hm as [_ ->].
    left. exact (xadd_moves _ _ _ _ Hadd). }
  assert (Hpub : moved (REDIS_STREAM_KEY settings) 0 0 1 w w1).
  { unfold publish_to_fraud_queue in Hm.
    apply bind_cases in Hm as [(e' & _ & He) | (payload & w2 & Hm & Hadd)];
      [discriminate |].
    apply lift_inv in Hm as [_ ->].
    exact (xadd_moves _ _ _ _ Hadd). }
  (* acknowledge *)
  clear Hm.
  apply bind_cases in H as [(e & Hm & ->) | ([] & w2 & Hm & H)].
  { pose proof (keeps_quiet_xack _ _ _ _ _ _ Hm). moves. }
  pose proof (keeps_quiet_xack _ _ _ _ _ _ Hm) as Hack.
  apply forwarded_tail in H as [-> Htail]. moves.
Qed.

(** The outer handler counts one error and always returns. *)
Lemma outer_handler_counts (msg_id : string) (exc : Exn) (w : World) :
  exists w',
    (let! a := get_adapter in
     let! _ := set_validation_errors (validation_errors a + 1) in
     let! _ :=
       log_record ERROR (name +:+ " failed to process msg " +:+ msg_id +:+ ": " +:+ exc) in
     try_except
       (xack (REDIS_UPI_STREAM_KEY settings) (REDIS_UPI_CONSUMER_GROUP settings) msg_id)
       (fun _ => ret tt)) w = (Ok tt, w')
    /\ moved (REDIS_STREAM_KEY settings) 0 1 0 w w'.
Proof.
  unfold bind, get_adapter, set_validation_errors, log_record, try_except, xack, ret.
  cbn.
  destruct (next_fault (redis_faults w)) as [[e' |] f];
    (eexists; split; [reflexivity |]); unfold moved, stream_length; cbn; lia.
Qed.

(** What one message does to the counters and to the fraud queue. *)
Lemma handle_message_counts (msg_id : string) (data : StreamEntry) (w : World) :
  exists w',
    _handle_message settings codec name msg_id data w = (Ok tt, w')
    /\ (moved (REDIS_STREAM_KEY settings) 1 0 1 w w'
        \/ moved (REDIS_STREAM_KEY settings) 0 1 0 w w'
        \/ moved (REDIS_STREAM_KEY settings) 0 2 0 w w'
        \/ moved (REDIS_STREAM_KEY settings) 0 1 1 w w').
Proof.
  unfold _handle_message, bind at 1.
  destruct (perf_counter w) as [[t0 | e] w0] eqn:Ht0;
    [| exfalso; exact (never_raises_perf_counter _ _ _ Ht0)].
  pose proof (keeps_quiet_perf_counter _ _ _ Ht0) as H0.
  unfold try_except at 1.
  destruct (handle_body settings codec name msg_id data t0 w0) as [[[] | e] w1] eqn:Hbody;
    pose proof (handle_body_outcome msg_id data t0 _ _ _ Hbody) as Hout; cbn in Hout.
  - eexists. split; [reflexivity |]. destruct Hout; moves.
  - destruct (outer_handler_counts msg_id e w1) as (w' & Hh & Hmv).
    exists w'. split; [exact Hh |].
    destruct Hout as [Hout | [Hout | Hout]]; moves.
Qed.

(** X22.  The adapter never stops on a message, and never counts a forward
    that was not published.  For every batch of raw entries, codec and
    world, with whatever faults, the loop of the adapter returns.  Each
    entry adds one to [forwarded] or at least one to [validation_errors],
    and at most two: a message that fails validation and whose
    acknowledgement fails is counted twice.  [forwarded] grows by no
    more than the fraud queue does, since a message that was published but
    not acknowledged is counted as an error. *)
Theorem adapter_batch_accounting (entries : list (string * StreamEntry)) (w : World) :
  exists w',
    handle_entries settings codec name entries w = (Ok tt, w')
    /\ let df := (forwarded (adapter w') - forwarded (adapter w))%Z in
       let dv := (validation_errors (adapter w') - validation_errors (adapter w))%Z in
       let dp := (stream_length w' (REDIS_STREAM_KEY settings)
                  - stream_length w (REDIS_STREAM_KEY settings))%Z in
       let n := Z.of_nat (length entries) in
       (0 <= df /\ 0 <= dv /\ df <= dp /\ dp <= n
        /\ n <= df + dv /\ df + dv <= 2 * n - df)%Z.
Proof.
  revert w. induction entries as [| [msg_id data] rest IH]; intros w.
  - exists w. split; [reflexivity |]. cbn [length]. cbv zeta. lia.
  - cbn [handle_entries length]. unfold bind.
    destruct (handle_message_counts msg_id data w) as (w1 & Hrun & Hcount).
    rewrite Hrun.
    destruct (IH w1) as (w' & Hrest & Hsum).
    exists w'. split; [exact Hrest |]. cbv zeta in *.
    unfold moved in Hcount. lia.
Qed.

End Adapter.

End AdapterBatchSpec.

Module GeoEvidenceSpec.

Import Runtime WorkerPool RuntimeFacts PyFacts FeatureViews.
Local Open Scope Q_scope.

Lemma round_of_30 : py_round 30.0 1 == 30.
Proof. vm_compute. reflexivity. Qed.

(** [_haversine] returns exactly when both square roots are defined. *)
Lemma haversine_defined (lib : MathLib) (lat1 lon1 lat2 lon2 : Q) :
  is_ok (_haversine lib lat1 lon1 lat2 lon2) = true
  <-> 0 <= haversine_a lib lat1 lon1 lat2 lon2 <= 1.
Proof.
  unfold _haversine, sqrt. cbv zeta.
  set (a := haversine_a lib lat1 lon1 lat2 lon2).
  destruct (Qltb a 0) eqn:H0; cbn [rbind is_ok].
  - apply Qltb_true in H0. split; [discriminate | intros H; lra].
  - apply Qltb_false in H0.
    destruct (Qltb (1 - a) 0) eqn:H1; cbn [rbind is_ok].
    + apply Qltb_true in H1. split; [discriminate | intros H; lra].
    + apply Qltb_false in H1. split; [intros _; lra | reflexivity].
Qed.

Lemma haversine_raises (lib : MathLib) (lat1 lon1 lat2 lon2 : Q) (e : Exn) :
  _haversine lib lat1 lon1 lat2 lon2 = Raise e -> e = "math domain error".
Proof.
  unfold _haversine, sqrt. cbv zeta.
  destruct (Qltb _ 0); cbn [rbind]; [congruence |].
  destruct (Qltb _ 0); cbn [rbind]; congruence.
Qed.

Section Geo.
Variable lib : MathLib.
Variables dev_lat dev_lon ip_lat ip_lon : Q.
Variable ip_city : string.
Variable w : World.

(** X23.  The travel verdict of the alert by distance.  When the four
    coordinates are all non-zero, the distance is the haversine distance
    rounded to one decimal; the haversine distance is defined exactly
    when its [a] lies between 0 and 1, and otherwise the [ValueError] of
    the square root leaves [_build_geo_evidence].  When one of the four
    coordinates is 0 the distance, the time and the speed are all 0.
    Where the evidence is built, the distance decides the time window: up
    to 100 km it is 30 minutes, no random number is drawn and the speed is
    at most 200 km/h, so the evidence is never marked impossible; above
    500 km the window is drawn between 3 and 10 minutes, the speed is at
    least 3000 km/h and the evidence is always marked impossible. *)
Theorem geo_verdict_by_distance :
  match rng w with u :: _ => 0 <= u < 1 | [] => True end ->
  let measured := nonzero dev_lat && nonzero dev_lon && nonzero ip_lat && nonzero ip_lon in
  (* when the distance is defined *)
  (is_ok (_haversine lib dev_lat dev_lon ip_lat ip_lon) = true
   <-> 0 <= haversine_a lib dev_lat dev_lon ip_lat ip_lon <= 1)
  (* the square root raises *)
  /\ (forall e,
        measured = true ->
        _haversine lib dev_lat dev_lon ip_lat ip_lon = Raise e ->
        e = "math domain error"
        /\ _build_geo_evidence lib dev_lat dev_lon ip_lat ip_lon ip_city w = (Raise e, w))
  (* the evidence is built *)
  /\ (forall dist,
        (if measured
         then exists d, _haversine lib dev_lat dev_lon ip_lat ip_lon = Ok d
                        /\ dist = py_round d 1
         else dist = 0.0) ->
        exists g w',
          _build_geo_evidence lib dev_lat dev_lon ip_lat ip_lon ip_city w = (Ok g, w')
          /\ distanceKm g = dist
          /\ (distanceKm g <= 100 ->
              isImpossible g = false /\ speedKmh g <= 200 /\ w' = w
              /\ (distanceKm g == 0 \/ timeDeltaMin g == 30))
          /\ (500 < distanceKm g ->
              isImpossible g = true /\ 3000 <= speedKmh g
              /\ 3 <= timeDeltaMin g <= 10 /\ rng w' = tl (rng w))
          /\ (measured = false ->
              distanceKm g = 0.0 /\ timeDeltaMin g = 0 /\ speedKmh g == 0
              /\ isImpossible g = false)).
Proof.
  intros Hu measured.
  split; [apply haversine_defined |].
  split.
  { intros e Hm He. split; [exact (haversine_raises _ _ _ _ _ _ He) |].
    unfold _build_geo_evidence. fold measured. rewrite Hm.
    unfold bind, lift. rewrite He. reflexivity. }
  intros dist Hdist.
  unfold _build_geo_evidence. fold measured.
  assert (Hfirst :
            (if measured
             then let! d := lift (_haversine lib dev_lat dev_lon ip_lat ip_lon) in
                  ret (py_round d 1)
             else ret 0.0) w = (Ok dist, w)).
  { destruct measured.
    - destruct Hdist as (d & Hd & ->). unfold bind, lift, ret. rewrite Hd. reflexivity.
    - subst dist. reflexivity. }
  unfold bind at 1. rewrite Hfirst. cbv zeta.
  destruct (Qltb 500 dist) eqn:H500.
  - (* far *)
    apply Qltb_true in H500.
    assert (Hdraw : exists u w1, random w = (Ok u, w1) /\ 0 <= u < 1 /\ rng w1 = tl (rng w)).
    { unfold random. destruct (rng w) as [| u r] eqn:Hr.
      - exists 0, w. split; [reflexivity |]. split; [lra | rewrite Hr; reflexivity].
      - exists u, (with_rng w r). split; [reflexivity |]. split; [exact Hu | reflexivity]. }
    destruct Hdraw as (u & w1 & Hrun & Hu01 & Hrng).
    unfold random_uniform, bind, ret. rewrite Hrun.
    set (t := py_round (3 + (10 - 3) * u) 1).
    assert (Ht : 3 <= t <= 10).
    { apply (py_round_bounds 3 10). change (inject_Z 3) with 3.
      change (inject_Z 10) with 10. lra. }
    assert (Htpos : Qltb 0 t = true) by (apply Qltb_true; lra).
    rewrite Htpos.
    assert (Hspeed : 3000 <= py_round (dist / (t / 60)) 1).
    { apply (EnginePersistSpec.py_round_ge 3000).
      change (inject_Z 3000) with 3000.
      apply Qle_shift_div_l; [apply Qlt_shift_div_l; lra |].
      assert (Heq : 3000 * (t / 60) == 50 * t) by field.
      rewrite Heq. lra. }
    eexists. eexists. split; [reflexivity |].
    cbn [distanceKm isImpossible speedKmh timeDeltaMin].
    split; [reflexivity |].
    split; [intros Hle; exfalso; lra |].
    split.
    + intros _. split; [apply Qltb_true; lra |]. split; [exact Hspeed |].
      split; [| exact Hrng].
      assert (Hnz : nonzero dist = true).
      { unfold nonzero. apply negb_true_iff. apply not_true_is_false. intros Hz.
        apply Qeq_bool_iff in Hz. lra. }
      rewrite Hnz. exact Ht.
    + intros Hz. rewrite Hz in Hdist. cbv iota in Hdist. subst dist. exfalso.
      revert H500. apply Qle_not_lt. vm_compute. discriminate.
  - apply Qltb_false in H500.
    destruct (Qltb 100 dist) eqn:H100.
    + (* the band in between *)
      apply Qltb_true in H100.
      unfold random_uniform, bind, ret.
      destruct (random w) as [[u | e] w1] eqn:Hrun;
        [| unfold random in Hrun; destruct (rng w); discriminate].
      eexists. eexists. split; [reflexivity |].
      cbn [distanceKm isImpossible speedKmh timeDeltaMin].
      split; [reflexivity |].
      split; [intros Hle; exfalso; lra |].
      split; [intros Hlt; exfalso; lra |].
      intros Hz. rewrite Hz in Hdist. cbv iota in Hdist. subst dist. exfalso.
      revert H100. apply Qle_not_lt. vm_compute. discriminate.
    + (* near *)
      apply Qltb_false in H100.
      unfold bind, ret.
      assert (H30 : Qltb 0 (py_round 30.0 1) = true) by (vm_compute; reflexivity).
      rewrite H30.
      assert (Hspeed : py_round (dist / (py_round 30.0 1 / 60)) 1 <= 200).
      { apply (EnginePersistSpec.py_round_le 200).
        change (inject_Z 200) with 200. rewrite round_of_30.
        assert (Heq : dist / (30 / 60) == 2 * dist) by field.
        rewrite Heq. lra. }
      eexists. eexists. split; [reflexivity |].
      cbn [distanceKm isImpossible speedKmh timeDeltaMin].
      split; [reflexivity |].
      split.
      { intros _. split; [apply Qltb_false; lra |]. split; [exact Hspeed |].
        split; [reflexivity |].
        unfold nonzero. destruct (Qeq_bool dist 0) eqn:Hz; cbn [negb].
        - left. apply Qeq_bool_iff. exact Hz.
        - right. exact round_of_30. }
      split; [intros Hlt; exfalso; lra |].
      intros Hz. rewrite Hz in Hdist. cbv iota in Hdist. subst dist.
      split; [reflexivity |]. split; [reflexivity |].
      split; vm_compute; reflexivity.
Qed.

End Geo.

(** A device in Mumbai and an IP in London, 6371 km apart for this library. *)
Lemma geo_verdict_by_distance_witness :
  exists g w',
    _build_geo_evidence FeatureFixtures.far_lib 19.0760 72.8777 51.5074 (-0.1278) "London"
      (FeatureFixtures.drawing [0.5])
    = (Ok g, w')
    /\ distanceKm g == 6371
    /\ isImpossible g = true.
Proof.
  destruct (geo_verdict_by_distance FeatureFixtures.far_lib 19.0760 72.8777 51.5074
              (-0.1278) "London" (FeatureFixtures.drawing [0.5]))
    as (_ & _ & Hbuilt).
  - vm_compute. split; [discriminate | reflexivity].
  - destruct (Hbuilt (py_round (6371.0 * 2 * 0.5) 1)) as (g & w' & Hrun & Hd & _ & Hfar & _).
    + exists (6371.0 * 2 * 0.5). split; reflexivity.
    + exists g, w'. split; [exact Hrun |].
      assert (Hdist : distanceKm g == 6371) by (rewrite Hd; vm_compute; reflexivity).
      split; [exact Hdist |].
      apply Hfar. rewrite Hdist. reflexivity.
Defined.

(** A device at (2.5, 10.0) and an IP at its antipode: in binary64 the [a]
    of the formula is 1.0000000000000002 and the alert is not built. *)
Lemma antipodal_alert_raises :
  1 < haversine_a Fixtures.antipodal_lib 2.5 10.0 (-2.5) (-170.0)
  /\ _build_geo_evidence Fixtures.antipodal_lib 2.5 10.0 (-2.5) (-170.0) "Apia"
       Fixtures.quiet_world
     = (Raise "math domain error", Fixtures.quiet_world).
Proof. split; vm_compute; reflexivity. Qed.

End GeoEvidenceSpec.

Module MetaSpec.

Import Runtime RiskEngine WorkerPool StreamAdapter.

Lemma fields_get_remove {V} (k : string) (l : list (string * V)) :
  fields_get k (fields_remove k l) = None.
Proof.
  induction l as [| [k' v] l IH]; cbn [fields_remove fields_get]; [reflexivity |].
  destruct (String.eqb k k') eqn:E; [exact IH |].
  cbn [fields_get]. rewrite E. exact IH.
Qed.

Lemma fields_remove_absent {V} (k : string) (l : list (string * V)) :
  fields_get k l = None -> fields_remove k l = l.
Proof.
  induction l as [| [k' v] l IH]; cbn [fields_remove fields_get]; [reflexivity |].
  destruct (String.eqb k k'); [discriminate |].
  intros H. rewrite (IH H). reflexivity.
Qed.

Lemma fields_get_app_absent {V} (k : string) (v : V) (l : list (string * V)) :
  fields_get k l = None -> fields_get k (l ++ [(k, v)]) = Some v.
Proof.
  induction l as [| [k' v'] l IH]; cbn [fields_get app].
  - rewrite String.eqb_refl. reflexivity.
  - destruct (String.eqb k k'); [discriminate | exact IH].
Qed.

Lemma fields_remove_app_absent {V} (k : string) (v : V) (l : list (string * V)) :
  fields_get k l = None -> fields_remove k (l ++ [(k, v)]) = l.
Proof.
  induction l as [| [k' v'] l IH]; cbn [fields_get fields_remove app].
  - rewrite String.eqb_refl. reflexivity.
  - destruct (String.eqb k k'); [discriminate |].
    intros H. rewrite (IH H). reflexivity.
Qed.

(** X24.  The metadata survives the adapter.  The adapter pops [_meta]
    from the payload and puts it back before publishing when it is truthy;
    the worker pops it again.  For every payload the worker gets the cleaned
    payload that the adapter validated, without a [_meta] field, and the
    adapter's metadata when it is truthy, an empty dictionary otherwise.
    The adapter does not look at the type of the metadata: one that is
    truthy and no dictionary reaches the worker, whose alert step then
    raises AttributeError, after the transaction has been scored. *)
Theorem meta_survives_the_adapter (tx_data : Json) :
  let meta := fst (pop_meta tx_data) in
  let clean := snd (pop_meta tx_data) in
  pop_meta clean = (JObj [], clean)
  /\ pop_meta (carry_meta clean meta)
     = (if json_truthy meta then meta else JObj [], clean)
  /\ match meta with
     | JObj _ => True
     | _ =>
         forall lib tx tx_status risk_response lat lon city w,
           enriched_of lib tx (fst (pop_meta (carry_meta clean meta))) tx_status
             risk_response lat lon city w
           = (if json_truthy meta then Raise "AttributeError"%string
              else fst (enriched_of lib tx (JObj []) tx_status risk_response lat lon
                          city w),
              if json_truthy meta then w
              else snd (enriched_of lib tx (JObj []) tx_status risk_response lat lon
                          city w))
     end.
Proof.
  cbv zeta.
  assert (Hclean : pop_meta (snd (pop_meta tx_data)) = (JObj [], snd (pop_meta tx_data))).
  { destruct tx_data as [| b | q | s | items | fields]; try reflexivity.
    cbn [pop_meta snd]. rewrite fields_get_remove.
    rewrite (fields_remove_absent _ _ (fields_get_remove "_meta" fields)). reflexivity. }
  assert (Hcarry : pop_meta (carry_meta (snd (pop_meta tx_data)) (fst (pop_meta tx_data)))
                   = (if json_truthy (fst (pop_meta tx_data))
                      then fst (pop_meta tx_data) else JObj [],
                      snd (pop_meta tx_data))).
  { unfold carry_meta.
    destruct (json_truthy (fst (pop_meta tx_data))) eqn:Ht; [| exact Hclean].
    destruct tx_data as [| b | q | s | items | fields]; try discriminate Ht.
    cbn [pop_meta snd fst] in *. unfold fields_set.
    rewrite fields_get_remove.
    rewrite (fields_get_app_absent _ _ _ (fields_get_remove "_meta" fields)).
    rewrite (fields_remove_app_absent _ _ _ (fields_get_remove "_meta" fields)).
    reflexivity. }
  split; [exact Hclean |]. split; [exact Hcarry |].
  rewrite Hcarry. cbn [fst].
  destruct (fst (pop_meta tx_data)) as [| b | q | s | items | fields] eqn:Hm;
    try exact I; intros lib tx tx_status risk_response lat lon city w.
  all: match goal with
       | |- context [json_truthy ?j] => destruct (json_truthy j) eqn:Ht
       end;
    [reflexivity | destruct (enriched_of _ _ _ _ _ _ _ _ _); reflexivity].
Qed.

End MetaSpec.

Module RouteSpec.

Import Runtime RiskEngine RuntimeFacts FeatureViews.

Lemma grows_refl (w : World) : grows w w.
Proof. exists []. unfold commits_more. rewrite app_nil_r. reflexivity. Qed.

Lemma grows_trans (w1 w2 w3 : World) : grows w1 w2 -> grows w2 w3 -> grows w1 w3.
Proof.
  intros [l1 H1] [l2 H2]. exists (l1 ++ l2). unfold commits_more in *.
  rewrite H2, H1, app_assoc. reflexivity.
Qed.

Lemma keeps_growing_ret {A} (a : A) : keeps_growing (ret a).
Proof. intros w r w' H. inversion H. apply grows_refl. Qed.

Lemma keeps_growing_lift {A} (x : result A) : keeps_growing (lift x).
Proof. intros w r w' H. inversion H. apply grows_refl. Qed.

Lemma keeps_growing_bind {A B} (m : M A) (k : A -> M B) :
  keeps_growing m -> (forall a, keeps_growing (k a)) -> keeps_growing (bind m k).
Proof.
  intros Hm Hk w r w' H. unfold bind in H.
  destruct (m w) as [[a | e] w1] eqn:E.
  - eapply grows_trans; [eapply Hm, E | eapply Hk, H].
  - inversion H; subst. eapply Hm, E.
Qed.

Lemma keeps_growing_try {A} (m : M A) (h : Exn -> M A) :
  keeps_growing m -> (forall e, keeps_growing (h e)) -> keeps_growing (try_except m h).
Proof.
  intros Hm Hh w r w' H. unfold try_except in H.
  destruct (m w) as [[a | e] w1] eqn:E.
  - inversion H; subst. eapply Hm, E.
  - eapply grows_trans; [eapply Hm, E | eapply Hh, H].
Qed.

Lemma keeps_growing_write_async (q : Cypher) (params : Dict) :
  keeps_growing (write_async q params).
Proof.
  intros w r w' H. unfold write_async in H.
  destruct (next_fault (neo_faults w)) as [[e |] f]; inversion H.
  - exists []. unfold commits_more. cbn. rewrite app_nil_r. reflexivity.
  - exists [(q, params)]. reflexivity.
Qed.

Lemma keeps_growing_perf_counter : keeps_growing perf_counter.
Proof.
  intros w r w' H. unfold perf_counter in H.
  destruct (clock w); inversion H; exists []; unfold commits_more; cbn;
    rewrite app_nil_r; reflexivity.
Qed.

Lemma keeps_growing_log (lvl : Level) (msg : string) : keeps_growing (log_record lvl msg).
Proof.
  intros w r w' H. inversion H. exists []. unfold commits_more. cbn.
  rewrite app_nil_r. reflexivity.
Qed.

Lemma keeps_growing_score_transaction (settings : Settings) (self : Engine)
    (tx : TransactionInput) :
  keeps_growing (score_transaction settings self tx).
Proof.
  unfold score_transaction.
  repeat first
    [ apply keeps_growing_ret | apply keeps_growing_lift | apply keeps_growing_write_async
    | apply keeps_growing_perf_counter | apply keeps_growing_log
    | apply keeps_growing_bind; [| intros ?]
    | apply keeps_growing_try; [| intros ?]
    | match goal with
      | |- keeps_growing (if ?c then _ else _) => destruct c
      | |- keeps_growing (match ?x with _ => _ end) => destruct x
      | |- keeps_growing (let '(_, _) := ?x in _) => destruct x
      end ].
Qed.

(** A write leaves the clock alone; when it goes through it has committed. *)
Lemma write_async_cases (q : Cypher) (params : Dict) (w w' : World) (r : result unit) :
  write_async q params w = (r, w') ->
  clock w' = clock w /\ logged w' = logged w
  /\ match r with
     | Ok _ => commits_more [(q, params)] w w'
     | Raise _ => commits_more [] w w'
     end.
Proof.
  unfold write_async, commits_more.
  destruct (next_fault (neo_faults w)) as [[e |] f]; intros H; inversion H; subst; cbn;
    rewrite ?app_nil_r; repeat split.
Qed.

Section Route.
Variable settings : Settings.
Variable adb : AsnDatabase.
Variable engine : Engine.
Variable tx : TransactionInput.
Variable w : World.

(** The ingest step of the route. *)
Lemma route_ingest_cases (w1 : World) (r : result unit) :
  try_except (write_async INGEST_TRANSACTION (WorkerPool.ingest_params_of tx))
    (fun _ =>
       try_except (write_async INGEST_TRANSACTION_SAFE (WorkerPool.ingest_params_of tx))
         (fun exc =>
            let! _ := log_record ERROR ("Ingestion failed: " +:+ exc) in
            raise ("500: Ingestion error: " +:+ exc))) w = (r, w1) ->
  clock w1 = clock w
  /\ match r with
     | Ok _ =>
         exists q, (q = INGEST_TRANSACTION \/ q = INGEST_TRANSACTION_SAFE)
                   /\ commits_more [(q, WorkerPool.ingest_params_of tx)] w w1
     | Raise e =>
         commits_more [] w w1
         /\ exists e1 e2 f,
              neo_faults w = Some e1 :: Some e2 :: f
              /\ e = ("500: Ingestion error: " +:+ e2)%string
              /\ logged w1 = logged w ++ [(ERROR, ("Ingestion failed: " +:+ e2)%string)]
     end.
Proof.
  unfold try_except, write_async, bind, log_record, raise, commits_more.
  destruct (neo_faults w) as [| [e1 |] [| [e2 |] f]] eqn:Hf; cbn;
    intros H; inversion H; subst; cbn; rewrite ?app_nil_r;
    (split; [reflexivity |]); eauto 8.
Qed.

(** X25.  A response means an ingested transaction.  Whenever
    [POST /transaction] returns a response, the graph store has committed,
    in this order, the transaction (by the lock-free statement or by the
    safe one), then the address of the transaction if it has one, and only
    then what the engine persists.  The response is the one the engine
    gives for the transaction on the same clock readings, whatever happened
    to the writes. *)
Theorem response_means_ingested (resp : RiskResponse) (w' : World) :
  Routes.score_transaction settings adb (ready engine) tx w = (Ok resp, w') ->
  (exists q l,
     (q = INGEST_TRANSACTION \/ q = INGEST_TRANSACTION_SAFE)
     /\ neo_commits w'
        = neo_commits w ++ (q, WorkerPool.ingest_params_of tx) :: ip_commits adb tx ++ l)
  /\ fst (score_transaction settings engine tx w) = Ok resp.
Proof.
  unfold Routes.score_transaction, ready. cbn [Routes._neo4j Routes._risk_engine].
  cbv zeta. intros H.
  apply AdapterBatchSpec.bind_cases in H as [(e & _ & He) | ([] & w1 & Hing & H)];
    [discriminate |].
  apply route_ingest_cases in Hing as [Hc1 (q & Hq & Hm1)].
  apply AdapterBatchSpec.bind_cases in H as [(e & _ & He) | ([] & w2 & Hip & H)];
    [discriminate |].
  assert (Hip' : clock w2 = clock w1 /\ commits_more (ip_commits adb tx) w1 w2).
  { unfold ip_commits. destruct (ip_address tx) as [ip |].
    - destruct (String.eqb ip "").
      + inversion Hip; subst. split; [reflexivity |].
        unfold commits_more. rewrite app_nil_r. reflexivity.
      + apply write_async_cases in Hip as (Hc & _ & Hm). split; assumption.
    - inversion Hip; subst. split; [reflexivity |].
      unfold commits_more. rewrite app_nil_r. reflexivity. }
  destruct Hip' as [Hc2 Hm2].
  destruct (keeps_growing_score_transaction settings engine tx _ _ _ H) as [l Hm3].
  split.
  - exists q, l. split; [exact Hq |].
    unfold commits_more in *. rewrite Hm3, Hm2, Hm1.
    rewrite <- !app_assoc. reflexivity.
  - rewrite (EnginePersistSpec.score_depends_on_clock settings engine tx w w2)
      by congruence.
    rewrite H. reflexivity.
Qed.

(** X26.  Two failed ingests give a 500 and nothing else.  When the
    lock-free statement fails, for whatever reason, the route tries the
    safe one once, without backoff; when that fails too the request ends
    in [500: Ingestion error] with the second error in its text and one
    ERROR record.  Nothing has been committed, and the engine has not been
    asked: no clock reading was taken. *)
Theorem failed_ingest_is_500 (e1 e2 : Exn) (f : Faults) :
  neo_faults w = Some e1 :: Some e2 :: f ->
  exists w',
    Routes.score_transaction settings adb (ready engine) tx w
    = (Raise ("500: Ingestion error: " +:+ e2)%string, w')
    /\ neo_commits w' = neo_commits w
    /\ neo_faults w' = f
    /\ clock w' = clock w
    /\ logged w' = logged w ++ [(ERROR, ("Ingestion failed: " +:+ e2)%string)].
Proof.
  intros Hf.
  unfold Routes.score_transaction, ready. cbn [Routes._neo4j Routes._risk_engine].
  cbv zeta. unfold bind at 1, try_except, write_async. rewrite Hf. cbn.
  unfold bind, log_record, raise. cbn.
  eexists. split; [reflexivity |]. cbn. repeat split.
Qed.

End Route.

(** The transfer of the examples through a store whose writes go through. *)
Lemma response_means_ingested_witness :
  exists resp w',
    Routes.score_transaction Config.defaults Fixtures.no_asn_database
      (ready (Fixtures.flat_engine 80)) Fixtures.transfer Fixtures.quiet_world
    = (Ok resp, w')
    /\ fst (score_transaction Config.defaults (Fixtures.flat_engine 80) Fixtures.transfer
              Fixtures.quiet_world) = Ok resp.
Proof.
  destruct (Routes.score_transaction Config.defaults Fixtures.no_asn_database
              (ready (Fixtures.flat_engine 80)) Fixtures.transfer Fixtures.quiet_world)
    as [[resp | e] w'] eqn:Hrun.
  - exists resp, w'. split; [reflexivity |].
    exact (proj2 (response_means_ingested Config.defaults Fixtures.no_asn_database
                    (Fixtures.flat_engine 80) Fixtures.transfer Fixtures.quiet_world
                    resp w' Hrun)).
  - exfalso. vm_compute in Hrun. discriminate Hrun.
Defined.

(** The graph store is down for both statements. *)
Lemma failed_ingest_is_500_witness :
  exists w',
    Routes.score_transaction Config.defaults Fixtures.no_asn_database
      (ready (Fixtures.flat_engine 80)) Fixtures.transfer
      (failing_writes [Some "ServiceUnavailable"%string; Some "ServiceUnavailable"%string])
    = (Raise "500: Ingestion error: ServiceUnavailable"%string, w')
    /\ neo_commits w' = [].
Proof.
  destruct (failed_ingest_is_500 Config.defaults Fixtures.no_asn_database
              (Fixtures.flat_engine 80) Fixtures.transfer
              (failing_writes [Some "ServiceUnavailable"%string;
                               Some "ServiceUnavailable"%string])
              "ServiceUnavailable"%string "ServiceUnavailable"%string [] eq_refl)
    as (w' & Hrun & Hc & _).
  exists w'. split; [exact Hrun | exact Hc].
Defined.

End RouteSpec.

Module CollusiveSpec.

Import Runtime CollusiveFraud.

Lemma add_cluster_lookup (c : string) (m : gmap string (gset string)) (u uid cid : string) :
  cid ∈ default ∅ (add_cluster c m u !! uid)
  <-> cid ∈ default ∅ (m !! uid) \/ (cid = c /\ uid = u).
Proof.
  unfold add_cluster.
  destruct (decide (u = uid)) as [-> | Hne].
  - rewrite lookup_insert_eq. cbn [default from_option id].
    rewrite elem_of_union, elem_of_singleton. intuition.
  - rewrite lookup_insert_ne by exact Hne. intuition congruence.
Qed.

Lemma add_members_lookup (c : string) (members : list string) :
  forall (m : gmap string (gset string)) (uid cid : string),
    cid ∈ default ∅ (fold_left (add_cluster c) members m !! uid)
    <-> cid ∈ default ∅ (m !! uid) \/ (cid = c /\ In uid members).
Proof.
  induction members as [| u members IH]; intros m uid cid; cbn [fold_left In].
  - intuition.
  - rewrite IH, add_cluster_lookup. intuition.
Qed.

Lemma add_islands_lookup (islands : list IslandRow) :
  forall (m : gmap string (gset string)) (uid cid : string),
    cid ∈ default ∅
          (fold_left
             (fun m island =>
                fold_left (add_cluster (cluster_name island)) (fi_member_ids island) m)
             islands m !! uid)
    <-> cid ∈ default ∅ (m !! uid)
        \/ exists island, In island islands /\ cluster_name island = cid
                          /\ In uid (fi_member_ids island).
Proof.
  induction islands as [| island islands IH]; intros m uid cid; cbn [fold_left In].
  - split; [auto | intros [H | (i & [] & _)]; exact H].
  - rewrite IH, add_members_lookup. split.
    + intros [[H | [-> H]] | (i & Hi & Hc & Hu)]; [left; exact H | right | right].
      * exists island. auto.
      * exists i. auto.
    + intros [H | (i & [<- | Hi] & Hc & Hu)]; [left; left; exact H | left; right | right].
      * auto.
      * exists i. auto.
Qed.

(** No user is mapped to an empty set of clusters. *)
Lemma add_cluster_inhabited (c : string) (m : gmap string (gset string)) (u : string) :
  (forall uid s, m !! uid = Some s -> s <> ∅) ->
  forall uid s, add_cluster c m u !! uid = Some s -> s <> ∅.
Proof.
  intros Hm uid s. unfold add_cluster.
  destruct (decide (u = uid)) as [-> | Hne].
  - rewrite lookup_insert_eq. intros [= <-]. set_solver.
  - rewrite lookup_insert_ne by exact Hne. apply Hm.
Qed.

Lemma add_members_inhabited (c : string) (members : list string) :
  forall m : gmap string (gset string),
    (forall uid s, m !! uid = Some s -> s <> ∅) ->
    forall uid s, fold_left (add_cluster c) members m !! uid = Some s -> s <> ∅.
Proof.
  induction members as [| u members IH]; intros m Hm; cbn [fold_left]; [exact Hm |].
  apply IH. apply add_cluster_inhabited. exact Hm.
Qed.

Lemma user_clusters_inhabited (islands : list IslandRow) (uid : string) (s : gset string) :
  user_clusters_of islands !! uid = Some s -> s <> ∅.
Proof.
  unfold user_clusters_of.
  assert (H : forall m : gmap string (gset string),
            (forall uid s, m !! uid = Some s -> s <> ∅) ->
            forall uid s,
              fold_left
                (fun m island =>
                   fold_left (add_cluster (cluster_name island)) (fi_member_ids island) m)
                islands m !! uid = Some s -> s <> ∅).
  { induction islands as [| island islands IH]; intros m Hm; cbn [fold_left]; [exact Hm |].
    apply IH. apply add_members_inhabited. exact Hm. }
  apply H. intros uid' s'. rewrite lookup_empty. discriminate.
Qed.

Lemma user_clusters_members (islands : list IslandRow) (uid cid : string) :
  cid ∈ default ∅ (user_clusters_of islands !! uid)
  <-> exists island, In island islands /\ cluster_name island = cid
                     /\ In uid (fi_member_ids island).
Proof.
  unfold user_clusters_of. rewrite add_islands_lookup, lookup_empty.
  cbn [default from_option id]. split; [intros [H | H]; [set_solver | exact H] | auto].
Qed.

(** X27.  A refresh never fails and keeps the cluster lookup faithful.
    [refresh] returns for every store.  Afterwards a user is mapped to a
    cluster exactly when a cached island of that cluster lists the user, and
    no user is mapped to an empty set.  A detection query that fails is
    reported with count 0 while its rows of the last cycle stay cached: the
    users of a stale island keep their cluster, and the relay identifiers of
    the last cycle stay in force. *)
Theorem refresh_keeps_lookup_faithful (neo4j : DetectReads) (self : Detector) (w : World) :
  exists self' counts w',
    refresh neo4j self w = (Ok (self', counts), w')
    /\ (forall uid cid,
          cid ∈ default ∅ (_user_clusters self' !! uid)
          <-> exists island, In island (fraud_islands self')
                             /\ cluster_name island = cid
                             /\ In uid (fi_member_ids island))
    /\ (forall uid s, _user_clusters self' !! uid = Some s -> s <> ∅)
    /\ match DETECT_FRAUD_ISLANDS neo4j 40 with
       | Ok rows => fraud_islands self' = rows
                    /\ counts !! "fraud_islands" = Some (count_of rows)
       | Raise _ => fraud_islands self' = fraud_islands self
                    /\ counts !! "fraud_islands" = Some 0%Z
       end
    /\ match DETECT_RELAY_MULE neo4j 0.75 with
       | Ok rows => relay_mules self' = rows
                    /\ _relay_mule_ids self' = relay_ids_of rows
                    /\ counts !! "relay_mules" = Some (count_of rows)
       | Raise _ => relay_mules self' = relay_mules self
                    /\ _relay_mule_ids self' = _relay_mule_ids self
                    /\ counts !! "relay_mules" = Some 0%Z
       end
    /\ neo_commits w' = neo_commits w.
Proof.
  unfold refresh, guarded. cbv zeta.
  destruct (DETECT_FRAUD_ISLANDS neo4j 40) as [islands | e1];
    destruct (DETECT_MONEY_ROUTERS neo4j 0.01) as [routers | e2];
    destruct (DETECT_CIRCULAR_FLOWS neo4j) as [rings | e3];
    destruct (DETECT_RAPID_CHAINS neo4j) as [chains | e4];
    destruct (DETECT_STAR_HUBS neo4j 5 5) as [hubs | e5];
    destruct (DETECT_RELAY_MULE neo4j 0.75) as [relays | e6].
  all: unfold bind, ret, log_record; cbn [fst snd].
  all: eexists; eexists; eexists; (split; [reflexivity |]).
  all: cbn [_user_clusters fraud_islands relay_mules _relay_mule_ids neo_commits
            with_logged].
  all: split; [intros uid cid; apply user_clusters_members |].
  all: split; [intros uid s; apply user_clusters_inhabited |].
  all: repeat split; reflexivity.
Qed.

(** ** The per-transaction lookups *)

Lemma append_inj_r (p a b : string) : p +:+ a = p +:+ b -> a = b.
Proof.
  induction p as [| c p IH]; [exact (fun H => H) |].
  rewrite !DeviceRiskSpec.append_cons. intros [= H]. exact (IH H).
Qed.

Section Lookups.
Variable set_order : gset string -> list string.
Hypothesis set_order_lists : forall s x, In x (set_order s) <-> x ∈ s.

Lemma cluster_flag_lookup (d : Detector) (uid cid : string) :
  In ("Part of Fraud Cluster " +:+ cid) (get_user_flags set_order d uid)
  <-> cid ∈ default ∅ (_user_clusters d !! uid).
Proof using set_order_lists.
  unfold get_user_flags. cbv zeta.
  transitivity (In cid (set_order (default ∅ (_user_clusters d !! uid))));
    [| apply set_order_lists].
  set (cl := set_order (default ∅ (_user_clusters d !! uid))).
  assert (Hmap : In ("Part of Fraud Cluster " +:+ cid)
                    (map (fun c => "Part of Fraud Cluster " +:+ c) cl) <-> In cid cl).
  { rewrite in_map_iff. split.
    - intros (c & Hc & Hin). apply append_inj_r in Hc. subst c. exact Hin.
    - intros Hin. exists cid. auto. }
  assert (Hother : forall (l : list string) (x : string),
            (forall c, x <> "Part of Fraud Cluster " +:+ c) ->
            In ("Part of Fraud Cluster " +:+ cid) (l ++ [x])
            <-> In ("Part of Fraud Cluster " +:+ cid) l).
  { intros l x Hx. rewrite in_app_iff. cbn [In]. split; [| auto].
    intros [H | [H | []]]; [exact H | exfalso; exact (Hx cid H)]. }
  repeat match goal with
         | |- context [if ?c then _ else _] => destruct c
         | |- context [match find ?p ?l with _ => _ end] => destruct (find p l)
         end;
    repeat (rewrite Hother;
            [| intros c; rewrite !DeviceRiskSpec.append_cons; discriminate]);
    exact Hmap.
Qed.

Lemma relay_flag_lookup (d : Detector) (uid : string) :
  In "HIGH_VELOCITY_RELAY: rapid fund relay pattern"%string (get_user_flags set_order d uid)
  <-> uid ∈ _relay_mule_ids d.
Proof using Type.
  unfold get_user_flags. cbv zeta.
  assert (Hmap : forall cl : list string,
            ~ In "HIGH_VELOCITY_RELAY: rapid fund relay pattern"%string
                 (map (fun c => "Part of Fraud Cluster " +:+ c) cl)).
  { intros cl. rewrite in_map_iff. intros (c & Hc & _).
    rewrite !DeviceRiskSpec.append_cons in Hc. discriminate Hc. }
  specialize (Hmap (set_order (default ∅ (_user_clusters d !! uid)))).
  destruct (bool_decide (uid ∈ _relay_mule_ids d)) eqn:Hrelay.
  - apply bool_decide_eq_true in Hrelay. split; [auto |]. intros _.
    rewrite in_app_iff. right. left. reflexivity.
  - apply bool_decide_eq_false in Hrelay. split; [| intros H; contradiction].
    intros Hin. exfalso.
    repeat match type of Hin with
           | context [if ?c then _ else _] => destruct c
           | context [match find ?p ?l with _ => _ end] => destruct (find p l)
           end;
      repeat (rewrite in_app_iff in Hin; cbn [In] in Hin);
      repeat match type of Hin with
             | _ \/ _ => destruct Hin as [Hin | Hin]
             end;
      first [ contradiction
            | discriminate Hin
            | rewrite !DeviceRiskSpec.append_cons in Hin; discriminate Hin ].
Qed.

Lemma cluster_id_lookup (d : Detector) (uid : string) :
  (forall u s, _user_clusters d !! u = Some s -> s <> ∅) ->
  (forall cid, get_user_cluster_id set_order d uid = Some cid ->
               cid ∈ default ∅ (_user_clusters d !! uid))
  /\ (get_user_cluster_id set_order d uid = None
      <-> default ∅ (_user_clusters d !! uid) = ∅).
Proof using set_order_lists.
  intros Hne. unfold get_user_cluster_id.
  destruct (_user_clusters d !! uid) as [s |] eqn:Hs; cbn [default from_option id].
  - specialize (Hne uid s Hs).
    destruct (set_order s) as [| c l] eqn:Hl; cbn [head].
    + exfalso. apply Hne. apply set_eq. intros x. rewrite <- set_order_lists, Hl.
      cbn [In]. split; [intros [] | intros H; exact (not_elem_of_empty x H)].
    + split.
      * intros cid [= <-]. apply set_order_lists. rewrite Hl. left. reflexivity.
      * split; [discriminate | intros H; contradiction].
  - split; [discriminate | split; reflexivity].
Qed.

End Lookups.

Lemma refresh_result (neo4j : DetectReads) (self : Detector) (w : World) :
  exists self' counts w',
    refresh neo4j self w = (Ok (self', counts), w')
    /\ fraud_islands self'
       = match DETECT_FRAUD_ISLANDS neo4j 40 with
         | Ok rows => rows
         | Raise _ => fraud_islands self
         end
    /\ _user_clusters self' = user_clusters_of (fraud_islands self')
    /\ _relay_mule_ids self'
       = match DETECT_RELAY_MULE neo4j 0.75 with
         | Ok rows => relay_ids_of rows
         | Raise _ => _relay_mule_ids self
         end.
Proof.
  unfold refresh, guarded. cbv zeta.
  destruct (DETECT_FRAUD_ISLANDS neo4j 40) as [islands | e1];
    destruct (DETECT_MONEY_ROUTERS neo4j 0.01) as [routers | e2];
    destruct (DETECT_CIRCULAR_FLOWS neo4j) as [rings | e3];
    destruct (DETECT_RAPID_CHAINS neo4j) as [chains | e4];
    destruct (DETECT_STAR_HUBS neo4j 5 5) as [hubs | e5];
    destruct (DETECT_RELAY_MULE neo4j 0.75) as [relays | e6].
  all: unfold bind, ret, log_record; cbn [fst snd].
  all: eexists; eexists; eexists; (split; [reflexivity |]).
  all: cbn [_user_clusters fraud_islands _relay_mule_ids].
  all: repeat split; reflexivity.
Qed.

(** X28.  The flags of a user follow the islands of the last refresh.
    Python iterates over a set in an order of its own, which lists the
    members of the set.  After a refresh, with the islands that the query
    returned, or those of the last cycle when it failed, [get_user_flags]
    gives a user the flag of a cluster exactly when an island of that
    cluster lists the user; [get_user_cluster_id] answers with one of those
    clusters, and with nothing exactly when no island lists the user; and
    the relay flag is given exactly to the users of the relay lookup. *)
Theorem cluster_flags_follow_islands (set_order : gset string -> list string)
    (neo4j : DetectReads) (self : Detector) (w : World) (uid : string) :
  (forall s x, In x (set_order s) <-> x ∈ s) ->
  exists self' counts w',
    refresh neo4j self w = (Ok (self', counts), w')
    /\ fraud_islands self'
       = match DETECT_FRAUD_ISLANDS neo4j 40 with
         | Ok rows => rows
         | Raise _ => fraud_islands self
         end
    /\ (forall cid,
          In ("Part of Fraud Cluster " +:+ cid) (get_user_flags set_order self' uid)
          <-> exists island, In island (fraud_islands self')
                             /\ cluster_name island = cid
                             /\ In uid (fi_member_ids island))
    /\ (forall cid,
          get_user_cluster_id set_order self' uid = Some cid ->
          exists island, In island (fraud_islands self')
                         /\ cluster_name island = cid
                         /\ In uid (fi_member_ids island))
    /\ (get_user_cluster_id set_order self' uid = None
        <-> forall island, In island (fraud_islands self') ->
                           ~ In uid (fi_member_ids island))
    /\ (In "HIGH_VELOCITY_RELAY: rapid fund relay pattern"%string
           (get_user_flags set_order self' uid)
        <-> uid ∈ _relay_mule_ids self').
Proof.
  intros Hso.
  destruct (refresh_result neo4j self w) as (self' & counts & w' & Hrun & Hisl & Hcl & _).
  exists self', counts, w'. split; [exact Hrun |]. split; [exact Hisl |].
  assert (Hne : forall u s, _user_clusters self' !! u = Some s -> s <> ∅)
    by (rewrite Hcl; intros u s; apply user_clusters_inhabited).
  destruct (cluster_id_lookup set_order Hso self' uid Hne) as [Hsome Hnone].
  split; [| split; [| split]].
  - intros cid. rewrite (cluster_flag_lookup set_order Hso), Hcl.
    apply user_clusters_members.
  - intros cid Hc. apply Hsome in Hc. rewrite Hcl in Hc.
    apply user_clusters_members, Hc.
  - rewrite Hnone, Hcl. split.
    + intros Hempty island Hin Hu.
      assert (Hc : cluster_name island
                   ∈ default ∅ (user_clusters_of (fraud_islands self') !! uid))
        by (apply user_clusters_members; exists island; auto).
      rewrite Hempty in Hc. set_solver.
    + intros Hnoone. apply set_eq. intros c. split; [| set_solver].
      intros Hc. apply user_clusters_members in Hc as (island & Hin & _ & Hu).
      exfalso. exact (Hnoone island Hin Hu).
  - apply relay_flag_lookup.
Qed.

(** The first member of the island of cluster 7. *)
Lemma cluster_flags_follow_islands_witness :
  exists self' counts w',
    refresh FeatureFixtures.island_store init Fixtures.quiet_world
    = (Ok (self', counts), w')
    /\ In "Part of Fraud Cluster 7"%string (get_user_flags elements self' "U0001")
    /\ ~ In "HIGH_VELOCITY_RELAY: rapid fund relay pattern"%string
            (get_user_flags elements self' "U0001").
Proof.
  assert (Hso : forall (s : gset string) (x : string), In x (elements s) <-> x ∈ s).
  { intros s x. rewrite <- list_elem_of_In. apply elem_of_elements. }
  destruct (cluster_flags_follow_islands elements FeatureFixtures.island_store init
              Fixtures.quiet_world "U0001" Hso)
    as (self' & counts & w' & Hrun & Hisl & Hflag & _ & _ & Hrelay).
  exists self', counts, w'. split; [exact Hrun |]. split.
  - apply (Hflag "7"%string). rewrite Hisl. eexists. split; [left; reflexivity |].
    split; [reflexivity | left; reflexivity].
  - rewrite Hrelay.
    destruct (refresh_result FeatureFixtures.island_store init Fixtures.quiet_world)
      as (s2 & c2 & w2 & Hrun2 & _ & _ & Hids).
    rewrite Hrun in Hrun2. injection Hrun2 as <- _ _.
    rewrite Hids. cbn. set_solver.
Defined.

End CollusiveSpec.

Module EngineTotalSpec.

Import Runtime RiskEngine MuleDetection FeatureStore RuntimeFacts FeatureViews MuleSpec.

Lemma bind_ok_run {A B} (m : M A) (k : A -> M B) (w w' : World) (a : A) :
  m w = (Ok a, w') -> bind m k w = k a w'.
Proof. intros H. unfold bind. rewrite H. reflexivity. Qed.

Lemma bind_lift_run {A B} (r : result A) (k : A -> M B) (w : World) :
  bind (lift r) k w = match r with Ok a => k a w | Raise e => (Raise e, w) end.
Proof. unfold bind, lift. destruct r; reflexivity. Qed.

Lemma persist_runs (m1 m2 : Cypher * Dict) (what : string) (w : World) :
  exists w',
    try_except
      (let! _ := write_async (fst m1) (snd m1) in write_async (fst m2) (snd m2))
      (fun exc => log_record WARNING (what +:+ exc)) w
    = (Ok tt, w').
Proof.
  unfold try_except, bind, write_async, log_record.
  destruct (next_fault (neo_faults w)) as [[e1 |] f1]; cbn.
  - eexists. reflexivity.
  - destruct (next_fault f1) as [[e2 |] f2]; cbn; eexists; reflexivity.
Qed.

(** ** The outputs of the five extractors are typed *)

Lemma typed_behavioral (settings : Settings) (lib : MathLib) (adb : AsnDatabase)
    (neo4j : Neo4jReads) (sender_id : string) (amount : Q) (timestamp : Datetime)
    (lat lon : option Q) (ip receiver : option string) (new : bool) (d : Dict) :
  Behavioral.compute settings lib adb neo4j sender_id amount timestamp lat lon ip receiver new
  = Ok d ->
  typed d = true.
Proof.
  unfold Behavioral.compute.
  destruct (QUERY_USER_TX_HISTORY _ _ _) as [history | e]; [| discriminate].
  destruct (QUERY_USER_PROFILE _ _) as [profile_rows | e]; [| discriminate].
  cbn [rbind].
  destruct (Behavioral.signals _ _ _ _ _ _ _ _ _ _ _ _ _ _) as [s | e]; [| discriminate].
  cbn [rbind]. intros [= <-]. reflexivity.
Qed.

Lemma typed_velocity (settings : Settings) (store : FeatureReads) (user_id : string)
    (amount : Q) (d : Dict) :
  Velocity.compute settings store user_id amount = Ok d -> typed d = true.
Proof.
  unfold Velocity.compute.
  destruct (QUERY_VELOCITY_FEATURES _ _ _) as [[| f rows] | e]; try discriminate;
    cbn [rbind]; intros [= <-]; [reflexivity |].
  unfold Velocity.features_of.
  destruct (vr_total_sent_window f) as [a |]; destruct (vr_total_received_window f) as [b |];
    destruct (vr_outflow_inflow_ratio f) as [c |]; cbn [round_or_0];
    repeat match goal with
           | |- context [Qeq_bool ?x 0] => destruct (Qeq_bool x 0)
           end;
    reflexivity.
Qed.

Lemma typed_graph (store : FeatureReads) (user_id : string) (d : Dict) :
  GraphIntelligence.compute store user_id = Ok d -> typed d = true.
Proof.
  unfold GraphIntelligence.compute.
  destruct (QUERY_USER_GRAPH_FEATURES _ _) as [[| f rows] | e]; try discriminate;
    cbn [rbind]; intros [= <-]; [reflexivity |].
  unfold GraphIntelligence.features_of.
  destruct (GraphIntelligence.cluster_id_str _); reflexivity.
Qed.

Lemma typed_dead (settings : Settings) (store : FeatureReads) (utcnow : Datetime)
    (user_id : string) (amount : Q) (d : Dict) :
  DeadAccount.compute settings store utcnow user_id amount = Ok d -> typed d = true.
Proof.
  unfold DeadAccount.compute.
  destruct (QUERY_DORMANT_WAKEUP _ _ _) as [[| w rows] | e]; try discriminate;
    cbn [rbind].
  - unfold DeadAccount._score_legacy.
    destruct (QUERY_DORMANT_STATUS _ _) as [[| profile rows] | e]; try discriminate;
      cbn [rbind]; [intros [= <-]; reflexivity |].
    destruct (DeadAccount.legacy_scores _ _ _ _ _ _) as [s | e]; [| discriminate].
    cbn [rbind]. intros [= <-]. reflexivity.
  - unfold DeadAccount._score_from_wakeup.
    destruct (DeadAccount.wakeup_scores _ _ _) as [s | e]; [| discriminate].
    cbn [rbind]. intros [= <-]. reflexivity.
Qed.

Lemma typed_device (settings : Settings) (store : FeatureReads)
    (device_id sender_id : string) (amount : Q)
    (app_version capability_mask device_os credential_type credential_sub_type : option string)
    (d : Dict) :
  DeviceRisk.compute settings store device_id sender_id amount app_version capability_mask
    device_os credential_type credential_sub_type = Ok d ->
  typed d = true.
Proof.
  unfold DeviceRisk.compute.
  destruct (QUERY_DEVICE_INFO _ _) as [[| info rows] | e]; try discriminate; cbn [rbind].
  - intros [= <-]. unfold DeviceRisk._score_new_device.
    destruct (DeviceRisk.new_device_risk _ _ _) as [[risk compound] flags].
    destruct device_os, app_version, capability_mask; reflexivity.
  - destruct (QUERY_USER_DEVICE_HISTORY _ _) as [history_rows | e]; [| discriminate].
    cbn [rbind].
    destruct (QUERY_DEVICE_RISK_PROPAGATION _ _) as [prop_rows | e]; [| discriminate].
    cbn [rbind].
    destruct (QUERY_DEVICE_USERS_24H _ _) as [multi | e]; [| discriminate].
    cbn [rbind].
    destruct (DeviceRisk.scores _ _ _ _ _ _ _ _ _ _) as [s | e]; [| discriminate].
    cbn [rbind]. intros [= <-].
    unfold DeviceRisk.features_of.
    destruct app_version, capability_mask;
      destruct (column (head prop_rows) pr_avg_user_risk) as [a |];
      destruct (column (head prop_rows) pr_max_user_risk) as [b |];
      cbn [round_or_0 str_or_None];
      repeat match goal with
             | |- context [Qeq_bool ?x 0] => destruct (Qeq_bool x 0)
             end;
      reflexivity.
Qed.

(** ** Reads of typed outputs return *)

Section Total.

Variable settings : Settings.
Variables behavioral dead_account device graph velocity : Dict.
Hypothesis behavioral_typed : typed behavioral = true.
Hypothesis dead_typed : typed dead_account = true.
Hypothesis device_typed : typed device = true.
Hypothesis graph_typed : typed graph = true.
Hypothesis velocity_typed : typed velocity = true.
Hypothesis threshold_nonneg : (0 <= PASS_THROUGH_RATIO_THRESHOLD settings)%Q.

Ltac key := apply typed_at; [assumption | simpl; tauto].

Ltac reads :=
  repeat first
    [ reflexivity
    | apply MuleSpec.is_ok_fmt_int, num_py_or_at; key
    | apply MuleSpec.is_ok_fmt_f, num_get_or_at; key
    | apply MuleSpec.is_ok_exists, num_get_or_at; key
    | apply MuleSpec.is_ok_exists, get_gt_at; key
    | apply MuleSpec.is_ok_exists, get_ge_at; key
    | apply MuleSpec.is_ok_fmt_f; assumption
    | apply MuleSpec.is_ok_exists; assumption
    | match goal with
      | |- is_ok (if ?c then _ else _) = true => destruct c
      | |- is_ok (let x := ?e in @?k x) = true =>
          change (is_ok (k e) = true); cbv beta
      | |- is_ok (rbind _ _) = true =>
          apply MuleSpec.is_ok_bind; [| intros ? ?; cbv beta]
      end ].

Ltac next_read :=
  lazymatch goal with
  | |- is_ok (let x := ?e in @?k x) = true =>
      let y := fresh x in
      set (y := e); change (is_ok (k y) = true); clearbody y; cbv beta
  | |- is_ok (rbind _ _) = true =>
      apply MuleSpec.is_ok_bind; [solve [reads] | intros ? _; cbv beta]
  end.

Ltac next_guard b Hb :=
  apply MuleSpec.is_ok_bind; [solve [reads] | intros b Hb; cbv beta].

(** A subscript behind a comparison that succeeded finds a number. *)
Ltac guarded_item d Hd Hguard :=
  let v := fresh "v" in
  let Hv := fresh "Hv" in
  let Hn := fresh "Hn" in
  first [ apply MuleSpec.get_gt_found in Hguard as [v Hv];
          [| first [exact threshold_nonneg | unfold Qle; simpl; lia]]
        | apply MuleSpec.get_ge_found in Hguard as [v Hv]; [| reflexivity] ];
  match type of Hv with
  | _ !! ?k = Some _ =>
      assert (Hn : exists q, num v = Ok q)
        by (apply (numeric_found d k v); [key | exact Hv])
  end;
  rewrite (MuleSpec.item_found _ _ _ Hv); cbn [rbind];
  reads.

(** One statement of [_build_reason]: a read is kept, a list of parts is
    forgotten, a comparison is remembered for the subscript it guards. *)
Ltac step :=
  lazymatch goal with
  | |- is_ok (let x := get_or ?d ?k ?v in @?K x) = true =>
      change (is_ok (K (get_or d k v)) = true); cbv beta
  | |- is_ok (let x := ?e in @?K x) = true =>
      let y := fresh x in
      set (y := e); change (is_ok (K y) = true); clearbody y; cbv beta
  | |- is_ok (rbind (get_gt ?d _ _) _) = true =>
      let g := fresh "g" in
      let Hg := fresh "Hg" in
      apply MuleSpec.is_ok_bind; [solve [reads] | intros g Hg; cbv beta];
      lazymatch goal with
      | |- is_ok (rbind (if g then _ else _) _) = true =>
          apply MuleSpec.is_ok_bind;
          [ destruct g; [guarded_item d I Hg | reflexivity] | intros ? _; cbv beta ]
      | |- _ => idtac
      end
  | |- is_ok (rbind _ _) = true =>
      apply MuleSpec.is_ok_bind; [solve [reads] | intros ? _; cbv beta]
  end.

Lemma reason_parts_returns_typed :
  is_ok (reason_parts settings behavioral dead_account device graph velocity) = true.
Proof using behavioral_typed dead_typed device_typed graph_typed velocity_typed
  threshold_nonneg.
  cbv beta delta [reason_parts].
  repeat step.
  reflexivity.
Qed.

Lemma sub_scores_returns_typed :
  is_ok (sub_scores behavioral dead_account device graph velocity) = true.
Proof using behavioral_typed dead_typed device_typed graph_typed velocity_typed.
  unfold sub_scores. repeat step. reflexivity.
Qed.

Lemma flags_returns_typed (d : Dict) :
  typed d = true -> is_ok (as_list (get_or d "flags" (PyList []))) = true.
Proof.
  unfold typed, get_or. intros H.
  apply andb_prop in H as [H _]. apply andb_prop in H as [_ H].
  destruct (d !! "flags") as [v |]; [exact H | reflexivity].
Qed.

Lemma collect_flags_returns_typed (self : Engine) (tx : TransactionInput) (fused : Q) :
  is_ok (collect_flags self tx behavioral dead_account device graph velocity fused) = true.
Proof using behavioral_typed dead_typed device_typed graph_typed velocity_typed.
  unfold collect_flags.
  do 5 (apply MuleSpec.is_ok_bind;
        [apply flags_returns_typed; assumption | intros ? _; cbv beta]).
  cbv zeta.
  apply MuleSpec.is_ok_bind; [| intros ? _; reflexivity].
  unfold evaluate. apply MuleSpec.is_ok_bind; [| intros ? _; reflexivity].
  apply MuleSpec.accumulate_returns_typed; assumption.
Qed.

Lemma cluster_id_typed :
  get graph "community_id" = PyNone \/ exists s, get graph "community_id" = PyStr s.
Proof using graph_typed.
  unfold typed in graph_typed. apply andb_prop in graph_typed as [_ H].
  unfold get. destruct (graph !! "community_id") as [[| b | z | q | s | l] |];
    try discriminate; cbn [default from_option id]; eauto.
Qed.

End Total.

Lemma make_RiskResponse_raise (tx_id : string) (score : Q) (level : RiskLevel)
    (bd : RiskBreakdown) (cid : PyVal) (flags : list string) (rsn : string) (ms : Q)
    (ts : Datetime) (e : Exn) :
  make_RiskResponse tx_id score level bd cid flags rsn ms ts = Raise e ->
  cid = PyNone \/ (exists s, cid = PyStr s) ->
  e = "ValidationError: RiskResponse.risk_score"%string.
Proof.
  unfold make_RiskResponse.
  intros H [-> | [s ->]]; cbn [rbind] in H;
    destruct (in_0_100 score); try discriminate; injection H as <-; reflexivity.
Qed.

Section Real.
Variable settings : Settings.
Variable lib : MathLib.
Variable adb : AsnDatabase.
Variable neo4j : Neo4jReads.
Variable store : FeatureReads.
Variable utcnow : Datetime.
Variable tx : TransactionInput.

(** X29.  The engine understands its own extractors.  When the five real
    extractors return for a transaction, every later step of the engine is
    well typed on what they returned: the sub-scores, the flags with the
    mule verdict and the reason are all computed without a TypeError or a
    KeyError, for every store and library.  So [score_transaction] can then
    fail in one way only, the range check of the response model on a
    sub-score or on the fused risk.  The pass-through threshold must not be
    negative, or the reason would subscript an entry that the dead-account
    output of an unknown user does not have. *)
Theorem engine_returns_on_real_outputs (behav dead device graph vel : Dict) (w : World) :
  (0 <= PASS_THROUGH_RATIO_THRESHOLD settings)%Q ->
  let self := Routes.engine_over settings lib adb neo4j store utcnow in
  behavioral self (sender_id tx) (amount tx) (timestamp tx) (sender_lat tx)
    (sender_lon tx) (ip_address tx) (Some (receiver_id tx)) false = Ok behav ->
  dead_account self (sender_id tx) (amount tx) = Ok dead ->
  device_risk self (device_id tx) (sender_id tx) (amount tx) (app_version tx)
    (capability_mask tx) (device_os tx)
    (option_map CredentialType_value (credential_type tx))
    (option_map CredentialSubType_value (credential_sub_type tx)) = Ok device ->
  graph_intel self (sender_id tx) = Ok graph ->
  velocity self (sender_id tx) (amount tx) = Ok vel ->
  (exists scores, sub_scores behav dead device graph vel = Ok scores)
  /\ (forall fused,
        exists flags, collect_flags self tx behav dead device graph vel fused = Ok flags)
  /\ (forall fused flags,
        exists rsn, _build_reason settings behav dead device graph vel fused flags = Ok rsn)
  /\ (forall e w',
        score_transaction settings self tx w = (Raise e, w') ->
        e = "ValidationError: RiskBreakdown"%string
        \/ e = "ValidationError: RiskResponse.risk_score"%string).
Proof.
  intros Hthr self Hb Hd Hv Hg Hvel.
  pose proof (typed_behavioral _ _ _ _ _ _ _ _ _ _ _ _ _ Hb) as Tb.
  pose proof (typed_dead _ _ _ _ _ _ Hd) as Td.
  pose proof (typed_device _ _ _ _ _ _ _ _ _ _ _ Hv) as Tv.
  pose proof (typed_graph _ _ _ Hg) as Tg.
  pose proof (typed_velocity _ _ _ _ _ Hvel) as Tvel.
  assert (Hscores : exists scores, sub_scores behav dead device graph vel = Ok scores)
    by (apply is_ok_inv, sub_scores_returns_typed; assumption).
  assert (Hflags : forall fused,
            exists flags, collect_flags self tx behav dead device graph vel fused = Ok flags)
    by (intros fused; apply is_ok_inv, collect_flags_returns_typed; assumption).
  assert (Hreason : forall fused flags,
            exists rsn,
              _build_reason settings behav dead device graph vel fused flags = Ok rsn).
  { intros fused flags. unfold _build_reason.
    destruct (is_ok_inv _ (reason_parts_returns_typed settings behav dead device graph vel
                             Tb Td Tv Tg Tvel Hthr)) as [parts ->].
    cbn [rbind]. eauto. }
  split; [exact Hscores |]. split; [exact Hflags |]. split; [exact Hreason |].
  intros e w' H. unfold score_transaction in H.
  destruct (perf_counter w) as [[t0 | e0] w0] eqn:E0;
    [| exfalso; exact (never_raises_perf_counter _ _ _ E0)].
  rewrite (bind_ok_run _ _ _ _ _ E0) in H.
  rewrite bind_lift_run, Hb in H. rewrite bind_lift_run, Hd in H.
  rewrite bind_lift_run, Hv in H. rewrite bind_lift_run, Hg in H.
  rewrite bind_lift_run, Hvel in H.
  destruct Hscores as [[[[[s_graph s_behavioral] s_device] s_dead] s_velocity] Hs].
  rewrite bind_lift_run, Hs in H. cbv zeta in H.
  match type of H with
  | context [collect_flags ?a ?b ?c ?d ?f ?g ?h ?fused] =>
      destruct (Hflags fused) as [flags Hf]
  end.
  rewrite bind_lift_run, Hf in H.
  match type of H with
  | context [_build_reason ?a ?b ?c ?d ?f ?g ?fused ?fl] =>
      destruct (Hreason fused fl) as [rsn Hr]
  end.
  rewrite bind_lift_run, Hr in H.
  rewrite bind_lift_run in H.
  destruct (make_RiskBreakdown _ _ _ _ _) as [bd | ebd] eqn:Hbd.
  2: { unfold make_RiskBreakdown in Hbd.
       destruct (_ && _) in Hbd; [discriminate |].
       injection Hbd as <-. injection H as <- _. left. reflexivity. }
  destruct (perf_counter w0) as [[t1 | e1] w1] eqn:E1;
    [| exfalso; exact (never_raises_perf_counter _ _ _ E1)].
  rewrite (bind_ok_run _ _ _ _ _ E1) in H.
  match type of H with
  | bind (try_except (bind (write_async ?q1 ?p1) (fun _ => write_async ?q2 ?p2))
            (fun exc => log_record WARNING (?what +:+ exc))) _ _ = _ =>
      destruct (persist_runs (q1, p1) (q2, p2) what w1) as (w2 & G)
  end.
  cbn [fst snd] in G. rewrite (bind_ok_run _ _ _ _ _ G) in H.
  unfold lift in H.
  match type of H with
  | (?r, _) = _ => destruct r as [resp | e'] eqn:Hresp; [discriminate |]
  end.
  injection H as <- _. right.
  apply (make_RiskResponse_raise _ _ _ _ _ _ _ _ _ _ Hresp).
  unfold cluster_of.
  change (collusive_detector self) with (@None CollusiveFraudDetector).
  exact (cluster_id_typed graph Tg).
Qed.

End Real.

(** The transfer of the examples by a sender whom no store knows. *)
Lemma engine_returns_on_real_outputs_witness :
  let self :=
    Routes.engine_over Config.defaults Fixtures.flat_lib Fixtures.no_asn_database
      Fixtures.empty_store FeatureFixtures.silent_store Fixtures.afternoon in
  let tx := Fixtures.transfer in
  exists behav dead device graph vel scores,
    behavioral self (sender_id tx) (amount tx) (timestamp tx) (sender_lat tx)
      (sender_lon tx) (ip_address tx) (Some (receiver_id tx)) false = Ok behav
    /\ dead_account self (sender_id tx) (amount tx) = Ok dead
    /\ device_risk self (device_id tx) (sender_id tx) (amount tx) (app_version tx)
         (capability_mask tx) (device_os tx)
         (option_map CredentialType_value (credential_type tx))
         (option_map CredentialSubType_value (credential_sub_type tx)) = Ok device
    /\ graph_intel self (sender_id tx) = Ok graph
    /\ velocity self (sender_id tx) (amount tx) = Ok vel
    /\ sub_scores behav dead device graph vel = Ok scores.
Proof.
  cbv zeta.
  assert (Hthr : (0 <= PASS_THROUGH_RATIO_THRESHOLD Config.defaults)%Q)
    by (vm_compute; discriminate).
  eexists. eexists. eexists. eexists. eexists.
  match goal with
  | |- exists scores, ?B = Ok ?b /\ ?D = Ok ?d /\ ?V = Ok ?v /\ ?G = Ok ?g /\ ?L = Ok ?l /\ _ =>
      assert (Hb : B = Ok b) by reflexivity;
      assert (Hd : D = Ok d) by reflexivity;
      assert (Hv : V = Ok v) by reflexivity;
      assert (Hg : G = Ok g) by reflexivity;
      assert (Hl : L = Ok l) by reflexivity
  end.
  destruct (engine_returns_on_real_outputs Config.defaults Fixtures.flat_lib
              Fixtures.no_asn_database Fixtures.empty_store FeatureFixtures.silent_store
              Fixtures.afternoon Fixtures.transfer _ _ _ _ _ Fixtures.quiet_world
              Hthr Hb Hd Hv Hg Hl) as [[scores Hs] _].
  exists scores. repeat split; assumption.
Defined.

Lemma make_RiskResponse_raises (tx_id : string) (score : Q) (level : RiskLevel)
    (bd : RiskBreakdown) (cid : PyVal) (flags : list string) (rsn : string) (ms : Q)
    (ts : Datetime) (e : Exn) :
  make_RiskResponse tx_id score level bd cid flags rsn ms ts = Raise e ->
  e = "ValidationError: RiskResponse.cluster_id"%string
  \/ e = "ValidationError: RiskResponse.risk_score"%string.
Proof.
  unfold make_RiskResponse.
  destruct cid; cbn [rbind]; intros H;
    try (injection H as <-; left; reflexivity);
    (destruct (in_0_100 score); [discriminate |]);
    injection H as <-; right; reflexivity.
Qed.

Section Failing.
Variable settings : Settings.
Variable self : Engine.
Variable tx : TransactionInput.

(** X30.  A scoring that fails has persisted nothing, with one exception.
    When [score_transaction] raises because an extractor, the sub-scores,
    the flags, the reason or the breakdown failed, no write has been
    attempted: the commits, the fault tape and the log are as before, and
    only the first clock reading is gone.  The exception is the final
    [RiskResponse]: it is built after the write-back, so when its own
    validation fails the risk has already been offered to the store. *)
Theorem failed_scoring_persists_nothing (w w' : World) (e : Exn) :
  score_transaction settings self tx w = (Raise e, w') ->
  (neo_commits w' = neo_commits w /\ neo_faults w' = neo_faults w
   /\ logged w' = logged w /\ clock w' = tl (clock w))
  \/ e = "ValidationError: RiskResponse.cluster_id"%string
  \/ e = "ValidationError: RiskResponse.risk_score"%string.
Proof.
  intros H. unfold score_transaction in H.
  destruct (perf_counter w) as [[t0 | e0] w0] eqn:E0;
    [| exfalso; exact (never_raises_perf_counter _ _ _ E0)].
  assert (Hw0 : neo_commits w0 = neo_commits w /\ neo_faults w0 = neo_faults w
                /\ logged w0 = logged w /\ clock w0 = tl (clock w)).
  { unfold perf_counter in E0. destruct (clock w) as [| t c] eqn:Hc.
    - injection E0 as _ <-. rewrite Hc. repeat split.
    - injection E0 as _ <-. cbn. repeat split. }
  rewrite (bind_ok_run _ _ _ _ _ E0) in H.
  rewrite bind_lift_run in H.
  destruct (behavioral self _ _ _ _ _ _ _ _) as [behav | e1];
    [| injection H as _ <-; left; exact Hw0].
  rewrite bind_lift_run in H.
  destruct (dead_account self _ _) as [dead | e1];
    [| injection H as _ <-; left; exact Hw0].
  rewrite bind_lift_run in H.
  destruct (device_risk self _ _ _ _ _ _ _ _) as [device | e1];
    [| injection H as _ <-; left; exact Hw0].
  rewrite bind_lift_run in H.
  destruct (graph_intel self _) as [graph | e1];
    [| injection H as _ <-; left; exact Hw0].
  rewrite bind_lift_run in H.
  destruct (velocity self _ _) as [vel | e1];
    [| injection H as _ <-; left; exact Hw0].
  rewrite bind_lift_run in H.
  destruct (sub_scores behav dead device graph vel)
    as [[[[[s_graph s_behavioral] s_device] s_dead] s_velocity] | e1];
    [| injection H as _ <-; left; exact Hw0].
  cbv zeta in H. rewrite bind_lift_run in H.
  destruct (collect_flags self tx behav dead device graph vel _) as [flags | e1];
    [| injection H as _ <-; left; exact Hw0].
  rewrite bind_lift_run in H.
  destruct (_build_reason settings behav dead device graph vel _ flags) as [rsn | e1];
    [| injection H as _ <-; left; exact Hw0].
  rewrite bind_lift_run in H.
  destruct (make_RiskBreakdown _ _ _ _ _) as [bd | e1];
    [| injection H as _ <-; left; exact Hw0].
  destruct (perf_counter w0) as [[t1 | e1] w1] eqn:E1;
    [| exfalso; exact (never_raises_perf_counter _ _ _ E1)].
  rewrite (bind_ok_run _ _ _ _ _ E1) in H.
  match type of H with
  | bind (try_except (bind (write_async ?q1 ?p1) (fun _ => write_async ?q2 ?p2))
            (fun exc => log_record WARNING (?what +:+ exc))) _ _ = _ =>
      destruct (persist_runs (q1, p1) (q2, p2) what w1) as (w2 & G)
  end.
  cbn [fst snd] in G. rewrite (bind_ok_run _ _ _ _ _ G) in H.
  unfold lift in H.
  match type of H with
  | (?r, _) = _ => destruct r as [resp | e'] eqn:Hresp; [discriminate |]
  end.
  injection H as <- _. right.
  exact (make_RiskResponse_raises _ _ _ _ _ _ _ _ _ _ Hresp).
Qed.

End Failing.

(** The history of the sender cannot be read. *)
Lemma failed_scoring_persists_nothing_witness :
  exists e w',
    score_transaction Config.defaults
      (Routes.engine_over Config.defaults Fixtures.flat_lib Fixtures.no_asn_database
         Fixtures.history_down FeatureFixtures.silent_store Fixtures.afternoon)
      Fixtures.transfer (failing_writes [None; None])
    = (Raise e, w')
    /\ neo_commits w' = [] /\ neo_faults w' = [None; None].
Proof.
  eexists. eexists. split; [reflexivity |].
  match goal with
  | |- neo_commits ?w' = _ /\ _ =>
      assert (Hrun : score_transaction Config.defaults
                       (Routes.engine_over Config.defaults Fixtures.flat_lib
                          Fixtures.no_asn_database Fixtures.history_down
                          FeatureFixtures.silent_store Fixtures.afternoon)
                       Fixtures.transfer (failing_writes [None; None])
                     = (Raise "ServiceUnavailable"%string, w')) by reflexivity
  end.
  destruct (failed_scoring_persists_nothing _ _ _ _ _ _ Hrun)
    as [(Hc & Hf & _) | [He | He]]; [| discriminate He | discriminate He].
  split; [exact Hc | exact Hf].
Defined.

End EngineTotalSpec.
